(** * simplendef: a shallow embedding of the NDEF codec and its record store

    The development follows the C sources:
    - [ndef.c]: output stream, single-record codec, message codec and the
      record store ([insert_n], [ndef_splice_n], ...);
    - [ndef_uri.c], [ndef_text.c], [ndef_smartposter.c]: the well-known
      record types built on top of it.

    Conventions of the embedding.
    - Data model LP64: [int] is 32 bits, [size_t] is 64 bits, both written
      as [Z] with the wrap-around spelled out.  A left shift of a promoted
      byte into the sign bit wraps (the behaviour of gcc and clang).
    - A pointer to a byte block is an [option block]: [None] is [NULL], and a
      [block] carries its identity together with its bytes.
      Blocks are written once, when they are created, so the bytes never
      change afterwards.
    - [malloc], [realloc] and [free] act on a [heap]: the blocks currently
      allocated and an [oracle] saying which of the coming allocations fail.
    - Code with no defined result (an access outside a buffer, an invalid
      [free], [abort()]) is a [Crash]; a loop that never ends is a [Spin]. *)

From Stdlib Require Import Strings.String Strings.Byte.
From Stdlib Require Import ZArith List Lia Bool.
Import ListNotations.
Open Scope Z_scope.

(** ** Machine integers *)

Definition size_t (z : Z) : Z := z mod 2 ^ 64.
Definition uint8_t (z : Z) : Z := z mod 256.
Definition uint32_t (z : Z) : Z := z mod 2 ^ 32.

(** Conversion to a signed type of [w] bits (two's complement). *)
Definition signed (w z : Z) : Z :=
  let u := z mod 2 ^ w in
  if u <? 2 ^ (w - 1) then u else u - 2 ^ w.

Definition int (z : Z) : Z := signed 32 z.
Definition ssize_t (z : Z) : Z := signed 64 z.

Definition SIZE_MAX : Z := 2 ^ 64 - 1.

(** Truth value of a C scalar. *)
Definition truthy (z : Z) : bool := negb (z =? 0).

(** ** Bytes *)

Definition Z_of_byte (b : byte) : Z := Z.of_N (Byte.to_N b).

Definition byte_of_Z (z : Z) : byte :=
  match Byte.of_N (Z.to_N (uint8_t z)) with
  | Some b => b
  | None => x00
  end.

Definition zlen {A : Type} (l : list A) : Z := Z.of_nat (length l).

Definition bytes_of (s : String.string) : list byte :=
  String.list_byte_of_string s.
Arguments bytes_of s%_string.

(** ** Outcomes and the allocation monad *)

Inductive outcome (A : Type) : Type :=
| Done (a : A)
| Crash
| Spin.
Arguments Done {A} a.
Arguments Crash {A}.
Arguments Spin {A}.

Record heap : Type := mkHeap {
  next_block : Z;        (* identity given to the next new block *)
  live : list Z;         (* blocks allocated and not yet freed *)
  oracle : list bool     (* outcome of the coming allocations; none left: success *)
}.

Definition M (A : Type) : Type := heap -> outcome (A * heap).

Definition ret {A : Type} (a : A) : M A := fun h => Done (a, h).

Definition bind {A B : Type} (c : M A) (k : A -> M B) : M B :=
  fun h =>
    match c h with
    | Done (a, h') => k a h'
    | Crash => Crash
    | Spin => Spin
    end.

Definition crash {A : Type} : M A := fun _ => Crash.
Definition spin {A : Type} : M A := fun _ => Spin.

Definition lift {A : Type} (o : outcome A) : M A :=
  fun h =>
    match o with
    | Done a => Done (a, h)
    | Crash => Crash
    | Spin => Spin
    end.

Notation "x <- c ;; k" := (bind c (fun x => k))
  (at level 61, c at next level, right associativity).
Notation "' pat <- c ;; k" := (bind c (fun x => match x with pat => k end))
  (at level 61, pat pattern, c at next level, right associativity).
Notation "c ;;; k" := (bind c (fun _ => k))
  (at level 61, right associativity).

(** A heap with nothing allocated, on which every allocation succeeds. *)
Definition heap0 : heap := mkHeap 1 [] [].

(** Decide whether the coming allocation succeeds. *)
Definition alloc_ok : M bool :=
  fun h =>
    match oracle h with
    | [] => Done (true, h)
    | b :: o => Done (b, mkHeap (next_block h) (live h) o)
    end.

(** [malloc]: the identity of a new block, or [None] for [NULL]. *)
Definition malloc (n : Z) : M (option Z) :=
  ok <- alloc_ok ;;
  if ok
  then fun h => Done (Some (next_block h),
                      mkHeap (next_block h + 1) (next_block h :: live h) (oracle h))
  else ret None.

(** [realloc]: grows a block in place (block identity stands for the
    block, not for its address); [realloc(NULL, n)] is [malloc(n)]. *)
Definition realloc (p : option Z) (n : Z) : M (option Z) :=
  match p with
  | None => malloc n
  | Some a =>
      ok <- alloc_ok ;;
      if ok
      then fun h => if existsb (Z.eqb a) (live h) then Done (Some a, h) else Crash
      else ret None
  end.

Definition remove_block (a : Z) (l : list Z) : list Z :=
  filter (fun b => negb (b =? a)) l.

(** [free]: the block must be allocated. *)
Definition free (a : Z) : M unit :=
  fun h =>
    if existsb (Z.eqb a) (live h)
    then Done (tt, mkHeap (next_block h) (remove_block a (live h)) (oracle h))
    else Crash.

(** ** Byte blocks *)

Record block : Type := mkBlock {
  baddr : Z;            (* identity of the block *)
  bdata : list byte     (* its bytes *)
}.

Definition ptr : Type := option block.

(** [!p] *)
Definition is_null (p : ptr) : bool :=
  match p with
  | Some _ => false
  | None => true
  end.

(** [if (p) free(p);] *)
Definition free_if (p : ptr) : M unit :=
  match p with
  | Some b => free (baddr b)
  | None => ret tt
  end.

(** [data[pos]], where [data] stands for the bytes from the pointer to the
    end of the buffer it points into.  The read is defined when the
    buffer holds the byte; [len], the number of bytes the caller says it
    supplied, plays no part in it (the code tests [len] itself, where it
    does). *)
Definition rd (data : list byte) (len pos : Z) : outcome Z :=
  if (0 <=? pos) && (pos <? zlen data)
  then Done (Z_of_byte (nth (Z.to_nat pos) data x00))
  else Crash.

(** The [n] bytes that [memcpy(dst, data + pos, n)] reads: they have to
    lie in the buffer, and [len] plays no part here either. *)
Definition memcpy_src (data : list byte) (len pos n : Z) : outcome (list byte) :=
  if (0 <=? pos) && (0 <=? n) && (pos + n <=? zlen data)
  then Done (firstn (Z.to_nat n) (skipn (Z.to_nat pos) data))
  else Crash.

(** Reading through a pointer: the bytes from the pointer to the end of
    its block. *)
Definition deref (p : ptr) : outcome (list byte) :=
  match p with
  | Some b => Done (bdata b)
  | None => Crash
  end.

(** ** Records ([ndef.h]) *)

Definition NDEF_FLAG_MB : Z := 0x80.
Definition NDEF_FLAG_ME : Z := 0x40.
Definition NDEF_FLAG_CF : Z := 0x20.
Definition NDEF_FLAG_SR : Z := 0x10.
Definition NDEF_FLAG_IL : Z := 0x08.
Definition NDEF_FLAG_TNF : Z := 0x07.

(** [ndef_tnf] is a C enumeration, stored as an integer: the decoder
    stores whatever the three TNF bits hold, 7 included. *)
Definition ndef_tnf : Type := Z.
Definition NDEF_TNF_EMPTY : ndef_tnf := 0.
Definition NDEF_TNF_WELL_KNOWN : ndef_tnf := 1.
Definition NDEF_TNF_MIME : ndef_tnf := 2.
Definition NDEF_TNF_URI : ndef_tnf := 3.
Definition NDEF_TNF_EXTERNAL : ndef_tnf := 4.
Definition NDEF_TNF_UNKNOWN : ndef_tnf := 5.
Definition NDEF_TNF_UNCHANGED : ndef_tnf := 6.

Record ndef_record : Type := mk_record {
  raw_index : Z;
  raw_len : Z;
  tnf : ndef_tnf;
  type_len : Z;
  payload_len : Z;
  id_len : Z;
  type : ptr;
  payload : ptr;
  id : ptr
}.

(** [ndef_raw_record]: the abstract part and the encoding details (the two
    anonymous unions of the C structure). *)
Record ndef_raw_record : Type := mk_raw {
  abstract : ndef_record;
  abs_index : Z;
  flag_begin : bool;
  flag_end : bool;
  flag_chunked : bool;
  flag_short_record : bool;
  flag_include_id_len : bool
}.

Definition ndef_record_init : ndef_record :=
  mk_record 0 0 0 0 0 0 None None None.

Definition set_type (p : ptr) (r : ndef_record) : ndef_record :=
  mk_record (raw_index r) (raw_len r) (tnf r) (type_len r) (payload_len r)
            (id_len r) p (payload r) (id r).
Definition set_payload (p : ptr) (r : ndef_record) : ndef_record :=
  mk_record (raw_index r) (raw_len r) (tnf r) (type_len r) (payload_len r)
            (id_len r) (type r) p (id r).
Definition set_id (p : ptr) (r : ndef_record) : ndef_record :=
  mk_record (raw_index r) (raw_len r) (tnf r) (type_len r) (payload_len r)
            (id_len r) (type r) (payload r) p.
Definition set_raw (i l : Z) (r : ndef_record) : ndef_record :=
  mk_record i l (tnf r) (type_len r) (payload_len r)
            (id_len r) (type r) (payload r) (id r).

(** [ndef_record_destroy] *)
Definition ndef_record_destroy (ctx : ndef_record) : M unit :=
  free_if (type ctx) ;;;
  free_if (payload ctx) ;;;
  free_if (id ctx).

(** [ndef_raw_record_destroy] ([ndef.h]): the same three tests, on the
    abstract part of the raw record. *)
Definition ndef_raw_record_destroy (ctx : ndef_raw_record) : M unit :=
  free_if (type (abstract ctx)) ;;;
  free_if (payload (abstract ctx)) ;;;
  free_if (id (abstract ctx)).

(** ** Output stream *)

(** [contents] holds the [buf_len] bytes written so far. *)
Record ndef_ostream : Type := mk_ostream {
  buf : option Z;
  buf_cap : Z;
  contents : list byte
}.

Definition buf_len (ctx : ndef_ostream) : Z := zlen (contents ctx).

Definition ndef_ostream_init : ndef_ostream := mk_ostream None 0 [].

Definition ndef_ostream_destroy (ctx : ndef_ostream) : M unit :=
  match buf ctx with
  | Some a => free a
  | None => ret tt
  end.

(** [out->buf_len = len0;] *)
Definition rollback (len0 : Z) (ctx : ndef_ostream) : ndef_ostream :=
  mk_ostream (buf ctx) (buf_cap ctx) (firstn (Z.to_nat len0) (contents ctx)).

Definition ndef_ostream_append (ctx : ndef_ostream) (data : Z)
  : M (bool * ndef_ostream) :=
  let store (c : ndef_ostream) : M (bool * ndef_ostream) :=
    (* ctx->buf[ctx->buf_len++] = data; *)
    if buf_len c <? buf_cap c
    then ret (true, mk_ostream (buf c) (buf_cap c) (contents c ++ [byte_of_Z data]))
    else crash in
  if buf_cap ctx <=? buf_len ctx
  then
    let cap := size_t (buf_cap ctx * 2) in
    let cap := if cap =? 0 then 1 else cap in
    mem <- realloc (buf ctx) cap ;;
    match mem with
    | None => ret (false, ctx)
    | Some a => store (mk_ostream (Some a) cap (contents ctx))
    end
  else store ctx.

(** [while (cap < need) cap *= 2;]  After 64 doublings [cap] is 0 and
    stays 0, so a loop that has not ended by then never ends. *)
Fixpoint double_until (fuel : nat) (cap need : Z) : option Z :=
  if cap <? need
  then match fuel with
       | O => None
       | S f => double_until f (size_t (cap * 2)) need
       end
  else Some cap.

Definition ndef_ostream_append_n (ctx : ndef_ostream) (data : ptr) (len : Z)
  : M (bool * ndef_ostream) :=
  let store (c : ndef_ostream) : M (bool * ndef_ostream) :=
    (* memcpy(ctx->buf + ctx->buf_len, data, len); ctx->buf_len += len; *)
    src <- lift (deref data) ;;
    bytes <- lift (memcpy_src src (zlen src) 0 len) ;;
    if buf_len c + len <=? buf_cap c
    then ret (true, mk_ostream (buf c) (buf_cap c) (contents c ++ bytes))
    else crash in
  let cap := buf_cap ctx in
  let cap := if cap =? 0 then 1 else cap in
  if cap <? size_t (buf_len ctx + len)
  then
    match double_until 65 cap (size_t (buf_len ctx + len)) with
    | None => spin
    | Some cap =>
        mem <- realloc (buf ctx) cap ;;
        match mem with
        | None => ret (false, ctx)
        | Some a => store (mk_ostream (Some a) cap (contents ctx))
        end
    end
  else store ctx.

(** ** Single-record codec *)

(** The result of [ndef_raw_record_decode]: [true] with [*out] and [*len]
    written, or [false] with neither touched; the two ways of failing are
    told apart by the diagnostic the function prints. *)
Inductive decode_result : Type :=
| Decoded (out : ndef_raw_record) (len : Z)
| NotEnoughData
| OutOfMemory.

(** [p = malloc(n); if (p) memcpy(p, data + pos, n);] *)
Definition alloc_copy (data : list byte) (len pos n : Z) : M ptr :=
  p <- malloc n ;;
  match p with
  | None => ret None
  | Some a =>
      bytes <- lift (memcpy_src data len pos n) ;;
      ret (Some (mkBlock a bytes))
  end.

(** One of the three field blocks of the decoder:
    [if (n) { f = malloc(n); if (!f) fail; memcpy(f, data + pos, n); pos += n; }
     else f = NULL;]
    [None] stands for the failed allocation. *)
Definition decode_field (data : list byte) (len pos n : Z) : M (option (ptr * Z)) :=
  if truthy n
  then
    p <- alloc_copy data len pos n ;;
    match p with
    | None => ret None
    | Some b => ret (Some (Some b, size_t (pos + n)))
    end
  else ret (Some (None, pos)).

Definition ndef_raw_record_decode (data : list byte) (len : Z) : M decode_result :=
  (* Minimum length check. *)
  if len <? 3 then ret NotEnoughData else
  (* Decode flags byte. *)
  let pos := 0 in
  b0 <- lift (rd data len pos) ;;
  let f_begin := truthy (Z.land b0 NDEF_FLAG_MB) in
  let f_end := truthy (Z.land b0 NDEF_FLAG_ME) in
  let f_chunked := truthy (Z.land b0 NDEF_FLAG_CF) in
  let f_short_record := truthy (Z.land b0 NDEF_FLAG_SR) in
  let f_include_id_len := truthy (Z.land b0 NDEF_FLAG_IL) in
  let t := Z.land b0 NDEF_FLAG_TNF in
  let pos := pos + 1 in
  (* Minimum length check. *)
  if f_short_record && (len <? 3 + Z.b2z f_include_id_len) then ret NotEnoughData
  else if negb f_short_record && (len <? 5 + Z.b2z f_include_id_len) then ret NotEnoughData
  else
  (* Type length. *)
  tl <- lift (rd data len pos) ;;
  let pos := pos + 1 in
  (* Payload length. *)
  '(pl, pos) <-
    (if f_short_record
     then
       b <- lift (rd data len pos) ;;
       ret (b, pos + 1)
     else
       b3 <- lift (rd data len pos) ;;
       b2 <- lift (rd data len (pos + 1)) ;;
       b1 <- lift (rd data len (pos + 2)) ;;
       b0 <- lift (rd data len (pos + 3)) ;;
       let pl := 0 in
       let pl := Z.lor pl (size_t (int (Z.shiftl b3 24))) in
       let pl := Z.lor pl (size_t (int (Z.shiftl b2 16))) in
       let pl := Z.lor pl (size_t (int (Z.shiftl b1 8))) in
       let pl := Z.lor pl (size_t (int (Z.shiftl b0 0))) in
       ret (pl, pos + 4)) ;;
  (* ID length. *)
  '(il, pos) <-
    (if f_include_id_len
     then
       b <- lift (rd data len pos) ;;
       ret (b, pos + 1)
     else ret (0, pos)) ;;
  (* Minimum length check. *)
  if len <? size_t (pos + tl + pl + il) then ret NotEnoughData else
  (* Type field. *)
  f <- decode_field data len pos tl ;;
  match f with
  | None => ret OutOfMemory
  | Some (ty, pos) =>
  (* Payload field. *)
  f <- decode_field data len pos pl ;;
  match f with
  | None => free_if ty ;;; ret OutOfMemory
  | Some (pay, pos) =>
  (* ID field. *)
  f <- decode_field data len pos il ;;
  match f with
  | None => free_if ty ;;; free_if pay ;;; ret OutOfMemory
  | Some (idf, pos) =>
      (* raw_index, raw_len and abs_index are not set here; the caller
         writes them before it reads them. *)
      ret (Decoded
             (mk_raw (mk_record 0 0 t tl pl il ty pay idf) 0
                     f_begin f_end f_chunked f_short_record f_include_id_len)
             pos)
  end end end.

Definition ndef_raw_record_encode (out : ndef_ostream) (data : ndef_raw_record)
  : M (bool * ndef_ostream) :=
  let len0 := buf_len out in
  let r := abstract data in
  (* Create flags field. *)
  let flags := 0 in
  let flags := uint8_t (Z.lor flags (NDEF_FLAG_MB * Z.b2z (flag_begin data))) in
  let flags := uint8_t (Z.lor flags (NDEF_FLAG_ME * Z.b2z (flag_end data))) in
  let flags := uint8_t (Z.lor flags (NDEF_FLAG_CF * Z.b2z (flag_chunked data))) in
  let flags := uint8_t (Z.lor flags (NDEF_FLAG_SR * Z.b2z (flag_short_record data))) in
  let flags := uint8_t (Z.lor flags (NDEF_FLAG_IL * Z.b2z (flag_include_id_len data))) in
  let flags := uint8_t (Z.lor flags (Z.land NDEF_FLAG_TNF (tnf r))) in
  '(res, out) <- ndef_ostream_append out flags ;;
  if negb res then ret (false, rollback len0 out) else
  (* Type length. *)
  '(res, out) <- ndef_ostream_append out (type_len r) ;;
  if negb res then ret (false, rollback len0 out) else
  (* Payload length: the result of the one-byte write is not looked at. *)
  '(res, out) <-
    (if flag_short_record data
     then
       '(_, out) <- ndef_ostream_append out (payload_len r) ;;
       ret (true, out)
     else
       '(r3, out) <- ndef_ostream_append out (Z.shiftr (payload_len r) 24) ;;
       '(r2, out) <- ndef_ostream_append out (Z.shiftr (payload_len r) 16) ;;
       '(r1, out) <- ndef_ostream_append out (Z.shiftr (payload_len r) 8) ;;
       '(r0, out) <- ndef_ostream_append out (Z.shiftr (payload_len r) 0) ;;
       ret (r3 && r2 && r1 && r0, out)) ;;
  if negb res then ret (false, rollback len0 out) else
  (* ID length. *)
  '(res, out) <-
    (if flag_include_id_len data
     then ndef_ostream_append out (id_len r)
     else ret (true, out)) ;;
  if negb res then ret (false, rollback len0 out) else
  (* Type. *)
  '(res, out) <-
    (if truthy (type_len r)
     then ndef_ostream_append_n out (type r) (type_len r)
     else ret (true, out)) ;;
  if negb res then ret (false, rollback len0 out) else
  (* Payload. *)
  '(res, out) <-
    (if truthy (payload_len r)
     then ndef_ostream_append_n out (payload r) (payload_len r)
     else ret (true, out)) ;;
  if negb res then ret (false, rollback len0 out) else
  (* ID. *)
  '(res, out) <-
    (if flag_include_id_len data && truthy (id_len r)
     then ndef_ostream_append_n out (id r) (id_len r)
     else ret (true, out)) ;;
  if negb res then ret (false, rollback len0 out) else
  ret (true, out).

(** ** Arrays of records *)

(** A heap array: the identity of its block and its slots, one per element
    the block has room for. *)
Record array (A : Type) : Type := mkArray {
  aaddr : Z;
  slots : list A
}.
Arguments mkArray {A} aaddr slots.
Arguments aaddr {A} a.
Arguments slots {A} a.

(** Element [i] of a sequence of elements in memory. *)
Definition lget {A : Type} (l : list A) (i : Z) : outcome A :=
  match nth_error l (Z.to_nat i) with
  | Some v => if 0 <=? i then Done v else Crash
  | None => Crash
  end.

(** [p[i]] *)
Definition aget {A : Type} (p : option (array A)) (i : Z) : outcome A :=
  match p with
  | None => Crash
  | Some arr => lget (slots arr) i
  end.

Fixpoint replace_nth {A : Type} (n : nat) (v : A) (l : list A) : list A :=
  match l, n with
  | [], _ => []
  | _ :: t, O => v :: t
  | x :: t, S k => x :: replace_nth k v t
  end.

(** [p[i] = v;] *)
Definition aset {A : Type} (p : option (array A)) (i : Z) (v : A)
  : outcome (option (array A)) :=
  match p with
  | None => Crash
  | Some arr =>
      if (0 <=? i) && (i <? zlen (slots arr))
      then Done (Some (mkArray (aaddr arr) (replace_nth (Z.to_nat i) v (slots arr))))
      else Crash
  end.

(** [realloc(p, size)] for an array whose elements take [elt] bytes: the
    old slots are kept and the block has room for [size / elt] of them.
    The content of a new slot is indeterminate, [junk] stands for it (no
    function below reads a slot that was never written). *)
Definition realloc_array {A : Type} (junk : A) (elt : Z)
    (p : option (array A)) (size : Z) : M (option (array A)) :=
  a <- realloc (option_map aaddr p) size ;;
  match a with
  | None => ret None
  | Some a =>
      let n := Z.to_nat (size / elt) in
      let old := match p with Some arr => slots arr | None => [] end in
      ret (Some (mkArray a (firstn n (old ++ repeat junk (n - length old)))))
  end.

(** [if (p) free(p);] *)
Definition free_array {A : Type} (p : option (array A)) : M unit :=
  match p with
  | Some arr => free (aaddr arr)
  | None => ret tt
  end.

Definition sizeof_ndef_record : Z := 64.
Definition sizeof_ndef_raw_record : Z := 80.
Definition sizeof_ndef_ctx_s : Z := 56.
Definition sizeof_pointer : Z := 8.

Definition ndef_raw_record_init : ndef_raw_record :=
  mk_raw ndef_record_init 0 false false false false false.

(** ** Contexts *)

Definition NDEF_MAGIC : Z := 0xdeadbeef.

Record ndef_ctx_s : Type := mk_ctx {
  magic : Z;
  raw_records_len : Z;
  raw_records_cap : Z;
  raw_records : option (array ndef_raw_record);
  abs_records_len : Z;
  abs_records_cap : Z;
  abs_records : option (array ndef_record)
}.

(** [ndef_ctx] is a pointer to an [ndef_ctx_s]. *)
Definition ndef_ctx : Type := option ndef_ctx_s.

Definition set_raw_array (len cap : Z) (a : option (array ndef_raw_record))
    (c : ndef_ctx_s) : ndef_ctx_s :=
  mk_ctx (magic c) len cap a (abs_records_len c) (abs_records_cap c) (abs_records c).
Definition set_abs_array (len cap : Z) (a : option (array ndef_record))
    (c : ndef_ctx_s) : ndef_ctx_s :=
  mk_ctx (magic c) (raw_records_len c) (raw_records_cap c) (raw_records c) len cap a.
Definition set_magic (m : Z) (c : ndef_ctx_s) : ndef_ctx_s :=
  mk_ctx m (raw_records_len c) (raw_records_cap c) (raw_records c)
         (abs_records_len c) (abs_records_cap c) (abs_records c).

(** [MAGIC_CHECK]: [abort()] unless the context is valid. *)
Definition MAGIC_CHECK (ctx : ndef_ctx) : M ndef_ctx_s :=
  match ctx with
  | Some c => if magic c =? NDEF_MAGIC then ret c else crash
  | None => crash
  end.

Definition ndef_init : M ndef_ctx :=
  out <- malloc sizeof_ndef_ctx_s ;;
  match out with
  | None => ret None
  | Some _ => ret (Some (mk_ctx NDEF_MAGIC 0 0 None 0 0 None))
  end.

(** [ndef_raw_append] *)
Definition ndef_raw_append (ctx : ndef_ctx) (record : ndef_raw_record)
  : M (bool * ndef_ctx_s) :=
  c <- MAGIC_CHECK ctx ;;
  let store (c : ndef_ctx_s) : M (bool * ndef_ctx_s) :=
    a <- lift (aset (raw_records c) (raw_records_len c) record) ;;
    ret (true, set_raw_array (size_t (raw_records_len c + 1)) (raw_records_cap c) a c) in
  (* Determine new capacity. *)
  let cap := raw_records_cap c in
  if cap <=? raw_records_len c
  then
    let cap := if cap =? 0 then 1 else cap in
    let cap := size_t (cap * 2) in
    mem <- realloc_array ndef_raw_record_init sizeof_ndef_raw_record
             (raw_records c) (size_t (sizeof_ndef_raw_record * cap)) ;;
    match mem with
    | None => ret (false, c)
    | Some a => store (set_raw_array (raw_records_len c) cap (Some a) c)
    end
  else store c.

(** ** The record store: [insert_n] *)

(** The [n] bytes read through [p] by [memcpy(dst, p, n)]. *)
Definition copy_from (p : ptr) (n : Z) : M (list byte) :=
  src <- lift (deref p) ;;
  lift (memcpy_src src (zlen src) 0 n).

(** The body of [if (!is_move) { ... }] in the fill loop, run on the slot
    [*ptr] that already holds a copy of [records[i]].  The result is the
    slot as the body leaves it and [false] when the body ends in [break]. *)
Definition clone_fields (src : ndef_record) (p : ndef_record)
  : M (bool * ndef_record) :=
  r <- (if truthy (type_len p)
        then
          a <- malloc (type_len p) ;;
          match a with
          | None => ret (false, set_type None p)
          | Some a =>
              bytes <- copy_from (type src) (type_len p) ;;
              ret (true, set_type (Some (mkBlock a bytes)) p)
          end
        else ret (true, p)) ;;
  let '(ok, p) := r in
  if negb ok then ret (false, p) else
  r <- (if truthy (payload_len p)
        then
          a <- malloc (payload_len p) ;;
          match a with
          | None =>
              free_if (type p) ;;;
              ret (false, set_payload None p)
          | Some a =>
              bytes <- copy_from (payload src) (payload_len p) ;;
              ret (true, set_payload (Some (mkBlock a bytes)) p)
          end
        else ret (true, p)) ;;
  let '(ok, p) := r in
  if negb ok then ret (false, p) else
  r <- (if truthy (id_len p)
        then
          a <- malloc (id_len p) ;;
          match a with
          | None =>
              free_if (type p) ;;;
              free_if (payload p) ;;;
              ret (false, set_id None p)
          | Some a =>
              bytes <- copy_from (id src) (id_len p) ;;
              ret (true, set_id (Some (mkBlock a bytes)) p)
          end
        else ret (true, p)) ;;
  ret r.

(** [ndef_record_clone]: [Some tmp] stands for [true] with [*out = tmp],
    [None] for [false].  A field is cloned when its pointer is not [NULL],
    whatever its length.  After the allocation for the id the test looks
    at [tmp.type], not at [tmp.id]; writing through the [NULL] of a
    failed allocation is a [Crash]. *)
Definition ndef_record_clone (inp : ndef_record) : M (option ndef_record) :=
  let tmp := inp in
  r <- (if negb (is_null (payload inp))
        then
          a <- malloc (payload_len inp) ;;
          match a with
          | None => ret None
          | Some a =>
              bytes <- copy_from (payload inp) (payload_len inp) ;;
              ret (Some (set_payload (Some (mkBlock a bytes)) tmp))
          end
        else ret (Some tmp)) ;;
  match r with
  | None => ret None
  | Some tmp =>
  r <- (if negb (is_null (type inp))
        then
          a <- malloc (type_len inp) ;;
          match a with
          | None =>
              free_if (payload tmp) ;;;
              ret None
          | Some a =>
              bytes <- copy_from (type inp) (type_len inp) ;;
              ret (Some (set_type (Some (mkBlock a bytes)) tmp))
          end
        else ret (Some tmp)) ;;
  match r with
  | None => ret None
  | Some tmp =>
      if negb (is_null (id inp))
      then
        a <- malloc (id_len inp) ;;
        if is_null (type tmp)
        then
          (if negb (is_null (payload tmp)) then free_if (type tmp) else ret tt) ;;;
          free_if (payload tmp) ;;;
          ret None
        else
          match a with
          | None => crash
          | Some a =>
              bytes <- copy_from (id inp) (id_len inp) ;;
              ret (Some (set_id (Some (mkBlock a bytes)) tmp))
          end
      else ret (Some tmp)
  end end.

(** [for (ssize_t i = n - 1; i >= 0; i--) a[old_len + i] = a[index + i];] *)
Fixpoint relocate (n : nat) (a : option (array ndef_record)) (old_len index : Z)
  : outcome (option (array ndef_record)) :=
  match n with
  | O => Done a
  | S k =>
      let i := Z.of_nat k in
      match aget a (size_t (index + i)) with
      | Done v =>
          match aset a (size_t (old_len + i)) v with
          | Done a' => relocate k a' old_len index
          | Crash => Crash
          | Spin => Spin
          end
      | Crash => Crash
      | Spin => Spin
      end
  end.

(** [for (; i < len; i++) { ... }], with [n] iterations left: the array
    and the value of [i] when the loop is left. *)
Fixpoint fill (n : nat) (i : Z) (a : option (array ndef_record)) (index : Z)
    (records : list ndef_record) (is_move : bool)
  : M (Z * option (array ndef_record)) :=
  match n with
  | O => ret (i, a)
  | S k =>
      (* ndef_record *ptr = ctx->abs_records + index + i; *ptr = records[i]; *)
      src <- lift (lget records i) ;;
      a <- lift (aset a (size_t (index + i)) src) ;;
      if is_move
      then fill k (i + 1) a index records is_move
      else
        '(ok, p) <- clone_fields src src ;;
        a <- lift (aset a (size_t (index + i)) p) ;;
        if ok
        then fill k (i + 1) a index records is_move
        else ret (i, a)
  end.

(** [for (size_t x = 0; x < i; x++) ndef_record_destroy(ctx->abs_records[index + i]);] *)
Fixpoint destroy_clones (n : nat) (a : option (array ndef_record)) (index i : Z)
  : M unit :=
  match n with
  | O => ret tt
  | S k =>
      v <- lift (aget a (size_t (index + i))) ;;
      ndef_record_destroy v ;;;
      destroy_clones k a index i
  end.

(** [for (size_t i = 0; i < n; i++) a[index + i] = a[old_len + i];],
    from [i] on. *)
Fixpoint undo_shift (n : nat) (i : Z) (a : option (array ndef_record))
    (old_len index : Z) : outcome (option (array ndef_record)) :=
  match n with
  | O => Done a
  | S k =>
      match aget a (size_t (old_len + i)) with
      | Done v =>
          match aset a (size_t (index + i)) v with
          | Done a' => undo_shift k (i + 1) a' old_len index
          | Crash => Crash
          | Spin => Spin
          end
      | Crash => Crash
      | Spin => Spin
      end
  end.

Definition insert_n (ctx : ndef_ctx) (index : Z) (records : list ndef_record)
    (len : Z) (is_move : bool) : M (bool * ndef_ctx_s) :=
  c <- MAGIC_CHECK ctx ;;
  (* Bounds check. *)
  let index := if abs_records_len c <? index then abs_records_len c else index in
  (* Allocate memories. *)
  let old_len := abs_records_len c in
  let new_len := size_t (abs_records_len c + len) in
  grown <-
    (if abs_records_cap c <? new_len
     then
       (* Determine new capacity. *)
       let cap := abs_records_cap c in
       let cap := if cap =? 0 then 1 else cap in
       match double_until 65 cap new_len with
       | None => spin
       | Some cap =>
           (* Allocate new memory. *)
           mem <- realloc_array ndef_record_init sizeof_ndef_record
                    (abs_records c) (size_t (cap * sizeof_ndef_record)) ;;
           match mem with
           | None => ret None
           | Some a => ret (Some (set_abs_array (abs_records_len c) cap (Some a) c))
           end
       end
     else ret (Some c)) ;;
  match grown with
  | None => ret (false, c)
  | Some c =>
      (* Relocate objects. *)
      let i0 := ssize_t (size_t (old_len - index - 1)) in
      a <- lift (relocate (Z.to_nat (i0 + 1)) (abs_records c) old_len index) ;;
      (* Fill in new objects. *)
      '(i, a) <- fill (Z.to_nat len) 0 a index records is_move ;;
      (* Excessively complicated error handling. *)
      if negb is_move && (i <? len)
      then
        (* Free memory after unsuccessful allocation. *)
        destroy_clones (Z.to_nat i) a index i ;;;
        (* Undo the shifting operation too. *)
        a <- lift (undo_shift (Z.to_nat (size_t (old_len - index))) 0 a old_len index) ;;
        ret (false, set_abs_array (abs_records_len c) (abs_records_cap c) a c)
      else
        ret (true, set_abs_array new_len (abs_records_cap c) a c)
  end.

Definition ndef_insert_n (ctx : ndef_ctx) (index : Z) (records : list ndef_record)
    (len : Z) : M (bool * ndef_ctx_s) :=
  insert_n ctx index records len false.

Definition ndef_insert (ctx : ndef_ctx) (index : Z) (record : ndef_record)
  : M (bool * ndef_ctx_s) :=
  ndef_insert_n ctx index [record] 1.

Definition ndef_append (ctx : ndef_ctx) (record : ndef_record)
  : M (bool * ndef_ctx_s) :=
  ndef_insert_n ctx SIZE_MAX [record] 1.

Definition ndef_insert_n_mv (ctx : ndef_ctx) (index : Z)
    (records : list ndef_record) (len : Z) : M (bool * ndef_ctx_s) :=
  insert_n ctx index records len true.

Definition ndef_insert_mv (ctx : ndef_ctx) (index : Z) (record : ndef_record)
  : M (bool * ndef_ctx_s) :=
  ndef_insert_n_mv ctx index [record] 1.

Definition ndef_append_mv (ctx : ndef_ctx) (record : ndef_record)
  : M (bool * ndef_ctx_s) :=
  ndef_insert_n_mv ctx SIZE_MAX [record] 1.



(** [ndef_splice_n]: the body is the context check and nothing else. *)
Definition ndef_splice_n (ctx : ndef_ctx) (index len : Z) : M ndef_ctx_s :=
  c <- MAGIC_CHECK ctx ;;
  ret c.

Definition ndef_splice (ctx : ndef_ctx) (index : Z) : M ndef_ctx_s :=
  ndef_splice_n ctx index 1.

(** ** Clearing, cloning and destroying a context *)

(** [for (i = 0; i < n; i++) { a[i].raw_index = 0; a[i].raw_len = 0; }],
    from [i] on. *)
Fixpoint unlink_raw (n : nat) (i : Z) (a : option (array ndef_record))
  : outcome (option (array ndef_record)) :=
  match n with
  | O => Done a
  | S k =>
      match aget a i with
      | Done v =>
          match aset a i (set_raw 0 0 v) with
          | Done a' => unlink_raw k (i + 1) a'
          | Crash => Crash
          | Spin => Spin
          end
      | Crash => Crash
      | Spin => Spin
      end
  end.

(** [ndef_raw_clear]: the array is freed and its pointer is left as it is. *)
Definition ndef_raw_clear (ctx : ndef_ctx) : M ndef_ctx_s :=
  c <- MAGIC_CHECK ctx ;;
  (* Clear raw records. *)
  free_array (raw_records c) ;;;
  let c := set_raw_array 0 0 (raw_records c) c in
  (* Remove pointers from abstract records. *)
  a <- lift (unlink_raw (Z.to_nat (abs_records_len c)) 0 (abs_records c)) ;;
  ret (set_abs_array (abs_records_len c) (abs_records_cap c) a c).

(** [ndef_clear] *)
Definition ndef_clear (ctx : ndef_ctx) : M ndef_ctx_s :=
  match ctx with
  | None => crash
  | Some c =>
      free_array (raw_records c) ;;;
      free_array (abs_records c) ;;;
      ret (set_abs_array 0 0 (abs_records c) (set_raw_array 0 0 (raw_records c) c))
  end.

(** [ndef_destroy] *)
Definition ndef_destroy (ctx : ndef_ctx) : M ndef_ctx_s :=
  c <- ndef_clear ctx ;;
  ret (set_magic 0 c).

(** [ndef_clone]: the new context is allocated with [sizeof(ndef_ctx)],
    the size of a pointer, and [*out = *ctx] then writes a whole
    [ndef_ctx_s] into it. *)
Definition ndef_clone (ctx : ndef_ctx) : M ndef_ctx :=
  c <- MAGIC_CHECK ctx ;;
  (* Make new memory. *)
  out <- malloc sizeof_pointer ;;
  match out with
  | None => ret None
  | Some _ =>
      (* Copy values. *)
      if sizeof_pointer <? sizeof_ndef_ctx_s then crash else
      (* Clone arrays. *)
      a <- malloc (size_t (sizeof_ndef_record * abs_records_cap c)) ;;
      src <- lift (match abs_records c with Some arr => Done (slots arr) | None => Crash end) ;;
      dst <- lift (match a with Some x => Done (mkArray x src) | None => Crash end) ;;
      ra <- malloc (size_t (sizeof_ndef_raw_record * raw_records_cap c)) ;;
      rsrc <- lift (match raw_records c with Some arr => Done (slots arr) | None => Crash end) ;;
      rdst <- lift (match ra with Some x => Done (mkArray x rsrc) | None => Crash end) ;;
      ret (Some (mk_ctx (magic c) (raw_records_len c) (raw_records_cap c) (Some rdst)
                        (abs_records_len c) (abs_records_cap c) (Some dst)))
  end.

(** [ndef_records_len], [ndef_records] *)
Definition ndef_records_len (ctx : ndef_ctx) : M Z :=
  c <- MAGIC_CHECK ctx ;;
  ret (abs_records_len c).

Definition ndef_records (ctx : ndef_ctx) : M (option (array ndef_record)) :=
  c <- MAGIC_CHECK ctx ;;
  ret (abs_records c).

(** [ndef_raw_records_len], [ndef_raw_records]; the second one reads the
    context without checking it. *)
Definition ndef_raw_records_len (ctx : ndef_ctx) : M Z :=
  c <- MAGIC_CHECK ctx ;;
  ret (raw_records_len c).

Definition ndef_raw_records (ctx : ndef_ctx) : M (option (array ndef_raw_record)) :=
  match ctx with
  | Some c => ret (raw_records c)
  | None => crash
  end.

(** ** Message codec *)

(** The parsing loop of [ndef_decode], run while [pos] is below [*len].  The
    result is the flag [partial] and the context. *)
Fixpoint decode_loop (fuel : nat) (data : list byte) (len pos : Z) (ctx : ndef_ctx)
  : M (bool * ndef_ctx) :=
  if pos <? len
  then
    match fuel with
    | O => spin
    | S f =>
        (* Decode one record. *)
        let record_len := size_t (len - pos) in
        res <- ndef_raw_record_decode (skipn (Z.to_nat pos) data) record_len ;;
        match res with
        | Decoded record record_len =>
            let pos := size_t (pos + record_len) in
            (* Append raw record. *)
            '(res, c) <- ndef_raw_append ctx record ;;
            if res
            then decode_loop f data len pos (Some c)
            else ret (true, Some c)
        | NotEnoughData | OutOfMemory => ret (true, ctx)
        end
    end
  else ret (false, ctx).

(** The second loop of [ndef_decode]: raw records into full records, from
    index [i] on, with [n] raw records left (the body leaves
    [raw_records_len] as it is). *)
Fixpoint promote (n : nat) (i : Z) (c : ndef_ctx_s) : M ndef_ctx_s :=
  match n with
  | O => ret c
  | S k =>
      raw <- lift (aget (raw_records c) i) ;;
      let raw := mk_raw (set_raw i 1 (abstract raw)) i (flag_begin raw) (flag_end raw)
                        (flag_chunked raw) (flag_short_record raw)
                        (flag_include_id_len raw) in
      a <- lift (aset (raw_records c) i raw) ;;
      let c := set_raw_array (raw_records_len c) (raw_records_cap c) a c in
      '(_, c) <- ndef_append (Some c) (abstract raw) ;;
      promote k (i + 1) c
  end.

(** [ndef_decode]: [None] is the [NULL] returned when there is no input.
    The parsing loop gets as many rounds as there are input bytes; it
    needs fewer, see [ndef_decode_progress]. *)
Definition ndef_decode (data : option (list byte)) (len : option Z) : M ndef_ctx :=
  match data, len with
  | Some d, Some l =>
      if l =? 0 then ret None else
      (* Make a context for APPENDING to. *)
      ctx <- ndef_init ;;
      (* Continuous parsing time! *)
      '(partial, ctx) <- decode_loop (Z.to_nat l) d l 0 ctx ;;
      (* Decode raw records into full records. *)
      match ctx with
      | None => crash
      | Some c =>
          c <- promote (Z.to_nat (raw_records_len c)) 0 c ;;
          ret (Some c)
      end
  | _, _ => ret None
  end.

(** The loop of [ndef_encode], from record [i] on; [None] when a record
    could not be written. *)
Fixpoint encode_loop (n : nat) (i : Z) (c : ndef_ctx_s) (out : ndef_ostream)
  : M (option ndef_ostream) :=
  match n with
  | O => ret (Some out)
  | S k =>
      (* Make a raw record and think up some flags for it. *)
      r <- lift (aget (abs_records c) i) ;;
      let raw :=
        mk_raw r i
               (i =? 0)
               (i =? size_t (abs_records_len c - 1))
               false
               (negb (truthy (Z.land (payload_len r) 0xffffff00)))
               (truthy (id_len r)) in
      (* Write out the data. *)
      '(res, out) <- ndef_raw_record_encode out raw ;;
      if negb res
      then ndef_ostream_destroy out ;;; ret None
      else encode_loop k (i + 1) c out
  end.

(** [ndef_encode]: the context as the call leaves it and, when the call
    returns [true], the values written to [*out_data] and [*out_len]. *)
Definition ndef_encode (ctx : ndef_ctx) : M (ndef_ctx_s * option (ptr * Z)) :=
  c <- MAGIC_CHECK ctx ;;
  (* Make stream to output to. *)
  let out := ndef_ostream_init in
  (* Add some chunks. *)
  c <- ndef_raw_clear (Some c) ;;
  res <- encode_loop (Z.to_nat (abs_records_len c)) 0 c out ;;
  match res with
  | None => ret (c, None)
  | Some out =>
      (* Output the final data. *)
      ret (c, Some (option_map (fun a => mkBlock a (contents out)) (buf out),
                    buf_len out))
  end.

(** ** C strings

    A [char *] is read as the bytes from the pointer to the end of its
    block; the string is what comes before the first zero byte. *)

(** A string literal in memory. *)
Definition cstr (s : string) : list byte := bytes_of s ++ [x00].
Arguments cstr s%_string.

Definition is_nul (c : byte) : bool := Byte.eqb c x00.

(** [strlen(s)]: running off the block is a [Crash]. *)
Fixpoint strlen (s : list byte) : outcome Z :=
  match s with
  | [] => Crash
  | c :: t =>
      if is_nul c then Done 0
      else match strlen t with
           | Done n => Done (n + 1)
           | Crash => Crash
           | Spin => Spin
           end
  end.

(** [strnlen(s, maxlen)], [maxlen] given as the number of bytes it may look at. *)
Fixpoint strnlen (s : list byte) (maxlen : nat) {struct maxlen} : outcome Z :=
  match maxlen with
  | O => Done 0
  | S k =>
      match s with
      | [] => Crash
      | c :: t =>
          if is_nul c then Done 0
          else match strnlen t k with
               | Done n => Done (n + 1)
               | Crash => Crash
               | Spin => Spin
               end
      end
  end.

(** [strncmp(a, b, n)] *)
Fixpoint strncmp (a b : list byte) (n : nat) {struct n} : outcome Z :=
  match n with
  | O => Done 0
  | S k =>
      match a, b with
      | ca :: ta, cb :: tb =>
          if negb (Byte.eqb ca cb) then Done (Z_of_byte ca - Z_of_byte cb)
          else if is_nul ca then Done 0
          else strncmp ta tb k
      | _, _ => Crash
      end
  end.

(** The characters of the string at [s], without the zero byte. *)
Definition chars (s : list byte) : outcome (list byte) :=
  match strlen s with
  | Done n => Done (firstn (Z.to_nat n) s)
  | Crash => Crash
  | Spin => Spin
  end.

(** The characters [strncat(dst, s, n)] and [strndup(s, n)] take from [s]. *)
Definition nchars (s : list byte) (n : Z) : outcome (list byte) :=
  match strnlen s (Z.to_nat n) with
  | Done k => Done (firstn (Z.to_nat k) s)
  | Crash => Crash
  | Spin => Spin
  end.

(** A block of [size] bytes, just allocated as [a], into which [bytes] are
    written from its start. *)
Definition filled (a : Z) (size : Z) (bytes : list byte) : M block :=
  if zlen bytes <=? size then ret (mkBlock a bytes) else crash.

(** [strndup(s, n)] *)
Definition strndup (s : list byte) (n : Z) : M ptr :=
  cs <- lift (nchars s n) ;;
  mem <- malloc (size_t (zlen cs + 1)) ;;
  match mem with
  | None => ret None
  | Some a => ret (Some (mkBlock a (cs ++ [x00])))
  end.

(** ** URI records ([ndef_uri.c]) *)

Definition NDEF_URI_ABBREVMAX : Z := 0x24.

Definition ndef_uri_abbrev_table : list (list byte) :=
  [ cstr "";
    cstr "http://www.";
    cstr "https://www.";
    cstr "http://";
    cstr "https://";
    cstr "tel:";
    cstr "mailto:";
    cstr "ftp://anonymous:anonymous@";
    cstr "ftp://ftp.";
    cstr "ftps://";
    cstr "sftp://";
    cstr "smb://";
    cstr "nfs://";
    cstr "ftp://";
    cstr "dav://";
    cstr "news:";
    cstr "telnet://";
    cstr "imap:";
    cstr "rtsp://";
    cstr "urn:";
    cstr "pop:";
    cstr "sip:";
    cstr "sips:";
    cstr "tftp:";
    cstr "btspp://";
    cstr "btl2cap://";
    cstr "btgoep://";
    cstr "tcpobex://";
    cstr "irdaobex://";
    cstr "file://";
    cstr "urn:epc:id:";
    cstr "urn:epc:tag:";
    cstr "urn:epc:pat:";
    cstr "urn:epc:raw:";
    cstr "urn:epc:";
    cstr "urn:nfc:" ].

(** [p[i]] through a byte pointer. *)
Definition byte_at (p : ptr) (i : Z) : outcome Z :=
  match deref p with
  | Done d => rd d (zlen d) i
  | Crash => Crash
  | Spin => Spin
  end.

(** [a && b] where evaluating [b] may go wrong. *)
Definition and_then (a : bool) (b : outcome bool) : outcome bool :=
  if a then b else Done false.

Definition eq_char (o : outcome Z) (c : byte) : outcome bool :=
  match o with
  | Done z => Done (z =? Z_of_byte c)
  | Crash => Crash
  | Spin => Spin
  end.

(** [ndef_record_is_uri] *)
Definition ndef_record_is_uri (ctx : ndef_record) : outcome bool :=
  and_then (tnf ctx =? NDEF_TNF_WELL_KNOWN)
    (and_then (type_len ctx =? 1)
       (match eq_char (byte_at (type ctx) 0) "U" with
        | Done c => Done (c && (2 <=? payload_len ctx))
        | Crash => Crash
        | Spin => Spin
        end)).

(** [ndef_record_get_uri] *)
Definition ndef_record_get_uri (ctx : ndef_record) : M ptr :=
  u <- lift (ndef_record_is_uri ctx) ;;
  if u
  then
    p0 <- lift (byte_at (payload ctx) 0) ;;
    pl <- lift (deref (payload ctx)) ;;
    let rest := skipn 1 pl in
    if truthy p0
    then
      (* Decode abbreviation. *)
      if NDEF_URI_ABBREVMAX <=? p0 then ret None else
      abbrev <- lift (lget ndef_uri_abbrev_table p0) ;;
      (* Allocate memory. *)
      la <- lift (strlen abbrev) ;;
      ln <- lift (strnlen rest (Z.to_nat (size_t (payload_len ctx - 1)))) ;;
      let cap := size_t (la + ln) in
      mem <- malloc (size_t (cap + 1)) ;;
      match mem with
      | None => ret None
      | Some a =>
          (* Copy string data. *)
          pre <- lift (chars abbrev) ;;
          suf <- lift (nchars rest (size_t (payload_len ctx - 1))) ;;
          b <- filled a (size_t (cap + 1)) (pre ++ suf ++ [x00]) ;;
          (* Return buffer. *)
          ret (Some b)
      end
    else
      (* Just clone the string. *)
      strndup rest (size_t (payload_len ctx - 1))
  else ret None.

(** Common URI record creator. *)
Definition new_uri (abbrev : Z) (uri : list byte) : M ndef_record :=
  (* Allocate memory. *)
  n <- lift (strlen uri) ;;
  mem <- malloc (size_t (n + 2)) ;;
  match mem with
  | None => ret ndef_record_init
  | Some m =>
      (* Create payload. *)
      cs <- lift (chars uri) ;;
      pay <- filled m (size_t (n + 2)) (byte_of_Z abbrev :: cs ++ [x00]) ;;
      ty <- malloc 1 ;;
      match ty with
      | None => free m ;;; ret ndef_record_init
      | Some t =>
          (* Construct record. *)
          ret (mk_record 0 0 NDEF_TNF_WELL_KNOWN 1 (size_t (n + 1)) 0
                         (Some (mkBlock t ["U"%byte])) (Some pay) None)
      end
  end.

(** The search of [ndef_record_new_uri] through the entries [tbl], the
    first of which has index [i]: the match and its length. *)
Fixpoint abbrev_search (tbl : list (list byte)) (i : Z) (uri : list byte)
    (mtch match_len : Z) : outcome (Z * Z) :=
  match tbl with
  | [] => Done (mtch, match_len)
  | entry :: tbl' =>
      match strlen entry with
      | Done len =>
          if match_len <? len
          then
            match strncmp entry uri (Z.to_nat len) with
            | Done d =>
                if d =? 0
                then abbrev_search tbl' (i + 1) uri i len
                else abbrev_search tbl' (i + 1) uri mtch match_len
            | Crash => Crash
            | Spin => Spin
            end
          else abbrev_search tbl' (i + 1) uri mtch match_len
      | Crash => Crash
      | Spin => Spin
      end
  end.

(** [ndef_record_new_uri] *)
Definition ndef_record_new_uri (uri : list byte) : M ndef_record :=
  (* Check abbreviation table. *)
  '(mtch, match_len) <- lift (abbrev_search (skipn 1 ndef_uri_abbrev_table) 1 uri 0 0) ;;
  (* Create with the abbreviation. *)
  new_uri mtch (skipn (Z.to_nat match_len) uri).

(** [ndef_record_new_raw_uri] *)
Definition ndef_record_new_raw_uri (uri : list byte) : M ndef_record :=
  new_uri 0 uri.

(** ** Text records ([ndef_text.c]) *)

Record ndef_text : Type := mk_text {
  lang : ptr;
  text : ptr
}.

Definition no_text : ndef_text := mk_text None None.

(** [ndef_record_is_text] *)
Definition ndef_record_is_text (ctx : ndef_record) : outcome bool :=
  and_then (tnf ctx =? NDEF_TNF_WELL_KNOWN)
    (and_then (type_len ctx =? 1)
       (match eq_char (byte_at (type ctx) 0) "T" with
        | Done c => Done (c && (4 <=? payload_len ctx))
        | Crash => Crash
        | Spin => Spin
        end)).

(** [ndef_record_get_text] *)
Definition ndef_record_get_text (ctx : ndef_record) : M ndef_text :=
  (* Check type. *)
  t <- lift (ndef_record_is_text ctx) ;;
  if negb t then ret no_text else
  (* Parse the status byte. *)
  p0 <- lift (byte_at (payload ctx) 0) ;;
  let lang_len := Z.land p0 0x3f in
  let text_len := size_t (payload_len ctx - lang_len - 1) in
  (* Allocate memory. *)
  l <- malloc (lang_len + 1) ;;
  match l with
  | None => ret no_text
  | Some la =>
      t <- malloc (size_t (text_len + 1)) ;;
      match t with
      | None => free la ;;; ret no_text
      | Some ta =>
          (* Copy strings. *)
          pl <- lift (deref (payload ctx)) ;;
          lbytes <- lift (memcpy_src pl (zlen pl) 1 lang_len) ;;
          tbytes <- lift (memcpy_src pl (zlen pl) (1 + lang_len) text_len) ;;
          lb <- filled la (lang_len + 1) (lbytes ++ [x00]) ;;
          tb <- filled ta (size_t (text_len + 1)) (tbytes ++ [x00]) ;;
          (* Return the pair of datas. *)
          ret (mk_text (Some lb) (Some tb))
      end
  end.

(** [ndef_record_new_text]: both lengths are taken before the pointers
    are looked at. *)
Definition ndef_record_new_text (ctx : ndef_text) : M ndef_record :=
  l <- lift (deref (lang ctx)) ;;
  lang_len <- lift (strlen l) ;;
  t <- lift (deref (text ctx)) ;;
  text_len <- lift (strlen t) ;;
  (* Validity checks. *)
  if is_null (lang ctx) || is_null (text ctx) || (lang_len <? 2) || truthy text_len
  then ret ndef_record_init else
  (* Allocate memory. *)
  mem <- malloc (size_t (1 + lang_len + text_len)) ;;
  match mem with
  | None => ret ndef_record_init
  | Some m =>
      (* Create payload. *)
      lbytes <- lift (memcpy_src l (zlen l) 0 lang_len) ;;
      tbytes <- lift (memcpy_src t (zlen t) 0 text_len) ;;
      pay <- filled m (size_t (1 + lang_len + text_len))
               (byte_of_Z (Z.lor 0x00 lang_len) :: lbytes ++ tbytes) ;;
      ty <- malloc 1 ;;
      match ty with
      | None => free m ;;; ret ndef_record_init
      | Some tya =>
          (* Construct record. *)
          ret (mk_record 0 0 NDEF_TNF_WELL_KNOWN 1 (size_t (1 + lang_len + text_len)) 0
                         (Some (mkBlock tya ["U"%byte])) (Some pay) None)
      end
  end.

(** ** Smart posters ([ndef_smartposter.c]) *)

Record ndef_smartposter : Type := mk_smartposter {
  ndef : ndef_ctx;
  uri : ptr;
  sp_text : ndef_text
}.

Definition ndef_smartposter_init : ndef_smartposter :=
  mk_smartposter None None no_text.

(** [ndef_record_is_smartposter] *)
Definition ndef_record_is_smartposter (ctx : ndef_record) : outcome bool :=
  and_then (tnf ctx =? NDEF_TNF_WELL_KNOWN)
    (and_then (type_len ctx =? 2)
       (and_then (truthy (payload_len ctx))
          (match eq_char (byte_at (type ctx) 0) "S" with
           | Done c => and_then c (eq_char (byte_at (type ctx) 1) "p")
           | Crash => Crash
           | Spin => Spin
           end))).

(** [for (i = ...; i < n; i++) { out.uri = ndef_record_get_uri(a[i]); if (out.uri) break; }] *)
Fixpoint first_uri (n : nat) (i : Z) (a : option (array ndef_record)) (cur : ptr)
  : M ptr :=
  match n with
  | O => ret cur
  | S k =>
      record <- lift (aget a i) ;;
      u <- ndef_record_get_uri record ;;
      match u with
      | Some _ => ret u
      | None => first_uri k (i + 1) a u
      end
  end.

(** [for (i = ...; i < n; i++) { out.text = ndef_record_get_text(a[i]); if (out.text.lang) break; }] *)
Fixpoint first_text (n : nat) (i : Z) (a : option (array ndef_record)) (cur : ndef_text)
  : M ndef_text :=
  match n with
  | O => ret cur
  | S k =>
      record <- lift (aget a i) ;;
      t <- ndef_record_get_text record ;;
      match lang t with
      | Some _ => ret t
      | None => first_text k (i + 1) a t
      end
  end.

(** [ndef_record_get_smartposter] *)
Definition ndef_record_get_smartposter (ctx : ndef_record) : M ndef_smartposter :=
  (* Decode inner NDEF. *)
  let payload_len := payload_len ctx in
  inner <- ndef_decode (option_map bdata (payload ctx)) (Some payload_len) ;;
  (* Look for URI record. *)
  n <- ndef_records_len inner ;;
  a <- ndef_records inner ;;
  u <- first_uri (Z.to_nat n) 0 a None ;;
  (* Look for text record. *)
  t <- first_text (Z.to_nat n) 0 a no_text ;;
  ret (mk_smartposter inner u t).

(** [for (...) { has_uri |= ndef_record_is_uri(a[i]); has_text |= ndef_record_is_text(a[i]); }] *)
Fixpoint scan_kinds (n : nat) (i : Z) (a : option (array ndef_record))
    (has_uri has_text : bool) : outcome (bool * bool) :=
  match n with
  | O => Done (has_uri, has_text)
  | S k =>
      match aget a i with
      | Done record =>
          match ndef_record_is_uri record, ndef_record_is_text record with
          | Done u, Done t => scan_kinds k (i + 1) a (has_uri || u) (has_text || t)
          | Spin, _ | _, Spin => Spin
          | _, _ => Crash
          end
      | Crash => Crash
      | Spin => Spin
      end
  end.

(** [ndef_record_new_smartposter] *)
Definition ndef_record_new_smartposter (ctx : ndef_smartposter) : M ndef_record :=
  inner <- (match ndef ctx with
            | None => ndef_init
            | Some _ => ndef_clone (ndef ctx)
            end) ;;
  (* Check for URI and text records. *)
  n <- ndef_records_len inner ;;
  a <- ndef_records inner ;;
  '(has_uri, has_text) <- lift (scan_kinds (Z.to_nat n) 0 a false false) ;;
  (* Append URI record. *)
  inner <-
    (if negb has_uri && negb (is_null (uri ctx))
     then
       u <- lift (deref (uri ctx)) ;;
       record <- ndef_record_new_uri u ;;
       '(_, c) <- ndef_append_mv inner record ;;
       ret (Some c)
     else ret inner) ;;
  (* Append text record. *)
  inner <-
    (if negb has_text && negb (is_null (lang (sp_text ctx)))
        && negb (is_null (text (sp_text ctx)))
     then
       record <- ndef_record_new_text (sp_text ctx) ;;
       '(_, c) <- ndef_append_mv inner record ;;
       ret (Some c)
     else ret inner) ;;
  (* Encode NDEF data; [data] and [len] are only written on success. *)
  '(c, res) <- ndef_encode inner ;;
  ndef_destroy (Some c) ;;;
  (* Construct type. *)
  ty <- malloc 2 ;;
  match res with
  | None => crash
  | Some (data, len) =>
      match ty with
      | None => free_if data ;;; ret ndef_record_init
      | Some t =>
          (* Construct record. *)
          ret (mk_record 0 0 NDEF_TNF_WELL_KNOWN 1 len 0
                         (Some (mkBlock t ["S"%byte; "p"%byte])) data None)
      end
  end.

(** * Properties *)

(** ** Sample data *)

(** A record with a one-byte type held in block [a] and nothing else. *)
Definition typed_record (a : Z) (c : string) : ndef_record :=
  mk_record 0 0 NDEF_TNF_MIME 1 0 0 (Some (mkBlock a (bytes_of c))) None None.
Arguments typed_record a c%_string.

Definition rec_a : ndef_record := typed_record 11 "a".
Definition rec_b : ndef_record := typed_record 12 "b".
Definition rec_c : ndef_record := typed_record 13 "c".
Definition rec_d : ndef_record := typed_record 14 "d".
Definition rec_e : ndef_record := typed_record 15 "e".

(** A store holding [rec_a; rec_b] in an array with room for two. *)
Definition store_ab : ndef_ctx_s :=
  mk_ctx NDEF_MAGIC 0 0 None 2 2 (Some (mkArray 10 [rec_a; rec_b])).

(** A store holding [rec_a; rec_b; rec_c] in an array with room for four. *)
Definition store_abc : ndef_ctx_s :=
  mk_ctx NDEF_MAGIC 0 0 None 3 4
         (Some (mkArray 10 [rec_a; rec_b; rec_c; ndef_record_init])).

(** The heap these stores live in; [o] says which allocations fail. *)
Definition sample_heap (o : list bool) : heap :=
  mkHeap 100 [10; 11; 12; 13; 14; 15] o.

(** The records held by a context: its first [abs_records_len] slots. *)
Definition records_of (c : ndef_ctx_s) : list ndef_record :=
  match abs_records c with
  | Some a => firstn (Z.to_nat (abs_records_len c)) (slots a)
  | None => []
  end.

(** ** The record store *)

Section RecordStore.

(** C2 (the code does not do it): [ndef_splice_n] and [ndef_splice] leave
    the store as it is.  On the store [rec_a; rec_b], deleting one record
    at index 0 returns the same context on the same heap: the length is
    still 2 and both records are still there. *)
Theorem ndef_splice_n_removes_nothing :
  ndef_splice_n (Some store_ab) 0 1 (sample_heap []) = Done (store_ab, sample_heap [])
  /\ ndef_splice (Some store_ab) 0 (sample_heap []) = Done (store_ab, sample_heap [])
  /\ abs_records_len store_ab = 2
  /\ records_of store_ab = [rec_a; rec_b].
Proof. repeat split; reflexivity. Qed.

(** Whatever the context, the index and the count, [ndef_splice_n] gives
    the context back unchanged. *)
Lemma ndef_splice_n_identity (ctx : ndef_ctx) (index len : Z) (h : heap)
    (c : ndef_ctx_s) (h' : heap) :
  ndef_splice_n ctx index len h = Done (c, h') -> ctx = Some c /\ h' = h.
Proof.
  unfold ndef_splice_n, bind, MAGIC_CHECK, ret, crash.
  destruct ctx as [c0|]; [|discriminate].
  destruct (magic c0 =? NDEF_MAGIC); [|discriminate].
  intros E; inversion E; subst; auto.
Qed.

(** C3 (the code does not do it): a copy-mode insert of three records at
    index 1 of the store [rec_a; rec_b], where the clone of record 1 (of
    3) fails.  The call returns [false] and the length is still 2, but the
    store now holds [rec_a] followed by a copy of [rec_d] whose type
    pointer is [NULL]: [rec_b] is gone.  Block 100, cloned for [rec_c]
    earlier in the batch, is still allocated. *)
Theorem ndef_insert_n_failed_clone_changes_store :
  exists (c : ndef_ctx_s) (h' : heap),
    ndef_insert_n (Some store_ab) 1 [rec_c; rec_d; rec_e] 3
                  (sample_heap [true; true; false]) = Done (false, c, h')
    /\ abs_records_len c = 2
    /\ records_of c = [rec_a; set_type None rec_d]
    /\ records_of c <> records_of store_ab
    /\ live h' = 100 :: live (sample_heap []).
Proof.
  eexists; eexists; split; [vm_compute; reflexivity|].
  repeat split; try reflexivity.
  vm_compute; discriminate.
Qed.

(** C4 (the code does not do it): a move-mode insert of [rec_c] at index 0
    of the store [rec_a; rec_b] succeeds and gives [rec_c; rec_b; rec_a]:
    the tail is copied to the slots from the old length on, not to the
    slots after the gap.  On the store [rec_a; rec_b; rec_c], whose array
    has room for four, the same insert writes slot 5. *)
Theorem insert_n_relocates_tail_to_old_len :
  (exists (c : ndef_ctx_s) (h' : heap),
      insert_n (Some store_ab) 0 [rec_c] 1 true (sample_heap []) = Done (true, c, h')
      /\ abs_records_len c = 3
      /\ records_of c = [rec_c; rec_b; rec_a])
  /\ insert_n (Some store_abc) 0 [rec_d] 1 true (sample_heap []) = Crash.
Proof.
  split; [|reflexivity].
  eexists; eexists; split; [vm_compute; reflexivity|].
  split; reflexivity.
Qed.

End RecordStore.

(** ** Text and smart poster records on the inputs of the specification *)

Section WellKnownSamples.

(** The text [{lang: "en", text: "hi"}], its strings in blocks 51 and 52. *)
Definition text_en_hi : ndef_text :=
  mk_text (Some (mkBlock 51 (cstr "en"))) (Some (mkBlock 52 (cstr "hi"))).

(** The smart poster with uri ["https://x"] (block 50), no inner message
    and no text. *)
Definition poster_https_x : ndef_smartposter :=
  mk_smartposter None (Some (mkBlock 50 (cstr "https://x"))) no_text.

Definition strings_heap : heap := mkHeap 100 [50; 51; 52] [].

(** C6 (the code does not do it): for [{lang: "en", text: "hi"}]
    [ndef_record_new_text] returns the all-zero record, with no payload,
    because the validity check rejects every non-empty text; that record
    is not a text record and [ndef_record_get_text] returns no language and
    no text for it.  With an empty text the record is built, but its type
    byte is ['U'] and not ['T']. *)
Theorem ndef_record_new_text_rejects_en_hi :
  ndef_record_new_text text_en_hi strings_heap = Done (ndef_record_init, strings_heap)
  /\ payload ndef_record_init = None
  /\ ndef_record_is_text ndef_record_init = Done false
  /\ ndef_record_get_text ndef_record_init strings_heap = Done (no_text, strings_heap)
  /\ (exists (r : ndef_record) (h' : heap),
        ndef_record_new_text
          (mk_text (Some (mkBlock 51 (cstr "en"))) (Some (mkBlock 52 (cstr ""))))
          strings_heap = Done (r, h')
        /\ option_map bdata (payload r) = Some ("002"%byte :: bytes_of "en")
        /\ option_map bdata (type r) = Some (bytes_of "U")).
Proof.
  repeat split; try reflexivity.
  eexists; eexists; split; [vm_compute; reflexivity|].
  split; reflexivity.
Qed.

(** C7 (the code does not do it): the record built from the smart poster
    with uri ["https://x"] has [type_len] 1 for its two-byte type ["Sp"],
    so [ndef_record_is_smartposter] is false for it.  Its payload is the
    encoded one-record message, and [ndef_record_get_smartposter], which
    does not look at the type, recovers the uri ["https://x"] and no
    text. *)
Theorem ndef_record_new_smartposter_not_classified :
  exists (r : ndef_record) (h1 : heap) (sp : ndef_smartposter) (h2 : heap),
    ndef_record_new_smartposter poster_https_x strings_heap = Done (r, h1)
    /\ type_len r = 1
    /\ option_map bdata (type r) = Some (bytes_of "Sp")
    /\ option_map bdata (payload r)
       = Some ["209"; "001"; "002"; "U"; "004"; "x"]%byte
    /\ payload_len r = 6
    /\ ndef_record_is_smartposter r = Done false
    /\ ndef_record_get_smartposter r h1 = Done (sp, h2)
    /\ option_map bdata (uri sp) = Some (cstr "https://x")
    /\ sp_text sp = no_text.
Proof.
  do 4 eexists.
  split; [vm_compute; reflexivity|].
  do 5 (split; [vm_compute; reflexivity|]).
  split; [vm_compute; reflexivity|].
  split; vm_compute; reflexivity.
Qed.

End WellKnownSamples.

(** ** Single-record decode on short and overlong inputs *)

Section DecodeFailures.

(** C5 (the code does not do it): five bytes whose flags byte announces a
    long record with a one-byte type.  The header of a long record takes
    six bytes, the length check lets five through, and the decoder reads
    [data[5]], one byte past the five supplied.  Six bytes announcing a
    payload of [0xFFFFFFFF] bytes pass the last length check, because the
    sum of the lengths wraps around; the decoder then fails for lack of
    memory when the allocation fails, and copies past the input when it
    succeeds.  Inputs of fewer than three bytes, and short records cut
    inside a field, are refused as the claim says. *)
Theorem ndef_raw_record_decode_reads_past_input :
  ndef_raw_record_decode [x01; x01; x00; x00; x00] 5 heap0 = Crash
  /\ rd [x01; x01; x00; x00; x00] 5 5 = Crash
  /\ ndef_raw_record_decode [xc1; x00; xff; xff; xff; xff] 6 (mkHeap 1 [] [false])
     = Done (OutOfMemory, heap0)
  /\ ndef_raw_record_decode [xc1; x00; xff; xff; xff; xff] 6 heap0 = Crash
  /\ ndef_raw_record_decode [xd1; x00] 2 heap0 = Done (NotEnoughData, heap0)
  /\ ndef_raw_record_decode [xd1; x01; x05; x00] 4 heap0 = Done (NotEnoughData, heap0).
Proof. repeat split; reflexivity. Qed.

End DecodeFailures.

(** ** Reasoning about runs *)

Section Runs.

Lemma bind_Done {A B : Type} (c : M A) (k : A -> M B) (h h' : heap) (b : B) :
  bind c k h = Done (b, h') ->
  exists (a : A) (h1 : heap), c h = Done (a, h1) /\ k a h1 = Done (b, h').
Proof.
  unfold bind. destruct (c h) as [[a h1]| |]; try discriminate.
  intros E. exists a, h1. auto.
Qed.

Lemma lift_Done {A : Type} (o : outcome A) (h h' : heap) (a : A) :
  lift o h = Done (a, h') -> o = Done a /\ h' = h.
Proof.
  unfold lift. destruct o; try discriminate.
  intros E; inversion E; auto.
Qed.

Lemma ret_Done {A : Type} (a b : A) (h h' : heap) :
  ret a h = Done (b, h') -> b = a /\ h' = h.
Proof. unfold ret. intros E; inversion E; auto. Qed.

Lemma bind_Spin {A B : Type} (c : M A) (k : A -> M B) (h : heap) :
  bind c k h = Spin ->
  c h = Spin \/ exists (a : A) (h1 : heap), c h = Done (a, h1) /\ k a h1 = Spin.
Proof.
  unfold bind. destruct (c h) as [[a h1]| |]; try discriminate; auto.
  intros E. right. exists a, h1. auto.
Qed.

Lemma lift_not_Spin {A : Type} (o : outcome A) (h : heap) :
  o <> Spin -> lift o h <> Spin.
Proof. unfold lift. destruct o; congruence. Qed.

Lemma rd_Done (data : list byte) (len pos z : Z) :
  rd data len pos = Done z ->
  0 <= pos /\ pos < zlen data /\ z = Z_of_byte (nth (Z.to_nat pos) data x00).
Proof.
  unfold rd.
  destruct (Z.leb_spec 0 pos), (Z.ltb_spec pos (zlen data));
    simpl; try discriminate.
  intros E; inversion E. repeat split; solve [lia | reflexivity].
Qed.

Lemma rd_not_Spin (data : list byte) (len pos : Z) : rd data len pos <> Spin.
Proof. unfold rd. destruct (_ && _); discriminate. Qed.

Lemma memcpy_src_Done (data : list byte) (len pos n : Z) (bytes : list byte) :
  memcpy_src data len pos n = Done bytes ->
  0 <= pos /\ 0 <= n /\ pos + n <= zlen data
  /\ bytes = firstn (Z.to_nat n) (skipn (Z.to_nat pos) data).
Proof.
  unfold memcpy_src.
  destruct (Z.leb_spec 0 pos), (Z.leb_spec 0 n),
           (Z.leb_spec (pos + n) (zlen data)); simpl; try discriminate.
  intros E; inversion E. repeat split; solve [lia | reflexivity].
Qed.

Lemma memcpy_src_not_Spin (data : list byte) (len pos n : Z) :
  memcpy_src data len pos n <> Spin.
Proof. unfold memcpy_src. destruct (_ && _); discriminate. Qed.

Lemma size_t_small (z : Z) : 0 <= z < 2 ^ 64 -> size_t z = z.
Proof. intros. unfold size_t. apply Z.mod_small. lia. Qed.

Lemma size_t_range (z : Z) : 0 <= size_t z < 2 ^ 64.
Proof. unfold size_t. apply Z.mod_pos_bound. lia. Qed.

Lemma truthy_false (z : Z) : truthy z = false -> z = 0.
Proof. unfold truthy. destruct (z =? 0) eqn:E; [lia | discriminate]. Qed.

Lemma truthy_true (z : Z) : truthy z = true -> z <> 0.
Proof. unfold truthy. destruct (z =? 0) eqn:E; [discriminate | lia]. Qed.

End Runs.

(** Take a successful run apart, one step at a time. *)
Ltac run_inv :=
  repeat match goal with
  | H : bind _ _ _ = Done _ |- _ =>
      apply bind_Done in H; destruct H as (? & ? & ? & H)
  | H : lift _ _ = Done _ |- _ =>
      apply lift_Done in H; destruct H as [? ?]; subst
  | H : ret _ _ = Done _ |- _ =>
      apply ret_Done in H; destruct H as [? ?]; subst
  | H : crash _ = Done _ |- _ => discriminate H
  | H : spin _ = Done _ |- _ => discriminate H
  | H : Done _ = Done _ |- _ => inversion H; subst; clear H
  | H : (_, _) = (_, _) |- _ => inversion H; subst; clear H
  | H : Some _ = Some _ |- _ => inversion H; subst; clear H
  | H : Some _ = None |- _ => discriminate H
  | H : None = Some _ |- _ => discriminate H
  | H : Decoded _ _ = Decoded _ _ |- _ => inversion H; subst; clear H
  | H : @eq (outcome _) _ _ |- _ => discriminate H
  | H : @eq decode_result _ _ |- _ => discriminate H
  end.

(** What a successful read says about the position read. *)
Ltac bounds_inv :=
  repeat match goal with
  | H : rd _ _ _ = Done _ |- _ =>
      apply rd_Done in H; destruct H as (? & ? & ?)
  | H : memcpy_src _ _ _ _ = Done _ |- _ =>
      apply memcpy_src_Done in H; destruct H as (? & ? & ? & ?)
  end.

(** ** Termination of the pieces *)

Section Termination.

(** A computation that ends, with a result or with a crash, on every heap. *)
Definition ends {A : Type} (c : M A) : Prop := forall h : heap, c h <> Spin.

Lemma ends_ret {A : Type} (a : A) : ends (ret a).
Proof. intros h. discriminate. Qed.

Lemma ends_crash {A : Type} : ends (@crash A).
Proof. intros h. discriminate. Qed.

Lemma ends_bind {A B : Type} (c : M A) (k : A -> M B) :
  ends c -> (forall a : A, ends (k a)) -> ends (bind c k).
Proof.
  intros Hc Hk h. unfold bind.
  destruct (c h) as [[a h1]| |] eqn:E; try discriminate.
  - apply Hk.
  - exfalso. exact (Hc h E).
Qed.

Lemma ends_lift {A : Type} (o : outcome A) : o <> Spin -> ends (lift o).
Proof. intros Ho h. unfold lift. destruct o; congruence. Qed.

Lemma ends_alloc_ok : ends alloc_ok.
Proof. intros h. unfold alloc_ok. destruct (oracle h); discriminate. Qed.

Lemma ends_malloc (n : Z) : ends (malloc n).
Proof.
  unfold malloc. apply ends_bind; [apply ends_alloc_ok|].
  intros [] h; discriminate.
Qed.

Lemma ends_realloc (p : option Z) (n : Z) : ends (realloc p n).
Proof.
  unfold realloc. destruct p; [|apply ends_malloc].
  apply ends_bind; [apply ends_alloc_ok|].
  intros [] h; [destruct (existsb _ _)|]; discriminate.
Qed.

Lemma ends_free (a : Z) : ends (free a).
Proof. intros h. unfold free. destruct (existsb _ _); discriminate. Qed.

Lemma ends_free_if (p : ptr) : ends (free_if p).
Proof. destruct p; [apply ends_free | apply ends_ret]. Qed.

Lemma lget_not_Spin {A : Type} (l : list A) (i : Z) : lget l i <> Spin.
Proof. unfold lget. destruct (nth_error _ _); [destruct (0 <=? i)|]; discriminate. Qed.

Lemma aget_not_Spin {A : Type} (p : option (array A)) (i : Z) : aget p i <> Spin.
Proof. destruct p; [apply lget_not_Spin | discriminate]. Qed.

Lemma aset_not_Spin {A : Type} (p : option (array A)) (i : Z) (v : A) :
  aset p i v <> Spin.
Proof. unfold aset. destruct p; [destruct (_ && _)|]; discriminate. Qed.

Lemma deref_not_Spin (p : ptr) : deref p <> Spin.
Proof. destruct p; discriminate. Qed.

End Termination.

Create HintDb ends.

#[local] Hint Resolve ends_ret ends_crash ends_lift ends_malloc ends_realloc
  ends_free ends_free_if ends_alloc_ok lget_not_Spin aget_not_Spin aset_not_Spin
  deref_not_Spin rd_not_Spin memcpy_src_not_Spin : ends.

(** Split a goal [ends c] along the structure of [c]. *)
Ltac ends_step :=
  match goal with
  | |- ends (bind _ _) => apply ends_bind; [|intros ?]
  | |- ends (if ?b then _ else _) => destruct b
  | |- ends (match ?x with _ => _ end) => destruct x
  | |- ends (let '(_, _) := ?x in _) => destruct x
  | |- ends _ => solve [eauto with ends]
  end.
Ltac ends_tac := repeat ends_step.

Section Termination2.

Lemma ends_decode_field data len pos n : ends (decode_field data len pos n).
Proof. unfold decode_field, alloc_copy. ends_tac. Qed.

Lemma ends_ndef_raw_record_decode data len : ends (ndef_raw_record_decode data len).
Proof.
  unfold ndef_raw_record_decode.
  pose proof ends_decode_field.
  ends_tac.
Qed.
End Termination2.

(** ** What a successful single-record decode consumes *)

Section DecodeBounds.

(** A field that was copied lies in the buffer, and the position moves by
    its length: the buffer is a C object, of fewer than 2^64 bytes, so the
    sum does not wrap around. *)
Lemma decode_field_bounds (data : list byte) (len pos n : Z) (h h' : heap)
    (p : ptr) (pos' : Z) :
  decode_field data len pos n h = Done (Some (p, pos'), h') ->
  0 <= pos -> zlen data < 2 ^ 64 ->
  0 <= n /\ pos' = pos + n /\ (n = 0 \/ pos + n <= zlen data).
Proof.
  unfold decode_field, alloc_copy. intros H Hpos Hlen.
  destruct (truthy n) eqn:Hn.
  - run_inv.
    repeat match goal with
    | H : (match ?o with Some _ => _ | None => _ end) _ = _ |- _ =>
        destruct o; run_inv
    end.
    bounds_inv. rewrite size_t_small; lia.
  - run_inv. apply truthy_false in Hn. lia.
Qed.

(** The bound on what is consumed comes from the last length check of
    the decoder: the fields it then copies lie in the buffer, so their
    lengths add up without wrapping, and the check has compared that sum
    with [len]. *)
Lemma ndef_raw_record_decode_consumed (data : list byte) (len : Z) (h h' : heap)
    (r : ndef_raw_record) (n : Z) :
  len < 2 ^ 64 -> zlen data < 2 ^ 64 ->
  ndef_raw_record_decode data len h = Done (Decoded r n, h') ->
  3 <= n <= len.
Proof.
  intros Hlen Hbuf. unfold ndef_raw_record_decode.
  destruct (Z.ltb_spec len 3); [intros E; run_inv|].
  intros E. run_inv. bounds_inv.
  destruct (truthy (Z.land _ NDEF_FLAG_SR)), (truthy (Z.land _ NDEF_FLAG_IL));
    cbn [andb negb Z.b2z] in E;
    repeat first
      [ progress run_inv
      | progress bounds_inv
      | match goal with
        | H : (if ?a <? ?b then _ else _) _ = _ |- _ => destruct (Z.ltb_spec a b)
        | H : (match ?o with Some _ => _ | None => _ end) _ = _ |- _ =>
            destruct o as [[? ?]|]
        end ];
    repeat match goal with
    | H : decode_field _ _ _ _ _ = Done _ |- _ =>
        apply decode_field_bounds in H; [|lia|lia]
    end;
    match goal with
    | H : size_t ?x <= len |- _ => rewrite (size_t_small x) in H by lia
    end; lia.
Qed.

End DecodeBounds.

(** ** The store loops end *)

Section StoreLoops.

Lemma double_until_ends (need : Z) (fuel : nat) (cap : Z) :
  1 <= cap -> need <= 2 ^ 63 -> 2 ^ 63 <= cap * 2 ^ Z.of_nat fuel ->
  exists cap' : Z, double_until fuel cap need = Some cap' /\ cap <= cap' /\ need <= cap'.
Proof.
  intros Hcap Hneed. revert cap Hcap.
  induction fuel as [|f IH]; intros cap Hcap Hbig; simpl double_until.
  - destruct (Z.ltb_spec cap need); [simpl in Hbig; lia|].
    exists cap. repeat split; lia.
  - destruct (Z.ltb_spec cap need).
    + rewrite size_t_small by lia.
      destruct (IH (cap * 2)) as (cap' & E & H1 & H2); [lia| |].
      * rewrite Nat2Z.inj_succ, Z.pow_succ_r in Hbig by lia. lia.
      * exists cap'. repeat split; [exact E|lia|lia].
    + exists cap. repeat split; lia.
Qed.

Lemma double_until_65 (need cap : Z) :
  1 <= cap -> need <= 2 ^ 63 ->
  exists cap' : Z, double_until 65 cap need = Some cap' /\ 1 <= cap'.
Proof.
  intros Hcap Hneed.
  destruct (double_until_ends need 65 cap Hcap Hneed) as (cap' & E & H1 & H2).
  - change (Z.of_nat 65) with 65. lia.
  - exists cap'. split; [exact E|lia].
Qed.

Lemma relocate_not_Spin n a old_len index : relocate n a old_len index <> Spin.
Proof.
  revert a. induction n as [|k IH]; intros a; simpl; [discriminate|].
  destruct (aget a _) eqn:E1; try discriminate.
  - destruct (aset a _ _) eqn:E2; try discriminate; [apply IH|].
    exfalso. exact (aset_not_Spin _ _ _ E2).
  - exfalso. exact (aget_not_Spin _ _ E1).
Qed.

Lemma undo_shift_not_Spin n i a old_len index : undo_shift n i a old_len index <> Spin.
Proof.
  revert i a. induction n as [|k IH]; intros i a; simpl; [discriminate|].
  destruct (aget a _) eqn:E1; try discriminate.
  - destruct (aset a _ _) eqn:E2; try discriminate; [apply IH|].
    exfalso. exact (aset_not_Spin _ _ _ E2).
  - exfalso. exact (aget_not_Spin _ _ E1).
Qed.

Lemma unlink_raw_not_Spin n i a : unlink_raw n i a <> Spin.
Proof.
  revert i a. induction n as [|k IH]; intros i a; simpl; [discriminate|].
  destruct (aget a _) eqn:E1; try discriminate.
  - destruct (aset a _ _) eqn:E2; try discriminate; [apply IH|].
    exfalso. exact (aset_not_Spin _ _ _ E2).
  - exfalso. exact (aget_not_Spin _ _ E1).
Qed.

Lemma ends_copy_from p n : ends (copy_from p n).
Proof. unfold copy_from. ends_tac. Qed.

Lemma ends_clone_fields src p : ends (clone_fields src p).
Proof. unfold clone_fields. pose proof ends_copy_from. ends_tac. Qed.

Lemma ends_ndef_record_destroy r : ends (ndef_record_destroy r).
Proof. unfold ndef_record_destroy. ends_tac. Qed.

Lemma ends_fill n i a index records is_move : ends (fill n i a index records is_move).
Proof.
  revert i a. induction n as [|k IH]; intros i a; simpl.
  - apply ends_ret.
  - pose proof ends_clone_fields. ends_tac.
Qed.

Lemma ends_destroy_clones n a index i : ends (destroy_clones n a index i).
Proof.
  induction n as [|k IH]; simpl.
  - apply ends_ret.
  - pose proof ends_ndef_record_destroy. ends_tac.
Qed.

Lemma ends_realloc_array {A : Type} (junk : A) elt p size :
  ends (realloc_array junk elt p size).
Proof. unfold realloc_array. ends_tac. Qed.

Lemma ends_MAGIC_CHECK ctx : ends (MAGIC_CHECK ctx).
Proof. unfold MAGIC_CHECK. ends_tac. Qed.

End StoreLoops.

#[local] Hint Resolve ends_copy_from ends_clone_fields ends_ndef_record_destroy
  ends_fill ends_destroy_clones ends_MAGIC_CHECK relocate_not_Spin
  undo_shift_not_Spin unlink_raw_not_Spin : ends.

Section InsertShape.

Lemma MAGIC_CHECK_Done (ctx : ndef_ctx) (h h' : heap) (c : ndef_ctx_s) :
  MAGIC_CHECK ctx h = Done (c, h') -> ctx = Some c /\ h' = h /\ magic c = NDEF_MAGIC.
Proof.
  unfold MAGIC_CHECK. destruct ctx as [c0|]; [|discriminate].
  destruct (Z.eqb_spec (magic c0) NDEF_MAGIC); [|discriminate].
  intros E. run_inv. auto.
Qed.

Lemma insert_n_not_Spin (c : ndef_ctx_s) index records len is_move (h : heap) :
  0 <= abs_records_cap c -> 0 <= abs_records_len c + len <= 2 ^ 63 ->
  insert_n (Some c) index records len is_move h <> Spin.
Proof.
  intros Hcap Hlen. unfold insert_n.
  unfold bind at 1, MAGIC_CHECK.
  destruct (magic c =? NDEF_MAGIC); [|discriminate]. unfold ret at 1.
  revert h. apply ends_bind.
  - destruct (_ <? _); [|auto with ends].
    destruct (double_until_65 (size_t (abs_records_len c + len))
                (if abs_records_cap c =? 0 then 1 else abs_records_cap c))
      as (cap' & E & _).
    + destruct (Z.eqb_spec (abs_records_cap c) 0); lia.
    + rewrite size_t_small; lia.
    + rewrite E. pose proof (@ends_realloc_array ndef_record). ends_tac.
  - intros g. ends_tac.
Qed.

Lemma double_until_nonneg (need : Z) (fuel : nat) (cap cap' : Z) :
  0 <= cap -> double_until fuel cap need = Some cap' -> 0 <= cap'.
Proof.
  revert cap. induction fuel as [|f IH]; intros cap Hcap; simpl;
    destruct (cap <? need); try discriminate.
  - intros E; inversion E; lia.
  - apply IH. apply size_t_range.
  - intros E; inversion E; lia.
Qed.

Lemma insert_n_shape (c : ndef_ctx_s) index records len is_move (h h' : heap)
    (b : bool) (c' : ndef_ctx_s) :
  insert_n (Some c) index records len is_move h = Done (b, c', h') ->
  magic c' = magic c
  /\ raw_records_len c' = raw_records_len c
  /\ raw_records_cap c' = raw_records_cap c
  /\ raw_records c' = raw_records c
  /\ (0 <= abs_records_cap c -> 0 <= abs_records_cap c')
  /\ (abs_records_len c' = abs_records_len c
      \/ abs_records_len c' = size_t (abs_records_len c + len)).
Proof.
  unfold insert_n. unfold bind at 1, MAGIC_CHECK.
  destruct (magic c =? NDEF_MAGIC); [|discriminate]. unfold ret at 1.
  intros E. apply bind_Done in E. destruct E as (g & h0 & H & E).
  revert E.
  assert (Hg : forall cg, g = Some cg ->
            magic cg = magic c /\ raw_records_len cg = raw_records_len c
            /\ raw_records_cap cg = raw_records_cap c
            /\ raw_records cg = raw_records c
            /\ abs_records_len cg = abs_records_len c
            /\ (0 <= abs_records_cap c -> 0 <= abs_records_cap cg)).
  { intros cg ->. destruct (abs_records_cap c <? _).
    - destruct (double_until _ _ _) as [cap|] eqn:Ed; run_inv.
      match goal with H1 : (match ?m with Some _ => _ | None => _ end) _ = _ |- _ =>
        destruct m; run_inv end.
      cbn. repeat split; try reflexivity. intros Hc.
      eapply double_until_nonneg; [|exact Ed].
      destruct (abs_records_cap c =? 0); lia.
    - run_inv. repeat split; auto. }
  clear H. intros E. destruct g as [cg|].
  - destruct (Hg cg eq_refl) as (? & ? & ? & ? & ? & ?).
    run_inv.
    match goal with H : (let (_, _) := ?p in _) _ = _ |- _ => destruct p as [i a0] end.
    destruct (negb is_move && (i <? len)); run_inv; cbn;
      repeat split; try congruence; auto.
  - run_inv. repeat split; auto.
Qed.
End InsertShape.

#[local] Hint Resolve ends_ndef_raw_record_decode : ends.

Section DecodeLoop.

Lemma ends_ndef_raw_append ctx record : ends (ndef_raw_append ctx record).
Proof.
  unfold ndef_raw_append. pose proof (@ends_realloc_array ndef_raw_record).
  ends_tac.
Qed.

Lemma ndef_raw_append_shape (ctx : ndef_ctx) record (h h' : heap) (b : bool)
    (c' : ndef_ctx_s) :
  ndef_raw_append ctx record h = Done (b, c', h') ->
  exists c : ndef_ctx_s,
    ctx = Some c
    /\ magic c' = magic c
    /\ abs_records_len c' = abs_records_len c
    /\ abs_records_cap c' = abs_records_cap c
    /\ abs_records c' = abs_records c
    /\ (raw_records_len c' = raw_records_len c
        \/ raw_records_len c' = size_t (raw_records_len c + 1)).
Proof.
  unfold ndef_raw_append. intros E.
  apply bind_Done in E. destruct E as (c & h0 & H & E).
  apply MAGIC_CHECK_Done in H. destruct H as (-> & -> & Hm).
  exists c. split; [reflexivity|].
  destruct (_ <=? _).
  - run_inv.
    match goal with H1 : (match ?m with Some _ => _ | None => _ end) _ = _ |- _ =>
      destruct m; run_inv end; cbn; auto 10.
  - run_inv. cbn. auto 10.
Qed.

(** What is left of a buffer is no longer than the buffer. *)
Lemma zlen_skipn_le (n : nat) (data : list byte) : zlen (skipn n data) <= zlen data.
Proof. unfold zlen. rewrite length_skipn. lia. Qed.

(** The parsing loop: three input bytes at least for every raw record it
    adds; the abstract records are left alone. *)
Lemma decode_loop_shape (fuel : nat) (data : list byte) (len : Z) :
  len < 2 ^ 64 -> zlen data < 2 ^ 64 ->
  forall (pos : Z) (c : ndef_ctx_s) (h h' : heap) (partial : bool) (ctx' : ndef_ctx),
    0 <= pos <= len ->
    0 <= raw_records_len c ->
    decode_loop fuel data len pos (Some c) h = Done (partial, ctx', h') ->
    exists c' : ndef_ctx_s,
      ctx' = Some c'
      /\ 0 <= raw_records_len c'
      /\ 3 * (raw_records_len c' - raw_records_len c) <= len - pos
      /\ abs_records_len c' = abs_records_len c
      /\ abs_records_cap c' = abs_records_cap c
      /\ abs_records c' = abs_records c.
Proof.
  intros Hlen Hbuf.
  induction fuel as [|f IH]; intros pos c h h' partial ctx' Hpos Hraw;
    simpl decode_loop.
  - destruct (Z.ltb_spec pos len); intros E; run_inv.
    exists c. repeat split; lia.
  - destruct (Z.ltb_spec pos len); intros E; run_inv;
      [|exists c; repeat split; lia].
    match goal with H : (match ?r with Decoded _ _ => _ | _ => _ end) _ = _ |- _ =>
      destruct r as [record n| |] end; run_inv;
      try (exists c; repeat split; lia).
    match goal with H : ndef_raw_record_decode _ _ _ = _ |- _ =>
      apply ndef_raw_record_decode_consumed in H;
      [rewrite size_t_small in H by lia | apply size_t_range
      |pose proof (zlen_skipn_le (Z.to_nat pos) data); lia] end.
    match goal with H : (let '(_, _) := ?p in _) _ = _ |- _ =>
      destruct p as [res c1] end.
    match goal with H : ndef_raw_append _ _ _ = _ |- _ =>
      apply ndef_raw_append_shape in H;
      destruct H as (c0 & Hc0 & _ & Ha1 & Ha2 & Ha3 & Hr) end.
    inversion Hc0; subst c0; clear Hc0.
    assert (Hr1 : 0 <= raw_records_len c1 <= raw_records_len c + 1).
    { destruct Hr as [->| ->]; [lia|].
      pose proof (size_t_range (raw_records_len c + 1)).
      unfold size_t in *. pose proof (Z.mod_le (raw_records_len c + 1) (2 ^ 64)).
      lia. }
    destruct res.
    + rewrite size_t_small in * by lia.
      match goal with H : decode_loop _ _ _ _ _ _ = _ |- _ =>
        apply IH in H; [|lia|lia];
        destruct H as (c' & -> & ? & ? & ? & ? & ?) end.
      exists c'. repeat split; try congruence; lia.
    + run_inv. exists c1. repeat split; try congruence; lia.
Qed.
End DecodeLoop.

Section DecodeTerminates.

Lemma decode_loop_fuel (data : list byte) (len : Z) :
  len < 2 ^ 64 -> zlen data < 2 ^ 64 ->
  forall (f1 f2 : nat) (pos : Z) (ctx : ndef_ctx) (h : heap),
    0 <= pos <= len ->
    (Z.to_nat (len - pos) <= f1)%nat -> (Z.to_nat (len - pos) <= f2)%nat ->
    decode_loop f1 data len pos ctx h = decode_loop f2 data len pos ctx h
    /\ decode_loop f1 data len pos ctx h <> Spin.
Proof.
  intros Hlen Hbuf. induction f1 as [|f1 IH]; intros f2 pos ctx h Hpos H1 H2.
  - assert (pos = len) by lia. subst pos.
    destruct f2; simpl; rewrite Z.ltb_irrefl; split; [reflexivity|discriminate |reflexivity|discriminate].
  - destruct f2 as [|f2].
    + assert (pos = len) by lia. subst pos.
      simpl; rewrite Z.ltb_irrefl; split; [reflexivity|discriminate].
    + simpl. destruct (Z.ltb_spec pos len); [|split; [reflexivity|discriminate]].
      unfold bind.
      destruct (ndef_raw_record_decode _ _ h) as [[res h1]| |] eqn:E;
        [|split; [reflexivity|discriminate]|].
      * destruct res as [record n| |]; try (split; [reflexivity|discriminate]).
        apply ndef_raw_record_decode_consumed in E;
          [|apply size_t_range
           |pose proof (zlen_skipn_le (Z.to_nat pos) data); lia].
        rewrite size_t_small in E by lia.
        destruct (ndef_raw_append ctx record h1) as [[[res c1] h2]| |] eqn:Ea;
          [|split; [reflexivity|discriminate]|].
        -- destruct res; [|split; [reflexivity|discriminate]].
           rewrite size_t_small by lia.
           apply IH; lia.
        -- exfalso. exact (ends_ndef_raw_append _ _ _ Ea).
      * exfalso. exact (ends_ndef_raw_record_decode _ _ _ E).
Qed.

Lemma ends_ndef_append_small (c : ndef_ctx_s) (r : ndef_record) (h : heap) :
  0 <= abs_records_cap c -> 0 <= abs_records_len c < 2 ^ 63 ->
  ndef_append (Some c) r h <> Spin.
Proof.
  intros. unfold ndef_append, ndef_insert_n. apply insert_n_not_Spin; lia.
Qed.

Lemma promote_shape (n : nat) :
  forall (i : Z) (c : ndef_ctx_s) (h h' : heap) (c' : ndef_ctx_s),
    0 <= abs_records_len c ->
    promote n i c h = Done (c', h') ->
    raw_records_len c' = raw_records_len c
    /\ 0 <= abs_records_len c' <= abs_records_len c + Z.of_nat n.
Proof.
  induction n as [|k IH]; intros i c h h' c' Habs; simpl promote; intros E.
  - run_inv. lia.
  - run_inv.
    match goal with H : (let '(_, _) := ?p in _) _ = _ |- _ =>
      destruct p as [res c1] end.
    match goal with H : ndef_append _ _ _ = _ |- _ =>
      apply insert_n_shape in H; cbn in H;
      destruct H as (_ & Hr & _ & _ & _ & Hl) end.
    assert (0 <= abs_records_len c1 <= abs_records_len c + 1).
    { destruct Hl as [->| ->]; [lia|].
      pose proof (size_t_range (abs_records_len c + 1)).
      unfold size_t in *. pose proof (Z.mod_le (abs_records_len c + 1) (2 ^ 64)).
      lia. }
    match goal with H : promote _ _ _ _ = _ |- _ =>
      apply IH in H; [|lia]; destruct H as [? ?] end.
    split; [congruence|lia].
Qed.

Lemma promote_not_Spin (n : nat) :
  forall (i : Z) (c : ndef_ctx_s) (h : heap),
    0 <= abs_records_cap c -> 0 <= abs_records_len c ->
    abs_records_len c + Z.of_nat n <= 2 ^ 63 ->
    promote n i c h <> Spin.
Proof.
  induction n as [|k IH]; intros i c h Hcap Habs Hsum; simpl promote; [discriminate|].
  unfold bind, lift.
  destruct (aget _ _) eqn:E1; try discriminate;
    [|exfalso; exact (aget_not_Spin _ _ E1)].
  destruct (aset _ _ _) eqn:E2; try discriminate;
    [|exfalso; exact (aset_not_Spin _ _ _ E2)].
  match goal with |- context [ndef_append ?x ?y h] =>
    destruct (ndef_append x y h) as [[[res c1] h1]| |] eqn:E3 end;
    try discriminate.
  - pose proof E3 as E4.
    apply insert_n_shape in E4. cbn in E4.
    destruct E4 as (_ & _ & _ & _ & Hc & Hl).
    assert (0 <= abs_records_len c1 <= abs_records_len c + 1).
    { destruct Hl as [->| ->]; [lia|].
      pose proof (size_t_range (abs_records_len c + 1)).
      unfold size_t in *. pose proof (Z.mod_le (abs_records_len c + 1) (2 ^ 64)).
      lia. }
    apply IH; lia.
  - exfalso. revert E3. apply ends_ndef_append_small; cbn; lia.
Qed.

End DecodeTerminates.

Section DecodeProgress.

Lemma decode_loop_no_context (fuel : nat) (data : list byte) (len pos : Z)
    (h h' : heap) (partial : bool) (ctx' : ndef_ctx) :
  decode_loop fuel data len pos None h = Done (partial, ctx', h') -> ctx' = None.
Proof.
  destruct fuel as [|f]; simpl; destruct (pos <? len); intros E; run_inv; auto.
  match goal with H : (match ?r with Decoded _ _ => _ | _ => _ end) _ = _ |- _ =>
    destruct r end; run_inv; auto.
Qed.

Lemma ndef_init_Done (h h' : heap) (ctx : ndef_ctx) :
  ndef_init h = Done (ctx, h') ->
  ctx = None \/ ctx = Some (mk_ctx NDEF_MAGIC 0 0 None 0 0 None).
Proof.
  unfold ndef_init. intros E. run_inv.
  match goal with H : (match ?o with Some _ => _ | None => _ end) _ = _ |- _ =>
    destruct o end; run_inv; auto.
Qed.

Lemma ndef_decode_shape (data : list byte) (len : Z) (h h' : heap) (c : ndef_ctx_s) :
  0 <= len < 2 ^ 64 -> zlen data < 2 ^ 64 ->
  ndef_decode (Some data) (Some len) h = Done (Some c, h') ->
  0 <= raw_records_len c <= len / 3 /\ 0 <= abs_records_len c <= len / 3.
Proof.
  intros Hlen Hbuf. unfold ndef_decode.
  destruct (len =? 0); intros E; run_inv.
  match goal with H : (let '(_, _) := ?p in _) _ = _ |- _ =>
    destruct p as [partial ctx1] end.
  destruct ctx1 as [c1|]; run_inv.
  match goal with H : ndef_init _ = _ |- _ =>
    apply ndef_init_Done in H; destruct H as [->| ->] end.
  - match goal with H : decode_loop _ _ _ _ None _ = _ |- _ =>
      apply decode_loop_no_context in H; discriminate H end.
  - match goal with H : decode_loop _ _ _ _ _ _ = _ |- _ =>
      apply decode_loop_shape in H; cbn; [|lia|exact Hbuf|lia|lia];
      destruct H as (c2 & Hc2 & Hr0 & Hr & Ha & _ & _) end.
    inversion Hc2; subst c2; clear Hc2.
    cbn [raw_records_len abs_records_len abs_records_cap] in Hr, Ha.
    match goal with H : promote _ _ _ _ = _ |- _ =>
      apply promote_shape in H; [|lia]; destruct H as [Hr' Ha'] end.
    rewrite Z2Nat.id in Ha' by lia.
    assert (raw_records_len c1 <= len / 3) by (apply Z.div_le_lower_bound; lia).
    lia.
Qed.

Lemma ndef_decode_not_Spin (data : list byte) (len : Z) (h : heap) :
  0 <= len < 2 ^ 64 -> zlen data < 2 ^ 64 ->
  ndef_decode (Some data) (Some len) h <> Spin.
Proof.
  intros Hlen Hbuf. unfold ndef_decode.
  destruct (len =? 0); [discriminate|].
  unfold bind at 1.
  destruct (ndef_init h) as [[ctx h0]| |] eqn:Ei; try discriminate.
  - unfold bind at 1.
    destruct (decode_loop _ _ _ _ _ _) as [[[partial ctx1] h1]| |] eqn:El;
      try discriminate.
    + destruct ctx1 as [c1|]; [|discriminate].
      apply ndef_init_Done in Ei. destruct Ei as [->| ->].
      * apply decode_loop_no_context in El. discriminate El.
      * apply decode_loop_shape in El; cbn; [|lia|exact Hbuf|lia|lia].
        destruct El as (c2 & Hc2 & Hr0 & Hr & Ha & Hcap & _).
        inversion Hc2; subst c2; clear Hc2.
        cbn [raw_records_len abs_records_len abs_records_cap] in Hr, Ha, Hcap.
        unfold bind.
        destruct (promote _ _ _ _) as [[c3 h3]| |] eqn:Ep; try discriminate.
        exfalso. revert Ep. apply promote_not_Spin; try lia.
    + exfalso. revert El.
      apply (decode_loop_fuel data len ltac:(lia) Hbuf (Z.to_nat len) (Z.to_nat len)); lia.
  - exfalso. revert Ei. apply ends_bind; [apply ends_malloc|].
    intros [?|]; apply ends_ret.
Qed.

End DecodeProgress.

(** ** Progress of the message decoder *)

Section MessageDecoder.

(** The bytes of one short record: MIME type ["t"], payload ["abc"]. *)
Definition one_record_bytes : list byte :=
  ["210"; "001"; "003"; "t"; "a"; "b"; "c"]%byte.

(** A buffer of 13 bytes: that record, the first five bytes of a long
    record header, and one more byte.  A caller that supplies 12 of them
    makes the decoder read the byte at index 12 as the last byte of the
    payload length before its length check stops it. *)
Definition record_and_cut_header : list byte :=
  one_record_bytes ++ ["001"; "000"; "000"; "000"; "000"; "000"]%byte.

Lemma records_of_length (c : ndef_ctx_s) :
  0 <= abs_records_len c -> zlen (records_of c) <= abs_records_len c.
Proof.
  intros H. unfold records_of, zlen. destruct (abs_records c); simpl; [|lia].
  rewrite length_firstn. lia.
Qed.

(** C10: every successful single-record decode consumes at least 3 bytes
    and at most the [n] bytes it was told to read, however many more
    bytes the buffer holds behind them: the decoder compares the length
    of the record with [n] before it copies the fields.  The buffer, a C
    object, has fewer than 2^64 bytes ([size_t] counts them), so the
    lengths of the fields that were copied add up without wrapping.  So
    each round of the parsing loop of [ndef_decode] leaves strictly less
    input; the loop ends (more rounds than there are input bytes change
    nothing, and the whole decode never spins); and the message decoded
    from [len] bytes has at most [len / 3] records. *)
Theorem ndef_decode_progress (data : list byte) (len : Z) (h : heap) :
  0 <= len < 2 ^ 64 ->
  zlen data < 2 ^ 64 ->
  (forall (bytes : list byte) (n : Z) (h0 h1 : heap) (r : ndef_raw_record) (k : Z),
      n < 2 ^ 64 ->
      zlen bytes < 2 ^ 64 ->
      ndef_raw_record_decode bytes n h0 = Done (Decoded r k, h1) ->
      3 <= k <= n)
  /\ (forall (pos : Z) (h0 h1 : heap) (r : ndef_raw_record) (k : Z),
        0 <= pos < len ->
        ndef_raw_record_decode (skipn (Z.to_nat pos) data) (size_t (len - pos)) h0
        = Done (Decoded r k, h1) ->
        pos < size_t (pos + k) <= len)
  /\ (forall (fuel : nat) (ctx : ndef_ctx) (h0 : heap),
        (Z.to_nat len <= fuel)%nat ->
        decode_loop fuel data len 0 ctx h0 = decode_loop (Z.to_nat len) data len 0 ctx h0
        /\ decode_loop fuel data len 0 ctx h0 <> Spin)
  /\ ndef_decode (Some data) (Some len) h <> Spin
  /\ (forall (c : ndef_ctx_s) (h' : heap),
        ndef_decode (Some data) (Some len) h = Done (Some c, h') ->
        0 <= abs_records_len c <= len / 3
        /\ zlen (records_of c) <= len / 3).
Proof.
  intros Hlen Hbuf. split; [|split; [|split; [|split]]].
  - intros bytes n h0 h1 r k Hn Hb E.
    exact (ndef_raw_record_decode_consumed _ _ _ _ _ _ Hn Hb E).
  - intros pos h0 h1 r k Hpos E.
    apply ndef_raw_record_decode_consumed in E;
      [|apply size_t_range
       |pose proof (zlen_skipn_le (Z.to_nat pos) data); lia].
    rewrite size_t_small in E by lia. rewrite size_t_small; lia.
  - intros fuel ctx h0 Hfuel.
    apply decode_loop_fuel; lia.
  - apply ndef_decode_not_Spin; assumption.
  - intros c h' E.
    pose proof (ndef_decode_shape _ _ _ _ _ Hlen Hbuf E) as [_ Ha].
    pose proof (records_of_length c). lia.
Qed.

Lemma ndef_decode_progress_witness :
  0 <= 12 < 2 ^ 64
  /\ zlen record_and_cut_header < 2 ^ 64
  /\ (exists (r : ndef_raw_record) (h1 : heap),
        ndef_raw_record_decode record_and_cut_header 12 heap0 = Done (Decoded r 7, h1)
        /\ 3 <= 7 <= 12)
  /\ ndef_decode (Some record_and_cut_header) (Some 12) heap0 <> Spin
  /\ (exists (c : ndef_ctx_s) (h' : heap),
        ndef_decode (Some record_and_cut_header) (Some 12) heap0 = Done (Some c, h')
        /\ abs_records_len c = 1
        /\ 0 <= abs_records_len c <= 12 / 3).
Proof.
  assert (H : 0 <= 12 < 2 ^ 64) by lia.
  assert (Hb : zlen record_and_cut_header < 2 ^ 64) by (vm_compute; reflexivity).
  destruct (ndef_decode_progress record_and_cut_header 12 heap0 H Hb)
    as (Ha & _ & _ & Hc & Hd).
  split; [exact H|]. split; [exact Hb|]. split; [|split; [exact Hc|]].
  - assert (E : exists (r : ndef_raw_record) (h1 : heap),
               ndef_raw_record_decode record_and_cut_header 12 heap0
               = Done (Decoded r 7, h1))
      by (eexists; eexists; vm_compute; reflexivity).
    destruct E as (r & h1 & E). exists r, h1. split; [exact E|].
    exact (Ha record_and_cut_header 12 heap0 h1 r 7 ltac:(lia) Hb E).
  - assert (E : exists (c : ndef_ctx_s) (h' : heap),
               ndef_decode (Some record_and_cut_header) (Some 12) heap0
               = Done (Some c, h')
               /\ abs_records_len c = 1)
      by (eexists; eexists; split; vm_compute; reflexivity).
    destruct E as (c & h' & E & E1). exists c, h'.
    split; [exact E|]. split; [exact E1|].
    exact (proj1 (Hd c h' E)).
Defined.

End MessageDecoder.

(** ** Allocation that succeeds, and C strings *)

Section Allocation.

(** The next [n] allocations succeed. *)
Definition allocs_succeed (n : nat) (h : heap) : Prop :=
  forallb (fun b : bool => b) (firstn n (oracle h)) = true.

Lemma allocs_succeed_heap0 (n : nat) : allocs_succeed n heap0.
Proof. unfold allocs_succeed. destruct n; reflexivity. Qed.

Lemma malloc_succeeds (n : nat) (size : Z) (h : heap) :
  allocs_succeed (S n) h ->
  exists h' : heap,
    malloc size h = Done (Some (next_block h), h')
    /\ allocs_succeed n h'
    /\ next_block h' = next_block h + 1
    /\ live h' = next_block h :: live h.
Proof.
  unfold allocs_succeed, malloc, alloc_ok, bind, ret.
  destruct h as [nb lv o]. simpl.
  destruct o as [|b o]; simpl.
  - intros _. eexists. split; [reflexivity|]. simpl.
    destruct n; auto.
  - destruct b; simpl; [|discriminate]. intros H.
    eexists. split; [reflexivity|]. simpl. auto.
Qed.

End Allocation.

Section CStrings.

Definition nul_free (s : list byte) : Prop := Forall (fun c => c <> x00) s.

Definition is_prefix_of (e s : list byte) : Prop := exists t : list byte, s = e ++ t.

Lemma is_nul_false (c : byte) : c <> x00 -> is_nul c = false.
Proof.
  unfold is_nul. intros H. destruct (Byte.eqb c x00) eqn:E; [|reflexivity].
  apply Byte.byte_dec_bl in E. contradiction.
Qed.

Lemma strlen_cstr (s rest : list byte) :
  nul_free s -> strlen (s ++ x00 :: rest) = Done (zlen s).
Proof.
  induction 1 as [|c s Hc Hs IH]; simpl; [reflexivity|].
  rewrite (is_nul_false c Hc), IH. f_equal. unfold zlen. simpl length. lia.
Qed.

Lemma chars_cstr (s rest : list byte) :
  nul_free s -> chars (s ++ x00 :: rest) = Done s.
Proof.
  intros H. unfold chars. rewrite strlen_cstr by exact H.
  unfold zlen. rewrite Nat2Z.id. f_equal.
  rewrite firstn_app, firstn_all, Nat.sub_diag. simpl. apply app_nil_r.
Qed.

Lemma Z_of_byte_inj (a b : byte) : Z_of_byte a = Z_of_byte b -> a = b.
Proof.
  unfold Z_of_byte. intros H. apply N2Z.inj in H.
  pose proof (Byte.of_to_N a) as Ha. pose proof (Byte.of_to_N b) as Hb.
  rewrite H in Ha. congruence.
Qed.

(** [strncmp] over the length of [e] tells whether [e] starts [s]. *)
Lemma strncmp_prefix (e : list byte) :
  nul_free e ->
  forall (er s rest : list byte),
    nul_free s ->
    exists d : Z,
      strncmp (e ++ er) (s ++ x00 :: rest) (length e) = Done d
      /\ (d = 0 <-> is_prefix_of e s).
Proof.
  induction 1 as [|c e Hc He IH]; intros er s rest Hs; simpl.
  - exists 0. split; [reflexivity|]. split; [|reflexivity].
    intros _. exists s. reflexivity.
  - destruct s as [|c' s]; simpl.
    + destruct (Byte.eqb c x00) eqn:E.
      * apply Byte.byte_dec_bl in E. contradiction.
      * simpl. eexists. split; [reflexivity|]. split.
        -- intros H. exfalso. apply Hc.
           apply Z_of_byte_inj. change (Z_of_byte x00) with 0 in *. lia.
        -- intros [t Ht]. discriminate.
    + inversion Hs as [|? ? Hc' Hs']; subst.
      destruct (Byte.eqb c c') eqn:E; simpl.
      * apply Byte.byte_dec_bl in E. subst c'.
        rewrite (is_nul_false c Hc).
        destruct (IH er s rest Hs') as (d & Hd & Hiff).
        exists d. split; [exact Hd|]. rewrite Hiff. split.
        -- intros [t ->]. exists t. reflexivity.
        -- intros [t Ht]. inversion Ht. exists t. reflexivity.
      * eexists. split; [reflexivity|]. split.
        -- intros H. assert (c = c') by (apply Z_of_byte_inj; lia). subst.
           rewrite (Byte.byte_dec_lb eq_refl) in E. discriminate.
        -- intros [t Ht]. inversion Ht. subst.
           rewrite (Byte.byte_dec_lb eq_refl) in E. discriminate.
Qed.

End CStrings.

(** ** URI records: the abbreviation search *)

Section UriEncode.

(** The prefix strings of the table, the empty one left out. *)
Definition uri_prefixes : list (list byte) :=
  map (@removelast byte) (skipn 1 ndef_uri_abbrev_table).

(** The prefix string with index [k]. *)
Definition uri_prefix (k : Z) : list byte :=
  removelast (nth (Z.to_nat k) ndef_uri_abbrev_table []).

Lemma table_is_terminated_prefixes :
  skipn 1 ndef_uri_abbrev_table = map (fun e => e ++ [x00]) uri_prefixes.
Proof. vm_compute. reflexivity. Qed.

Definition nul_freeb (s : list byte) : bool := forallb (fun c => negb (is_nul c)) s.

Lemma nul_freeb_sound (s : list byte) : nul_freeb s = true -> nul_free s.
Proof.
  unfold nul_freeb, nul_free. rewrite forallb_forall, Forall_forall.
  intros H c Hc ->. specialize (H _ Hc). discriminate.
Qed.

Lemma uri_prefixes_nul_free : Forall nul_free uri_prefixes.
Proof.
  apply Forall_forall. intros e He. apply nul_freeb_sound.
  assert (H : forallb nul_freeb uri_prefixes = true) by (vm_compute; reflexivity).
  rewrite forallb_forall in H. exact (H e He).
Qed.

Lemma uri_prefixes_nonempty (e : list byte) : In e uri_prefixes -> 0 < zlen e.
Proof.
  assert (H : forallb (fun e => 0 <? zlen e) uri_prefixes = true)
    by (vm_compute; reflexivity).
  rewrite forallb_forall in H. intros He. apply Z.ltb_lt. exact (H e He).
Qed.

Lemma uri_prefix_nth (k : nat) (e : list byte) :
  nth_error uri_prefixes k = Some e -> uri_prefix (1 + Z.of_nat k) = e.
Proof.
  intros H. unfold uri_prefix.
  replace (Z.to_nat (1 + Z.of_nat k)) with (S k) by lia.
  assert (Hk : (k < length uri_prefixes)%nat) by (apply nth_error_Some; congruence).
  change (length uri_prefixes) with 35%nat in Hk.
  apply nth_error_nth with (d := []) in H. rewrite <- H.
  do 35 (destruct k as [|k]; [reflexivity|]). lia.
Qed.

Lemma uri_prefix_in (j : Z) :
  1 <= j < NDEF_URI_ABBREVMAX -> In (uri_prefix j) uri_prefixes.
Proof.
  intros Hj. unfold NDEF_URI_ABBREVMAX in Hj.
  assert (E : exists k : nat, j = 1 + Z.of_nat k /\ (k < 35)%nat)
    by (exists (Z.to_nat (j - 1)); lia).
  destruct E as (k & -> & Hk).
  destruct (nth_error uri_prefixes k) as [e|] eqn:E.
  - rewrite (uri_prefix_nth k e E). eapply nth_error_In; eassumption.
  - apply nth_error_None in E. change (length uri_prefixes) with 35%nat in E. lia.
Qed.

(** The search keeps the longest entry that starts the string. *)
Lemma abbrev_search_best (str rest : list byte) :
  nul_free str ->
  forall (es : list (list byte)) (i m ml : Z),
    Forall nul_free es ->
    exists (m' ml' : Z),
      abbrev_search (map (fun e => e ++ [x00]) es) i (str ++ x00 :: rest) m ml
      = Done (m', ml')
      /\ ml <= ml'
      /\ (forall e : list byte, In e es -> is_prefix_of e str -> zlen e <= ml')
      /\ ((m' = m /\ ml' = ml)
          \/ exists (k : nat) (e : list byte),
               nth_error es k = Some e /\ m' = i + Z.of_nat k /\ ml' = zlen e
               /\ is_prefix_of e str).
Proof.
  intros Hstr es. induction es as [|e es IH]; intros i m ml Hes; simpl.
  - exists m, ml. split; [reflexivity|]. split; [lia|]. split; [intros e []|auto].
  - inversion Hes as [|? ? He Hes']; subst.
    rewrite (strlen_cstr e [] He).
    destruct (Z.ltb_spec ml (zlen e)) as [Hlt|Hge].
    + unfold zlen at 1. rewrite Nat2Z.id.
      destruct (strncmp_prefix e He [x00] str rest Hstr) as (d & -> & Hd).
      destruct (Z.eqb_spec d 0) as [Hd0|Hd0].
      * destruct (IH (i + 1) i (zlen e) Hes') as (m' & ml' & E & Hle & Hall & Hcase).
        exists m', ml'. split; [exact E|]. split; [lia|]. split.
        -- intros e' [<-|Hin] Hp; [lia|auto].
        -- right. destruct Hcase as [[-> ->]|(k & e' & Hk & -> & -> & Hp)].
           ++ exists 0%nat, e. simpl. repeat split; try lia. apply Hd. exact Hd0.
           ++ exists (S k), e'. simpl. repeat split; try lia; auto.
      * destruct (IH (i + 1) m ml Hes') as (m' & ml' & E & Hle & Hall & Hcase).
        exists m', ml'. split; [exact E|]. split; [lia|]. split.
        -- intros e' [<-|Hin] Hp; [|auto]. exfalso. apply Hd0, Hd. exact Hp.
        -- destruct Hcase as [[-> ->]|(k & e' & Hk & -> & -> & Hp)]; [auto|].
           right. exists (S k), e'. simpl. repeat split; try lia; auto.
    + destruct (IH (i + 1) m ml Hes') as (m' & ml' & E & Hle & Hall & Hcase).
      exists m', ml'. split; [exact E|]. split; [lia|]. split.
      * intros e' [<-|Hin] Hp; [lia|auto].
      * destruct Hcase as [[-> ->]|(k & e' & Hk & -> & -> & Hp)]; [auto|].
        right. exists (S k), e'. simpl. repeat split; try lia; auto.
Qed.

End UriEncode.

Section UriEncodeTheorem.

Lemma new_uri_run (abbrev : Z) (t rest : list byte) (h : heap) :
  nul_free t -> zlen t + 2 < 2 ^ 64 -> allocs_succeed 2 h ->
  exists h' : heap,
    new_uri abbrev (t ++ x00 :: rest) h
    = Done (mk_record 0 0 NDEF_TNF_WELL_KNOWN 1 (zlen t + 1) 0
                      (Some (mkBlock (next_block h + 1) ["U"%byte]))
                      (Some (mkBlock (next_block h) (byte_of_Z abbrev :: t ++ [x00])))
                      None, h').
Proof.
  intros Ht Hlen Hh. unfold new_uri.
  assert (H0 : 0 <= zlen t) by (unfold zlen; lia).
  unfold bind at 1. unfold lift. rewrite (strlen_cstr t rest Ht).
  destruct (malloc_succeeds 1 (size_t (zlen t + 2)) h Hh) as (h1 & E1 & Hh1 & Hn1 & _).
  unfold bind at 1. rewrite E1.
  unfold bind at 1. rewrite (chars_cstr t rest Ht).
  unfold bind at 1, filled.
  rewrite !size_t_small by lia.
  replace (zlen (byte_of_Z abbrev :: t ++ [x00]) <=? zlen t + 2) with true.
  2:{ symmetry. apply Z.leb_le. unfold zlen. simpl length.
      rewrite length_app. simpl. lia. }
  unfold ret at 1.
  destruct (malloc_succeeds 0 1 h1 Hh1) as (h2 & E2 & _ & _ & _).
  unfold bind at 1. rewrite E2. rewrite Hn1.
  eexists. reflexivity.
Qed.

(** C9: [ndef_record_new_uri] on the string [s] builds a URI record whose
    payload is the index [k] of a table entry followed by the rest of the
    string: that entry starts [s], no entry that starts [s] is longer, and
    [k] is 0, with the whole string following, exactly when no entry from
    1 on starts [s].  For ["http://www.x"], which both ["http://"] (3) and
    ["http://www."] (1) start, the index is 1. *)
Theorem ndef_record_new_uri_longest_prefix (s junk : list byte) (h : heap) :
  nul_free s -> zlen s + 2 < 2 ^ 64 -> allocs_succeed 2 h ->
  (exists (k : Z) (rest : list byte) (r : ndef_record) (h' : heap),
      ndef_record_new_uri (s ++ x00 :: junk) h = Done (r, h')
      /\ tnf r = NDEF_TNF_WELL_KNOWN
      /\ type_len r = 1
      /\ option_map bdata (type r) = Some ["U"%byte]
      /\ payload_len r = zlen rest + 1
      /\ option_map bdata (payload r) = Some (byte_of_Z k :: rest ++ [x00])
      /\ 0 <= k < NDEF_URI_ABBREVMAX
      /\ s = uri_prefix k ++ rest
      /\ (forall j : Z, 1 <= j < NDEF_URI_ABBREVMAX ->
            is_prefix_of (uri_prefix j) s -> zlen (uri_prefix j) <= zlen (uri_prefix k))
      /\ (k = 0 <-> forall j : Z, 1 <= j < NDEF_URI_ABBREVMAX ->
                      ~ is_prefix_of (uri_prefix j) s))
  /\ (is_prefix_of (uri_prefix 3) (bytes_of "http://www.x")
      /\ is_prefix_of (uri_prefix 1) (bytes_of "http://www.x")
      /\ exists (r : ndef_record) (h' : heap),
           ndef_record_new_uri (cstr "http://www.x") heap0 = Done (r, h')
           /\ payload_len r = 2
           /\ option_map bdata (payload r) = Some ["001"; "x"; "000"]%byte).
Proof.
  intros Hs Hlen Hh. split.
  - unfold ndef_record_new_uri. rewrite table_is_terminated_prefixes.
    destruct (abbrev_search_best s junk Hs uri_prefixes 1 0 0 uri_prefixes_nul_free)
      as (m & ml & E & _ & Hall & Hcase).
    unfold bind at 1, lift. rewrite E.
    destruct Hcase as [[-> ->]|(k & e & Hk & -> & -> & (t & ->))].
    + destruct (new_uri_run 0 s junk h Hs Hlen Hh) as (h' & E').
      change (skipn (Z.to_nat 0) (s ++ x00 :: junk)) with (s ++ x00 :: junk).
      exists 0, s. eexists. exists h'. split; [exact E'|].
      cbn [tnf type_len type payload_len payload option_map bdata].
      do 5 (split; [reflexivity|]).
      split; [unfold NDEF_URI_ABBREVMAX; lia|].
      split; [reflexivity|].
      assert (Hno : forall j : Z, 1 <= j < NDEF_URI_ABBREVMAX ->
                      ~ is_prefix_of (uri_prefix j) s).
      { intros j Hj Hp. pose proof (Hall _ (uri_prefix_in j Hj) Hp).
        pose proof (uri_prefixes_nonempty _ (uri_prefix_in j Hj)). lia. }
      split; [intros j Hj Hp; destruct (Hno j Hj Hp)|].
      split; [intros _; exact Hno|reflexivity].
    + assert (Hkr : (k < 35)%nat).
      { change 35%nat with (length uri_prefixes). apply nth_error_Some. congruence. }
      assert (Het : nul_free e /\ nul_free t).
      { unfold nul_free in *. rewrite Forall_app in Hs. exact Hs. }
      destruct Het as [He Ht].
      assert (Hlt : zlen (e ++ t) = zlen e + zlen t).
      { unfold zlen. rewrite length_app. lia. }
      replace (skipn (Z.to_nat (zlen e)) ((e ++ t) ++ x00 :: junk))
        with (t ++ x00 :: junk).
      2:{ unfold zlen. rewrite Nat2Z.id, <- app_assoc, skipn_app, skipn_all,
            Nat.sub_diag. reflexivity. }
      assert (0 <= zlen e) by (unfold zlen; lia).
      destruct (new_uri_run (1 + Z.of_nat k) t junk h Ht ltac:(lia) Hh) as (h' & E').
      exists (1 + Z.of_nat k), t. eexists. exists h'. split; [exact E'|].
      cbn [tnf type_len type payload_len payload option_map bdata].
      rewrite (uri_prefix_nth k e Hk).
      do 3 (split; [reflexivity|]).
      split; [lia|]. split; [reflexivity|].
      split; [unfold NDEF_URI_ABBREVMAX; lia|].
      split; [reflexivity|].
      split; [intros j Hj Hp; exact (Hall _ (uri_prefix_in j Hj) Hp)|].
      split; [lia|].
      intros Hno. exfalso.
      apply (Hno (1 + Z.of_nat k)); [unfold NDEF_URI_ABBREVMAX; lia|].
      rewrite (uri_prefix_nth k e Hk). exists t. reflexivity.
  - split; [exists (bytes_of "www.x"); vm_compute; reflexivity|].
    split; [exists (bytes_of "x"); vm_compute; reflexivity|].
    eexists; eexists. split; [vm_compute; reflexivity|].
    split; vm_compute; reflexivity.
Qed.

Lemma ndef_record_new_uri_longest_prefix_witness :
  nul_free (bytes_of "tel:123")
  /\ zlen (bytes_of "tel:123") + 2 < 2 ^ 64
  /\ allocs_succeed 2 heap0
  /\ exists (k : Z) (rest : list byte) (r : ndef_record) (h' : heap),
       ndef_record_new_uri (bytes_of "tel:123" ++ [x00]) heap0 = Done (r, h')
       /\ option_map bdata (payload r) = Some (byte_of_Z k :: rest ++ [x00])
       /\ bytes_of "tel:123" = uri_prefix k ++ rest.
Proof.
  assert (H1 : nul_free (bytes_of "tel:123"))
    by (apply nul_freeb_sound; vm_compute; reflexivity).
  assert (H2 : zlen (bytes_of "tel:123") + 2 < 2 ^ 64) by (vm_compute; reflexivity).
  assert (H3 : allocs_succeed 2 heap0) by reflexivity.
  destruct (proj1 (ndef_record_new_uri_longest_prefix _ [] heap0 H1 H2 H3))
    as (k & rest & r & h' & E & _ & _ & _ & _ & Ep & _ & Es & _).
  split; [exact H1|]. split; [exact H2|]. split; [exact H3|].
  exists k, rest, r, h'. auto.
Defined.

End UriEncodeTheorem.

(** ** URI records: decoding *)

Section UriDecode.

(** The bytes of [s] before its first zero byte. *)
Fixpoint until_nul (s : list byte) : list byte :=
  match s with
  | [] => []
  | c :: t => if is_nul c then [] else c :: until_nul t
  end.

Lemma until_nul_nul_free (s : list byte) : nul_free s -> until_nul s = s.
Proof.
  induction 1 as [|c s Hc Hs IH]; simpl; [reflexivity|].
  rewrite (is_nul_false c Hc), IH. reflexivity.
Qed.

Lemma until_nul_prefix (s : list byte) : firstn (length (until_nul s)) s = until_nul s.
Proof.
  induction s as [|c s IH]; simpl; [reflexivity|].
  destruct (is_nul c); simpl; [reflexivity|]. rewrite IH. reflexivity.
Qed.

Lemma strnlen_until_nul (n : nat) :
  forall s : list byte,
    (n <= length s)%nat ->
    strnlen s n = Done (zlen (until_nul (firstn n s))).
Proof.
  induction n as [|n IH]; intros s Hn; simpl; [reflexivity|].
  destruct s as [|c s]; simpl in *; [lia|].
  destruct (is_nul c); [reflexivity|].
  rewrite IH by lia. f_equal. unfold zlen. simpl length. lia.
Qed.

Lemma nchars_until_nul (n : Z) (s : list byte) :
  0 <= n <= zlen s ->
  nchars s n = Done (until_nul (firstn (Z.to_nat n) s)).
Proof.
  intros Hn. unfold nchars, zlen in *.
  rewrite strnlen_until_nul by lia.
  unfold zlen. rewrite Nat2Z.id. f_equal.
  set (m := Z.to_nat n).
  assert (G : forall (k : nat) (l : list byte),
             firstn (length (until_nul (firstn k l))) l = until_nul (firstn k l)).
  { induction k as [|k IHk]; intros [|c l]; simpl; try reflexivity.
    destruct (is_nul c); simpl; [reflexivity|]. rewrite IHk. reflexivity. }
  apply G.
Qed.

Lemma table_entry (j : Z) :
  0 <= j < NDEF_URI_ABBREVMAX ->
  lget ndef_uri_abbrev_table j = Done (uri_prefix j ++ [x00])
  /\ nul_free (uri_prefix j).
Proof.
  intros Hj. unfold NDEF_URI_ABBREVMAX in Hj.
  assert (E : exists k : nat, j = Z.of_nat k /\ (k < 36)%nat)
    by (exists (Z.to_nat j); lia).
  destruct E as (k & -> & Hk).
  do 36 (destruct k as [|k];
         [split; [vm_compute; reflexivity
                 |apply nul_freeb_sound; vm_compute; reflexivity]|]).
  lia.
Qed.

Lemma ndef_record_is_uri_true (r : ndef_record) :
  ndef_record_is_uri r = Done true ->
  tnf r = NDEF_TNF_WELL_KNOWN /\ type_len r = 1
  /\ byte_at (type r) 0 = Done (Z_of_byte "U") /\ 2 <= payload_len r.
Proof.
  unfold ndef_record_is_uri, and_then, eq_char.
  destruct (Z.eqb_spec (tnf r) NDEF_TNF_WELL_KNOWN); [|discriminate].
  destruct (Z.eqb_spec (type_len r) 1); [|discriminate].
  destruct (byte_at (type r) 0) as [z| |]; try discriminate.
  destruct (Z.eqb_spec z (Z_of_byte "U")); [|discriminate].
  destruct (Z.leb_spec 2 (payload_len r)); [|discriminate].
  subst. auto.
Qed.

End UriDecode.

Section UriDecodeTheorem.

Lemma bind_lift_Done {A B : Type} (a : A) (k : A -> M B) (h : heap) :
  bind (lift (Done a)) k h = k a h.
Proof. reflexivity. Qed.

Lemma bind_Done_eq {A B : Type} (c : M A) (k : A -> M B) (h h1 : heap) (a : A) :
  c h = Done (a, h1) -> bind c k h = k a h1.
Proof. intros E. unfold bind. rewrite E. reflexivity. Qed.

(** C8 (amended): for a record that [ndef_record_is_uri] accepts, whose
    payload block holds its [payload_len] bytes, payload byte 0 picks the
    table prefix.  When byte 0 is outside the table, [ndef_record_get_uri]
    returns [NULL]; otherwise it returns the prefix followed by payload
    bytes 1 to [payload_len - 1] up to, and without, the first zero byte
    among them, and a terminator.  Nothing beyond [payload_len] is read,
    and when those bytes hold no zero byte they are all there. *)
Theorem ndef_record_get_uri_prefix_and_suffix (r : ndef_record) (b : block) (h : heap) :
  ndef_record_is_uri r = Done true ->
  payload r = Some b ->
  payload_len r <= zlen (bdata b) ->
  payload_len r < 2 ^ 32 ->
  allocs_succeed 1 h ->
  let p0 := Z_of_byte (nth 0 (bdata b) x00) in
  let tail := firstn (Z.to_nat (payload_len r - 1)) (skipn 1 (bdata b)) in
  (NDEF_URI_ABBREVMAX <= p0 -> ndef_record_get_uri r h = Done (None, h))
  /\ (p0 < NDEF_URI_ABBREVMAX ->
      exists h' : heap,
        ndef_record_get_uri r h
        = Done (Some (mkBlock (next_block h) (uri_prefix p0 ++ until_nul tail ++ [x00])), h'))
  /\ (nul_free tail -> until_nul tail = tail).
Proof.
  intros Hu Hb Hfit H32 Hh p0 tail.
  destruct (ndef_record_is_uri_true r Hu) as (_ & _ & _ & H2).
  assert (Hp0 : byte_at (payload r) 0 = Done p0).
  { rewrite Hb. unfold byte_at, deref, rd.
    destruct (Z.leb_spec 0 0), (Z.ltb_spec 0 (zlen (bdata b))); try lia.
    reflexivity. }
  assert (Hrange : 0 <= p0 < 256).
  { unfold p0, Z_of_byte. pose proof (Byte.to_N_bounded (nth 0 (bdata b) x00)). lia. }
  assert (Hrest : 0 <= payload_len r - 1 <= zlen (skipn 1 (bdata b))).
  { unfold zlen in *. rewrite length_skipn. lia. }
  assert (Hsz : size_t (payload_len r - 1) = payload_len r - 1)
    by (apply size_t_small; lia).
  assert (Htail : zlen (until_nul tail) <= payload_len r - 1).
  { unfold tail, zlen.
    assert (G : forall l : list byte, (length (until_nul l) <= length l)%nat).
    { induction l as [|c l IH]; simpl; [lia|]. destruct (is_nul c); simpl; lia. }
    pose proof (G (firstn (Z.to_nat (payload_len r - 1)) (skipn 1 (bdata b)))).
    rewrite length_firstn in *. lia. }
  assert (H0t : 0 <= zlen (until_nul tail)) by (unfold zlen; lia).
  unfold ndef_record_get_uri.
  rewrite Hu, bind_lift_Done; cbv beta iota.
  rewrite Hp0, bind_lift_Done; cbv beta.
  rewrite Hb. unfold deref. rewrite bind_lift_Done; cbv beta zeta.
  split; [|split].
  - intros Hbig. unfold truthy.
    destruct (Z.eqb_spec p0 0); [unfold NDEF_URI_ABBREVMAX in *; lia|]. cbn [negb].
    destruct (Z.leb_spec NDEF_URI_ABBREVMAX p0); [reflexivity|lia].
  - intros Hsmall. unfold truthy.
    destruct (Z.eqb_spec p0 0) as [Hz|Hnz]; cbn [negb]; cbv iota.
    + unfold strndup.
      rewrite Hsz, (nchars_until_nul _ _ Hrest), bind_lift_Done; cbv beta. fold tail.
      destruct (malloc_succeeds 0 (size_t (zlen (until_nul tail) + 1)) h Hh)
        as (h' & E & _).
      rewrite (bind_Done_eq _ _ _ _ _ E).
      exists h'. rewrite Hz. reflexivity.
    + destruct (Z.leb_spec NDEF_URI_ABBREVMAX p0); [lia|].
      destruct (table_entry p0 ltac:(lia)) as [Ht Hnf].
      rewrite Ht, bind_lift_Done; cbv beta.
      rewrite (strlen_cstr _ [] Hnf), bind_lift_Done; cbv beta.
      rewrite Hsz, strnlen_until_nul by (unfold zlen in Hrest; lia).
      rewrite bind_lift_Done; cbv beta. fold tail.
      assert (Hpre : zlen (uri_prefix p0) <= 26).
      { assert (G : forallb (fun e => zlen e <=? 26)
                      (map (@removelast byte) ndef_uri_abbrev_table) = true)
          by (vm_compute; reflexivity).
        rewrite forallb_forall in G. apply Z.leb_le, G.
        unfold uri_prefix. apply in_map, nth_In.
        change (length ndef_uri_abbrev_table) with 36%nat.
        unfold NDEF_URI_ABBREVMAX in *. lia. }
      assert (0 <= zlen (uri_prefix p0)) by (unfold zlen; lia).
      rewrite (size_t_small (zlen (uri_prefix p0) + zlen (until_nul tail))) by lia.
      rewrite size_t_small by lia.
      destruct (malloc_succeeds 0 (zlen (uri_prefix p0) + zlen (until_nul tail) + 1) h Hh)
        as (h' & E & _).
      rewrite (bind_Done_eq _ _ _ _ _ E).
      rewrite (chars_cstr _ [] Hnf), bind_lift_Done; cbv beta.
      rewrite (nchars_until_nul _ _ Hrest), bind_lift_Done; cbv beta. fold tail.
      unfold filled.
      replace (zlen (uri_prefix p0 ++ until_nul tail ++ [x00])
               <=? zlen (uri_prefix p0) + zlen (until_nul tail) + 1) with true.
      2:{ symmetry. apply Z.leb_le. unfold zlen. rewrite !length_app. simpl. lia. }
      exists h'. reflexivity.
  - apply until_nul_nul_free.
Qed.

(** A URI record with payload [05 '1' '2']: ["tel:12"]. *)
Definition uri_tel_12 : ndef_record :=
  mk_record 0 0 NDEF_TNF_WELL_KNOWN 1 3 0
            (Some (mkBlock 21 (bytes_of "U")))
            (Some (mkBlock 22 ["005"; "1"; "2"]%byte)) None.

(** A URI record whose payload [00 'a' 00 'b'] holds a zero byte. *)
Definition uri_with_zero : ndef_record :=
  mk_record 0 0 NDEF_TNF_WELL_KNOWN 1 4 0
            (Some (mkBlock 21 (bytes_of "U")))
            (Some (mkBlock 22 ["000"; "a"; "000"; "b"]%byte)) None.

Definition uri_heap : heap := mkHeap 100 [21; 22] [].

Lemma ndef_record_get_uri_prefix_and_suffix_witness :
  ndef_record_is_uri uri_tel_12 = Done true
  /\ payload uri_tel_12 = Some (mkBlock 22 ["005"; "1"; "2"]%byte)
  /\ payload_len uri_tel_12 <= zlen ["005"; "1"; "2"]%byte
  /\ payload_len uri_tel_12 < 2 ^ 32
  /\ allocs_succeed 1 uri_heap
  /\ exists h' : heap,
       ndef_record_get_uri uri_tel_12 uri_heap
       = Done (Some (mkBlock 100 (bytes_of "tel:12" ++ [x00])), h').
Proof.
  assert (H1 : ndef_record_is_uri uri_tel_12 = Done true) by reflexivity.
  assert (H2 : payload uri_tel_12 = Some (mkBlock 22 ["005"; "1"; "2"]%byte))
    by reflexivity.
  assert (H3 : payload_len uri_tel_12 <= zlen (bdata (mkBlock 22 ["005"; "1"; "2"]%byte)))
    by (vm_compute; discriminate).
  assert (H4 : payload_len uri_tel_12 < 2 ^ 32) by (vm_compute; reflexivity).
  assert (H5 : allocs_succeed 1 uri_heap) by reflexivity.
  destruct (ndef_record_get_uri_prefix_and_suffix uri_tel_12 _ uri_heap H1 H2 H3 H4 H5)
    as (_ & Hsmall & _).
  split; [exact H1|]. split; [exact H2|]. split; [exact H3|].
  split; [exact H4|]. split; [exact H5|].
  apply Hsmall. vm_compute. reflexivity.
Defined.

(** C8 (as stated, it fails): the record with payload [00 'a' 00 'b'] is a
    URI record, and its payload bytes 1 to 3 are ['a'; 00; 'b'], but the
    string [ndef_record_get_uri] returns is ["a"]: [strndup] stops at the
    zero byte. *)
Lemma ndef_record_get_uri_cut_at_zero_byte :
  ndef_record_is_uri uri_with_zero = Done true
  /\ payload_len uri_with_zero = 4
  /\ option_map (fun b => firstn 3 (skipn 1 (bdata b))) (payload uri_with_zero)
     = Some ["a"; "000"; "b"]%byte
  /\ exists (b : block) (h' : heap),
       ndef_record_get_uri uri_with_zero uri_heap = Done (Some b, h')
       /\ bdata b = ["a"; "000"]%byte
       /\ chars (bdata b) = Done ["a"%byte]
       /\ bdata b <> ["a"; "000"; "b"; "000"]%byte.
Proof.
  split; [reflexivity|]. split; [reflexivity|]. split; [reflexivity|].
  eexists; eexists. split; [vm_compute; reflexivity|].
  split; [reflexivity|]. split; [reflexivity|]. discriminate.
Qed.

End UriDecodeTheorem.

(** ** Encoding and decoding one record when allocation succeeds *)

Section CalmHeap.

(** The heap after one more block was allocated. *)
Definition grown (h : heap) : heap :=
  mkHeap (next_block h + 1) (next_block h :: live h) (oracle h).

Definition is_live (a : Z) (h : heap) : Prop := existsb (Z.eqb a) (live h) = true.

Lemma malloc_calm (n : Z) (h : heap) :
  oracle h = [] -> malloc n h = Done (Some (next_block h), grown h).
Proof.
  intros Ho. unfold malloc, alloc_ok, bind, ret, grown. rewrite Ho.
  destruct h; simpl in *; subst; reflexivity.
Qed.

Lemma realloc_calm (a : Z) (n : Z) (h : heap) :
  oracle h = [] -> is_live a h -> realloc (Some a) n h = Done (Some a, h).
Proof.
  intros Ho Ha. unfold realloc, alloc_ok, bind, ret. rewrite Ho.
  unfold is_live in Ha. rewrite Ha. destruct h; simpl in *; subst; reflexivity.
Qed.

Lemma is_live_grown_new (h : heap) : is_live (next_block h) (grown h).
Proof. unfold is_live, grown. simpl. rewrite Z.eqb_refl. reflexivity. Qed.

Lemma is_live_grown (a : Z) (h : heap) : is_live a h -> is_live a (grown h).
Proof. unfold is_live, grown. simpl. intros ->. apply orb_true_r. Qed.

Lemma oracle_grown (h : heap) : oracle (grown h) = oracle h.
Proof. reflexivity. Qed.

End CalmHeap.

Section OutputStream.

(** An output stream in its normal state on a heap where allocation
    succeeds: the buffer is allocated and not more than twice too big. *)
Definition ostream_ok (out : ndef_ostream) (h : heap) : Prop :=
  oracle h = []
  /\ buf_len out <= buf_cap out <= 2 * buf_len out + 1
  /\ match buf out with
     | Some a => is_live a h
     | None => buf_cap out = 0
     end.

Lemma double_until_tight (need : Z) (fuel : nat) (cap cap' : Z) :
  1 <= cap < need -> need <= 2 ^ 63 ->
  double_until fuel cap need = Some cap' -> need <= cap' < 2 * need.
Proof.
  intros Hcap Hneed. revert cap Hcap.
  induction fuel as [|f IH]; intros cap Hcap; simpl double_until;
    destruct (Z.ltb_spec cap need); try lia; try discriminate.
  rewrite size_t_small by lia.
  destruct (Z.ltb_spec (cap * 2) need) as [Hlt|Hge].
  - apply IH. lia.
  - destruct f; simpl double_until; destruct (Z.ltb_spec (cap * 2) need); try lia;
      intros E; inversion E; lia.
Qed.

Lemma ostream_append_ok (out : ndef_ostream) (z : Z) (h : heap) :
  ostream_ok out h -> buf_len out < 2 ^ 62 ->
  exists (out' : ndef_ostream) (h' : heap),
    ndef_ostream_append out z h = Done (true, out', h')
    /\ contents out' = contents out ++ [byte_of_Z z]
    /\ ostream_ok out' h'
    /\ 1 <= buf_cap out'.
Proof.
  unfold ostream_ok, buf_len. intros (Ho & Hcap & Hbuf) Hlen.
  assert (H0 : 0 <= zlen (contents out)) by (unfold zlen; lia).
  assert (Hlen' : forall x, zlen (contents out ++ [x]) = zlen (contents out) + 1).
  { intros. unfold zlen. rewrite length_app. simpl. lia. }
  unfold ndef_ostream_append, buf_len.
  destruct (Z.leb_spec (buf_cap out) (zlen (contents out))) as [Hfull|Hroom].
  - rewrite size_t_small by lia.
    set (cap := if buf_cap out * 2 =? 0 then 1 else buf_cap out * 2).
    assert (Hc : zlen (contents out) < cap <= 2 * (zlen (contents out) + 1) + 1
                 /\ 1 <= cap).
    { unfold cap. destruct (Z.eqb_spec (buf_cap out * 2) 0); lia. }
    destruct (buf out) as [a|] eqn:Eb.
    + rewrite (bind_Done_eq _ _ _ _ _ (realloc_calm a cap h Ho Hbuf)).
      cbv beta iota zeta. cbn [buf buf_cap contents].
      destruct (Z.ltb_spec (zlen (contents out)) cap); [|lia].
      eexists; eexists. split; [reflexivity|]. cbn [buf buf_cap contents].
      rewrite Hlen'. repeat split; try assumption; lia.
    + unfold realloc. rewrite (bind_Done_eq _ _ _ _ _ (malloc_calm cap h Ho)).
      cbv beta iota zeta. cbn [buf buf_cap contents].
      destruct (Z.ltb_spec (zlen (contents out)) cap); [|lia].
      eexists; eexists. split; [reflexivity|]. cbn [buf buf_cap contents].
      rewrite Hlen'. repeat split; try assumption; try lia.
      apply is_live_grown_new.
  - cbv beta iota zeta.
    destruct (Z.ltb_spec (zlen (contents out)) (buf_cap out)); [|lia].
    eexists; eexists. split; [reflexivity|]. cbn [buf buf_cap contents].
    rewrite Hlen'. repeat split; try assumption; lia.
Qed.

Lemma ostream_append_n_ok (out : ndef_ostream) (b : block) (n : Z) (h : heap) :
  ostream_ok out h -> 1 <= buf_cap out ->
  0 <= n <= zlen (bdata b) -> buf_len out + n < 2 ^ 62 ->
  exists (out' : ndef_ostream) (h' : heap),
    ndef_ostream_append_n out (Some b) n h = Done (true, out', h')
    /\ contents out' = contents out ++ firstn (Z.to_nat n) (bdata b)
    /\ ostream_ok out' h'
    /\ 1 <= buf_cap out'.
Proof.
  unfold ostream_ok, buf_len. intros (Ho & Hcap & Hbuf) Hnonempty Hn Hlen.
  assert (H0 : 0 <= zlen (contents out)) by (unfold zlen; lia).
  assert (Hlen' : zlen (contents out ++ firstn (Z.to_nat n) (bdata b))
                  = zlen (contents out) + n).
  { unfold zlen in *. rewrite length_app, length_firstn. lia. }
  assert (Hcopy : memcpy_src (bdata b) (zlen (bdata b)) 0 n
                  = Done (firstn (Z.to_nat n) (bdata b))).
  { unfold memcpy_src.
    destruct (Z.leb_spec 0 0), (Z.leb_spec 0 n), (Z.leb_spec (0 + n) (zlen (bdata b)));
      try lia. reflexivity. }
  destruct (buf out) as [a|] eqn:Eb; [|lia].
  unfold ndef_ostream_append_n, buf_len.
  destruct (Z.eqb_spec (buf_cap out) 0); [lia|].
  rewrite size_t_small by lia.
  destruct (Z.ltb_spec (buf_cap out) (zlen (contents out) + n)) as [Hsmall|Hroom].
  - destruct (double_until 65 (buf_cap out) (zlen (contents out) + n)) as [cap|] eqn:Ed.
    2:{ destruct (double_until_65 (zlen (contents out) + n) (buf_cap out)) as (c & E & _);
          [lia|lia|]. congruence. }
    apply double_until_tight in Ed; [|lia|lia].
    rewrite Eb, (bind_Done_eq _ _ _ _ _ (realloc_calm a cap h Ho Hbuf)).
    cbv beta iota zeta. unfold deref. rewrite bind_lift_Done. cbv beta.
    rewrite Hcopy, bind_lift_Done. cbv beta. cbn [buf buf_cap contents].
    destruct (Z.leb_spec (zlen (contents out) + n) cap); [|lia].
    eexists; eexists. split; [reflexivity|]. cbn [buf buf_cap contents].
    rewrite Hlen'. repeat split; try assumption; lia.
  - cbv beta iota zeta. unfold deref. rewrite bind_lift_Done. cbv beta.
    rewrite Hcopy, bind_lift_Done. cbv beta.
    destruct (Z.leb_spec (zlen (contents out) + n) (buf_cap out)); [|lia].
    eexists; eexists. split; [reflexivity|]. cbn [buf buf_cap contents].
    rewrite Hlen', Eb. repeat split; try assumption; lia.
Qed.

End OutputStream.

Section RecordOnTheWire.

(** The first [n] bytes behind [p]: the bytes of a record field. *)
Definition field_bytes (p : ptr) (n : Z) : list byte :=
  match p with
  | Some b => firstn (Z.to_nat n) (bdata b)
  | None => []
  end.

(** A field of [n] bytes has a buffer that holds them. *)
Definition field_ok (p : ptr) (n : Z) : Prop :=
  n = 0 \/ exists b : block, p = Some b /\ n <= zlen (bdata b).

(** A record as the data model has it. *)
Definition well_formed (r : ndef_record) : Prop :=
  0 <= tnf r < 8
  /\ 0 <= type_len r < 256
  /\ 0 <= payload_len r < 2 ^ 32
  /\ 0 <= id_len r < 256
  /\ field_ok (type r) (type_len r)
  /\ field_ok (payload r) (payload_len r)
  /\ field_ok (id r) (id_len r).

Definition flags_byte (raw : ndef_raw_record) : Z :=
  let flags := 0 in
  let flags := uint8_t (Z.lor flags (NDEF_FLAG_MB * Z.b2z (flag_begin raw))) in
  let flags := uint8_t (Z.lor flags (NDEF_FLAG_ME * Z.b2z (flag_end raw))) in
  let flags := uint8_t (Z.lor flags (NDEF_FLAG_CF * Z.b2z (flag_chunked raw))) in
  let flags := uint8_t (Z.lor flags (NDEF_FLAG_SR * Z.b2z (flag_short_record raw))) in
  let flags := uint8_t (Z.lor flags (NDEF_FLAG_IL * Z.b2z (flag_include_id_len raw))) in
  uint8_t (Z.lor flags (Z.land NDEF_FLAG_TNF (tnf (abstract raw)))).

Definition length_bytes (short : bool) (n : Z) : list byte :=
  if short
  then [byte_of_Z n]
  else [byte_of_Z (Z.shiftr n 24); byte_of_Z (Z.shiftr n 16);
        byte_of_Z (Z.shiftr n 8); byte_of_Z (Z.shiftr n 0)].

(** The bytes of a raw record on the wire. *)
Definition wire_bytes (raw : ndef_raw_record) : list byte :=
  let r := abstract raw in
  [byte_of_Z (flags_byte raw); byte_of_Z (type_len r)]
  ++ length_bytes (flag_short_record raw) (payload_len r)
  ++ (if flag_include_id_len raw then [byte_of_Z (id_len r)] else [])
  ++ field_bytes (type r) (type_len r)
  ++ field_bytes (payload r) (payload_len r)
  ++ field_bytes (id r) (id_len r).

Lemma append_field_ok (out : ndef_ostream) (p : ptr) (n : Z) (h : heap) :
  ostream_ok out h -> 1 <= buf_cap out -> 0 <= n -> field_ok p n ->
  buf_len out + n < 2 ^ 62 ->
  exists (out' : ndef_ostream) (h' : heap),
    (if truthy n then ndef_ostream_append_n out p n else ret (true, out)) h
    = Done (true, out', h')
    /\ contents out' = contents out ++ field_bytes p n
    /\ ostream_ok out' h'
    /\ 1 <= buf_cap out'.
Proof.
  intros Hok Hcap Hn Hf Hlen. unfold truthy.
  destruct (Z.eqb_spec n 0) as [->|Hnz]; cbn [negb].
  - exists out, h. split; [reflexivity|].
    split; [|auto]. unfold field_bytes. destruct p; simpl; rewrite app_nil_r; reflexivity.
  - destruct Hf as [?|(b & -> & Hb)]; [contradiction|].
    apply ostream_append_n_ok; auto; lia.
Qed.

Lemma append_length_ok (out : ndef_ostream) (short : bool) (n : Z) (h : heap) :
  ostream_ok out h -> buf_len out + 4 < 2 ^ 62 ->
  exists (out' : ndef_ostream) (h' : heap),
    (if short
     then
       '(_, out) <- ndef_ostream_append out n ;;
       ret (true, out)
     else
       '(r3, out) <- ndef_ostream_append out (Z.shiftr n 24) ;;
       '(r2, out) <- ndef_ostream_append out (Z.shiftr n 16) ;;
       '(r1, out) <- ndef_ostream_append out (Z.shiftr n 8) ;;
       '(r0, out) <- ndef_ostream_append out (Z.shiftr n 0) ;;
       ret (r3 && r2 && r1 && r0, out)) h
    = Done (true, out', h')
    /\ contents out' = contents out ++ length_bytes short n
    /\ ostream_ok out' h'
    /\ 1 <= buf_cap out'.
Proof.
  intros Hok Hlen. destruct short.
  - destruct (ostream_append_ok out n h Hok ltac:(lia)) as (o1 & h1 & E1 & C1 & K1 & P1).
    rewrite (bind_Done_eq _ _ _ _ _ E1). exists o1, h1. auto.
  - destruct (ostream_append_ok out (Z.shiftr n 24) h Hok ltac:(lia))
      as (o1 & h1 & E1 & C1 & K1 & P1).
    assert (L1 : buf_len o1 = buf_len out + 1)
      by (unfold buf_len, zlen; rewrite C1, length_app; simpl; lia).
    destruct (ostream_append_ok o1 (Z.shiftr n 16) h1 K1 ltac:(lia))
      as (o2 & h2 & E2 & C2 & K2 & P2).
    assert (L2 : buf_len o2 = buf_len o1 + 1)
      by (unfold buf_len, zlen; rewrite C2, length_app; simpl; lia).
    destruct (ostream_append_ok o2 (Z.shiftr n 8) h2 K2 ltac:(lia))
      as (o3 & h3 & E3 & C3 & K3 & P3).
    assert (L3 : buf_len o3 = buf_len o2 + 1)
      by (unfold buf_len, zlen; rewrite C3, length_app; simpl; lia).
    destruct (ostream_append_ok o3 (Z.shiftr n 0) h3 K3 ltac:(lia))
      as (o4 & h4 & E4 & C4 & K4 & P4).
    rewrite (bind_Done_eq _ _ _ _ _ E1). cbv beta iota.
    rewrite (bind_Done_eq _ _ _ _ _ E2). cbv beta iota.
    rewrite (bind_Done_eq _ _ _ _ _ E3). cbv beta iota.
    rewrite (bind_Done_eq _ _ _ _ _ E4). cbv beta iota.
    exists o4, h4. split; [reflexivity|]. split; [|auto].
    rewrite C4, C3, C2, C1. unfold length_bytes. rewrite <- !app_assoc. reflexivity.
Qed.

End RecordOnTheWire.

Section RecordEncode.

Lemma zlen_app {A : Type} (l1 l2 : list A) : zlen (l1 ++ l2) = zlen l1 + zlen l2.
Proof. unfold zlen. rewrite length_app. lia. Qed.

Lemma zlen_field_bytes (p : ptr) (n : Z) :
  0 <= n -> zlen (field_bytes p n) <= n.
Proof.
  intros Hn. unfold field_bytes, zlen. destruct p; simpl; [|lia].
  rewrite length_firstn. lia.
Qed.

Lemma ndef_raw_record_encode_ok (out : ndef_ostream) (raw : ndef_raw_record) (h : heap) :
  ostream_ok out h ->
  well_formed (abstract raw) ->
  flag_include_id_len raw = truthy (id_len (abstract raw)) ->
  buf_len out < 2 ^ 61 ->
  exists (out' : ndef_ostream) (h' : heap),
    ndef_raw_record_encode out raw h = Done (true, out', h')
    /\ contents out' = contents out ++ wire_bytes raw
    /\ ostream_ok out' h'
    /\ 1 <= buf_cap out'.
Proof.
  intros Hok (Ht & Htl & Hpl & Hil & Fty & Fpl & Fid) Hflag Hlen.
  unfold ndef_raw_record_encode. cbv zeta. fold (flags_byte raw).
  set (r := abstract raw) in *.
  destruct (ostream_append_ok out (flags_byte raw) h Hok ltac:(lia))
    as (o1 & h1 & E1 & C1 & K1 & P1).
  assert (L1 : buf_len o1 = buf_len out + 1)
    by (unfold buf_len; rewrite C1, zlen_app; reflexivity).
  rewrite (bind_Done_eq _ _ _ _ _ E1). cbv beta iota. cbn [negb].
  destruct (ostream_append_ok o1 (type_len r) h1 K1 ltac:(lia))
    as (o2 & h2 & E2 & C2 & K2 & P2).
  assert (L2 : buf_len o2 = buf_len out + 2)
    by (unfold buf_len in *; rewrite C2, zlen_app, L1; change (zlen [_]) with 1; lia).
  rewrite (bind_Done_eq _ _ _ _ _ E2). cbv beta iota. cbn [negb].
  destruct (append_length_ok o2 (flag_short_record raw) (payload_len r) h2 K2 ltac:(lia))
    as (o3 & h3 & E3 & C3 & K3 & P3).
  assert (L3 : buf_len o3 <= buf_len out + 6).
  { unfold buf_len in *. rewrite C3, zlen_app, L2.
    unfold length_bytes. destruct (flag_short_record raw); unfold zlen; simpl; lia. }
  rewrite (bind_Done_eq _ _ _ _ _ E3). cbv beta iota. cbn [negb].
  assert (S4 : exists (o4 : ndef_ostream) (h4 : heap),
             (if flag_include_id_len raw
              then ndef_ostream_append o3 (id_len r)
              else ret (true, o3)) h3 = Done (true, o4, h4)
             /\ contents o4
                = contents o3 ++ (if flag_include_id_len raw then [byte_of_Z (id_len r)] else [])
             /\ ostream_ok o4 h4 /\ 1 <= buf_cap o4).
  { destruct (flag_include_id_len raw).
    - apply ostream_append_ok; [exact K3|lia].
    - exists o3, h3. rewrite app_nil_r. auto. }
  destruct S4 as (o4 & h4 & E4 & C4 & K4 & P4).
  assert (L4 : buf_len o4 <= buf_len out + 7).
  { unfold buf_len in *. rewrite C4, zlen_app.
    destruct (flag_include_id_len raw); unfold zlen at 2; simpl; lia. }
  rewrite (bind_Done_eq _ _ _ _ _ E4). cbv beta iota. cbn [negb].
  assert (B0 : 0 <= buf_len out) by (unfold buf_len, zlen; lia).
  destruct (append_field_ok o4 (type r) (type_len r) h4 K4 P4 ltac:(lia) Fty ltac:(lia))
    as (o5 & h5 & E5 & C5 & K5 & P5).
  assert (L5 : buf_len o5 <= buf_len out + 7 + type_len r).
  { unfold buf_len in *. rewrite C5, zlen_app.
    pose proof (zlen_field_bytes (type r) (type_len r)). lia. }
  rewrite (bind_Done_eq _ _ _ _ _ E5). cbv beta iota. cbn [negb].
  destruct (append_field_ok o5 (payload r) (payload_len r) h5 K5 P5 ltac:(lia) Fpl ltac:(lia))
    as (o6 & h6 & E6 & C6 & K6 & P6).
  assert (L6 : buf_len o6 <= buf_len out + 7 + type_len r + payload_len r).
  { unfold buf_len in *. rewrite C6, zlen_app.
    pose proof (zlen_field_bytes (payload r) (payload_len r)). lia. }
  rewrite (bind_Done_eq _ _ _ _ _ E6). cbv beta iota. cbn [negb].
  destruct (append_field_ok o6 (id r) (id_len r) h6 K6 P6 ltac:(lia) Fid ltac:(lia))
    as (o7 & h7 & E7 & C7 & K7 & P7).
  rewrite Hflag, andb_diag.
  rewrite (bind_Done_eq _ _ _ _ _ E7). cbv beta iota. cbn [negb].
  exists o7, h7. split; [reflexivity|]. split; [|split; [exact K7|exact P7]].
  rewrite C7, C6, C5, C4, C3, C2, C1. unfold wire_bytes. fold r.
  rewrite <- !app_assoc. reflexivity.
Qed.

End RecordEncode.

Section BytesAndBits.

Lemma Z_of_byte_range (b : byte) : 0 <= Z_of_byte b < 256.
Proof. unfold Z_of_byte. pose proof (Byte.to_N_bounded b). lia. Qed.

Lemma Z_of_byte_of_Z (z : Z) : Z_of_byte (byte_of_Z z) = uint8_t z.
Proof.
  unfold byte_of_Z, Z_of_byte, uint8_t.
  pose proof (Z.mod_pos_bound z 256 ltac:(lia)) as Hr.
  destruct (Byte.of_N (Z.to_N (z mod 256))) as [b|] eqn:E.
  - apply Byte.to_of_N in E. rewrite E. lia.
  - apply Byte.of_N_None_iff in E. lia.
Qed.

Lemma uint8_t_small (z : Z) : 0 <= z < 256 -> uint8_t z = z.
Proof. intros. unfold uint8_t. apply Z.mod_small. lia. Qed.

Lemma rd_nth_ok (data : list byte) (len pos : Z) :
  0 <= pos < len -> pos < zlen data ->
  rd data len pos = Done (Z_of_byte (nth (Z.to_nat pos) data x00)).
Proof.
  intros H1 H2. unfold rd.
  destruct (Z.leb_spec 0 pos), (Z.ltb_spec pos len), (Z.ltb_spec pos (zlen data));
    try lia. reflexivity.
Qed.

(** The flags byte gives back the five flags and a TNF below 8. *)
Lemma flags_byte_decode (raw : ndef_raw_record) :
  0 <= tnf (abstract raw) < 8 ->
  let f := uint8_t (flags_byte raw) in
  truthy (Z.land f NDEF_FLAG_MB) = flag_begin raw
  /\ truthy (Z.land f NDEF_FLAG_ME) = flag_end raw
  /\ truthy (Z.land f NDEF_FLAG_CF) = flag_chunked raw
  /\ truthy (Z.land f NDEF_FLAG_SR) = flag_short_record raw
  /\ truthy (Z.land f NDEF_FLAG_IL) = flag_include_id_len raw
  /\ Z.land f NDEF_FLAG_TNF = tnf (abstract raw).
Proof.
  destruct raw as [r ai fb fe fc fs fi]. destruct r as [ri rl t tl pl il ty pa idp].
  cbn [abstract tnf]. intros Ht. unfold flags_byte.
  cbn [abstract tnf flag_begin flag_end flag_chunked flag_short_record flag_include_id_len].
  assert (Hc : t = 0 \/ t = 1 \/ t = 2 \/ t = 3 \/ t = 4 \/ t = 5 \/ t = 6 \/ t = 7) by lia.
  destruct fb, fe, fc, fs, fi;
    repeat (destruct Hc as [->|Hc]; [vm_compute; repeat split; reflexivity|]);
    subst t; vm_compute; repeat split; reflexivity.
Qed.

Lemma land_shiftl_low (hi lo k : Z) :
  0 <= k -> 0 <= lo < 2 ^ k -> Z.land (Z.shiftl hi k) lo = 0.
Proof.
  intros Hk Hlo. apply Z.bits_inj'. intros n Hn.
  rewrite Z.land_spec, Z.bits_0.
  destruct (Z.ltb_spec n k).
  - rewrite Z.shiftl_spec_low by lia. reflexivity.
  - replace (Z.testbit lo n) with false; [apply andb_false_r|].
    symmetry. destruct (Z.eqb_spec lo 0) as [->|Hnz]; [apply Z.bits_0|].
    apply Z.bits_above_log2; [lia|].
    apply Z.log2_lt_pow2; [lia|].
    apply Z.lt_le_trans with (2 ^ k); [lia|]. apply Z.pow_le_mono_r; lia.
Qed.

Lemma lor_shiftl_add (hi lo k : Z) :
  0 <= k -> 0 <= lo < 2 ^ k -> Z.lor (Z.shiftl hi k) lo = hi * 2 ^ k + lo.
Proof.
  intros Hk Hlo.
  pose proof (Z.add_lor_land (Z.shiftl hi k) lo) as H.
  rewrite land_shiftl_low in H by assumption.
  rewrite Z.shiftl_mul_pow2 in * by lia. lia.
Qed.

End BytesAndBits.

Section LengthOnTheWire.

(** The payload length the decoder computes from the four length bytes of
    a long record. *)
Definition long_length (n : Z) : Z :=
  let b3 := uint8_t (Z.shiftr n 24) in
  let b2 := uint8_t (Z.shiftr n 16) in
  let b1 := uint8_t (Z.shiftr n 8) in
  let b0 := uint8_t (Z.shiftr n 0) in
  let pl := 0 in
  let pl := Z.lor pl (size_t (int (Z.shiftl b3 24))) in
  let pl := Z.lor pl (size_t (int (Z.shiftl b2 16))) in
  let pl := Z.lor pl (size_t (int (Z.shiftl b1 8))) in
  let pl := Z.lor pl (size_t (int (Z.shiftl b0 0))) in
  pl.

Lemma int_small (z : Z) : 0 <= z < 2 ^ 31 -> int z = z.
Proof.
  intros H. unfold int, signed. rewrite Z.mod_small by lia.
  change (2 ^ (32 - 1)) with (2 ^ 31).
  destruct (Z.ltb_spec z (2 ^ 31)); lia.
Qed.

Lemma int_big (z : Z) : 2 ^ 31 <= z < 2 ^ 32 -> int z = z - 2 ^ 32.
Proof.
  intros H. unfold int, signed. rewrite Z.mod_small by lia.
  change (2 ^ (32 - 1)) with (2 ^ 31).
  destruct (Z.ltb_spec z (2 ^ 31)); lia.
Qed.

Lemma long_length_low (hi n : Z) :
  0 <= n < 2 ^ 32 ->
  let b2 := uint8_t (Z.shiftr n 16) in
  let b1 := uint8_t (Z.shiftr n 8) in
  let b0 := uint8_t (Z.shiftr n 0) in
  Z.lor (Z.lor (Z.lor (Z.shiftl hi 24) (size_t (int (Z.shiftl b2 16))))
               (size_t (int (Z.shiftl b1 8))))
        (size_t (int (Z.shiftl b0 0)))
  = hi * 2 ^ 24 + n mod 2 ^ 24.
Proof.
  intros Hn b2 b1 b0.
  assert (H2 : 0 <= b2 < 256) by (apply Z.mod_pos_bound; lia).
  assert (H1 : 0 <= b1 < 256) by (apply Z.mod_pos_bound; lia).
  assert (H0 : 0 <= b0 < 256) by (apply Z.mod_pos_bound; lia).
  rewrite !Z.shiftl_mul_pow2 by lia.
  rewrite !int_small by lia. rewrite !size_t_small by lia.
  rewrite <- (Z.shiftl_mul_pow2 hi 24) by lia.
  rewrite lor_shiftl_add by lia.
  replace (hi * 2 ^ 24 + b2 * 2 ^ 16) with (Z.shiftl (hi * 2 ^ 8 + b2) 16)
    by (rewrite Z.shiftl_mul_pow2 by lia; lia).
  rewrite lor_shiftl_add by lia.
  replace ((hi * 2 ^ 8 + b2) * 2 ^ 16 + b1 * 2 ^ 8)
    with (Z.shiftl ((hi * 2 ^ 8 + b2) * 2 ^ 8 + b1) 8)
    by (rewrite Z.shiftl_mul_pow2 by lia; lia).
  rewrite lor_shiftl_add by lia.
  unfold b2, b1, b0, uint8_t. rewrite !Z.shiftr_div_pow2 by lia.
  change (2 ^ 0) with 1. change (2 ^ 8) with 256. change (2 ^ 16) with 65536.
  change (2 ^ 24) with 16777216. change (2 ^ 32) with 4294967296 in Hn.
  rewrite Z.div_1_r. rewrite (Z.shiftl_mul_pow2 hi 24) by lia.
  change (2 ^ 24) with 16777216.
  clear H2 H1 H0 b2 b1 b0.
  Z.div_mod_to_equations. lia.
Qed.

Lemma long_length_small (n : Z) : 0 <= n < 2 ^ 31 -> long_length n = n.
Proof.
  intros Hn. unfold long_length. cbv zeta. rewrite Z.lor_0_l.
  assert (H3 : uint8_t (Z.shiftr n 24) = n / 2 ^ 24).
  { unfold uint8_t. rewrite Z.shiftr_div_pow2 by lia. apply Z.mod_small.
    Z.div_mod_to_equations. lia. }
  rewrite H3.
  assert (Hq : 0 <= n / 2 ^ 24 < 128) by (Z.div_mod_to_equations; lia).
  rewrite (Z.shiftl_mul_pow2 (n / 2 ^ 24) 24) by lia.
  rewrite (int_small (n / 2 ^ 24 * 2 ^ 24)) by lia.
  rewrite (size_t_small (n / 2 ^ 24 * 2 ^ 24)) by lia.
  rewrite <- (Z.shiftl_mul_pow2 (n / 2 ^ 24) 24) by lia.
  rewrite long_length_low by lia.
  Z.div_mod_to_equations. lia.
Qed.

Lemma long_length_big (n : Z) :
  2 ^ 31 <= n < 2 ^ 32 -> long_length n = n + 2 ^ 64 - 2 ^ 32.
Proof.
  intros Hn. unfold long_length. cbv zeta. rewrite Z.lor_0_l.
  assert (H3 : uint8_t (Z.shiftr n 24) = n / 2 ^ 24).
  { unfold uint8_t. rewrite Z.shiftr_div_pow2 by lia. apply Z.mod_small.
    Z.div_mod_to_equations. lia. }
  rewrite H3.
  assert (Hq : 128 <= n / 2 ^ 24 < 256) by (Z.div_mod_to_equations; lia).
  rewrite (Z.shiftl_mul_pow2 (n / 2 ^ 24) 24) by lia.
  rewrite (int_big (n / 2 ^ 24 * 2 ^ 24)) by lia.
  replace (size_t (n / 2 ^ 24 * 2 ^ 24 - 2 ^ 32))
    with (Z.shiftl (n / 2 ^ 24 + 2 ^ 40 - 2 ^ 8) 24).
  2:{ rewrite Z.shiftl_mul_pow2 by lia. unfold size_t.
      apply Z.mod_unique with (q := -1); lia. }
  rewrite long_length_low by lia.
  Z.div_mod_to_equations. lia.
Qed.

End LengthOnTheWire.

Section DecodeWire.

Lemma field_bytes_length (p : ptr) (n : Z) :
  0 <= n -> field_ok p n -> zlen (field_bytes p n) = n.
Proof.
  intros Hn [->|(b & -> & Hb)].
  - unfold field_bytes. destruct p; reflexivity.
  - unfold field_bytes, zlen in *. rewrite length_firstn. lia.
Qed.

(** One field block of the decoder, on an input that holds the field. *)
Lemma decode_field_ok (pre F post : list byte) (len : Z) (h : heap) :
  oracle h = [] ->
  zlen pre + zlen F <= len -> len < 2 ^ 62 ->
  exists (p : ptr) (h' : heap),
    decode_field (pre ++ F ++ post) len (zlen pre) (zlen F) h
    = Done (Some (p, zlen pre + zlen F), h')
    /\ oracle h' = []
    /\ field_bytes p (zlen F) = F
    /\ field_ok p (zlen F)
    /\ (zlen F = 0 -> p = None).
Proof.
  intros Ho Hfit Hlen.
  assert (Hp : 0 <= zlen pre) by (unfold zlen; lia).
  assert (Hf : 0 <= zlen F) by (unfold zlen; lia).
  unfold decode_field, truthy.
  destruct (Z.eqb_spec (zlen F) 0) as [Hz|Hnz]; cbn [negb].
  - exists None, h. split; [rewrite Hz, Z.add_0_r; reflexivity|].
    split; [exact Ho|]. split; [|split; [left; exact Hz|reflexivity]].
    destruct F; [reflexivity|]. unfold zlen in Hz. simpl in Hz. lia.
  - assert (Hcopy : memcpy_src (pre ++ F ++ post) len (zlen pre) (zlen F) = Done F).
    { unfold memcpy_src.
      destruct (Z.leb_spec 0 (zlen pre)), (Z.leb_spec 0 (zlen F)),
               (Z.leb_spec (zlen pre + zlen F) len),
               (Z.leb_spec (zlen pre + zlen F) (zlen (pre ++ F ++ post)));
        try lia.
      - cbn [andb]. f_equal. unfold zlen. rewrite !Nat2Z.id.
        rewrite skipn_app, skipn_all, Nat.sub_diag. cbn [app skipn].
        rewrite firstn_app, firstn_all, Nat.sub_diag. cbn [firstn]. apply app_nil_r.
      - rewrite !zlen_app in *. unfold zlen in *. lia. }
    assert (Ha : alloc_copy (pre ++ F ++ post) len (zlen pre) (zlen F) h
                 = Done (Some (mkBlock (next_block h) F), grown h)).
    { unfold alloc_copy. rewrite (bind_Done_eq _ _ _ _ _ (malloc_calm (zlen F) h Ho)).
      rewrite Hcopy, bind_lift_Done. reflexivity. }
    rewrite (bind_Done_eq _ _ _ _ _ Ha). cbv beta iota.
    rewrite size_t_small by lia.
    eexists; eexists. split; [reflexivity|]. split; [exact Ho|].
    split; [|split].
    + unfold field_bytes, zlen. cbn [bdata]. rewrite Nat2Z.id. apply firstn_all.
    + right. eexists. split; [reflexivity|]. cbn [bdata]. lia.
    + intros; contradiction.
Qed.

End DecodeWire.

Section DecodeWire2.

(** Two records with the same content: TNF, lengths and field bytes. *)
Definition same_content (r r' : ndef_record) : Prop :=
  tnf r' = tnf r
  /\ type_len r' = type_len r
  /\ payload_len r' = payload_len r
  /\ id_len r' = id_len r
  /\ field_bytes (type r') (type_len r') = field_bytes (type r) (type_len r)
  /\ field_bytes (payload r') (payload_len r') = field_bytes (payload r) (payload_len r)
  /\ field_bytes (id r') (id_len r') = field_bytes (id r) (id_len r).

Lemma bind_lift_fun {A B : Type} (a : A) (k : A -> M B) :
  bind (lift (Done a)) k = k a.
Proof. reflexivity. Qed.

Lemma bind_ret_fun {A B : Type} (a : A) (k : A -> M B) : bind (ret a) k = k a.
Proof. reflexivity. Qed.

Lemma ndef_raw_record_decode_wire (raw : ndef_raw_record) (rest : list byte) (h : heap) :
  oracle h = [] ->
  well_formed (abstract raw) ->
  flag_include_id_len raw = truthy (id_len (abstract raw)) ->
  (if flag_short_record raw
   then payload_len (abstract raw) < 256
   else payload_len (abstract raw) < 2 ^ 31) ->
  zlen rest < 2 ^ 61 ->
  exists (raw' : ndef_raw_record) (h' : heap),
    ndef_raw_record_decode (wire_bytes raw ++ rest) (zlen (wire_bytes raw ++ rest)) h
    = Done (Decoded raw' (zlen (wire_bytes raw)), h')
    /\ oracle h' = []
    /\ same_content (abstract raw) (abstract raw')
    /\ well_formed (abstract raw').
Proof.
  intros Ho Hwf Hflag Hshort Hrest.
  pose proof Hwf as (Ht & Htl & Hpl & Hil & Fty & Fpl & Fid).
  pose proof (flags_byte_decode raw Ht) as (F1 & F2 & F3 & F4 & F5 & F6).
  cbv zeta in F1, F2, F3, F4, F5, F6.
  set (r := abstract raw) in *.
  set (tyb := field_bytes (type r) (type_len r)).
  set (plb := field_bytes (payload r) (payload_len r)).
  set (idb := field_bytes (id r) (id_len r)).
  assert (Ltyb : zlen tyb = type_len r) by (apply field_bytes_length; [lia|exact Fty]).
  assert (Lplb : zlen plb = payload_len r) by (apply field_bytes_length; [lia|exact Fpl]).
  assert (Lidb : zlen idb = id_len r) by (apply field_bytes_length; [lia|exact Fid]).
  assert (R0 : 0 <= zlen rest) by (unfold zlen; lia).
  assert (Etyb : tyb = field_bytes (type r) (type_len r)) by reflexivity.
  assert (Eplb : plb = field_bytes (payload r) (payload_len r)) by reflexivity.
  assert (Eidb : idb = field_bytes (id r) (id_len r)) by reflexivity.
  clearbody tyb plb idb.
  unfold wire_bytes. fold r. rewrite <- Etyb, <- Eplb, <- Eidb. cbv zeta.
  rewrite Hflag in *.
  remember (flags_byte raw) as F eqn:EF.
  match goal with |- context [ndef_raw_record_decode ?W _ _] =>
    remember W as data eqn:EW end.
  remember (zlen data) as len eqn:Elen.
  destruct (flag_short_record raw) eqn:Esr, (truthy (id_len r)) eqn:Eil;
    unfold length_bytes in EW; cbn [app] in EW.
  all: assert (Hlen : len = 2 + (if flag_short_record raw then 1 else 4)
                           + Z.b2z (truthy (id_len r))
                           + type_len r + payload_len r + id_len r + zlen rest)
         by (rewrite Elen, EW, Esr, Eil; unfold zlen in *; cbn [length];
             rewrite !length_app; cbn [Z.b2z]; lia).
  all: rewrite Esr, Eil in Hlen; cbn [Z.b2z] in Hlen.
  all: unfold ndef_raw_record_decode.
  all: destruct (Z.ltb_spec len 3); [lia|].
  all: rewrite (rd_nth_ok data len 0) by lia.
  all: rewrite bind_lift_Done; cbv beta zeta.
  all: change (Z.to_nat 0) with 0%nat.
  all: replace (nth 0 data x00) with (byte_of_Z F) by (rewrite EW; reflexivity).
  all: rewrite Z_of_byte_of_Z.
  all: rewrite F1, F2, F3, F4, F5, F6.
  all: cbn [andb negb Z.b2z].
  all: change (0 + 1) with 1; change (1 + 1) with 2; change (2 + 1) with 3;
       change (2 + 2) with 4; change (2 + 3) with 5; change (2 + 4) with 6;
       change (3 + 1) with 4; change (6 + 1) with 7; change (3 + 0) with 3;
       change (5 + 0) with 5; change (5 + 1) with 6.
  all: match goal with |- context [if ?l <? ?k then ret NotEnoughData else _] =>
         destruct (Z.ltb_spec l k); [lia|] end.
  all: repeat (match goal with |- context [rd ?d ?l ?k] =>
                 rewrite (rd_nth_ok d l k) by lia end;
               rewrite ?bind_lift_fun, ?bind_ret_fun; cbv beta iota).
  all: rewrite ?bind_ret_fun; cbv beta iota.
  all: change (3 + 1) with 4; change (6 + 1) with 7.
  all: change (Z.to_nat 1) with 1%nat; change (Z.to_nat 2) with 2%nat;
       change (Z.to_nat 3) with 3%nat; change (Z.to_nat 4) with 4%nat;
       change (Z.to_nat 5) with 5%nat; change (Z.to_nat 6) with 6%nat.
  all: rewrite EW; cbn [nth]; rewrite <- EW.
  all: rewrite !Z_of_byte_of_Z.
  all: rewrite ?(uint8_t_small (type_len r)), ?(uint8_t_small (id_len r)) by lia.
  all: try rewrite (uint8_t_small (payload_len r)) by lia.
  all: try (match goal with |- context [Z.lor ?a ?b] =>
              change (Z.lor a b) with (long_length (payload_len r)) end;
            rewrite long_length_small by lia).
  all: try (pose proof (truthy_false _ Eil) as Hz).
  all: rewrite size_t_small by lia.
  all: match goal with |- context [if ?l <? ?k then ret NotEnoughData else _] =>
         destruct (Z.ltb_spec l k); [lia|] end.
  all: match goal with |- context [bind (decode_field _ _ ?p _) _] =>
         assert (D : skipn (Z.to_nat p) data = (tyb ++ plb ++ idb) ++ rest)
           by (rewrite EW; reflexivity);
         assert (Lh : zlen (firstn (Z.to_nat p) data) = p)
           by (rewrite EW; reflexivity);
         remember (firstn (Z.to_nat p) data) as hdr eqn:Ehdr;
         assert (D1 : data = hdr ++ tyb ++ (plb ++ idb ++ rest))
           by (rewrite Ehdr, <- (firstn_skipn (Z.to_nat p) data) at 1;
               rewrite D, <- !app_assoc; reflexivity)
       end.
  all: destruct (decode_field_ok hdr tyb (plb ++ idb ++ rest) len h Ho ltac:(lia) ltac:(lia))
         as (ty & h1 & E1 & O1 & B1 & K1 & Z1).
  all: rewrite <- D1, Lh, Ltyb in E1.
  all: rewrite (bind_Done_eq _ _ _ _ _ E1); cbv beta iota.
  all: assert (D2 : data = (hdr ++ tyb) ++ plb ++ (idb ++ rest))
         by (rewrite D1, <- !app_assoc; reflexivity).
  all: assert (L2 : zlen (hdr ++ tyb) = zlen hdr + type_len r)
         by (rewrite zlen_app, Ltyb; reflexivity).
  all: destruct (decode_field_ok (hdr ++ tyb) plb (idb ++ rest) len h1 O1
                   ltac:(lia) ltac:(lia))
         as (pay & h2 & E2 & O2 & B2 & K2 & Z2).
  all: rewrite <- D2, L2, Lh, Lplb in E2.
  all: rewrite (bind_Done_eq _ _ _ _ _ E2); cbv beta iota.
  all: assert (D3 : data = ((hdr ++ tyb) ++ plb) ++ idb ++ rest)
         by (rewrite D1, <- !app_assoc; reflexivity).
  all: assert (L3 : zlen ((hdr ++ tyb) ++ plb) = zlen hdr + type_len r + payload_len r)
         by (rewrite zlen_app, L2, Lplb; reflexivity).
  all: destruct (decode_field_ok ((hdr ++ tyb) ++ plb) idb rest len h2 O2
                   ltac:(lia) ltac:(lia))
         as (idf & h3 & E3 & O3 & B3 & K3 & Z3).
  all: rewrite <- D3, L3, Lh, Lidb in E3.
  all: try rewrite Hz in E3.
  all: rewrite (bind_Done_eq _ _ _ _ _ E3); cbv beta iota.
  all: match goal with
       |- exists _ _, ret (Decoded _ ?n) _ = Done (Decoded _ (zlen ?w), _) /\ _ =>
         replace (zlen w) with n
           by (unfold length_bytes, zlen in *; cbn [app length];
               rewrite !length_app; lia)
       end.
  all: rewrite Ltyb in B1, K1; rewrite Lplb in B2, K2; rewrite Lidb in B3, K3.
  all: eexists; eexists; split; [reflexivity|]; split; [exact O3|].
  all: unfold same_content, well_formed;
       cbn [abstract tnf type_len payload_len id_len type payload id].
  all: try rewrite <- Hz.
  all: rewrite B1, B2, B3.
  all: repeat split; solve [reflexivity | assumption | lia].
Qed.

(** A long record whose payload length has its top bit set: the decoder
    reads the length as a negative [int], the length check fails and the
    record is refused. *)
Lemma ndef_raw_record_decode_sign_extended (raw : ndef_raw_record) (rest : list byte)
    (h : heap) :
  well_formed (abstract raw) ->
  flag_include_id_len raw = truthy (id_len (abstract raw)) ->
  flag_short_record raw = false ->
  2 ^ 31 <= payload_len (abstract raw) < 2 ^ 32 - 1024 ->
  zlen rest < 2 ^ 61 ->
  ndef_raw_record_decode (wire_bytes raw ++ rest) (zlen (wire_bytes raw ++ rest)) h
  = Done (NotEnoughData, h).
Proof.
  intros Hwf Hflag Hlong Hbig Hrest.
  pose proof Hwf as (Ht & Htl & Hpl & Hil & Fty & Fpl & Fid).
  pose proof (flags_byte_decode raw Ht) as (F1 & F2 & F3 & F4 & F5 & F6).
  cbv zeta in F1, F2, F3, F4, F5, F6.
  set (r := abstract raw) in *.
  set (tyb := field_bytes (type r) (type_len r)).
  set (plb := field_bytes (payload r) (payload_len r)).
  set (idb := field_bytes (id r) (id_len r)).
  assert (Ltyb : zlen tyb = type_len r) by (apply field_bytes_length; [lia|exact Fty]).
  assert (Lplb : zlen plb = payload_len r) by (apply field_bytes_length; [lia|exact Fpl]).
  assert (Lidb : zlen idb = id_len r) by (apply field_bytes_length; [lia|exact Fid]).
  assert (R0 : 0 <= zlen rest) by (unfold zlen; lia).
  assert (Etyb : tyb = field_bytes (type r) (type_len r)) by reflexivity.
  assert (Eplb : plb = field_bytes (payload r) (payload_len r)) by reflexivity.
  assert (Eidb : idb = field_bytes (id r) (id_len r)) by reflexivity.
  clearbody tyb plb idb.
  unfold wire_bytes. fold r. rewrite <- Etyb, <- Eplb, <- Eidb. cbv zeta.
  rewrite Hflag in *.
  remember (flags_byte raw) as F eqn:EF.
  match goal with |- context [ndef_raw_record_decode ?W _ _] =>
    remember W as data eqn:EW end.
  remember (zlen data) as len eqn:Elen.
  rewrite Hlong in *. pose proof Hlong as Esr.
  destruct (truthy (id_len r)) eqn:Eil;
    unfold length_bytes in EW; cbn [app] in EW.
  all: assert (Hlen : len = 2 + (if flag_short_record raw then 1 else 4)
                           + Z.b2z (truthy (id_len r))
                           + type_len r + payload_len r + id_len r + zlen rest)
         by (rewrite Elen, EW, Esr, Eil; unfold zlen in *; cbn [length];
             rewrite !length_app; cbn [Z.b2z]; lia).
  all: rewrite Esr, Eil in Hlen; cbn [Z.b2z] in Hlen.
  all: unfold ndef_raw_record_decode.
  all: destruct (Z.ltb_spec len 3); [lia|].
  all: rewrite (rd_nth_ok data len 0) by lia.
  all: rewrite bind_lift_Done; cbv beta zeta.
  all: change (Z.to_nat 0) with 0%nat.
  all: replace (nth 0 data x00) with (byte_of_Z F) by (rewrite EW; reflexivity).
  all: rewrite Z_of_byte_of_Z.
  all: rewrite F1, F2, F3, F4, F5, F6.
  all: cbn [andb negb Z.b2z].
  all: change (0 + 1) with 1; change (1 + 1) with 2; change (2 + 1) with 3;
       change (2 + 2) with 4; change (2 + 3) with 5; change (2 + 4) with 6;
       change (3 + 1) with 4; change (6 + 1) with 7; change (3 + 0) with 3;
       change (5 + 0) with 5; change (5 + 1) with 6.
  all: match goal with |- context [if ?l <? ?k then ret NotEnoughData else _] =>
         destruct (Z.ltb_spec l k); [lia|] end.
  all: repeat (match goal with |- context [rd ?d ?l ?k] =>
                 rewrite (rd_nth_ok d l k) by lia end;
               rewrite ?bind_lift_fun, ?bind_ret_fun; cbv beta iota).
  all: rewrite ?bind_ret_fun; cbv beta iota.
  all: change (3 + 1) with 4; change (6 + 1) with 7.
  all: change (Z.to_nat 1) with 1%nat; change (Z.to_nat 2) with 2%nat;
       change (Z.to_nat 3) with 3%nat; change (Z.to_nat 4) with 4%nat;
       change (Z.to_nat 5) with 5%nat; change (Z.to_nat 6) with 6%nat.
  all: rewrite EW; cbn [nth]; rewrite <- EW.
  all: rewrite !Z_of_byte_of_Z.
  all: rewrite ?(uint8_t_small (type_len r)), ?(uint8_t_small (id_len r)) by lia.
  all: match goal with |- context [Z.lor ?a ?b] =>
         change (Z.lor a b) with (long_length (payload_len r)) end;
       rewrite long_length_big by lia.
  all: try (pose proof (truthy_false _ Eil) as Hz).
  all: rewrite size_t_small by lia.
  all: match goal with |- context [if ?l <? ?k then ret NotEnoughData else _] =>
         destruct (Z.ltb_spec l k); [reflexivity|lia] end.
Qed.

End DecodeWire2.

(** ** A message of one record, encoded and then decoded *)

Section OneRecordMessage.

(** The one-record message holding [r]: a new context, and [r] moved
    into it. *)
Definition one_record_message (r : ndef_record) : M ndef_ctx :=
  ctx <- ndef_init ;;
  '(_, c) <- ndef_append_mv ctx r ;;
  ret (Some c).

(** Encode the one-record message holding [r], then decode the bytes. *)
Definition encode_then_decode (r : ndef_record) : M ndef_ctx :=
  ctx <- one_record_message r ;;
  '(_, res) <- ndef_encode ctx ;;
  match res with
  | Some (data, len) => ndef_decode (option_map bdata data) (Some len)
  | None => ret None
  end.

(** The raw record [ndef_encode] makes of the only record of a message. *)
Definition only_raw (r : ndef_record) : ndef_raw_record :=
  mk_raw (set_raw 0 0 r) 0 true true false
         (negb (truthy (Z.land (payload_len r) 0xffffff00)))
         (truthy (id_len r)).

Lemma one_record_message_run (r : ndef_record) (nb : Z) (lv : list Z) :
  one_record_message r (mkHeap nb lv [])
  = Done (Some (mk_ctx NDEF_MAGIC 0 0 None 1 1 (Some (mkArray (nb + 1) [r]))),
          mkHeap (nb + 1 + 1) (nb + 1 :: nb :: lv) []).
Proof. vm_compute. reflexivity. Qed.

Lemma well_formed_set_raw (i l : Z) (r : ndef_record) :
  well_formed r -> well_formed (set_raw i l r).
Proof. intros H. exact H. Qed.

Lemma ndef_encode_one (a : Z) (r : ndef_record) (h : heap) :
  oracle h = [] -> well_formed r ->
  exists (c : ndef_ctx_s) (b : block) (h' : heap),
    ndef_encode (Some (mk_ctx NDEF_MAGIC 0 0 None 1 1 (Some (mkArray a [r])))) h
    = Done (c, Some (Some b, zlen (wire_bytes (only_raw r))), h')
    /\ bdata b = wire_bytes (only_raw r)
    /\ oracle h' = [].
Proof.
  intros Ho Hwf.
  destruct (ndef_raw_record_encode_ok ndef_ostream_init (only_raw r) h)
    as (out & h' & E & C & (O & _ & B) & P).
  - split; [exact Ho|]. split; [unfold buf_len, zlen; simpl; lia|reflexivity].
  - exact Hwf.
  - reflexivity.
  - unfold buf_len, zlen. simpl. lia.
  - destruct (buf out) as [ab|] eqn:Eb; [|lia].
    exists (mk_ctx NDEF_MAGIC 0 0 None 1 1 (Some (mkArray a [set_raw 0 0 r]))),
           (mkBlock ab (contents out)), h'.
    split; [|split; [rewrite C; reflexivity|exact O]].
    unfold ndef_encode.
    change (MAGIC_CHECK (Some (mk_ctx NDEF_MAGIC 0 0 None 1 1 (Some (mkArray a [r])))))
      with (ret (mk_ctx NDEF_MAGIC 0 0 None 1 1 (Some (mkArray a [r])))).
    rewrite bind_ret_fun.
    change (ndef_raw_clear (Some (mk_ctx NDEF_MAGIC 0 0 None 1 1 (Some (mkArray a [r])))))
      with (ret (mk_ctx NDEF_MAGIC 0 0 None 1 1 (Some (mkArray a [set_raw 0 0 r])))).
    rewrite bind_ret_fun.
    change (Z.to_nat (abs_records_len
              (mk_ctx NDEF_MAGIC 0 0 None 1 1 (Some (mkArray a [set_raw 0 0 r])))))
      with 1%nat.
    cbn [encode_loop].
    change (aget (abs_records
                    (mk_ctx NDEF_MAGIC 0 0 None 1 1 (Some (mkArray a [set_raw 0 0 r])))) 0)
      with (Done (set_raw 0 0 r)).
    rewrite bind_lift_fun.
    change (mk_raw (set_raw 0 0 r) 0 (0 =? 0)
              (0 =? size_t (abs_records_len
                 (mk_ctx NDEF_MAGIC 0 0 None 1 1 (Some (mkArray a [set_raw 0 0 r]))) - 1))
              false
              (negb (truthy (Z.land (payload_len (set_raw 0 0 r)) 0xffffff00)))
              (truthy (id_len (set_raw 0 0 r))))
      with (only_raw r).
    rewrite (bind_Done_eq _ _ _ _ _ (bind_Done_eq _ _ _ _ _ E)).
    unfold buf_len. rewrite Eb, C. reflexivity.
Qed.

Lemma high_bits_clear (pl : Z) :
  0 <= pl < 2 ^ 32 -> Z.land pl 0xffffff00 = 0 -> pl < 256.
Proof.
  intros Hr H0.
  assert (E : pl = Z.land pl 0xff).
  { rewrite <- (Z.mod_small pl (2 ^ 32)) at 1 by lia.
    rewrite <- Z.land_ones by lia.
    change (Z.ones 32) with (Z.lor 0xff 0xffffff00).
    rewrite Z.land_lor_distr_r, H0, Z.lor_0_r. reflexivity. }
  change 0xff with (Z.ones 8) in E. rewrite Z.land_ones in E by lia.
  change (2 ^ 8) with 256 in E.
  pose proof (Z.mod_pos_bound pl 256). lia.
Qed.

Lemma wire_bytes_nonempty (raw : ndef_raw_record) : 2 <= zlen (wire_bytes raw).
Proof.
  unfold wire_bytes. cbv zeta. rewrite zlen_app.
  change (zlen [byte_of_Z (flags_byte raw); byte_of_Z (type_len (abstract raw))]) with 2.
  unfold zlen. lia.
Qed.

Lemma wire_bytes_bound (raw : ndef_raw_record) :
  well_formed (abstract raw) -> zlen (wire_bytes raw) < 2 ^ 33.
Proof.
  intros (_ & Ht & Hp & Hi & _).
  unfold wire_bytes. cbv zeta. rewrite !zlen_app.
  pose proof (zlen_field_bytes (type (abstract raw)) (type_len (abstract raw))).
  pose proof (zlen_field_bytes (payload (abstract raw)) (payload_len (abstract raw))).
  pose proof (zlen_field_bytes (id (abstract raw)) (id_len (abstract raw))).
  assert (zlen (length_bytes (flag_short_record raw) (payload_len (abstract raw))) <= 4)
    by (unfold length_bytes; destruct (flag_short_record raw); unfold zlen; simpl; lia).
  assert (zlen (if flag_include_id_len raw
                then [byte_of_Z (id_len (abstract raw))] else []) <= 1)
    by (destruct (flag_include_id_len raw); unfold zlen; simpl; lia).
  change (zlen [byte_of_Z (flags_byte raw); byte_of_Z (type_len (abstract raw))]) with 2.
  lia.
Qed.

Lemma ndef_init_calm (h : heap) :
  oracle h = [] ->
  ndef_init h = Done (Some (mk_ctx NDEF_MAGIC 0 0 None 0 0 None), grown h).
Proof.
  intros Ho. unfold ndef_init.
  rewrite (bind_Done_eq _ _ _ _ _ (malloc_calm _ h Ho)). reflexivity.
Qed.

(** One round of the parsing loop on a record that cannot be decoded
    leaves no record in the message. *)
Lemma ndef_decode_nothing (data : list byte) (h : heap) :
  oracle h = [] ->
  0 < zlen data < 2 ^ 64 ->
  ndef_raw_record_decode data (zlen data) (grown h) = Done (NotEnoughData, grown h) ->
  ndef_decode (Some data) (Some (zlen data)) h
  = Done (Some (mk_ctx NDEF_MAGIC 0 0 None 0 0 None), grown h).
Proof.
  intros Ho Hl E. unfold ndef_decode.
  destruct (Z.eqb_spec (zlen data) 0) as [E0|_]; [lia|].
  rewrite (bind_Done_eq _ _ _ _ _ (ndef_init_calm h Ho)).
  destruct (Z.to_nat (zlen data)) as [|f] eqn:Ef; [lia|].
  cbn [decode_loop].
  destruct (Z.ltb_spec 0 (zlen data)) as [_|]; [|lia].
  change (Z.to_nat 0) with 0%nat. cbn [skipn].
  rewrite Z.sub_0_r, (size_t_small (zlen data)) by lia.
  rewrite (bind_Done_eq _ _ _ _ _ (bind_Done_eq _ _ _ _ _ E)).
  reflexivity.
Qed.

(** What [encode_then_decode] returns for a record whose payload takes
    2^31 bytes or more: a message without records. *)
Lemma encode_then_decode_long_payload (r : ndef_record) (h : heap) :
  oracle h = [] ->
  well_formed r ->
  2 ^ 31 <= payload_len r < 2 ^ 32 - 1024 ->
  exists h' : heap,
    encode_then_decode r h
    = Done (Some (mk_ctx NDEF_MAGIC 0 0 None 0 0 None), h').
Proof.
  intros Ho Hwf Hpl. destruct h as [nb lv o]. simpl in Ho. subst o.
  unfold encode_then_decode.
  rewrite (bind_Done_eq _ _ _ _ _ (one_record_message_run r nb lv)).
  destruct (ndef_encode_one (nb + 1) r (mkHeap (nb + 1 + 1) (nb + 1 :: nb :: lv) []))
    as (c & b & h1 & E & Eb & O1); [reflexivity|exact Hwf|].
  rewrite (bind_Done_eq _ _ _ _ _ E). cbn [option_map]. rewrite Eb.
  exists (grown h1). apply ndef_decode_nothing; [exact O1| |].
  - pose proof (wire_bytes_nonempty (only_raw r)).
    pose proof (wire_bytes_bound (only_raw r) Hwf). lia.
  - rewrite <- (app_nil_r (wire_bytes (only_raw r))).
    apply ndef_raw_record_decode_sign_extended.
    + exact Hwf.
    + reflexivity.
    + unfold only_raw. cbn [flag_short_record].
      destruct (Z.eqb_spec (Z.land (payload_len r) 0xffffff00) 0) as [E0|E0].
      * pose proof (high_bits_clear (payload_len r)). lia.
      * unfold truthy. destruct (Z.eqb_spec (Z.land (payload_len r) 0xffffff00) 0);
          [contradiction|reflexivity].
    + exact Hpl.
    + unfold zlen. simpl. lia.
Qed.

Lemma copy_from_ok (b : block) (n : Z) (h : heap) :
  0 <= n <= zlen (bdata b) ->
  copy_from (Some b) n h = Done (firstn (Z.to_nat n) (bdata b), h).
Proof.
  intros Hn. unfold copy_from. cbn [deref]. rewrite bind_lift_fun.
  unfold memcpy_src, lift.
  destruct (Z.leb_spec 0 0); [|lia].
  destruct (Z.leb_spec 0 n); [|lia].
  destruct (Z.leb_spec (0 + n) (zlen (bdata b))); [|lia].
  reflexivity.
Qed.

Lemma field_bytes_copy (a : Z) (b : block) (n : Z) :
  field_bytes (Some (mkBlock a (firstn (Z.to_nat n) (bdata b)))) n
  = field_bytes (Some b) n.
Proof.
  unfold field_bytes. cbn [bdata]. rewrite firstn_firstn, Nat.min_id. reflexivity.
Qed.

Lemma field_ok_copy (a : Z) (b : block) (n : Z) :
  0 <= n <= zlen (bdata b) ->
  field_ok (Some (mkBlock a (firstn (Z.to_nat n) (bdata b)))) n.
Proof.
  intros Hn. right. eexists. split; [reflexivity|]. cbn [bdata].
  unfold zlen in *. rewrite length_firstn. lia.
Qed.

(** One field of [clone_fields]: the copy of a field that is there. *)
Lemma clone_field_ok {A : Type} (p : ptr) (n : Z) (h : heap)
    (fail : M A) (k : list byte -> Z -> M A) :
  oracle h = [] -> 0 <= n -> field_ok p n -> truthy n = true ->
  exists b : block,
    p = Some b /\ n <= zlen (bdata b) /\
    (a <- malloc n ;;
     match a with
     | None => fail
     | Some a => bytes <- copy_from p n ;; k bytes a
     end) h
    = k (firstn (Z.to_nat n) (bdata b)) (next_block h) (grown h).
Proof.
  intros Ho Hn [E0|(b & -> & Hb)] Ht.
  - subst n. discriminate.
  - exists b. split; [reflexivity|]. split; [exact Hb|].
    rewrite (bind_Done_eq _ _ _ _ _ (malloc_calm n h Ho)).
    rewrite (bind_Done_eq _ _ _ _ _ (copy_from_ok b n (grown h) (conj Hn Hb))).
    reflexivity.
Qed.

(** A field whose buffer, when it has bytes to hold, is a block allocated
    at or after the moment the next block was [nb]. *)
Definition new_since (nb : Z) (p : ptr) (n : Z) : Prop :=
  n = 0 \/ exists b : block, p = Some b /\ nb <= baddr b.

Lemma new_since_earlier (nb nb' : Z) (p : ptr) (n : Z) :
  nb' <= nb -> new_since nb p n -> new_since nb' p n.
Proof.
  intros Hle [E|(b & E & Hb)]; [left; exact E|].
  right. exists b. split; [exact E|lia].
Qed.

Lemma clone_stage (p : ptr) (n : Z) (h : heap) (fail : M (bool * ndef_record))
    (set : ptr -> ndef_record) (q : ndef_record) :
  oracle h = [] -> 0 <= n -> field_ok p n -> set p = q ->
  exists (T : ptr) (h1 : heap),
    (if truthy n
     then
       a <- malloc n ;;
       match a with
       | None => fail
       | Some a => bytes <- copy_from p n ;; ret (true, set (Some (mkBlock a bytes)))
       end
     else ret (true, q)) h = Done ((true, set T), h1)
    /\ oracle h1 = []
    /\ field_bytes T n = field_bytes p n
    /\ field_ok T n
    /\ (forall x : Z, is_live x h -> is_live x h1)
    /\ next_block h <= next_block h1
    /\ new_since (next_block h) T n.
Proof.
  intros Ho Hn Hf Hq. destruct (truthy n) eqn:Et.
  - destruct (clone_field_ok p n h fail
                (fun bytes a => ret (true, set (Some (mkBlock a bytes)))) Ho Hn Hf Et)
      as (b & -> & Hb & E).
    rewrite E. eexists. eexists. split; [reflexivity|].
    split; [exact Ho|]. split; [apply field_bytes_copy|].
    split; [apply field_ok_copy; lia|].
    split; [intros x; apply is_live_grown|].
    split; [unfold grown; simpl; lia|].
    right. eexists. split; [reflexivity|]. simpl. lia.
  - exists p, h. rewrite Hq. split; [reflexivity|]. split; [exact Ho|].
    split; [reflexivity|]. split; [exact Hf|].
    split; [auto|]. split; [lia|]. left. apply truthy_false. exact Et.
Qed.

Lemma clone_fields_ok (p : ndef_record) (h : heap) :
  oracle h = [] -> well_formed p ->
  exists (p' : ndef_record) (h' : heap),
    clone_fields p p h = Done (true, p', h')
    /\ oracle h' = [] /\ same_content p p' /\ well_formed p'
    /\ (forall x : Z, is_live x h -> is_live x h')
    /\ next_block h <= next_block h'
    /\ new_since (next_block h) (type p') (type_len p')
    /\ new_since (next_block h) (payload p') (payload_len p')
    /\ new_since (next_block h) (id p') (id_len p')
    /\ raw_index p' = raw_index p /\ raw_len p' = raw_len p.
Proof.
  intros Ho (Htnf & Ht & Hp & Hi & Ft & Fp & Fi).
  destruct p as [ri rl tn tl pl il ty pa idp]. cbn in *.
  unfold clone_fields. cbn [type_len payload_len id_len type payload id].
  edestruct (clone_stage ty tl h (ret (false, set_type None (mk_record ri rl tn tl pl il ty pa idp)))
               (fun x => set_type x (mk_record ri rl tn tl pl il ty pa idp)))
    as (T & h1 & E1 & O1 & B1 & K1 & L1 & N1 & F1); [exact Ho|lia|exact Ft|reflexivity|].
  cbv beta in E1. rewrite (bind_Done_eq _ _ _ _ _ E1). cbv beta iota.
  unfold set_type. cbn [negb raw_index raw_len tnf type_len payload_len id_len type payload id].
  edestruct (clone_stage pa pl h1
               (free_if T ;;; ret (false, set_payload None (mk_record ri rl tn tl pl il T pa idp)))
               (fun x => set_payload x (mk_record ri rl tn tl pl il T pa idp)))
    as (P & h2 & E2 & O2 & B2 & K2 & L2 & N2 & F2); [exact O1|lia|exact Fp|reflexivity|].
  cbv beta in E2. rewrite (bind_Done_eq _ _ _ _ _ E2). cbv beta iota.
  unfold set_payload.
  cbn [negb raw_index raw_len tnf type_len payload_len id_len type payload id].
  edestruct (clone_stage idp il h2
               (free_if T ;;; free_if P ;;;
                ret (false, set_id None (mk_record ri rl tn tl pl il T P idp)))
               (fun x => set_id x (mk_record ri rl tn tl pl il T P idp)))
    as (I & h3 & E3 & O3 & B3 & K3 & L3 & N3 & F3); [exact O2|lia|exact Fi|reflexivity|].
  cbv beta in E3. rewrite (bind_Done_eq _ _ _ _ _ E3). cbv beta iota.
  unfold set_id.
  cbn [negb raw_index raw_len tnf type_len payload_len id_len type payload id].
  eexists. eexists. split; [reflexivity|]. split; [exact O3|].
  split; [|split; [|split; [|split; [|split; [|split; [|split]]]]]].
  - repeat split;
      cbn [raw_index raw_len tnf type_len payload_len id_len type payload id];
      solve [assumption | lia].
  - repeat split;
      cbn [raw_index raw_len tnf type_len payload_len id_len type payload id];
      solve [assumption | lia].
  - auto.
  - lia.
  - cbn [type type_len]. exact F1.
  - cbn [payload payload_len]. apply (new_since_earlier (next_block h1)); [lia|exact F2].
  - cbn [id id_len]. apply (new_since_earlier (next_block h2)); [lia|exact F3].
  - split; reflexivity.
Qed.

Lemma same_content_trans (r1 r2 r3 : ndef_record) :
  same_content r1 r2 -> same_content r2 r3 -> same_content r1 r3.
Proof.
  intros (A1 & A2 & A3 & A4 & A5 & A6 & A7) (B1 & B2 & B3 & B4 & B5 & B6 & B7).
  repeat split; congruence.
Qed.

Lemma same_content_set_raw (i l : Z) (r : ndef_record) : same_content r (set_raw i l r).
Proof. repeat split. Qed.

Lemma ndef_raw_append_first (raw : ndef_raw_record) (nb : Z) (lv : list Z) :
  ndef_raw_append (Some (mk_ctx NDEF_MAGIC 0 0 None 0 0 None)) raw (mkHeap nb lv [])
  = Done (true,
          mk_ctx NDEF_MAGIC 1 2 (Some (mkArray nb [raw; ndef_raw_record_init])) 0 0 None,
          mkHeap (nb + 1) (nb :: lv) []).
Proof. vm_compute. reflexivity. Qed.

Lemma ndef_append_first (rl rc : Z) (ra : option (array ndef_raw_record))
    (r p : ndef_record) (nb : Z) (lv : list Z) (h' : heap) :
  clone_fields r r (mkHeap (nb + 1) (nb :: lv) []) = Done (true, p, h') ->
  ndef_append (Some (mk_ctx NDEF_MAGIC rl rc ra 0 0 None)) r (mkHeap nb lv [])
  = Done (true, mk_ctx NDEF_MAGIC rl rc ra 1 1 (Some (mkArray nb [p])), h').
Proof.
  intros E. unfold ndef_append, ndef_insert_n, insert_n.
  change (MAGIC_CHECK (Some (mk_ctx NDEF_MAGIC rl rc ra 0 0 None)))
    with (ret (mk_ctx NDEF_MAGIC rl rc ra 0 0 None)).
  rewrite bind_ret_fun. cbv beta zeta.
  cbn [abs_records_len abs_records_cap abs_records].
  change (0 <? SIZE_MAX) with true. cbv iota.
  change (size_t (0 + 1)) with 1. change (0 <? 1) with true. cbv iota.
  change (0 =? 0) with true. cbv iota.
  change (double_until 65 1 1) with (Some 1). cbv iota.
  unfold realloc_array. cbn [option_map realloc].
  rewrite (bind_Done_eq _ _ _ _ _ (bind_Done_eq _ _ _ _ _ (bind_Done_eq _ _ _ _ _ (malloc_calm _ (mkHeap nb lv []) eq_refl)))).
  cbv beta iota zeta.
  change (grown (mkHeap nb lv [])) with (mkHeap (nb + 1) (nb :: lv) []).
  match goal with
  | |- context [relocate ?n ?a 0 0] =>
      change (relocate n a 0 0) with (Done (Some (mkArray nb [ndef_record_init])))
  end.
  rewrite bind_lift_fun. change (Z.to_nat 1) with 1%nat. cbn [fill].
  change (lget [r] 0) with (Done r). rewrite bind_lift_fun.
  change (aset (Some (mkArray nb [ndef_record_init])) (size_t (0 + 0)) r)
    with (Done (Some (mkArray nb [r]))).
  rewrite bind_lift_fun.
  rewrite (bind_Done_eq _ _ _ _ _ (bind_Done_eq _ _ _ _ _ E)).
  cbv beta iota.
  change (aset (Some (mkArray nb [r])) (size_t (0 + 0)) p)
    with (Done (Some (mkArray nb [p]))).
  reflexivity.
Qed.
Lemma bind_bind_Done_eq {A B C : Type} (c : M A) (k1 : A -> M B) (k2 : B -> M C)
    (h h1 : heap) (a : A) :
  c h = Done (a, h1) -> bind (bind c k1) k2 h = bind (k1 a) k2 h1.
Proof. intros E. unfold bind. rewrite E. reflexivity. Qed.

(** One round of the parsing loop on a buffer that holds one record. *)
Lemma ndef_decode_single (data : list byte) (h h1 : heap) (raw : ndef_raw_record) :
  oracle h = [] -> oracle h1 = [] ->
  0 < zlen data < 2 ^ 64 ->
  ndef_raw_record_decode data (zlen data) (grown h) = Done (Decoded raw (zlen data), h1) ->
  well_formed (abstract raw) ->
  exists (c : ndef_ctx_s) (p : ndef_record) (a : Z) (h' : heap),
    ndef_decode (Some data) (Some (zlen data)) h = Done (Some c, h')
    /\ abs_records_len c = 1
    /\ abs_records c = Some (mkArray a [p])
    /\ raw_records_len c = 1
    /\ same_content (abstract raw) p
    /\ oracle h' = [].
Proof.
  intros Ho Ho1 Hl E Hwf.
  destruct h1 as [nb lv o]. simpl in Ho1. subst o.
  destruct (clone_fields_ok (set_raw 0 1 (abstract raw))
              (mkHeap (nb + 1 + 1) (nb + 1 :: nb :: lv) []))
    as (p & h' & Ec & Oc & Sc & Wc & _); [reflexivity|exact Hwf|].
  pose proof (ndef_append_first 1 2
                (Some (mkArray nb
                   [mk_raw (set_raw 0 1 (abstract raw)) 0 (flag_begin raw) (flag_end raw)
                      (flag_chunked raw) (flag_short_record raw) (flag_include_id_len raw);
                    ndef_raw_record_init]))
                (set_raw 0 1 (abstract raw)) p (nb + 1) (nb :: lv) h' Ec) as Ea.
  exists (mk_ctx NDEF_MAGIC 1 2
            (Some (mkArray nb
               [mk_raw (set_raw 0 1 (abstract raw)) 0 (flag_begin raw) (flag_end raw)
                  (flag_chunked raw) (flag_short_record raw) (flag_include_id_len raw);
                ndef_raw_record_init]))
            1 1 (Some (mkArray (nb + 1) [p]))), p, (nb + 1), h'.
  split.
  - unfold ndef_decode.
    destruct (Z.eqb_spec (zlen data) 0) as [E0|_]; [lia|].
    rewrite (bind_Done_eq _ _ _ _ _ (ndef_init_calm h Ho)).
    destruct (Z.to_nat (zlen data)) as [|f] eqn:Ef; [lia|].
    cbn [decode_loop].
    destruct (Z.ltb_spec 0 (zlen data)) as [_|]; [|lia].
    change (Z.to_nat 0) with 0%nat. cbn [skipn].
    rewrite Z.sub_0_r, (size_t_small (zlen data)) by lia.
    rewrite (bind_bind_Done_eq _ _ _ _ _ _ E).
    cbv beta iota.
    rewrite (bind_bind_Done_eq _ _ _ _ _ _ (ndef_raw_append_first raw nb lv)).
    cbv beta iota.
    rewrite Z.add_0_l, (size_t_small (zlen data)) by lia.
    assert (L : forall c0 hh, decode_loop f data (zlen data) (zlen data) c0 hh
                              = Done (false, c0, hh)).
    { intros c0 hh. destruct f; cbn [decode_loop]; rewrite Z.ltb_irrefl; reflexivity. }
    rewrite (bind_Done_eq _ _ _ _ _ (L _ _)). cbv beta iota.
    cbn [raw_records_len]. change (Z.to_nat 1) with 1%nat. cbn [promote].
    cbn [raw_records aget slots]. change (lget [raw; ndef_raw_record_init] 0) with (Done raw).
    rewrite bind_lift_fun.
    change (aset (Some (mkArray nb [raw; ndef_raw_record_init])) 0
              (mk_raw (set_raw 0 1 (abstract raw)) 0 (flag_begin raw) (flag_end raw)
                 (flag_chunked raw) (flag_short_record raw) (flag_include_id_len raw)))
      with (Done (Some (mkArray nb
               [mk_raw (set_raw 0 1 (abstract raw)) 0 (flag_begin raw) (flag_end raw)
                  (flag_chunked raw) (flag_short_record raw) (flag_include_id_len raw);
                ndef_raw_record_init]))).
    rewrite bind_lift_fun. cbv zeta.
    cbn [raw_records_len raw_records_cap set_raw_array magic abs_records_len
         abs_records_cap abs_records abstract].
    unfold set_raw_array.
    cbn [raw_records_len raw_records_cap magic abs_records_len
         abs_records_cap abs_records abstract].
    rewrite (bind_Done_eq _ _ _ _ _ (bind_Done_eq _ _ _ _ _ Ea)).
    reflexivity.
  - repeat split; try reflexivity; try exact Oc.
    all: destruct Sc as (S1 & S2 & S3 & S4 & S5 & S6 & S7); assumption.
Qed.
Lemma short_record_flag (r : ndef_record) :
  0 <= payload_len r < 2 ^ 32 ->
  flag_short_record (only_raw r) = true -> payload_len r < 256.
Proof.
  intros Hr. unfold only_raw. cbn [flag_short_record]. unfold truthy.
  destruct (Z.eqb_spec (Z.land (payload_len r) 0xffffff00) 0) as [E0|E0];
    [|discriminate].
  intros _. apply high_bits_clear; assumption.
Qed.

(** X1: a message of one record survives encoding and decoding.  For a
    record [r] whose three fields have buffers of the stated lengths
    ([type_len], [id_len] below 256, [payload_len] below 2^31), when every
    allocation succeeds, [ndef_decode] applied to the output of
    [ndef_encode] on the one-record message [r] returns a context holding
    exactly one abstract record, with the TNF, the three lengths and the
    type, payload and id bytes of [r]. *)
Theorem encode_then_decode_roundtrip (r : ndef_record) (h : heap) :
  oracle h = [] ->
  well_formed r ->
  payload_len r < 2 ^ 31 ->
  exists (c : ndef_ctx_s) (r' : ndef_record) (a : Z) (h' : heap),
    encode_then_decode r h = Done (Some c, h')
    /\ abs_records_len c = 1
    /\ abs_records c = Some (mkArray a [r'])
    /\ same_content r r'.
Proof.
  intros Ho Hwf Hpl. destruct h as [nb lv o]. simpl in Ho. subst o.
  destruct (ndef_encode_one (nb + 1) r (mkHeap (nb + 1 + 1) (nb + 1 :: nb :: lv) []))
    as (c0 & b & h1 & E & Eb & O1); [reflexivity|exact Hwf|].
  assert (Hr : 0 <= payload_len r < 2 ^ 32) by (destruct Hwf as (_ & _ & Hp & _); exact Hp).
  destruct (ndef_raw_record_decode_wire (only_raw r) [] (grown h1))
    as (raw' & h2 & Ed & O2 & Sd & Wd).
  { exact O1. }
  { exact Hwf. }
  { reflexivity. }
  { destruct (flag_short_record (only_raw r)) eqn:Ef.
    - apply short_record_flag; assumption.
    - exact Hpl. }
  { unfold zlen. simpl. lia. }
  rewrite app_nil_r in Ed.
  destruct (ndef_decode_single (wire_bytes (only_raw r)) h1 h2 raw')
    as (c & p & a & h' & En & L1 & A1 & _ & Sp & _).
  { exact O1. }
  { exact O2. }
  { pose proof (wire_bytes_nonempty (only_raw r)).
    pose proof (wire_bytes_bound (only_raw r) Hwf). lia. }
  { exact Ed. }
  { exact Wd. }
  exists c, p, a, h'. split; [|split; [exact L1|split; [exact A1|]]].
  - unfold encode_then_decode.
    rewrite (bind_Done_eq _ _ _ _ _ (one_record_message_run r nb lv)).
    rewrite (bind_Done_eq _ _ _ _ _ E). cbn [option_map]. rewrite Eb. exact En.
  - apply (same_content_trans r (abstract raw') p); [|exact Sp].
    apply (same_content_trans r (set_raw 0 0 r) (abstract raw'));
      [apply same_content_set_raw|exact Sd].
Qed.

Definition sample_record : ndef_record :=
  mk_record 0 0 NDEF_TNF_MIME 1 3 1
            (Some (mkBlock 1 (bytes_of "t")))
            (Some (mkBlock 2 (bytes_of "abc")))
            (Some (mkBlock 3 (bytes_of "i"))).

Definition sample_record_heap : heap := mkHeap 4 [3; 2; 1] [].

Lemma well_formed_sample_record : well_formed sample_record.
Proof.
  unfold well_formed, sample_record, field_ok, NDEF_TNF_MIME.
  cbn [tnf type_len payload_len id_len type payload id].
  repeat split; try lia; right; eexists; (split; [reflexivity|]);
    unfold zlen; simpl; lia.
Qed.

Lemma encode_then_decode_roundtrip_witness :
  oracle sample_record_heap = []
  /\ well_formed sample_record
  /\ payload_len sample_record < 2 ^ 31
  /\ exists (c : ndef_ctx_s) (r' : ndef_record) (a : Z) (h' : heap),
       encode_then_decode sample_record sample_record_heap = Done (Some c, h')
       /\ abs_records_len c = 1
       /\ abs_records c = Some (mkArray a [r'])
       /\ same_content sample_record r'.
Proof.
  assert (H1 : oracle sample_record_heap = []) by reflexivity.
  assert (H2 : well_formed sample_record) by exact well_formed_sample_record.
  assert (H3 : payload_len sample_record < 2 ^ 31) by (simpl; lia).
  exact (conj H1 (conj H2 (conj H3
           (encode_then_decode_roundtrip sample_record sample_record_heap H1 H2 H3)))).
Defined.

(** A payload of 2^31 zero bytes. *)
Definition long_payload : list byte := repeat x00 (Z.to_nat (2 ^ 31)).

Definition long_record : ndef_record :=
  mk_record 0 0 NDEF_TNF_MIME 0 (2 ^ 31) 0 None (Some (mkBlock 1 long_payload)) None.

Definition long_record_heap : heap := mkHeap 2 [1] [].

Lemma well_formed_long_record : well_formed long_record.
Proof.
  unfold well_formed, long_record, field_ok.
  cbn [tnf type_len payload_len id_len type payload id].
  unfold NDEF_TNF_MIME.
  repeat split; try lia; try (left; reflexivity).
  right. eexists. split; [reflexivity|]. cbn [bdata]. unfold zlen, long_payload.
  rewrite repeat_length, Z2Nat.id; lia.
Qed.

(** X2: a payload of 2^31 bytes or more is lost.  For a record [r] with
    [2^31 <= payload_len r < 2^32 - 1024] whose fields have buffers of the
    stated lengths, when every allocation succeeds, [ndef_encode] writes
    the one-record message and [ndef_decode] applied to its output returns
    a context with no record at all: the most significant length byte,
    shifted left by 24 as an [int], is sign-extended into the 64-bit
    [payload_len], and the length check refuses the record. *)
Theorem encode_then_decode_long_payload_lost (r : ndef_record) (h : heap) :
  oracle h = [] ->
  well_formed r ->
  2 ^ 31 <= payload_len r < 2 ^ 32 - 1024 ->
  exists (c : ndef_ctx_s) (h' : heap),
    encode_then_decode r h = Done (Some c, h')
    /\ abs_records_len c = 0
    /\ abs_records c = None
    /\ raw_records_len c = 0.
Proof.
  intros Ho Hwf Hpl.
  destruct (encode_then_decode_long_payload r h Ho Hwf Hpl) as (h' & E).
  eexists. exists h'. split; [exact E|]. repeat split.
Qed.

Lemma encode_then_decode_long_payload_lost_witness :
  oracle long_record_heap = []
  /\ well_formed long_record
  /\ 2 ^ 31 <= payload_len long_record < 2 ^ 32 - 1024
  /\ exists (c : ndef_ctx_s) (h' : heap),
       encode_then_decode long_record long_record_heap = Done (Some c, h')
       /\ abs_records_len c = 0
       /\ abs_records c = None
       /\ raw_records_len c = 0.
Proof.
  assert (H1 : oracle long_record_heap = []) by reflexivity.
  assert (H2 : well_formed long_record) by exact well_formed_long_record.
  assert (H3 : 2 ^ 31 <= payload_len long_record < 2 ^ 32 - 1024)
    by (unfold long_record; cbn [payload_len]; lia).
  exact (conj H1 (conj H2 (conj H3
           (encode_then_decode_long_payload_lost long_record long_record_heap H1 H2 H3)))).
Defined.

(** C1 (the code does not do it): a record within the range of the claim
    that does not come back.  [long_record] has no type, no id and a
    payload of 2^31 bytes, fewer than 2^32 - 1, in a buffer of that
    length, and every allocation succeeds.  [ndef_encode] writes its
    one-record message, and [ndef_decode] applied to those bytes returns
    a context without any record, where the claim has exactly one record
    equal to [long_record]: the most significant byte of the payload
    length, shifted left by 24 as an [int], is sign-extended into the
    64-bit [payload_len]. *)
Theorem encode_then_decode_loses_long_record :
  well_formed long_record
  /\ type_len long_record <= 255
  /\ id_len long_record <= 255
  /\ payload_len long_record <= 2 ^ 32 - 1
  /\ exists (c : ndef_ctx_s) (h' : heap),
       encode_then_decode long_record long_record_heap = Done (Some c, h')
       /\ abs_records_len c = 0
       /\ records_of c = [].
Proof.
  split; [exact well_formed_long_record|].
  split; [cbn; lia|]. split; [cbn; lia|]. split; [cbn; lia|].
  destruct (encode_then_decode_long_payload long_record long_record_heap)
    as (h' & E).
  - reflexivity.
  - exact well_formed_long_record.
  - unfold long_record. cbn [payload_len]. lia.
  - eexists. exists h'. split; [exact E|]. split; reflexivity.
Qed.

End OneRecordMessage.

(** ** URI records: from a string to a record and back *)

Section UriRoundTrip.

(** The record [new_uri] builds for the index [k] and the string [t]. *)
Definition uri_record (ta pa k : Z) (t : list byte) : ndef_record :=
  mk_record 0 0 NDEF_TNF_WELL_KNOWN 1 (zlen t + 1) 0
            (Some (mkBlock ta ["U"%byte]))
            (Some (mkBlock pa (byte_of_Z k :: t ++ [x00])))
            None.

Lemma new_uri_calm (abbrev : Z) (t rest : list byte) (h : heap) :
  nul_free t -> zlen t + 2 < 2 ^ 64 -> oracle h = [] ->
  new_uri abbrev (t ++ x00 :: rest) h
  = Done (uri_record (next_block h + 1) (next_block h) abbrev t, grown (grown h)).
Proof.
  intros Ht Hlen Ho. unfold new_uri.
  assert (H0 : 0 <= zlen t) by (unfold zlen; lia).
  rewrite (strlen_cstr t rest Ht), bind_lift_fun.
  rewrite (bind_Done_eq _ _ _ _ _ (malloc_calm _ h Ho)).
  rewrite (chars_cstr t rest Ht), bind_lift_fun.
  unfold filled. rewrite !size_t_small by lia.
  replace (zlen (byte_of_Z abbrev :: t ++ [x00]) <=? zlen t + 2) with true.
  2:{ symmetry. apply Z.leb_le. unfold zlen. simpl length.
      rewrite length_app. simpl. lia. }
  rewrite bind_ret_fun.
  rewrite (bind_Done_eq _ _ _ _ _ (malloc_calm 1 (grown h) Ho)).
  reflexivity.
Qed.

(** What the search of [ndef_record_new_uri] settles on. *)
Lemma ndef_record_new_uri_calm (s junk : list byte) (h : heap) :
  nul_free s -> zlen s + 2 < 2 ^ 64 -> oracle h = [] ->
  exists (k : Z) (t : list byte),
    ndef_record_new_uri (s ++ x00 :: junk) h
    = Done (uri_record (next_block h + 1) (next_block h) k t, grown (grown h))
    /\ 0 <= k < NDEF_URI_ABBREVMAX
    /\ s = uri_prefix k ++ t
    /\ (forall j : Z, 1 <= j < NDEF_URI_ABBREVMAX ->
          is_prefix_of (uri_prefix j) s -> zlen (uri_prefix j) <= zlen (uri_prefix k)).
Proof.
  intros Hs Hlen Ho. unfold ndef_record_new_uri. rewrite table_is_terminated_prefixes.
  destruct (abbrev_search_best s junk Hs uri_prefixes 1 0 0 uri_prefixes_nul_free)
    as (m & ml & E & _ & Hall & Hcase).
  rewrite E, bind_lift_fun.
  destruct Hcase as [[-> ->]|(k & e & Hk & -> & -> & (t & ->))].
  - change (skipn (Z.to_nat 0) (s ++ x00 :: junk)) with (s ++ x00 :: junk).
    exists 0, s. split; [apply new_uri_calm; assumption|].
    split; [unfold NDEF_URI_ABBREVMAX; lia|]. split; [reflexivity|].
    intros j Hj Hp. pose proof (Hall _ (uri_prefix_in j Hj) Hp).
    pose proof (uri_prefixes_nonempty _ (uri_prefix_in j Hj)). lia.
  - assert (Hkr : (k < 35)%nat).
    { change 35%nat with (length uri_prefixes). apply nth_error_Some. congruence. }
    assert (Het : nul_free e /\ nul_free t).
    { unfold nul_free in *. rewrite Forall_app in Hs. exact Hs. }
    destruct Het as [He Ht].
    assert (Hlt : zlen (e ++ t) = zlen e + zlen t) by apply zlen_app.
    replace (skipn (Z.to_nat (zlen e)) ((e ++ t) ++ x00 :: junk))
      with (t ++ x00 :: junk).
    2:{ unfold zlen. rewrite Nat2Z.id, <- app_assoc, skipn_app, skipn_all,
          Nat.sub_diag. reflexivity. }
    assert (0 <= zlen e) by (unfold zlen; lia).
    exists (1 + Z.of_nat k), t.
    split; [apply new_uri_calm; [assumption|lia|assumption]|].
    rewrite (uri_prefix_nth k e Hk).
    split; [unfold NDEF_URI_ABBREVMAX; lia|]. split; [reflexivity|].
    intros j Hj Hp. exact (Hall _ (uri_prefix_in j Hj) Hp).
Qed.

Lemma uri_record_is_uri (ta pa k : Z) (t : list byte) :
  ndef_record_is_uri (uri_record ta pa k t) = Done (2 <=? zlen t + 1).
Proof. reflexivity. Qed.

(** [ndef_record_get_uri] on a record made by [new_uri]. *)
Lemma get_uri_of_uri_record (ta pa k : Z) (t : list byte) (h : heap) :
  0 <= k < NDEF_URI_ABBREVMAX -> nul_free t -> t <> [] ->
  zlen (uri_prefix k) + zlen t + 2 < 2 ^ 64 ->
  oracle h = [] ->
  ndef_record_get_uri (uri_record ta pa k t) h
  = Done (Some (mkBlock (next_block h) (uri_prefix k ++ t ++ [x00])), grown h).
Proof.
  intros Hk Ht Hne Hlen Ho.
  assert (Hpos : 1 <= zlen t) by (destruct t; [contradiction|unfold zlen; simpl; lia]).
  assert (Hpre0 : 0 <= zlen (uri_prefix k)) by (unfold zlen; lia).
  unfold ndef_record_get_uri. rewrite uri_record_is_uri.
  destruct (Z.leb_spec 2 (zlen t + 1)); [|lia].
  rewrite bind_lift_fun.
  unfold uri_record. cbn [payload payload_len byte_at deref bdata].
  assert (Hp0 : rd (byte_of_Z k :: t ++ [x00]) (zlen (byte_of_Z k :: t ++ [x00])) 0
                = Done k).
  { rewrite rd_nth_ok; [|unfold zlen; simpl; lia|unfold zlen; simpl; lia].
    simpl. rewrite Z_of_byte_of_Z, uint8_t_small; [reflexivity|].
    unfold NDEF_URI_ABBREVMAX in Hk. lia. }
  rewrite Hp0, !bind_lift_fun. cbv zeta. cbn [skipn].
  replace (zlen t + 1 - 1) with (zlen t) by lia.
  rewrite (size_t_small (zlen t)) by lia.
  assert (Hn : nchars (t ++ [x00]) (zlen t) = Done t).
  { rewrite nchars_until_nul by (rewrite zlen_app; unfold zlen; simpl; lia).
    unfold zlen. rewrite Nat2Z.id, firstn_app, firstn_all, Nat.sub_diag.
    simpl. rewrite app_nil_r, until_nul_nul_free by exact Ht. reflexivity. }
  assert (Hs : strnlen (t ++ [x00]) (Z.to_nat (zlen t)) = Done (zlen t)).
  { replace (Z.to_nat (zlen t)) with (length t) by (unfold zlen; lia).
    rewrite strnlen_until_nul by (rewrite length_app; lia).
    rewrite firstn_app, firstn_all, Nat.sub_diag.
    simpl. rewrite app_nil_r, until_nul_nul_free by exact Ht. reflexivity. }
  unfold truthy. destruct (Z.eqb_spec k 0) as [Hz|Hnz]; cbn [negb]; cbv iota.
  - unfold strndup. rewrite Hn, bind_lift_fun.
    rewrite (bind_Done_eq _ _ _ _ _ (malloc_calm _ h Ho)).
    subst k. reflexivity.
  - destruct (Z.leb_spec NDEF_URI_ABBREVMAX k); [lia|].
    destruct (table_entry k Hk) as [Hte Hnf].
    rewrite Hte, bind_lift_fun.
    rewrite (strlen_cstr _ [] Hnf), bind_lift_fun.
    rewrite Hs, bind_lift_fun. cbv zeta.
    rewrite (bind_Done_eq _ _ _ _ _ (malloc_calm _ h Ho)).
    rewrite (chars_cstr _ [] Hnf), bind_lift_fun.
    rewrite Hn, bind_lift_fun.
    unfold filled.
    assert (Hpre : zlen (uri_prefix k) <= 26).
    { assert (G : forallb (fun e => zlen e <=? 26)
                    (map (@removelast byte) ndef_uri_abbrev_table) = true)
        by (vm_compute; reflexivity).
      rewrite forallb_forall in G. apply Z.leb_le, G.
      unfold uri_prefix. apply in_map, nth_In.
      change (length ndef_uri_abbrev_table) with 36%nat.
      unfold NDEF_URI_ABBREVMAX in *. lia. }
    assert (0 <= zlen (uri_prefix k)) by (unfold zlen; lia).
    rewrite (size_t_small (zlen (uri_prefix k) + zlen t)) by lia.
    rewrite size_t_small by lia.
    replace (zlen (uri_prefix k ++ t ++ [x00]) <=? zlen (uri_prefix k) + zlen t + 1)
      with true.
    2:{ symmetry. apply Z.leb_le. rewrite !zlen_app. unfold zlen. simpl. lia. }
    reflexivity.
Qed.

(** X3: a URI survives [ndef_record_new_uri] and [ndef_record_get_uri].
    For a string [s] without zero byte that is not itself one of the 36
    table entries (the empty string is entry 0), when every allocation
    succeeds, [ndef_record_new_uri] builds a record that
    [ndef_record_is_uri] accepts, and [ndef_record_get_uri] on that record
    returns a new string equal to [s]: the block that the allocator
    hands out during the call, allocated when the call returns. *)
Theorem ndef_record_uri_roundtrip (s junk : list byte) (h : heap) :
  nul_free s -> zlen s + 2 < 2 ^ 64 -> oracle h = [] ->
  (forall j : Z, 0 <= j < NDEF_URI_ABBREVMAX -> s <> uri_prefix j) ->
  exists (r : ndef_record) (h1 : heap) (b : block) (h2 : heap),
    ndef_record_new_uri (s ++ x00 :: junk) h = Done (r, h1)
    /\ ndef_record_is_uri r = Done true
    /\ ndef_record_get_uri r h1 = Done (Some b, h2)
    /\ bdata b = s ++ [x00]
    /\ chars (bdata b) = Done s
    /\ baddr b = next_block h1
    /\ is_live (baddr b) h2.
Proof.
  intros Hs Hlen Ho Hnot.
  destruct (ndef_record_new_uri_calm s junk h Hs Hlen Ho) as (k & t & E & Hk & Est & _).
  assert (Hne : t <> []).
  { intros ->. rewrite app_nil_r in Est. exact (Hnot k Hk Est). }
  assert (Ht : nul_free t).
  { unfold nul_free in *. rewrite Est, Forall_app in Hs. apply Hs. }
  assert (Hz : zlen s = zlen (uri_prefix k) + zlen t) by (rewrite Est; apply zlen_app).
  assert (Hpos : 1 <= zlen t) by (destruct t; [contradiction|unfold zlen; simpl; lia]).
  eexists. eexists. eexists. eexists. split; [exact E|].
  split; [rewrite uri_record_is_uri; destruct (Z.leb_spec 2 (zlen t + 1)); [reflexivity|lia]|].
  split; [apply get_uri_of_uri_record; try assumption; lia|].
  cbn [bdata baddr]. rewrite app_assoc, <- Est.
  split; [reflexivity|]. split; [apply chars_cstr; exact Hs|].
  split; [reflexivity|apply is_live_grown_new].
Qed.

Lemma ndef_record_uri_roundtrip_witness :
  nul_free (bytes_of "https://a.b/c")
  /\ zlen (bytes_of "https://a.b/c") + 2 < 2 ^ 64
  /\ oracle heap0 = []
  /\ (forall j : Z, 0 <= j < NDEF_URI_ABBREVMAX -> bytes_of "https://a.b/c" <> uri_prefix j)
  /\ exists (r : ndef_record) (h1 : heap) (b : block) (h2 : heap),
       ndef_record_new_uri (bytes_of "https://a.b/c" ++ [x00]) heap0 = Done (r, h1)
       /\ ndef_record_is_uri r = Done true
       /\ ndef_record_get_uri r h1 = Done (Some b, h2)
       /\ bdata b = bytes_of "https://a.b/c" ++ [x00]
       /\ chars (bdata b) = Done (bytes_of "https://a.b/c")
       /\ baddr b = next_block h1
       /\ is_live (baddr b) h2.
Proof.
  assert (H1 : nul_free (bytes_of "https://a.b/c"))
    by (apply nul_freeb_sound; vm_compute; reflexivity).
  assert (H2 : zlen (bytes_of "https://a.b/c") + 2 < 2 ^ 64) by (vm_compute; reflexivity).
  assert (H3 : oracle heap0 = []) by reflexivity.
  assert (H4 : forall j : Z, 0 <= j < NDEF_URI_ABBREVMAX ->
                 bytes_of "https://a.b/c" <> uri_prefix j).
  { intros j Hj. unfold NDEF_URI_ABBREVMAX in Hj.
    assert (E : exists k : nat, j = Z.of_nat k /\ (k < 36)%nat)
      by (exists (Z.to_nat j); lia).
    destruct E as (k & -> & Hk).
    do 36 (destruct k as [|k]; [vm_compute; discriminate|]). lia. }
  exact (conj H1 (conj H2 (conj H3 (conj H4
           (ndef_record_uri_roundtrip _ [] heap0 H1 H2 H3 H4))))).
Defined.

(** X4: a URI that is exactly a table entry does not come back.  When
    the string is one of the 36 entries of the abbreviation table (the
    empty string, ["https://"], ["tel:"], ...), and every allocation
    succeeds, [ndef_record_new_uri] builds a record with a payload of one
    byte; [ndef_record_is_uri], which wants two, rejects it, and
    [ndef_record_get_uri] returns [NULL]. *)
Theorem ndef_record_new_uri_bare_prefix (j : Z) (junk : list byte) (h : heap) :
  0 <= j < NDEF_URI_ABBREVMAX -> oracle h = [] ->
  exists (r : ndef_record) (h1 : heap),
    ndef_record_new_uri (uri_prefix j ++ x00 :: junk) h = Done (r, h1)
    /\ payload_len r = 1
    /\ ndef_record_is_uri r = Done false
    /\ ndef_record_get_uri r h1 = Done (None, h1).
Proof.
  intros Hj Ho.
  destruct (table_entry j Hj) as [_ Hnf].
  assert (Hlen : zlen (uri_prefix j) <= 26).
  { assert (G : forallb (fun e => zlen e <=? 26)
                  (map (@removelast byte) ndef_uri_abbrev_table) = true)
      by (vm_compute; reflexivity).
    rewrite forallb_forall in G. apply Z.leb_le, G.
    unfold uri_prefix. apply in_map, nth_In.
    change (length ndef_uri_abbrev_table) with 36%nat.
    unfold NDEF_URI_ABBREVMAX in *. lia. }
  destruct (ndef_record_new_uri_calm (uri_prefix j) junk h Hnf ltac:(lia) Ho)
    as (k & t & E & Hk & Est & Hbest).
  assert (Ht : t = []).
  { assert (Hz : zlen (uri_prefix j) = zlen (uri_prefix k) + zlen t)
      by (rewrite Est at 1; apply zlen_app).
    assert (Hle : zlen (uri_prefix j) <= zlen (uri_prefix k)).
    { destruct (Z.eq_dec j 0) as [->|Hj0].
      - change (uri_prefix 0) with (@nil byte). unfold zlen. simpl. lia.
      - apply Hbest; [lia|]. exists []. symmetry. apply app_nil_r. }
    destruct t; [reflexivity|]. unfold zlen in *. simpl length in *. lia. }
  subst t.
  eexists. eexists. split; [exact E|].
  split; [reflexivity|]. split; [reflexivity|].
  unfold ndef_record_get_uri. rewrite uri_record_is_uri. reflexivity.
Qed.

Lemma ndef_record_new_uri_bare_prefix_witness :
  0 <= 4 < NDEF_URI_ABBREVMAX
  /\ oracle heap0 = []
  /\ uri_prefix 4 = bytes_of "https://"
  /\ exists (r : ndef_record) (h1 : heap),
       ndef_record_new_uri (uri_prefix 4 ++ [x00]) heap0 = Done (r, h1)
       /\ payload_len r = 1
       /\ ndef_record_is_uri r = Done false
       /\ ndef_record_get_uri r h1 = Done (None, h1).
Proof.
  assert (H1 : 0 <= 4 < NDEF_URI_ABBREVMAX) by (unfold NDEF_URI_ABBREVMAX; lia).
  assert (H2 : oracle heap0 = []) by reflexivity.
  assert (H3 : uri_prefix 4 = bytes_of "https://") by reflexivity.
  exact (conj H1 (conj H2 (conj H3 (ndef_record_new_uri_bare_prefix 4 [] heap0 H1 H2)))).
Defined.

(** X5: [ndef_record_new_raw_uri] stores the string as it is, with index
    0, and [ndef_record_get_uri] gives it back: for a non-empty string
    [s] without zero byte, when every allocation succeeds, the record has
    the payload [0 :: s] (and a terminator after it), is accepted by
    [ndef_record_is_uri], and decodes to a new string equal to [s]: the
    block that the allocator hands out during the call, allocated when
    the call returns. *)
Theorem ndef_record_raw_uri_roundtrip (s junk : list byte) (h : heap) :
  nul_free s -> s <> [] -> zlen s + 2 < 2 ^ 64 -> oracle h = [] ->
  exists (r : ndef_record) (h1 : heap) (b : block) (h2 : heap),
    ndef_record_new_raw_uri (s ++ x00 :: junk) h = Done (r, h1)
    /\ payload_len r = zlen s + 1
    /\ option_map bdata (payload r) = Some (x00 :: s ++ [x00])
    /\ ndef_record_is_uri r = Done true
    /\ ndef_record_get_uri r h1 = Done (Some b, h2)
    /\ bdata b = s ++ [x00]
    /\ baddr b = next_block h1
    /\ is_live (baddr b) h2.
Proof.
  intros Hs Hne Hlen Ho.
  assert (Hpos : 1 <= zlen s) by (destruct s; [contradiction|unfold zlen; simpl; lia]).
  unfold ndef_record_new_raw_uri. rewrite (new_uri_calm 0 s junk h Hs Hlen Ho).
  eexists. eexists. eexists. eexists. split; [reflexivity|].
  split; [reflexivity|]. split; [reflexivity|].
  split; [rewrite uri_record_is_uri; destruct (Z.leb_spec 2 (zlen s + 1)); [reflexivity|lia]|].
  split.
  - apply get_uri_of_uri_record; try assumption. unfold NDEF_URI_ABBREVMAX. lia.
  - split; [reflexivity|]. split; [reflexivity|apply is_live_grown_new].
Qed.

Lemma ndef_record_raw_uri_roundtrip_witness :
  nul_free (bytes_of "http://x")
  /\ bytes_of "http://x" <> []
  /\ zlen (bytes_of "http://x") + 2 < 2 ^ 64
  /\ oracle heap0 = []
  /\ exists (r : ndef_record) (h1 : heap) (b : block) (h2 : heap),
       ndef_record_new_raw_uri (bytes_of "http://x" ++ [x00]) heap0 = Done (r, h1)
       /\ payload_len r = zlen (bytes_of "http://x") + 1
       /\ option_map bdata (payload r) = Some (x00 :: bytes_of "http://x" ++ [x00])
       /\ ndef_record_is_uri r = Done true
       /\ ndef_record_get_uri r h1 = Done (Some b, h2)
       /\ bdata b = bytes_of "http://x" ++ [x00]
       /\ baddr b = next_block h1
       /\ is_live (baddr b) h2.
Proof.
  assert (H1 : nul_free (bytes_of "http://x"))
    by (apply nul_freeb_sound; vm_compute; reflexivity).
  assert (H2 : bytes_of "http://x" <> []) by (vm_compute; discriminate).
  assert (H3 : zlen (bytes_of "http://x") + 2 < 2 ^ 64) by (vm_compute; reflexivity).
  assert (H4 : oracle heap0 = []) by reflexivity.
  exact (conj H1 (conj H2 (conj H3 (conj H4
           (ndef_record_raw_uri_roundtrip _ [] heap0 H1 H2 H3 H4))))).
Defined.

End UriRoundTrip.

(** ** Text records and smart posters: what the constructors return *)

(** Take a successful run apart, following the branch it took. *)
Ltac run_split :=
  first
  [ progress run_inv
  | match goal with
    | H : (if ?b then _ else _) _ = Done _ |- _ => destruct b eqn:?
    | H : match ?x with Some _ => _ | None => _ end _ = Done _ |- _ => destruct x eqn:?
    | H : (let (_, _) := ?x in _) _ = Done _ |- _ => destruct x eqn:?
    end ].

Section WellKnownConstructors.

Lemma filled_Done (a size : Z) (bytes : list byte) (h h' : heap) (b : block) :
  filled a size bytes h = Done (b, h') -> b = mkBlock a bytes /\ h' = h.
Proof.
  unfold filled. destruct (zlen bytes <=? size); [|discriminate].
  unfold ret. intros E. inversion E. auto.
Qed.

(** X6: [ndef_record_new_text] never builds a text record.  Whatever
    the language and the text, a record it returns is refused by
    [ndef_record_is_text]: it is the empty record, or it carries the
    type ['U']. *)
Theorem ndef_record_new_text_never_text (ctx : ndef_text) (h h' : heap) (r : ndef_record) :
  ndef_record_new_text ctx h = Done (r, h') ->
  ndef_record_is_text r = Done false
  /\ (r = ndef_record_init \/ option_map bdata (type r) = Some ["U"%byte]).
Proof.
  unfold ndef_record_new_text. intros E.
  repeat run_split; (split; [reflexivity|]); (left; reflexivity) || (right; reflexivity).
Qed.

(** The text [{lang: "en", text: ""}], its strings in blocks 51 and 52. *)
Definition text_en_empty : ndef_text :=
  mk_text (Some (mkBlock 51 (cstr "en"))) (Some (mkBlock 52 (cstr ""))).

Lemma ndef_record_new_text_never_text_witness :
  ndef_record_new_text text_en_empty strings_heap
  = Done (mk_record 0 0 NDEF_TNF_WELL_KNOWN 1 3 0
                    (Some (mkBlock 101 ["U"%byte]))
                    (Some (mkBlock 100 ["002"; "e"; "n"]%byte)) None,
          mkHeap 102 [101; 100; 50; 51; 52] [])
  /\ ndef_record_is_text
       (mk_record 0 0 NDEF_TNF_WELL_KNOWN 1 3 0
                  (Some (mkBlock 101 ["U"%byte]))
                  (Some (mkBlock 100 ["002"; "e"; "n"]%byte)) None) = Done false.
Proof.
  assert (E : ndef_record_new_text text_en_empty strings_heap
              = Done (mk_record 0 0 NDEF_TNF_WELL_KNOWN 1 3 0
                                (Some (mkBlock 101 ["U"%byte]))
                                (Some (mkBlock 100 ["002"; "e"; "n"]%byte)) None,
                      mkHeap 102 [101; 100; 50; 51; 52] []))
    by (vm_compute; reflexivity).
  exact (conj E (proj1 (ndef_record_new_text_never_text _ _ _ _ E))).
Defined.

(** X7: [ndef_record_new_text] refuses every text that is not empty.
    For a language and a text given as zero-terminated strings, the text
    holding at least one character, the function returns the empty
    record ([ndef_record_init]) and allocates nothing: the validity check
    tests [text_len] where it should test [!text_len]. *)
Theorem ndef_record_new_text_rejects_text (l t lrest trest : list byte) (la ta : Z)
    (h : heap) :
  nul_free l -> nul_free t -> t <> [] ->
  ndef_record_new_text
    (mk_text (Some (mkBlock la (l ++ x00 :: lrest))) (Some (mkBlock ta (t ++ x00 :: trest)))) h
  = Done (ndef_record_init, h).
Proof.
  intros Hl Ht Hne. unfold ndef_record_new_text. cbn [lang text deref bdata].
  rewrite bind_lift_fun, (strlen_cstr l lrest Hl), bind_lift_fun.
  rewrite bind_lift_fun, (strlen_cstr t trest Ht), bind_lift_fun.
  assert (Hpos : truthy (zlen t) = true).
  { unfold truthy. destruct t; [contradiction|].
    destruct (Z.eqb_spec (zlen (b :: t)) 0) as [E|]; [|reflexivity].
    unfold zlen in E. simpl in E. lia. }
  rewrite Hpos, orb_true_r. reflexivity.
Qed.

Lemma ndef_record_new_text_rejects_text_witness :
  nul_free (bytes_of "en") /\ nul_free (bytes_of "hello") /\ bytes_of "hello" <> []
  /\ ndef_record_new_text
       (mk_text (Some (mkBlock 51 (cstr "en"))) (Some (mkBlock 52 (cstr "hello"))))
       strings_heap
     = Done (ndef_record_init, strings_heap).
Proof.
  assert (H1 : nul_free (bytes_of "en")) by (apply nul_freeb_sound; vm_compute; reflexivity).
  assert (H2 : nul_free (bytes_of "hello"))
    by (apply nul_freeb_sound; vm_compute; reflexivity).
  assert (H3 : bytes_of "hello" <> []) by (vm_compute; discriminate).
  exact (conj H1 (conj H2 (conj H3
           (ndef_record_new_text_rejects_text _ _ [] [] 51 52 strings_heap H1 H2 H3)))).
Defined.

(** X8: [ndef_record_new_smartposter] never builds a record that
    [ndef_record_is_smartposter] accepts.  Whatever the input, a record
    it returns is the empty record or has [type_len = 1] beside the two
    type bytes ["Sp"], and the classification wants [type_len = 2]. *)
Theorem ndef_record_new_smartposter_never_smartposter (ctx : ndef_smartposter)
    (h h' : heap) (r : ndef_record) :
  ndef_record_new_smartposter ctx h = Done (r, h') ->
  ndef_record_is_smartposter r = Done false
  /\ (r = ndef_record_init
      \/ (type_len r = 1 /\ option_map bdata (type r) = Some ["S"; "p"]%byte)).
Proof.
  unfold ndef_record_new_smartposter. intros E.
  apply bind_Done in E. destruct E as (inner & h1 & _ & E).
  apply bind_Done in E. destruct E as (n & h2 & _ & E).
  apply bind_Done in E. destruct E as (a & h3 & _ & E).
  apply bind_Done in E. destruct E as ([has_uri has_text] & h4 & _ & E).
  apply bind_Done in E. destruct E as (inner1 & h5 & _ & E).
  apply bind_Done in E. destruct E as (inner2 & h6 & _ & E).
  apply bind_Done in E. destruct E as ([c res] & h7 & _ & E).
  apply bind_Done in E. destruct E as (c' & h8 & _ & E).
  apply bind_Done in E. destruct E as (ty & h9 & _ & E).
  destruct res as [[data len]|]; [|discriminate E].
  destruct ty as [t|].
  - run_inv. split; [reflexivity|]. right. split; reflexivity.
  - run_inv. split; [reflexivity|]. left. reflexivity.
Qed.

Lemma ndef_record_new_smartposter_never_smartposter_witness :
  ndef_record_new_smartposter poster_https_x strings_heap
  = Done (mk_record 0 0 NDEF_TNF_WELL_KNOWN 1 6 0
                    (Some (mkBlock 105 ["S"; "p"]%byte))
                    (Some (mkBlock 104 ["209"; "001"; "002"; "U"; "004"; "x"]%byte)) None,
          mkHeap 106 [105; 104; 102; 101; 100; 50; 51; 52] [])
  /\ ndef_record_is_smartposter
       (mk_record 0 0 NDEF_TNF_WELL_KNOWN 1 6 0
                  (Some (mkBlock 105 ["S"; "p"]%byte))
                  (Some (mkBlock 104 ["209"; "001"; "002"; "U"; "004"; "x"]%byte)) None)
     = Done false.
Proof.
  assert (E : ndef_record_new_smartposter poster_https_x strings_heap
              = Done (mk_record 0 0 NDEF_TNF_WELL_KNOWN 1 6 0
                        (Some (mkBlock 105 ["S"; "p"]%byte))
                        (Some (mkBlock 104 ["209"; "001"; "002"; "U"; "004"; "x"]%byte)) None,
                      mkHeap 106 [105; 104; 102; 101; 100; 50; 51; 52] []))
    by (vm_compute; reflexivity).
  exact (conj E (proj1 (ndef_record_new_smartposter_never_smartposter _ _ _ _ E))).
Defined.

End WellKnownConstructors.

(** ** Text records: reading one *)

Section TextDecode.

Lemma ndef_record_is_text_true (r : ndef_record) :
  ndef_record_is_text r = Done true -> 4 <= payload_len r.
Proof.
  unfold ndef_record_is_text, and_then, eq_char.
  destruct (tnf r =? NDEF_TNF_WELL_KNOWN); [|discriminate].
  destruct (type_len r =? 1); [|discriminate].
  destruct (byte_at (type r) 0) as [z| |]; try discriminate.
  destruct (z =? Z_of_byte "T"); [|discriminate].
  destruct (Z.leb_spec 4 (payload_len r)); [|discriminate]. auto.
Qed.

Lemma lang_len_range (p0 : Z) : 0 <= p0 -> 0 <= Z.land p0 0x3f <= 63.
Proof.
  intros H. change (Z.land p0 0x3f) with (Z.land p0 (Z.ones 6)).
  rewrite Z.land_ones by lia.
  change (2 ^ 6) with 64. pose proof (Z.mod_pos_bound p0 64). lia.
Qed.

Lemma Z_of_byte_nonneg (c : byte) : 0 <= Z_of_byte c.
Proof. unfold Z_of_byte. lia. Qed.

(** X9: [ndef_record_get_text] splits the payload at the language
    length.  For a record that [ndef_record_is_text] accepts, whose
    payload block holds its [payload_len] bytes, with [n] the low six bits
    of payload byte 0 and [n + 1 <= payload_len], when both allocations
    succeed the result is two new strings: the language, payload bytes 1
    to [n], and the text, payload bytes [n + 1] to [payload_len - 1], each
    followed by a terminator.  Bits 6 and 7 of byte 0 (the UTF-16 flag)
    are not looked at. *)
Theorem ndef_record_get_text_fields (r : ndef_record) (b : block) (h : heap) :
  ndef_record_is_text r = Done true ->
  payload r = Some b ->
  payload_len r <= zlen (bdata b) ->
  payload_len r < 2 ^ 63 ->
  oracle h = [] ->
  let n := Z.land (Z_of_byte (nth 0 (bdata b) x00)) 0x3f in
  n + 1 <= payload_len r ->
  ndef_record_get_text r h
  = Done (mk_text
            (Some (mkBlock (next_block h)
                     (firstn (Z.to_nat n) (skipn 1 (bdata b)) ++ [x00])))
            (Some (mkBlock (next_block h + 1)
                     (firstn (Z.to_nat (payload_len r - n - 1))
                        (skipn (Z.to_nat (1 + n)) (bdata b)) ++ [x00]))),
          grown (grown h)).
Proof.
  intros Ht Hb Hfit Hbig Ho n Hn.
  pose proof (ndef_record_is_text_true r Ht) as H4.
  pose proof (lang_len_range _ (Z_of_byte_nonneg (nth 0 (bdata b) x00))) as Hr.
  fold n in Hr.
  unfold ndef_record_get_text. rewrite Ht, bind_lift_fun. cbn [negb].
  rewrite Hb. cbn [byte_at deref].
  rewrite rd_nth_ok by lia. rewrite bind_lift_fun. cbv zeta.
  change (Z.to_nat 0) with 0%nat. fold n.
  rewrite (size_t_small (payload_len r - n - 1)) by lia.
  rewrite (bind_Done_eq _ _ _ _ _ (malloc_calm _ h Ho)).
  rewrite (size_t_small (payload_len r - n - 1 + 1)) by lia.
  rewrite (bind_Done_eq _ _ _ _ _ (malloc_calm _ (grown h) Ho)).
  rewrite bind_lift_fun.
  unfold memcpy_src.
  destruct (Z.leb_spec 0 1); [|lia]. destruct (Z.leb_spec 0 n); [|lia].
  destruct (Z.leb_spec (1 + n) (zlen (bdata b))); [|lia].
  cbn [andb]. rewrite bind_lift_fun.
  destruct (Z.leb_spec 0 (1 + n)); [|lia].
  destruct (Z.leb_spec 0 (payload_len r - n - 1)); [|lia].
  destruct (Z.leb_spec (1 + n + (payload_len r - n - 1)) (zlen (bdata b))); [|lia].
  cbn [andb]. rewrite bind_lift_fun.
  unfold filled.
  set (lb := firstn (Z.to_nat n) (skipn (Z.to_nat 1) (bdata b))).
  set (tb := firstn (Z.to_nat (payload_len r - n - 1)) (skipn (Z.to_nat (1 + n)) (bdata b))).
  assert (Hlb : zlen (lb ++ [x00]) <= n + 1).
  { rewrite zlen_app. unfold lb, zlen. rewrite length_firstn. simpl. lia. }
  assert (Htb : zlen (tb ++ [x00]) <= payload_len r - n - 1 + 1).
  { rewrite zlen_app. unfold tb, zlen. rewrite length_firstn. simpl. lia. }
  destruct (Z.leb_spec (zlen (lb ++ [x00])) (n + 1)); [|lia].
  destruct (Z.leb_spec (zlen (tb ++ [x00])) (payload_len r - n - 1 + 1)); [|lia].
  reflexivity.
Qed.

(** A text record with payload [02 'e' 'n' 'h' 'i']. *)
Definition text_record_en_hi : ndef_record :=
  mk_record 0 0 NDEF_TNF_WELL_KNOWN 1 5 0
            (Some (mkBlock 21 (bytes_of "T")))
            (Some (mkBlock 22 ("002"%byte :: bytes_of "enhi"))) None.

Lemma ndef_record_get_text_fields_witness :
  ndef_record_is_text text_record_en_hi = Done true
  /\ payload text_record_en_hi = Some (mkBlock 22 ("002"%byte :: bytes_of "enhi"))
  /\ payload_len text_record_en_hi <= zlen ("002"%byte :: bytes_of "enhi")
  /\ payload_len text_record_en_hi < 2 ^ 63
  /\ oracle uri_heap = []
  /\ 2 + 1 <= payload_len text_record_en_hi
  /\ ndef_record_get_text text_record_en_hi uri_heap
     = Done (mk_text (Some (mkBlock 100 (cstr "en"))) (Some (mkBlock 101 (cstr "hi"))),
             grown (grown uri_heap)).
Proof.
  assert (H1 : ndef_record_is_text text_record_en_hi = Done true) by reflexivity.
  assert (H2 : payload text_record_en_hi = Some (mkBlock 22 ("002"%byte :: bytes_of "enhi")))
    by reflexivity.
  assert (H3 : payload_len text_record_en_hi
               <= zlen (bdata (mkBlock 22 ("002"%byte :: bytes_of "enhi"))))
    by (vm_compute; discriminate).
  assert (H4 : payload_len text_record_en_hi < 2 ^ 63) by (vm_compute; reflexivity).
  assert (H5 : oracle uri_heap = []) by reflexivity.
  assert (H6 : Z.land (Z_of_byte (nth 0 (bdata (mkBlock 22 ("002"%byte :: bytes_of "enhi")))
                                    x00)) 0x3f + 1
               <= payload_len text_record_en_hi) by (vm_compute; discriminate).
  exact (conj H1 (conj H2 (conj H3 (conj H4 (conj H5 (conj H6
           (ndef_record_get_text_fields text_record_en_hi _ uri_heap H1 H2 H3 H4 H5 H6))))))).
Defined.

(** X10: a language length that does not fit the payload gives no
    strings.  For a record that [ndef_record_is_text] accepts whose
    payload block has fewer than 2^63 bytes, when the low six bits [n] of
    payload byte 0 say [n + 1 > payload_len], [text_len] wraps around to
    almost 2^64: the call ends with [{NULL, NULL}] when an allocation
    fails, and reads outside the payload otherwise.  It never returns a
    language or a text. *)
Theorem ndef_record_get_text_overlong_language (r : ndef_record) (b : block) (h : heap) :
  ndef_record_is_text r = Done true ->
  payload r = Some b ->
  zlen (bdata b) < 2 ^ 63 ->
  payload_len r < Z.land (Z_of_byte (nth 0 (bdata b) x00)) 0x3f + 1 ->
  ndef_record_get_text r h = Crash
  \/ exists h' : heap, ndef_record_get_text r h = Done (no_text, h').
Proof.
  intros Ht Hb Hsmall Hn.
  pose proof (ndef_record_is_text_true r Ht) as H4.
  pose proof (lang_len_range _ (Z_of_byte_nonneg (nth 0 (bdata b) x00))) as Hr.
  set (n := Z.land (Z_of_byte (nth 0 (bdata b) x00)) 0x3f) in *.
  assert (Hz : 0 <= zlen (bdata b)) by (unfold zlen; lia).
  cut (forall o : outcome (ndef_text * heap),
         o = ndef_record_get_text r h ->
         o = Crash \/ exists h' : heap, o = Done (no_text, h')).
  { intros G. destruct (G _ eq_refl) as [E|[h' E]]; [left|right; exists h']; exact E. }
  intros o ->.
  unfold ndef_record_get_text. rewrite Ht, bind_lift_fun. cbn [negb].
  rewrite Hb. cbn [byte_at deref].
  unfold rd. destruct (Z.ltb_spec 0 (zlen (bdata b))) as [Hpos|Hpos].
  2:{ left. reflexivity. }
  change ((0 <=? 0) && true) with true. cbv iota.
  rewrite bind_lift_fun. cbv zeta. change (Z.to_nat 0) with 0%nat. fold n.
  assert (Hw : size_t (payload_len r - n - 1) = payload_len r - n - 1 + 2 ^ 64).
  { unfold size_t. symmetry. apply Z.mod_unique with (q := -1); lia. }
  rewrite Hw.
  assert (Hm : forall (k : Z) (h0 : heap),
             exists (a : option Z) (h1 : heap), malloc k h0 = Done (a, h1)).
  { intros k h0. unfold malloc, alloc_ok, bind, ret.
    destruct (oracle h0) as [|[] ?]; eexists; eexists; reflexivity. }
  destruct (Hm (n + 1) h) as ([la|] & h1 & E1); rewrite (bind_Done_eq _ _ _ _ _ E1).
  2:{ right. eexists. reflexivity. }
  destruct (Hm (size_t (payload_len r - n - 1 + 2 ^ 64 + 1)) h1) as ([ta|] & h2 & E2);
    rewrite (bind_Done_eq _ _ _ _ _ E2).
  - left. rewrite bind_lift_fun. unfold memcpy_src.
    destruct ((0 <=? 1) && (0 <=? n) && (1 + n <=? zlen (bdata b)));
      [|reflexivity].
    rewrite bind_lift_fun.
    destruct (Z.leb_spec (1 + n + (payload_len r - n - 1 + 2 ^ 64)) (zlen (bdata b)));
      [lia|].
    rewrite !andb_false_r. reflexivity.
  - unfold bind, free, ret.
    destruct (existsb (Z.eqb la) (live h2)); [right; eexists; reflexivity|left; reflexivity].
Qed.

(** A text record whose status byte announces 63 language bytes in a
    payload of 4. *)
Definition text_record_overlong : ndef_record :=
  mk_record 0 0 NDEF_TNF_WELL_KNOWN 1 4 0
            (Some (mkBlock 21 (bytes_of "T")))
            (Some (mkBlock 22 ("063"%byte :: bytes_of "abc"))) None.

Lemma ndef_record_get_text_overlong_language_witness :
  ndef_record_is_text text_record_overlong = Done true
  /\ payload text_record_overlong = Some (mkBlock 22 ("063"%byte :: bytes_of "abc"))
  /\ zlen ("063"%byte :: bytes_of "abc") < 2 ^ 63
  /\ payload_len text_record_overlong < 63 + 1
  /\ (ndef_record_get_text text_record_overlong uri_heap = Crash
      \/ exists h' : heap,
           ndef_record_get_text text_record_overlong uri_heap = Done (no_text, h')).
Proof.
  assert (H1 : ndef_record_is_text text_record_overlong = Done true) by reflexivity.
  assert (H2 : payload text_record_overlong = Some (mkBlock 22 ("063"%byte :: bytes_of "abc")))
    by reflexivity.
  assert (H3 : zlen (bdata (mkBlock 22 ("063"%byte :: bytes_of "abc"))) < 2 ^ 63)
    by (vm_compute; reflexivity).
  assert (H4 : payload_len text_record_overlong
               < Z.land (Z_of_byte (nth 0 (bdata (mkBlock 22 ("063"%byte :: bytes_of "abc")))
                                      x00)) 0x3f + 1) by (vm_compute; reflexivity).
  exact (conj H1 (conj H2 (conj H3 (conj H4
           (ndef_record_get_text_overlong_language text_record_overlong _ uri_heap
              H1 H2 H3 H4))))).
Defined.

End TextDecode.

(** ** The record store: appending *)

Section StoreAppend.

(** A store in its normal state: the array has [abs_records_cap] slots, is
    allocated, and the records are its first [abs_records_len] slots. *)
Definition store_ok (c : ndef_ctx_s) (h : heap) : Prop :=
  magic c = NDEF_MAGIC
  /\ 0 <= abs_records_len c <= abs_records_cap c
  /\ abs_records_cap c < 2 ^ 56
  /\ match abs_records c with
     | Some arr => zlen (slots arr) = abs_records_cap c /\ is_live (aaddr arr) h
     | None => abs_records_cap c = 0
     end.

(** The slots of an array that may be [NULL]. *)
Definition slots_of {A : Type} (p : option (array A)) : list A :=
  match p with
  | Some arr => slots arr
  | None => []
  end.

Lemma zlen_nonneg {A : Type} (l : list A) : 0 <= zlen l.
Proof. unfold zlen. lia. Qed.

Lemma zlen_cons {A : Type} (x : A) (l : list A) : zlen (x :: l) = zlen l + 1.
Proof. unfold zlen. simpl length. lia. Qed.

Lemma zlen_repeat {A : Type} (x : A) (n : nat) : zlen (repeat x n) = Z.of_nat n.
Proof. unfold zlen. rewrite repeat_length. reflexivity. Qed.

Lemma lget_app {A : Type} (l1 l2 : list A) (x : A) :
  lget (l1 ++ x :: l2) (zlen l1) = Done x.
Proof.
  unfold lget, zlen. rewrite Nat2Z.id, nth_error_app2, Nat.sub_diag by lia.
  simpl. destruct (Z.leb_spec 0 (Z.of_nat (length l1))); [reflexivity|lia].
Qed.

Lemma replace_nth_app {A : Type} (l1 l2 : list A) (x v : A) :
  replace_nth (length l1) v (l1 ++ x :: l2) = l1 ++ v :: l2.
Proof. induction l1 as [|y l1 IH]; simpl; [reflexivity|]. rewrite IH. reflexivity. Qed.

Lemma aset_app {A : Type} (a : Z) (l1 l2 : list A) (x v : A) :
  aset (Some (mkArray a (l1 ++ x :: l2))) (zlen l1) v
  = Done (Some (mkArray a (l1 ++ v :: l2))).
Proof.
  unfold aset. cbn [slots aaddr].
  pose proof (zlen_nonneg l1).
  destruct (Z.leb_spec 0 (zlen l1)); [|lia].
  destruct (Z.ltb_spec (zlen l1) (zlen (l1 ++ x :: l2))) as [_|Hge].
  2:{ rewrite zlen_app, zlen_cons in Hge. pose proof (zlen_nonneg l2). lia. }
  cbn [andb]. unfold zlen at 1. rewrite Nat2Z.id, replace_nth_app. reflexivity.
Qed.

Lemma aget_app {A : Type} (a : Z) (l1 l2 : list A) (x : A) :
  aget (Some (mkArray a (l1 ++ x :: l2))) (zlen l1) = Done x.
Proof. unfold aget. cbn [slots]. apply lget_app. Qed.


(** The allocation step of [insert_n], under a name. *)
Definition grow_abs (c : ndef_ctx_s) (new_len : Z) : M (option ndef_ctx_s) :=
  if abs_records_cap c <? new_len
  then
    let cap := abs_records_cap c in
    let cap := if cap =? 0 then 1 else cap in
    match double_until 65 cap new_len with
    | None => spin
    | Some cap =>
        mem <- realloc_array ndef_record_init sizeof_ndef_record
                 (abs_records c) (size_t (cap * sizeof_ndef_record)) ;;
        match mem with
        | None => ret None
        | Some a => ret (Some (set_abs_array (abs_records_len c) cap (Some a) c))
        end
    end
  else ret (Some c).

(** [insert_n] on a valid context, step by step. *)
Lemma insert_n_steps (c : ndef_ctx_s) (index : Z) (records : list ndef_record)
    (len : Z) (is_move : bool) :
  magic c = NDEF_MAGIC ->
  insert_n (Some c) index records len is_move
  = (let index := if abs_records_len c <? index then abs_records_len c else index in
     let old_len := abs_records_len c in
     let new_len := size_t (abs_records_len c + len) in
     grown <- grow_abs c new_len ;;
     match grown with
     | None => ret (false, c)
     | Some c =>
         let i0 := ssize_t (size_t (old_len - index - 1)) in
         a <- lift (relocate (Z.to_nat (i0 + 1)) (abs_records c) old_len index) ;;
         '(i, a) <- fill (Z.to_nat len) 0 a index records is_move ;;
         if negb is_move && (i <? len)
         then
           destroy_clones (Z.to_nat i) a index i ;;;
           a <- lift (undo_shift (Z.to_nat (size_t (old_len - index))) 0 a old_len index) ;;
           ret (false, set_abs_array (abs_records_len c) (abs_records_cap c) a c)
         else
           ret (true, set_abs_array new_len (abs_records_cap c) a c)
     end).
Proof.
  intros Hm. unfold insert_n, MAGIC_CHECK. rewrite Hm, Z.eqb_refl. reflexivity.
Qed.

Lemma firstn_all_app {A : Type} (l1 l2 : list A) : firstn (length l1) (l1 ++ l2) = l1.
Proof. rewrite firstn_app, firstn_all, Nat.sub_diag. simpl. apply app_nil_r. Qed.

Lemma realloc_array_grow {A : Type} (junk : A) (elt : Z) (p : option (array A))
    (cap : Z) (h : heap) :
  oracle h = [] -> 0 < elt -> zlen (slots_of p) <= cap -> cap * elt < 2 ^ 64 ->
  match p with Some arr => is_live (aaddr arr) h | None => True end ->
  exists (a : Z) (h' : heap),
    realloc_array junk elt p (size_t (cap * elt)) h
    = Done (Some (mkArray a (slots_of p
                             ++ repeat junk (Z.to_nat (cap - zlen (slots_of p))))), h')
    /\ is_live a h' /\ oracle h' = []
    /\ (forall x : Z, is_live x h -> is_live x h')
    /\ next_block h <= next_block h'.
Proof.
  intros Ho Helt Hcap Hsz Hlive.
  pose proof (zlen_nonneg (slots_of p)) as H0.
  assert (Hn : Z.to_nat (size_t (cap * elt) / elt) = Z.to_nat cap).
  { rewrite size_t_small by nia. rewrite Z.div_mul by lia. reflexivity. }
  assert (Hf : firstn (Z.to_nat cap)
                 (slots_of p ++ repeat junk (Z.to_nat cap - length (slots_of p)))
               = slots_of p ++ repeat junk (Z.to_nat (cap - zlen (slots_of p)))).
  { replace (Z.to_nat cap - length (slots_of p))%nat
      with (Z.to_nat (cap - zlen (slots_of p))) by (unfold zlen in *; lia).
    apply firstn_all2. rewrite length_app, repeat_length. unfold zlen in *. lia. }
  unfold realloc_array. destruct p as [arr|]; cbn [option_map slots_of] in *.
  - rewrite (bind_Done_eq _ _ _ _ _ (realloc_calm (aaddr arr) _ h Ho Hlive)).
    cbv zeta. rewrite Hn, Hf.
    exists (aaddr arr), h. split; [reflexivity|]. repeat split; auto. lia.
  - unfold realloc. rewrite (bind_Done_eq _ _ _ _ _ (malloc_calm _ h Ho)).
    cbv zeta. rewrite Hn, Hf.
    exists (next_block h), (grown h). split; [reflexivity|].
    split; [apply is_live_grown_new|]. split; [exact Ho|].
    split; [intros x; apply is_live_grown|]. unfold grown. simpl. lia.
Qed.

Lemma double_until_enough (fuel : nat) (cap need : Z) :
  need <= cap -> double_until fuel cap need = Some cap.
Proof.
  intros H. destruct fuel; simpl; destruct (Z.ltb_spec cap need); try lia; reflexivity.
Qed.

Lemma double_until_bounds (cap need : Z) :
  1 <= cap -> need <= 2 ^ 63 ->
  exists cap' : Z,
    double_until 65 cap need = Some cap'
    /\ need <= cap' /\ cap <= cap' /\ (cap' = cap \/ cap' < 2 * need).
Proof.
  intros Hcap Hneed.
  destruct (double_until_ends need 65 cap Hcap Hneed) as (cap' & E & H1 & H2).
  { change (Z.of_nat 65) with 65. lia. }
  exists cap'. split; [exact E|]. split; [exact H2|]. split; [exact H1|].
  destruct (Z.ltb_spec cap need) as [Hlt|Hge].
  - right. apply (double_until_tight need 65 cap cap'); [lia|exact Hneed|exact E].
  - left. rewrite double_until_enough in E by exact Hge. inversion E. reflexivity.
Qed.

(** The allocation step leaves the records where they are and makes room
    for [new_len] of them. *)
Lemma grow_abs_ok (c : ndef_ctx_s) (new_len : Z) (h : heap) :
  store_ok c h -> oracle h = [] ->
  abs_records_len c <= new_len < 2 ^ 55 ->
  exists (c1 : ndef_ctx_s) (h1 : heap),
    grow_abs c new_len h = Done (Some c1, h1)
    /\ store_ok c1 h1 /\ oracle h1 = []
    /\ new_len <= abs_records_cap c1
    /\ abs_records_len c1 = abs_records_len c
    /\ raw_records_len c1 = raw_records_len c
    /\ raw_records_cap c1 = raw_records_cap c
    /\ raw_records c1 = raw_records c
    /\ firstn (Z.to_nat (abs_records_len c)) (slots_of (abs_records c1))
       = firstn (Z.to_nat (abs_records_len c)) (slots_of (abs_records c))
    /\ zlen (slots_of (abs_records c1)) = abs_records_cap c1
    /\ (forall x : Z, is_live x h -> is_live x h1)
    /\ next_block h <= next_block h1.
Proof.
  intros (Hm & Hlen & Hcap & Harr) Ho Hnew. unfold grow_abs.
  assert (Hz : zlen (slots_of (abs_records c)) = abs_records_cap c).
  { destruct (abs_records c) as [arr|]; cbn [slots_of]; [apply Harr|].
    unfold zlen. simpl. lia. }
  destruct (Z.ltb_spec (abs_records_cap c) new_len) as [Hlt|Hge].
  - cbv zeta.
    set (cap0 := if abs_records_cap c =? 0 then 1 else abs_records_cap c).
    assert (Hcap0 : 1 <= cap0 /\ cap0 < 2 ^ 56 /\ abs_records_cap c <= cap0).
    { unfold cap0. destruct (Z.eqb_spec (abs_records_cap c) 0); lia. }
    destruct (double_until_bounds cap0 new_len) as (cap' & E & H1 & H2 & H3); [lia|lia|].
    rewrite E.
    destruct (realloc_array_grow ndef_record_init sizeof_ndef_record (abs_records c)
                cap' h Ho) as (a & h1 & Er & La & O1 & Lv & Nb).
    { unfold sizeof_ndef_record. lia. }
    { lia. }
    { unfold sizeof_ndef_record. lia. }
    { destruct (abs_records c) as [arr|]; [apply Harr|exact I]. }
    rewrite (bind_Done_eq _ _ _ _ _ Er).
    eexists. exists h1. split; [reflexivity|].
    cbn [set_abs_array magic abs_records_len abs_records_cap abs_records
         raw_records_len raw_records_cap raw_records slots_of slots].
    unfold store_ok.
    cbn [set_abs_array magic abs_records_len abs_records_cap abs_records slots aaddr].
    assert (Hzl : zlen (slots_of (abs_records c)
                        ++ repeat ndef_record_init
                             (Z.to_nat (cap' - zlen (slots_of (abs_records c))))) = cap').
    { rewrite zlen_app, zlen_repeat. lia. }
    repeat split; try assumption; try lia.
    rewrite firstn_app.
    replace (Z.to_nat (abs_records_len c) - length (slots_of (abs_records c)))%nat
      with 0%nat by (unfold zlen in Hz; lia).
    simpl. apply app_nil_r.
  - exists c, h. split; [reflexivity|]. unfold store_ok.
    repeat split; try assumption; try lia. auto.
Qed.

Lemma records_of_slots (c : ndef_ctx_s) :
  records_of c = firstn (Z.to_nat (abs_records_len c)) (slots_of (abs_records c)).
Proof.
  unfold records_of, slots_of. destruct (abs_records c); [reflexivity|].
  rewrite firstn_nil. reflexivity.
Qed.

Lemma split3 {A : Type} (l : list A) (n m : nat) :
  l = firstn n l ++ firstn m (skipn n l) ++ skipn (n + m) l.
Proof.
  rewrite <- (firstn_skipn n l) at 1. f_equal.
  rewrite <- (firstn_skipn m (skipn n l)) at 1. f_equal.
  rewrite skipn_skipn. f_equal. lia.
Qed.

(** The buffers of a record that hold bytes were allocated at or after
    the moment the next block was [nb]. *)
Definition cloned_since (nb : Z) (p : ndef_record) : Prop :=
  new_since nb (type p) (type_len p)
  /\ new_since nb (payload p) (payload_len p)
  /\ new_since nb (id p) (id_len p).

(** The fill loop of [insert_n] when the records are copied and every
    allocation succeeds. *)
Lemma fill_copy (a : Z) (post : list ndef_record) (index : Z) :
  forall (todo mid done pre : list ndef_record) (h : heap),
    length mid = length todo ->
    index + zlen done = zlen pre ->
    zlen pre + zlen todo < 2 ^ 64 ->
    oracle h = [] -> Forall well_formed todo ->
    exists (todo' : list ndef_record) (h' : heap),
      fill (length todo) (zlen done) (Some (mkArray a (pre ++ mid ++ post))) index
           (done ++ todo) false h
      = Done ((zlen done + zlen todo, Some (mkArray a (pre ++ todo' ++ post))), h')
      /\ length todo' = length todo
      /\ oracle h' = []
      /\ (forall x : Z, is_live x h -> is_live x h')
      /\ next_block h <= next_block h'
      /\ Forall2 same_content todo todo'
      /\ Forall well_formed todo'
      /\ Forall (cloned_since (next_block h)) todo'.
Proof.
  induction todo as [|t todo IH]; intros mid done pre h Hmid Hidx Hsmall Ho Hwf.
  - destruct mid; [|discriminate]. exists [], h. simpl. unfold ret, zlen. simpl.
    rewrite Z.add_0_r. repeat split; auto. lia.
  - destruct mid as [|m mid]; [discriminate|]. simpl length. cbn [fill].
    inversion Hwf as [|? ? Hwt Hwf']; subst.
    rewrite lget_app, bind_lift_fun.
    rewrite Hidx, size_t_small
      by (pose proof (zlen_nonneg pre); pose proof (zlen_nonneg (t :: todo)); lia).
    cbn [app]. rewrite aset_app, bind_lift_fun.
    destruct (clone_fields_ok t h Ho Hwt)
      as (p & h1 & Ec & O1 & Sc & Wc & L1 & N1 & F1 & F2 & F3 & _).
    rewrite (bind_Done_eq _ _ _ _ _ Ec). cbv beta iota.
    rewrite aset_app, bind_lift_fun.
    rewrite zlen_cons in *.
    destruct (IH mid (done ++ [t]) (pre ++ [p]) h1) as
      (todo' & h' & E & Hl & O' & L' & N' & S' & W' & C').
    { simpl in Hmid. lia. }
    { rewrite !zlen_app. change (zlen [t]) with 1. change (zlen [p]) with 1. lia. }
    { rewrite zlen_app. change (zlen [p]) with 1. lia. }
    { exact O1. }
    { exact Hwf'. }
    rewrite !zlen_app, <- !app_assoc in E. cbn [app] in E.
    change (zlen [t]) with 1 in E.
    rewrite E. exists (p :: todo'), h'. cbn [app].
    split; [do 3 f_equal; lia|].
    split; [simpl; lia|]. split; [exact O'|]. split; [auto|]. split; [lia|].
    split; [constructor; assumption|]. split; [constructor; assumption|].
    constructor; [repeat split; assumption|].
    eapply Forall_impl; [|exact C'].
    intros q (Q1 & Q2 & Q3).
    repeat split; eapply new_since_earlier; try eassumption; lia.
Qed.

(** [insert_n] at the end of the store, given what the fill loop does. *)
Lemma insert_n_at_end (is_move : bool) (c : ndef_ctx_s) (index : Z)
    (rs : list ndef_record) (h : heap) (Q : list ndef_record -> heap -> heap -> Prop) :
  store_ok c h -> oracle h = [] ->
  abs_records_len c <= index ->
  abs_records_len c + zlen rs < 2 ^ 55 ->
  (forall (a : Z) (pre mid post : list ndef_record) (h1 : heap),
      length mid = length rs -> abs_records_len c = zlen pre -> oracle h1 = [] ->
      exists (rs' : list ndef_record) (h2 : heap),
        fill (length rs) 0 (Some (mkArray a (pre ++ mid ++ post))) (abs_records_len c)
             rs is_move h1
        = Done ((zlen rs, Some (mkArray a (pre ++ rs' ++ post))), h2)
        /\ length rs' = length rs /\ oracle h2 = []
        /\ (forall x : Z, is_live x h1 -> is_live x h2)
        /\ Q rs' h1 h2) ->
  (rs = [] -> forall h1 : heap, Q [] h1 h1) ->
  exists (rs' : list ndef_record) (c' : ndef_ctx_s) (h1 h' : heap),
    insert_n (Some c) index rs (zlen rs) is_move h = Done (true, c', h')
    /\ records_of c' = records_of c ++ rs'
    /\ Q rs' h1 h'
    /\ next_block h <= next_block h1
    /\ store_ok c' h' /\ oracle h' = []
    /\ abs_records_len c' = abs_records_len c + zlen rs
    /\ raw_records_len c' = raw_records_len c
    /\ raw_records_cap c' = raw_records_cap c
    /\ raw_records c' = raw_records c
    /\ (forall x : Z, is_live x h -> is_live x h').
Proof.
  intros Hok Ho Hidx Hsmall Hfillspec Hnil.
  pose proof Hok as (Hm & Hlen & Hcap & Harr).
  pose proof (zlen_nonneg rs) as Hrs.
  rewrite (insert_n_steps c index rs (zlen rs) is_move Hm). cbv zeta.
  assert (Ei : (if abs_records_len c <? index then abs_records_len c else index)
               = abs_records_len c).
  { destruct (Z.ltb_spec (abs_records_len c) index); lia. }
  rewrite Ei. rewrite (size_t_small (abs_records_len c + zlen rs)) by lia.
  destruct (grow_abs_ok c (abs_records_len c + zlen rs) h Hok Ho ltac:(lia))
    as (c1 & h1 & Eg & Hok1 & Ho1 & Hroom & Hl1 & Hr1 & Hr2 & Hr3 & Hpre & Hz1 & Hlv & Hnb).
  rewrite (bind_Done_eq _ _ _ _ _ Eg).
  replace (abs_records_len c - abs_records_len c - 1) with (-1) by lia.
  change (Z.to_nat (ssize_t (size_t (-1)) + 1)) with 0%nat. cbn [relocate].
  rewrite bind_lift_fun.
  pose proof Hok1 as (Hm1 & Hlen1 & Hcap1 & Harr1).
  set (n := Z.to_nat (abs_records_len c)) in *.
  assert (Hfill : exists (rs' : list ndef_record) (a1 : option (array ndef_record))
                         (h2 : heap),
             fill (Z.to_nat (zlen rs)) 0 (abs_records c1) (abs_records_len c) rs is_move h1
             = Done ((zlen rs, a1), h2)
             /\ firstn (Z.to_nat (abs_records_len c + zlen rs)) (slots_of a1)
                = records_of c ++ rs'
             /\ zlen (slots_of a1) = abs_records_cap c1
             /\ match a1 with
                | Some arr => is_live (aaddr arr) h2
                | None => abs_records_cap c1 = 0
                end
             /\ oracle h2 = []
             /\ (forall x : Z, is_live x h1 -> is_live x h2)
             /\ Q rs' h1 h2).
  { destruct (abs_records c1) as [[a S]|] eqn:Ea; cbn [slots_of slots aaddr] in *.
    - rewrite (split3 S n (length rs)).
      unfold zlen at 1. rewrite Nat2Z.id.
      assert (Hn : zlen (firstn n S) = abs_records_len c).
      { unfold zlen in *. rewrite length_firstn. lia. }
      destruct (Hfillspec a (firstn n S) (firstn (length rs) (skipn n S))
                  (skipn (n + length rs) S) h1)
        as (rs' & h2 & F & Hl' & O2 & L2 & HQ).
      { rewrite length_firstn, length_skipn. unfold zlen in *. lia. }
      { lia. }
      { exact Ho1. }
      rewrite F. exists rs'. eexists. exists h2. split; [reflexivity|].
      cbn [slots_of slots aaddr].
      split; [|split; [|split; [apply L2, Harr1|auto]]].
      + replace (Z.to_nat (abs_records_len c + zlen rs))
          with (length (firstn n S ++ rs'))
          by (rewrite length_app; unfold zlen in *; lia).
        rewrite app_assoc, firstn_all_app.
        rewrite records_of_slots. fold n. rewrite <- Hpre. reflexivity.
      + rewrite !zlen_app. unfold zlen in *.
        rewrite length_firstn, length_skipn. lia.
    - assert (Hrs0 : rs = []).
      { destruct rs; [reflexivity|]. rewrite zlen_cons in *.
        unfold zlen in Hz1. simpl in Hz1. pose proof (zlen_nonneg rs). lia. }
      subst rs. change (zlen (@nil ndef_record)) with 0. change (Z.to_nat 0) with 0%nat.
      cbn [fill]. exists []. eexists. exists h1. split; [reflexivity|]. cbn [slots_of].
      rewrite firstn_nil, app_nil_r, records_of_slots.
      specialize (Hnil eq_refl h1).
      split; [|split; [exact Hz1|split; [|auto]]].
      + fold n. rewrite <- Hpre. rewrite firstn_nil. reflexivity.
      + unfold zlen in Hz1. simpl in Hz1. lia. }
  destruct Hfill as (rs' & a1 & h2 & Ef & Hrec & Hz2 & Hlive2 & O2 & L2 & HQ).
  rewrite (bind_Done_eq _ _ _ _ _ Ef). cbv beta iota.
  rewrite Z.ltb_irrefl, andb_false_r.
  exists rs'. eexists. exists h1, h2. split; [reflexivity|].
  split.
  { rewrite (records_of_slots (set_abs_array _ _ _ _)).
    cbn [set_abs_array abs_records_len abs_records]. exact Hrec. }
  split; [exact HQ|]. split; [exact Hnb|].
  unfold store_ok.
  cbn [set_abs_array magic abs_records_len abs_records_cap abs_records
       raw_records_len raw_records_cap raw_records].
  repeat split; try assumption; try lia; auto.
  destruct a1 as [arr|]; [|exact Hlive2]. split; [exact Hz2|exact Hlive2].
Qed.



Lemma store_ok_store_ab : store_ok store_ab (sample_heap []).
Proof.
  unfold store_ok, store_ab, sample_heap, is_live. cbn.
  repeat split; try lia; reflexivity.
Qed.





End StoreAppend.

(** ** What the calls do to the heap *)

Section HeapInvariants.

(** A property of the heap that a computation hands on: when it holds
    before a run that returns, it holds after it. *)
Definition keeps {A : Type} (P : heap -> Prop) (c : M A) : Prop :=
  forall (h : heap) (a : A) (h' : heap), P h -> c h = Done (a, h') -> P h'.

(** A property that allocating, freeing and consulting the oracle hand on. *)
Definition stable (P : heap -> Prop) : Prop :=
  (forall (h : heap) (o : list bool), P h -> P (mkHeap (next_block h) (live h) o))
  /\ (forall h : heap,
        P h -> P (mkHeap (next_block h + 1) (next_block h :: live h) (oracle h)))
  /\ (forall (h : heap) (b : Z),
        P h -> P (mkHeap (next_block h) (remove_block b (live h)) (oracle h))).

Variable P : heap -> Prop.
Hypothesis HP : stable P.

Lemma keeps_ret {A : Type} (a : A) : keeps P (ret a).
Proof. intros h x h' Hh E. inversion E. subst. exact Hh. Qed.

Lemma keeps_crash {A : Type} : keeps P (@crash A).
Proof. intros h x h' Hh E. discriminate E. Qed.

Lemma keeps_spin {A : Type} : keeps P (@spin A).
Proof. intros h x h' Hh E. discriminate E. Qed.

Lemma keeps_lift {A : Type} (o : outcome A) : keeps P (lift o).
Proof. intros h x h' Hh E. unfold lift in E. destruct o; inversion E. subst. exact Hh. Qed.

Lemma keeps_bind {A B : Type} (c : M A) (k : A -> M B) :
  keeps P c -> (forall a : A, keeps P (k a)) -> keeps P (bind c k).
Proof.
  intros Hc Hk h b h' Hh E. apply bind_Done in E. destruct E as (a & h1 & E1 & E2).
  exact (Hk a h1 b h' (Hc h a h1 Hh E1) E2).
Qed.

Lemma keeps_alloc_ok : keeps P alloc_ok.
Proof.
  intros h b h' Hh E. unfold alloc_ok in E. destruct HP as (H1 & _ & _).
  destruct h as [nb lv o]. simpl in E. destruct o as [|x o]; inversion E; subst.
  - exact Hh.
  - exact (H1 _ o Hh).
Qed.

Lemma keeps_malloc (n : Z) : keeps P (malloc n).
Proof.
  unfold malloc. apply keeps_bind; [apply keeps_alloc_ok|].
  intros [] h a h' Hh E; [|inversion E; subst; exact Hh].
  inversion E. subst. destruct HP as (_ & H2 & _). exact (H2 h Hh).
Qed.

Lemma keeps_realloc (p : option Z) (n : Z) : keeps P (realloc p n).
Proof.
  unfold realloc. destruct p as [a|]; [|apply keeps_malloc].
  apply keeps_bind; [apply keeps_alloc_ok|].
  intros [] h x h' Hh E; [|inversion E; subst; exact Hh].
  destruct (existsb (Z.eqb a) (live h)); inversion E. subst. exact Hh.
Qed.

Lemma keeps_free (a : Z) : keeps P (free a).
Proof.
  intros h x h' Hh E. unfold free in E.
  destruct (existsb (Z.eqb a) (live h)); inversion E. subst.
  destruct HP as (_ & _ & H3). exact (H3 h a Hh).
Qed.

Lemma keeps_free_if (p : ptr) : keeps P (free_if p).
Proof. destruct p; [apply keeps_free|apply keeps_ret]. Qed.

Lemma keeps_free_array {A : Type} (p : option (array A)) : keeps P (free_array p).
Proof. destruct p; [apply keeps_free|apply keeps_ret]. Qed.

End HeapInvariants.

Create HintDb keeps.

#[local] Hint Resolve keeps_ret keeps_crash keeps_spin keeps_lift keeps_alloc_ok
  keeps_malloc keeps_realloc keeps_free keeps_free_if keeps_free_array : keeps.

(** Split a goal [keeps P c] along the structure of [c]. *)
Ltac keeps_step :=
  match goal with
  | |- keeps _ (bind _ _) => apply keeps_bind; [|intros ?]
  | |- keeps _ (if ?b then _ else _) => destruct b
  | |- keeps _ (match ?x with _ => _ end) => destruct x
  | |- keeps _ (let '(_, _) := ?x in _) => destruct x
  | |- keeps _ _ => solve [eauto with keeps]
  end.
Ltac keeps_tac := repeat keeps_step.

Section HeapInvariants2.

Variable P : heap -> Prop.
Hypothesis HP : stable P.

Lemma keeps_MAGIC_CHECK ctx : keeps P (MAGIC_CHECK ctx).
Proof. unfold MAGIC_CHECK. keeps_tac. Qed.

Lemma keeps_ostream_append out z : keeps P (ndef_ostream_append out z).
Proof. unfold ndef_ostream_append. keeps_tac. Qed.

Lemma keeps_ostream_append_n out p n : keeps P (ndef_ostream_append_n out p n).
Proof. unfold ndef_ostream_append_n. keeps_tac. Qed.

Lemma keeps_ostream_destroy out : keeps P (ndef_ostream_destroy out).
Proof. unfold ndef_ostream_destroy. keeps_tac. Qed.

Lemma keeps_raw_record_encode out raw : keeps P (ndef_raw_record_encode out raw).
Proof.
  unfold ndef_raw_record_encode.
  pose proof keeps_ostream_append. pose proof keeps_ostream_append_n.
  keeps_tac.
Qed.

Lemma keeps_decode_field data len pos n : keeps P (decode_field data len pos n).
Proof. unfold decode_field, alloc_copy. keeps_tac. Qed.

Lemma keeps_raw_record_decode data len : keeps P (ndef_raw_record_decode data len).
Proof.
  unfold ndef_raw_record_decode. pose proof keeps_decode_field. keeps_tac.
Qed.

Lemma keeps_realloc_array {A : Type} (junk : A) elt p size :
  keeps P (realloc_array junk elt p size).
Proof. unfold realloc_array. keeps_tac. Qed.

Lemma keeps_raw_append ctx record : keeps P (ndef_raw_append ctx record).
Proof.
  unfold ndef_raw_append. pose proof keeps_MAGIC_CHECK.
  pose proof (@keeps_realloc_array ndef_raw_record). keeps_tac.
Qed.

Lemma keeps_raw_clear ctx : keeps P (ndef_raw_clear ctx).
Proof. unfold ndef_raw_clear. pose proof keeps_MAGIC_CHECK. keeps_tac. Qed.

Lemma keeps_encode_loop n : forall i c out, keeps P (encode_loop n i c out).
Proof.
  induction n as [|n IH]; intros i c out; simpl.
  - apply keeps_ret; exact HP.
  - pose proof keeps_raw_record_encode. pose proof keeps_ostream_destroy. keeps_tac.
Qed.

Lemma keeps_ndef_encode ctx : keeps P (ndef_encode ctx).
Proof.
  unfold ndef_encode. pose proof keeps_MAGIC_CHECK. pose proof keeps_raw_clear.
  pose proof keeps_encode_loop. keeps_tac.
Qed.

End HeapInvariants2.

#[local] Hint Resolve keeps_MAGIC_CHECK keeps_ostream_append keeps_ostream_append_n
  keeps_ostream_destroy keeps_raw_record_encode keeps_decode_field
  keeps_raw_record_decode keeps_raw_append keeps_raw_clear keeps_encode_loop
  keeps_ndef_encode : keeps.

Section FreedBlocks.

(** All allocated blocks were handed out before [next_block]. *)
Definition heap_wf (h : heap) : Prop := Forall (fun b => b < next_block h) (live h).

(** A block that was handed out and is not allocated (any more). *)
Definition dead (a : Z) (h : heap) : Prop :=
  existsb (Z.eqb a) (live h) = false /\ a < next_block h.

Lemma existsb_remove_block (a b : Z) (l : list Z) :
  existsb (Z.eqb a) l = false -> existsb (Z.eqb a) (remove_block b l) = false.
Proof.
  unfold remove_block. induction l as [|x l IH]; simpl; [reflexivity|].
  intros H. apply orb_false_iff in H. destruct H as [H1 H2].
  destruct (negb (x =? b)); simpl; [rewrite H1|]; auto.
Qed.

Lemma existsb_remove_block_same (a : Z) (l : list Z) :
  existsb (Z.eqb a) (remove_block a l) = false.
Proof.
  unfold remove_block. induction l as [|x l IH]; simpl; [reflexivity|].
  destruct (Z.eqb_spec x a); simpl; [exact IH|].
  destruct (Z.eqb_spec a x); [congruence|]. exact IH.
Qed.

Lemma stable_dead (a : Z) : stable (dead a).
Proof.
  unfold stable, dead. repeat split; simpl; intros; try tauto.
  - destruct H as [H1 H2]. destruct (Z.eqb_spec a (next_block h)); [lia|exact H1].
  - lia.
  - apply existsb_remove_block. tauto.
Qed.

Lemma stable_heap_wf : stable heap_wf.
Proof.
  unfold stable, heap_wf. repeat split; simpl; intros; auto.
  - constructor; [lia|]. eapply Forall_impl; [|exact H]. simpl. intros. lia.
  - unfold remove_block. apply Forall_forall. intros x Hx.
    apply filter_In in Hx. rewrite Forall_forall in H. apply H. tauto.
Qed.

Lemma is_live_lt (a : Z) (h : heap) : heap_wf h -> is_live a h -> a < next_block h.
Proof.
  unfold heap_wf, is_live. intros Hw Hl. apply existsb_exists in Hl.
  destruct Hl as (x & Hx & E). apply Z.eqb_eq in E. subst x.
  rewrite Forall_forall in Hw. exact (Hw a Hx).
Qed.

(** After [free] the block is dead. *)
Lemma free_Done (a : Z) (h h' : heap) (u : unit) :
  heap_wf h -> free a h = Done (u, h') -> is_live a h /\ dead a h'.
Proof.
  intros Hw E. unfold free in E. destruct (existsb (Z.eqb a) (live h)) eqn:El; [|discriminate].
  inversion E. subst. split; [exact El|]. split; simpl.
  - apply existsb_remove_block_same.
  - apply (is_live_lt a h Hw El).
Qed.

Lemma free_dead (a : Z) (h : heap) : dead a h -> free a h = Crash.
Proof. intros [H _]. unfold free. rewrite H. reflexivity. Qed.

Lemma bind_Crash_eq {A B : Type} (c : M A) (k : A -> M B) (h : heap) :
  c h = Crash -> bind c k h = Crash.
Proof. intros E. unfold bind. rewrite E. reflexivity. Qed.

(** X13: a raw record array is freed once too often.  [ndef_raw_clear]
    frees the raw record array and leaves its pointer in the context, so
    after a successful [ndef_encode] on a context that had raw records
    (one read by [ndef_decode], say), the next [ndef_encode],
    [ndef_raw_clear], [ndef_clear] or [ndef_destroy] on that context frees
    the same block again. *)
Theorem ndef_encode_then_free_again (c c1 : ndef_ctx_s) (arr : array ndef_raw_record)
    (res : option (ptr * Z)) (h h1 : heap) :
  heap_wf h ->
  raw_records c = Some arr ->
  ndef_encode (Some c) h = Done ((c1, res), h1) ->
  raw_records c1 = Some arr
  /\ ndef_encode (Some c1) h1 = Crash
  /\ ndef_raw_clear (Some c1) h1 = Crash
  /\ ndef_clear (Some c1) h1 = Crash
  /\ ndef_destroy (Some c1) h1 = Crash.
Proof.
  intros Hw Harr E. unfold ndef_encode in E.
  apply bind_Done in E. destruct E as (c0 & h0 & E0 & E).
  apply MAGIC_CHECK_Done in E0. destruct E0 as (E0 & -> & Hm). inversion E0. subst c0.
  apply bind_Done in E. destruct E as (c2 & h2 & E2 & E).
  assert (H2 : raw_records c2 = Some arr /\ magic c2 = NDEF_MAGIC /\ dead (aaddr arr) h2).
  { unfold ndef_raw_clear in E2.
    apply bind_Done in E2. destruct E2 as (c0 & h0 & E0' & E2).
    apply MAGIC_CHECK_Done in E0'. destruct E0' as (E0' & -> & _). inversion E0'. subst c0.
    apply bind_Done in E2. destruct E2 as ([] & h3 & E3 & E2).
    rewrite Harr in E3. cbn [free_array] in E3.
    apply (free_Done _ _ _ _ Hw) in E3. destruct E3 as [_ Hd].
    run_inv. cbn. rewrite Harr. auto. }
  destruct H2 as (Ha2 & Hm2 & Hd2).
  apply bind_Done in E. destruct E as (r & h3 & E3 & E).
  assert (Hd3 : dead (aaddr arr) h3).
  { exact (keeps_encode_loop _ (stable_dead _) _ _ _ _ _ _ _ Hd2 E3). }
  assert (Hc1 : c1 = c2 /\ h1 = h3) by (destruct r; run_inv; auto).
  destruct Hc1 as [-> ->].
  assert (Hclear : ndef_raw_clear (Some c2) h3 = Crash).
  { unfold ndef_raw_clear, MAGIC_CHECK. rewrite Hm2, Z.eqb_refl, bind_ret_fun.
    apply bind_Crash_eq. rewrite Ha2. apply free_dead. exact Hd3. }
  split; [exact Ha2|]. split; [|split; [exact Hclear|split]].
  - unfold ndef_encode, MAGIC_CHECK. rewrite Hm2, Z.eqb_refl, bind_ret_fun.
    apply bind_Crash_eq. exact Hclear.
  - unfold ndef_clear. apply bind_Crash_eq. rewrite Ha2. apply free_dead. exact Hd3.
  - unfold ndef_destroy. apply bind_Crash_eq.
    unfold ndef_clear. apply bind_Crash_eq. rewrite Ha2. apply free_dead. exact Hd3.
Qed.

(** A context as [ndef_decode] leaves it for one empty record: the raw
    records in block 2, the records in block 3. *)
Definition decoded_sample : ndef_ctx_s :=
  mk_ctx NDEF_MAGIC 1 2 (Some (mkArray 2 [ndef_raw_record_init; ndef_raw_record_init]))
         1 1 (Some (mkArray 3 [ndef_record_init])).

Definition decoded_sample_heap : heap := mkHeap 4 [3; 2; 1] [].

Lemma heap_wf_decoded_sample_heap : heap_wf decoded_sample_heap.
Proof. unfold heap_wf, decoded_sample_heap. simpl. repeat constructor. Qed.

Lemma ndef_encode_then_free_again_witness :
  heap_wf decoded_sample_heap
  /\ raw_records decoded_sample
     = Some (mkArray 2 [ndef_raw_record_init; ndef_raw_record_init])
  /\ exists (c1 : ndef_ctx_s) (res : option (ptr * Z)) (h1 : heap),
       ndef_encode (Some decoded_sample) decoded_sample_heap = Done ((c1, res), h1)
       /\ ndef_encode (Some c1) h1 = Crash
       /\ ndef_destroy (Some c1) h1 = Crash.
Proof.
  assert (H1 : heap_wf decoded_sample_heap) by exact heap_wf_decoded_sample_heap.
  assert (H2 : raw_records decoded_sample
               = Some (mkArray 2 [ndef_raw_record_init; ndef_raw_record_init]))
    by reflexivity.
  assert (E : exists (c1 : ndef_ctx_s) (res : option (ptr * Z)) (h1 : heap),
             ndef_encode (Some decoded_sample) decoded_sample_heap = Done ((c1, res), h1))
    by (eexists; eexists; eexists; vm_compute; reflexivity).
  destruct E as (c1 & res & h1 & E).
  destruct (ndef_encode_then_free_again _ _ _ _ _ _ H1 H2 E) as (_ & G1 & _ & _ & G2).
  split; [exact H1|]. split; [exact H2|].
  exists c1, res, h1. split; [exact E|]. split; [exact G1|exact G2].
Defined.

Lemma is_live_remove_block (x b : Z) (l : list Z) :
  existsb (Z.eqb x) l = true -> x <> b -> existsb (Z.eqb x) (remove_block b l) = true.
Proof.
  unfold remove_block. induction l as [|y l IH]; simpl; [discriminate|].
  intros H Hne. destruct (Z.eqb_spec x y) as [->|Hxy].
  - destruct (Z.eqb_spec y b); [contradiction|]. simpl. rewrite Z.eqb_refl. reflexivity.
  - simpl in H. destruct (negb (y =? b)); simpl; [|auto].
    destruct (Z.eqb_spec x y); [contradiction|]. auto.
Qed.

Lemma free_array_keeps_others {A : Type} (p : option (array A)) (h h' : heap) (u : unit)
    (x : Z) :
  free_array p h = Done (u, h') ->
  is_live x h -> Some x <> option_map aaddr p ->
  is_live x h' /\ next_block h' = next_block h.
Proof.
  destruct p as [arr|]; cbn [free_array option_map].
  - unfold free. destruct (existsb (Z.eqb (aaddr arr)) (live h)); [|discriminate].
    intros E Hl Hne. inversion E. subst. split; [|reflexivity].
    unfold is_live. simpl. apply is_live_remove_block; [exact Hl|congruence].
  - intros E Hl _. inversion E. subst. auto.
Qed.

(** What [free_array] does to the heap: the array, when there is one,
    was allocated and is not any more; no block becomes allocated. *)
Lemma free_array_Done {A : Type} (p : option (array A)) (h h' : heap) (u : unit) :
  free_array p h = Done (u, h') ->
  next_block h' = next_block h
  /\ oracle h' = oracle h
  /\ (forall x : Z, is_live x h' -> is_live x h)
  /\ (forall a : Z, option_map aaddr p = Some a -> is_live a h /\ ~ is_live a h').
Proof.
  destruct p as [arr|]; cbn [free_array option_map].
  - unfold free. destruct (existsb (Z.eqb (aaddr arr)) (live h)) eqn:El; [|discriminate].
    intros E. inversion E. subst. cbn [next_block oracle].
    split; [reflexivity|]. split; [reflexivity|]. split.
    + unfold is_live. cbn [live]. intros x Hx.
      destruct (existsb (Z.eqb x) (live h)) eqn:Ex; [reflexivity|].
      rewrite (existsb_remove_block x (aaddr arr) _ Ex) in Hx. discriminate Hx.
    + intros a Ha. inversion Ha. subst a. split; [exact El|].
      unfold is_live. cbn [live]. rewrite existsb_remove_block_same. discriminate.
  - intros E. inversion E. subst.
    split; [reflexivity|]. split; [reflexivity|]. split; [auto|].
    intros a Ha. discriminate Ha.
Qed.

(** X14: [ndef_destroy] frees the two arrays and nothing else.  When it
    returns, each array the context had was allocated before the call and
    is not any more; every other block that was allocated still is, the
    buffers of the records and the context itself among them; no block
    was allocated by the call; the lengths and capacities are 0, the
    magic value is 0, and the two array pointers are what they were, now
    dangling. *)
Theorem ndef_destroy_frees_only_arrays (c c1 : ndef_ctx_s) (h h1 : heap) :
  ndef_destroy (Some c) h = Done (c1, h1) ->
  (forall x : Z,
      is_live x h ->
      Some x <> option_map aaddr (raw_records c) ->
      Some x <> option_map aaddr (abs_records c) ->
      is_live x h1)
  /\ next_block h1 = next_block h
  /\ c1 = mk_ctx 0 0 0 (raw_records c) 0 0 (abs_records c)
  /\ (forall a : Z,
        option_map aaddr (raw_records c) = Some a
        \/ option_map aaddr (abs_records c) = Some a ->
        is_live a h /\ ~ is_live a h1)
  /\ (forall x : Z, is_live x h1 -> is_live x h)
  /\ oracle h1 = oracle h.
Proof.
  unfold ndef_destroy, ndef_clear. intros E.
  apply bind_Done in E. destruct E as (c0 & h0 & E & E').
  apply bind_Done in E. destruct E as ([] & h2 & E2 & E).
  apply bind_Done in E. destruct E as ([] & h3 & E3 & E).
  run_inv.
  destruct (free_array_Done _ _ _ _ E2) as (Hn2 & Ho2 & Hl2 & Hf2).
  destruct (free_array_Done _ _ _ _ E3) as (Hn3 & Ho3 & Hl3 & Hf3).
  split; [|split; [|split; [|split; [|split]]]].
  - intros x Hx Hr Ha.
    destruct (free_array_keeps_others _ _ _ _ x E2 Hx Hr) as [Hx2 _].
    destruct (free_array_keeps_others _ _ _ _ x E3 Hx2 Ha) as [Hx3 _]. exact Hx3.
  - congruence.
  - reflexivity.
  - intros a [Ha|Ha].
    + destruct (Hf2 a Ha) as [Hb Hd]. split; [exact Hb|].
      intros Hx. apply Hd. apply Hl3. exact Hx.
    + destruct (Hf3 a Ha) as [Hb Hd]. split; [|exact Hd].
      apply Hl2. exact Hb.
  - intros x Hx. apply Hl2, Hl3. exact Hx.
  - congruence.
Qed.

(** A store holding [rec_a; rec_b] whose array and type buffers are
    allocated, and the context in block 9: block 10, the array, is freed,
    blocks 11 and 12, two buffers of the records, are not. *)
Lemma ndef_destroy_frees_only_arrays_witness :
  ndef_destroy (Some store_ab) (sample_heap [])
  = Done (mk_ctx 0 0 0 None 0 0 (Some (mkArray 10 [rec_a; rec_b])),
          mkHeap 100 [11; 12; 13; 14; 15] [])
  /\ is_live 11 (mkHeap 100 [11; 12; 13; 14; 15] [])
  /\ is_live 12 (mkHeap 100 [11; 12; 13; 14; 15] [])
  /\ is_live 10 (sample_heap [])
  /\ ~ is_live 10 (mkHeap 100 [11; 12; 13; 14; 15] []).
Proof.
  assert (E : ndef_destroy (Some store_ab) (sample_heap [])
              = Done (mk_ctx 0 0 0 None 0 0 (Some (mkArray 10 [rec_a; rec_b])),
                      mkHeap 100 [11; 12; 13; 14; 15] []))
    by (vm_compute; reflexivity).
  destruct (ndef_destroy_frees_only_arrays _ _ _ _ E) as (G & _ & _ & F & _).
  split; [exact E|]. split; [|split].
  - apply (G 11); [reflexivity|discriminate|discriminate].
  - apply (G 12); [reflexivity|discriminate|discriminate].
  - apply (F 10). right. reflexivity.
Defined.

(** X15: after [ndef_clear] the store cannot grow again.  [ndef_clear]
    frees the record array and leaves its pointer in the context with
    capacity 0, so the next insertion of at least one record hands the
    freed pointer to [realloc]: the call has no defined result, or it
    returns [false] when the allocator reports failure.  It never
    returns [true]. *)
Theorem ndef_clear_then_insert (c c1 : ndef_ctx_s) (arr : array ndef_record)
    (h h1 : heap) (index : Z) (rs : list ndef_record) (len : Z) (is_move : bool) :
  heap_wf h ->
  magic c = NDEF_MAGIC ->
  abs_records c = Some arr ->
  ndef_clear (Some c) h = Done (c1, h1) ->
  0 < len <= 2 ^ 63 ->
  insert_n (Some c1) index rs len is_move h1 = Crash
  \/ exists h2 : heap, insert_n (Some c1) index rs len is_move h1 = Done (false, c1, h2).
Proof.
  intros Hw Hm Harr E Hlen. unfold ndef_clear in E.
  apply bind_Done in E. destruct E as ([] & h2 & E2 & E).
  apply bind_Done in E. destruct E as ([] & h3 & E3 & E).
  assert (Hw2 : heap_wf h2).
  { exact (keeps_free_array _ stable_heap_wf _ _ _ _ Hw E2). }
  rewrite Harr in E3. cbn [free_array] in E3.
  apply (free_Done _ _ _ _ Hw2) in E3. destruct E3 as [_ Hd].
  unfold ret in E. inversion E as [[Ec Eh]]. subst h3. clear E.
  rewrite insert_n_steps by exact Hm. cbv zeta.
  cbn [set_abs_array set_raw_array abs_records_len abs_records_cap abs_records].
  rewrite Z.add_0_l, size_t_small by lia.
  unfold grow_abs.
  cbn [set_abs_array set_raw_array abs_records_len abs_records_cap abs_records].
  destruct (Z.ltb_spec 0 len); [|lia].
  change (0 =? 0) with true. cbv iota zeta.
  destruct (double_until_bounds 1 len) as (cap' & Ed & _); [lia|lia|].
  rewrite Ed. unfold realloc_array. rewrite Harr. cbn [option_map realloc].
  destruct Hd as [Hd _].
  destruct (oracle h1) as [|[] o] eqn:Eo.
  - left. unfold alloc_ok, bind, ret. cbv beta. rewrite Eo. cbv beta iota.
    rewrite Hd. reflexivity.
  - left. unfold alloc_ok, bind, ret. cbv beta. rewrite Eo. cbv beta iota.
    cbn [live]. rewrite Hd. reflexivity.
  - right. exists (mkHeap (next_block h1) (live h1) o).
    unfold alloc_ok, bind, ret. cbv beta. rewrite Eo. reflexivity.
Qed.

Lemma ndef_clear_then_insert_witness :
  heap_wf (sample_heap [])
  /\ magic store_ab = NDEF_MAGIC
  /\ abs_records store_ab = Some (mkArray 10 [rec_a; rec_b])
  /\ 0 < 1 <= 2 ^ 63
  /\ exists (c1 : ndef_ctx_s) (h1 : heap),
       ndef_clear (Some store_ab) (sample_heap []) = Done (c1, h1)
       /\ ndef_append_mv (Some c1) rec_c h1 = Crash.
Proof.
  assert (H1 : heap_wf (sample_heap []))
    by (unfold heap_wf, sample_heap; simpl; repeat constructor).
  assert (H2 : magic store_ab = NDEF_MAGIC) by reflexivity.
  assert (H3 : abs_records store_ab = Some (mkArray 10 [rec_a; rec_b])) by reflexivity.
  assert (H4 : 0 < 1 <= 2 ^ 63) by lia.
  assert (E : ndef_clear (Some store_ab) (sample_heap [])
              = Done (mk_ctx NDEF_MAGIC 0 0 None 0 0 (Some (mkArray 10 [rec_a; rec_b])),
                      mkHeap 100 [11; 12; 13; 14; 15] []))
    by (vm_compute; reflexivity).
  pose proof (ndef_clear_then_insert _ _ _ _ _ SIZE_MAX [rec_c] 1 true H1 H2 H3 E H4) as G.
  split; [exact H1|]. split; [exact H2|]. split; [exact H3|]. split; [exact H4|].
  eexists. eexists. split; [exact E|].
  destruct G as [G|[h2 G]]; [exact G|].
  exfalso. revert G. vm_compute. discriminate.
Defined.

End FreedBlocks.

(** ** The single-record decoder and the heap *)

Section DecodeHeap.

Lemma remove_block_absent (a : Z) (l : list Z) : ~ In a l -> remove_block a l = l.
Proof.
  unfold remove_block. induction l as [|x l IH]; simpl; [reflexivity|].
  intros H. destruct (Z.eqb_spec x a) as [->|Hne]; simpl.
  - exfalso. apply H. left. reflexivity.
  - rewrite IH; [reflexivity|]. intros Hin. apply H. right. exact Hin.
Qed.

Lemma free_in (a nb : Z) (l1 l2 : list Z) (o : list bool) :
  ~ In a l1 -> ~ In a l2 ->
  free a (mkHeap nb (l1 ++ a :: l2) o) = Done (tt, mkHeap nb (l1 ++ l2) o).
Proof.
  intros H1 H2. unfold free. cbn [live next_block oracle].
  assert (E : existsb (Z.eqb a) (l1 ++ a :: l2) = true).
  { apply existsb_exists. exists a. split; [apply in_elt|apply Z.eqb_refl]. }
  rewrite E. do 3 f_equal. unfold remove_block. rewrite filter_app. simpl.
  rewrite Z.eqb_refl. simpl.
  fold (remove_block a l1). fold (remove_block a l2).
  rewrite !remove_block_absent by assumption. reflexivity.
Qed.

Lemma heap_wf_absent (a : Z) (h : heap) : heap_wf h -> next_block h <= a -> ~ In a (live h).
Proof.
  unfold heap_wf. rewrite Forall_forall. intros Hw Ha Hin. specialize (Hw a Hin). lia.
Qed.

Lemma free_Done_live (a : Z) (h h' : heap) (u : unit) :
  free a h = Done (u, h') ->
  next_block h' = next_block h /\ live h' = remove_block a (live h).
Proof.
  unfold free. destruct (existsb (Z.eqb a) (live h)); [|discriminate].
  intros E. inversion E. subst. auto.
Qed.

Lemma free_live (a : Z) (h : heap) :
  In a (live h) ->
  free a h = Done (tt, mkHeap (next_block h) (remove_block a (live h)) (oracle h)).
Proof.
  intros Hin. unfold free.
  assert (E : existsb (Z.eqb a) (live h) = true).
  { apply existsb_exists. exists a. split; [exact Hin|apply Z.eqb_refl]. }
  rewrite E. reflexivity.
Qed.

Lemma remove_block_head (a : Z) (l : list Z) :
  ~ In a l -> remove_block a (a :: l) = l.
Proof.
  intros H. unfold remove_block. simpl. rewrite Z.eqb_refl. simpl.
  apply remove_block_absent. exact H.
Qed.

Lemma remove_block_skip (a x : Z) (l : list Z) :
  x <> a -> remove_block a (x :: l) = x :: remove_block a l.
Proof.
  intros H. unfold remove_block. simpl.
  destruct (Z.eqb_spec x a); [contradiction|]. reflexivity.
Qed.

(** What one field of the decoder does to the heap. *)
Lemma decode_field_heap (data : list byte) (len pos n : Z) (h h' : heap)
    (r : option (ptr * Z)) :
  decode_field data len pos n h = Done (r, h') ->
  match r with
  | Some (Some b, _) =>
      baddr b = next_block h /\ next_block h' = next_block h + 1
      /\ live h' = next_block h :: live h
  | Some (None, _) => h' = h
  | None => next_block h' = next_block h /\ live h' = live h
  end.
Proof.
  unfold decode_field, alloc_copy, malloc, alloc_ok. intros E.
  destruct (truthy n); [|run_inv; reflexivity].
  destruct h as [nb lv o]. unfold bind, ret, lift in E. cbn [oracle] in E.
  destruct o as [|[] o]; cbn [next_block live oracle] in E;
    try (destruct (memcpy_src data len pos n); inversion E; subst; cbn; auto);
    inversion E; subst; cbn; auto.
Qed.

End DecodeHeap.

(** Settle what the frees of blocks handed out at or after [next_block h]
    leave of a list built on [live h]. *)
Ltac absent Hw :=
  repeat (apply (proj2 (not_in_cons _ _ _)); split; [lia|]);
  first [apply (heap_wf_absent _ _ Hw); lia | intros []].
Ltac frees_tac Hw :=
  repeat match goal with
  | |- context [remove_block ?a (?a :: ?l)] =>
      rewrite (remove_block_head a l) by absent Hw
  | |- context [remove_block ?a (?x :: ?l)] =>
      rewrite (remove_block_skip a x l) by lia
  end.

Section DecodeOwnership.

Lemma free_0 (a nb : Z) (l : list Z) (o : list bool) :
  ~ In a l -> free a (mkHeap nb (a :: l) o) = Done (tt, mkHeap nb l o).
Proof. intros H. apply (free_in a nb [] l o); [intros []|exact H]. Qed.

Lemma bind_free_0 {B : Type} (k : unit -> M B) (a nb : Z) (l : list Z) (o : list bool) :
  ~ In a l -> bind (free a) k (mkHeap nb (a :: l) o) = k tt (mkHeap nb l o).
Proof. intros H. apply bind_Done_eq, free_0, H. Qed.

Lemma bind_free_1 {B : Type} (k : unit -> M B) (a nb x : Z) (l : list Z)
    (o : list bool) :
  x <> a -> ~ In a l ->
  bind (free a) k (mkHeap nb (x :: a :: l) o) = k tt (mkHeap nb (x :: l) o).
Proof.
  intros Hx H. apply bind_Done_eq. apply (free_in a nb [x] l o); [|exact H].
  intros [E|[]]. contradiction.
Qed.

Lemma bind_free_2 {B : Type} (k : unit -> M B) (a nb x y : Z) (l : list Z)
    (o : list bool) :
  x <> a -> y <> a -> ~ In a l ->
  bind (free a) k (mkHeap nb (x :: y :: a :: l) o) = k tt (mkHeap nb (x :: y :: l) o).
Proof.
  intros Hx Hy H. apply bind_Done_eq. apply (free_in a nb [x; y] l o); [|exact H].
  intros [E|[E|[]]]; contradiction.
Qed.

(** X16: the single-record decoder hands over every block it keeps.
    On a heap whose blocks were all handed out by the allocator: when
    [ndef_raw_record_decode] says "not enough data" the heap is untouched;
    when it says "out of memory" the blocks that are allocated are those
    that were; and when it decodes a record, [ndef_raw_record_destroy] on
    that record succeeds and leaves allocated exactly the blocks that
    were before the decoding. *)
Theorem ndef_raw_record_decode_owns_its_blocks (data : list byte) (len : Z)
    (h h' : heap) (res : decode_result) :
  heap_wf h ->
  ndef_raw_record_decode data len h = Done (res, h') ->
  match res with
  | Decoded raw _ =>
      exists h'' : heap,
        ndef_raw_record_destroy raw h' = Done (tt, h'') /\ live h'' = live h
  | NotEnoughData => h' = h
  | OutOfMemory => live h' = live h
  end.
Proof.
  intros Hw. unfold ndef_raw_record_decode.
  destruct (len <? 3); [intros E; run_inv; reflexivity|].
  intros E. run_inv.
  destruct (truthy (Z.land _ NDEF_FLAG_SR)), (truthy (Z.land _ NDEF_FLAG_IL));
    cbn [andb negb Z.b2z] in E;
    repeat first
      [ progress run_inv
      | match goal with
        | H : (if ?a <? ?b then _ else _) _ = _ |- _ => destruct (a <? b)
        | H : (match ?o with Some _ => _ | None => _ end) _ = _ |- _ =>
            destruct o as [[? ?]|]
        end ];
    try reflexivity;
    repeat match goal with
    | H : decode_field _ _ _ _ _ = Done _ |- _ => apply decode_field_heap in H
    end;
    repeat match goal with
    | p : ptr |- _ => destruct p as [?|]
    | H : _ /\ _ |- _ => destruct H
    | H : ?x = ?y |- _ => is_var x; subst x
    end.
  all: unfold ndef_raw_record_destroy; cbn [abstract type payload id free_if] in *.
  all: repeat match goal with
       | H : bind _ _ _ = Done _ |- _ =>
           apply bind_Done in H; destruct H as (? & ? & ? & H)
       | H : free _ _ = Done _ |- _ => apply free_Done_live in H; destruct H
       | H : ret _ _ = Done _ |- _ => apply ret_Done in H; destruct H; subst
       end.
  all: repeat match goal with
       | x : heap |- _ =>
           lazymatch goal with
           | _ : heap_wf x |- _ => fail
           | _ =>
               let n := fresh "nb" in
               let l := fresh "lv" in
               let o := fresh "orc" in
               destruct x as [n l o]
           end
       | b : block |- _ =>
           let a := fresh "ad" in
           let d := fresh "dt" in
           destruct b as [a d]
       end.
  all: cbn [next_block live oracle baddr] in *; subst.
  all: try (frees_tac Hw; reflexivity).
  all: eexists;
    (split;
     [ repeat first
         [ rewrite bind_ret_fun
         | rewrite bind_free_0 by absent Hw
         | rewrite bind_free_1 by (try lia; absent Hw)
         | rewrite bind_free_2 by (try lia; absent Hw)
         | rewrite free_0 by absent Hw ];
       reflexivity
     | cbn [live]; reflexivity ]).
Qed.

Lemma ndef_raw_record_decode_owns_its_blocks_witness :
  heap_wf heap0
  /\ exists (raw : ndef_raw_record) (n : Z) (h' h'' : heap),
       ndef_raw_record_decode one_record_bytes 7 heap0 = Done (Decoded raw n, h')
       /\ live h' = [2; 1]
       /\ ndef_raw_record_destroy raw h' = Done (tt, h'')
       /\ live h'' = live heap0.
Proof.
  assert (H1 : heap_wf heap0) by (unfold heap_wf, heap0; simpl; constructor).
  assert (E : exists (raw : ndef_raw_record) (n : Z) (h' : heap),
             ndef_raw_record_decode one_record_bytes 7 heap0 = Done (Decoded raw n, h')
             /\ live h' = [2; 1])
    by (eexists; eexists; eexists; split; vm_compute; reflexivity).
  destruct E as (raw & n & h' & E & El).
  pose proof (ndef_raw_record_decode_owns_its_blocks _ _ _ _ _ H1 E) as G.
  cbv beta iota in G. destruct G as (h'' & G1 & G2).
  split; [exact H1|]. exists raw, n, h', h''. auto.
Defined.

End DecodeOwnership.

(** ** [ndef_record_clone] *)

Section RecordClone.

(** The buffers of a record hold at least the stated lengths. *)
Definition buffers_fit (r : ndef_record) : Prop :=
  (forall b : block, type r = Some b -> 0 <= type_len r <= zlen (bdata b))
  /\ (forall b : block, payload r = Some b -> 0 <= payload_len r <= zlen (bdata b))
  /\ (forall b : block, id r = Some b -> 0 <= id_len r <= zlen (bdata b)).

(** The copy of a field: nothing for [NULL], the first [n] bytes otherwise. *)
Definition field_copy (p : ptr) (n : Z) : option (list byte) :=
  option_map (fun b => firstn (Z.to_nat n) (bdata b)) p.

(** The block of a field is [NULL] or was allocated at or after [nb]. *)
Definition block_since (nb : Z) (p : ptr) : Prop :=
  forall b : block, p = Some b -> nb <= baddr b.

(** X17: [ndef_record_clone] on a record that has a type, or has no id.
    When the buffers hold the stated lengths and every allocation
    succeeds, the call returns [true] with a record that has the same
    TNF, lengths and raw indices; each field that was [NULL] is [NULL],
    and each other field is a block allocated by the call that holds the
    first [len] bytes of the original. *)
Theorem ndef_record_clone_copies (r : ndef_record) (h : heap) :
  oracle h = [] ->
  buffers_fit r ->
  (id r <> None -> type r <> None) ->
  exists (r' : ndef_record) (h' : heap),
    ndef_record_clone r h = Done (Some r', h')
    /\ tnf r' = tnf r /\ type_len r' = type_len r
    /\ payload_len r' = payload_len r /\ id_len r' = id_len r
    /\ raw_index r' = raw_index r /\ raw_len r' = raw_len r
    /\ option_map bdata (type r') = field_copy (type r) (type_len r)
    /\ option_map bdata (payload r') = field_copy (payload r) (payload_len r)
    /\ option_map bdata (id r') = field_copy (id r) (id_len r)
    /\ block_since (next_block h) (type r')
    /\ block_since (next_block h) (payload r')
    /\ block_since (next_block h) (id r').
Proof.
  intros Ho (Ft & Fp & Fi) Hid.
  destruct r as [ri rl tn tl pl il ty pa idp].
  cbn [type payload id type_len payload_len id_len tnf raw_index raw_len] in *.
  unfold ndef_record_clone. cbv zeta.
  cbn [type payload id type_len payload_len id_len].
  assert (Hn1 : next_block h <= next_block (grown h)) by (unfold grown; simpl; lia).
  assert (Hn2 : next_block h <= next_block (grown (grown h)))
    by (unfold grown; simpl; lia).
  destruct pa as [bp|]; cbn [is_null negb].
  - rewrite (bind_bind_Done_eq _ _ _ _ _ _ (malloc_calm _ h Ho)).
    rewrite (bind_bind_Done_eq _ _ _ _ _ _ (copy_from_ok bp pl (grown h) (Fp bp eq_refl))).
    rewrite bind_ret_fun.
    unfold set_payload.
    cbn [type payload id type_len payload_len id_len tnf raw_index raw_len].
    destruct ty as [bt|]; cbn [is_null negb].
    + rewrite (bind_bind_Done_eq _ _ _ _ _ _ (malloc_calm _ (grown h) Ho)).
      rewrite (bind_bind_Done_eq _ _ _ _ _ _
                 (copy_from_ok bt tl (grown (grown h)) (Ft bt eq_refl))).
      rewrite bind_ret_fun. unfold set_type.
      cbn [type payload id type_len payload_len id_len tnf raw_index raw_len].
      destruct idp as [bi|]; cbn [is_null negb].
      * rewrite (bind_Done_eq _ _ _ _ _ (malloc_calm _ (grown (grown h)) Ho)).
        rewrite (bind_Done_eq _ _ _ _ _
                   (copy_from_ok bi il (grown (grown (grown h))) (Fi bi eq_refl))).
        eexists. eexists. split; [reflexivity|].
        cbn. unfold block_since.
        repeat split; try reflexivity; intros b E; inversion E; simpl; lia.
      * eexists. eexists. split; [reflexivity|].
        cbn. unfold block_since.
        repeat split; try reflexivity; intros b E; inversion E; simpl; lia.
    + rewrite bind_ret_fun.
      destruct idp as [bi|]; [exfalso; apply Hid; [discriminate|reflexivity]|].
      cbn [is_null negb id].
      eexists. eexists. split; [reflexivity|].
      cbn. unfold block_since.
      repeat split; try reflexivity; intros b E; inversion E; simpl; lia.
  - rewrite bind_ret_fun.
    destruct ty as [bt|]; cbn [is_null negb type].
    + rewrite (bind_bind_Done_eq _ _ _ _ _ _ (malloc_calm _ h Ho)).
      rewrite (bind_bind_Done_eq _ _ _ _ _ _ (copy_from_ok bt tl (grown h) (Ft bt eq_refl))).
      rewrite bind_ret_fun. unfold set_type.
      cbn [type payload id type_len payload_len id_len tnf raw_index raw_len].
      destruct idp as [bi|]; cbn [is_null negb].
      * rewrite (bind_Done_eq _ _ _ _ _ (malloc_calm _ (grown h) Ho)).
        rewrite (bind_Done_eq _ _ _ _ _
                   (copy_from_ok bi il (grown (grown h)) (Fi bi eq_refl))).
        eexists. eexists. split; [reflexivity|].
        cbn. unfold block_since.
        repeat split; try reflexivity; intros b E; inversion E; simpl; lia.
      * eexists. eexists. split; [reflexivity|].
        cbn. unfold block_since.
        repeat split; try reflexivity; intros b E; inversion E; simpl; lia.
    + rewrite bind_ret_fun.
      destruct idp as [bi|]; [exfalso; apply Hid; [discriminate|reflexivity]|].
      cbn [is_null negb id].
      eexists. eexists. split; [reflexivity|].
      cbn. unfold block_since.
      repeat split; try reflexivity; intros b E; inversion E; simpl; lia.
Qed.

(** A record with a type ["t"], a payload ["abc"] and an id ["i"]. *)
Definition full_record : ndef_record :=
  mk_record 0 0 NDEF_TNF_MIME 1 3 1
            (Some (mkBlock 1 (bytes_of "t")))
            (Some (mkBlock 2 (bytes_of "abc")))
            (Some (mkBlock 3 (bytes_of "i"))).

Definition full_record_heap : heap := mkHeap 4 [3; 2; 1] [].

Lemma buffers_fit_full_record : buffers_fit full_record.
Proof.
  unfold buffers_fit, full_record.
  cbn [type payload id type_len payload_len id_len].
  repeat split; inversion H; subst; vm_compute; discriminate.
Qed.

Lemma ndef_record_clone_copies_witness :
  oracle full_record_heap = []
  /\ buffers_fit full_record
  /\ (id full_record <> None -> type full_record <> None)
  /\ exists (r' : ndef_record) (h' : heap),
       ndef_record_clone full_record full_record_heap = Done (Some r', h')
       /\ option_map bdata (type r') = Some (bytes_of "t")
       /\ option_map bdata (payload r') = Some (bytes_of "abc")
       /\ option_map bdata (id r') = Some (bytes_of "i")
       /\ block_since 4 (payload r').
Proof.
  assert (H1 : oracle full_record_heap = []) by reflexivity.
  assert (H2 : buffers_fit full_record) by exact buffers_fit_full_record.
  assert (H3 : id full_record <> None -> type full_record <> None)
    by (intros _; discriminate).
  destruct (ndef_record_clone_copies full_record full_record_heap H1 H2 H3)
    as (r' & h' & E & _ & _ & _ & _ & _ & _ & Et & Ep & Ei & _ & Bp & _).
  split; [exact H1|]. split; [exact H2|]. split; [exact H3|].
  exists r', h'. split; [exact E|]. split; [exact Et|]. split; [exact Ep|].
  split; [exact Ei|exact Bp].
Defined.

(** X18: [ndef_record_clone] fails on every record that has an id and no
    type.  After allocating the block for the id the function tests
    [tmp.type] where it means [tmp.id], so for such a record it returns
    [false] whenever it returns, even if every allocation succeeded; and
    when they all succeed (and the payload, if there is one, has a buffer
    of the stated length) the block just allocated for the id stays
    allocated, with no pointer to it left. *)
Theorem ndef_record_clone_id_without_type (r : ndef_record) (bi : block) (h : heap) :
  type r = None ->
  id r = Some bi ->
  (forall (res : option ndef_record) (h' : heap),
      ndef_record_clone r h = Done (res, h') -> res = None)
  /\ (oracle h = [] -> heap_wf h -> buffers_fit r ->
      exists h' : heap,
        ndef_record_clone r h = Done (None, h')
        /\ live h' = (next_block h' - 1) :: live h).
Proof.
  intros Ht Hi. split.
  - intros res h' E. unfold ndef_record_clone in E. cbv zeta in E.
    rewrite Ht, Hi in E. cbn [is_null negb] in E.
    apply bind_Done in E. destruct E as (r1 & h1 & E1 & E).
    destruct r1 as [tmp1|]; [|run_inv; reflexivity].
    rewrite bind_ret_fun in E.
    assert (Hty : type tmp1 = None).
    { destruct (payload r) as [bp|]; cbn [is_null negb] in E1.
      - apply bind_Done in E1. destruct E1 as ([a|] & h0 & _ & E1); [|run_inv].
        apply bind_Done in E1. destruct E1 as (bytes & h2 & _ & E1).
        run_inv. cbn. exact Ht.
      - run_inv. exact Ht. }
    apply bind_Done in E. destruct E as (a & h2 & _ & E).
    rewrite Hty in E. cbn [is_null] in E.
    apply bind_Done in E. destruct E as (u1 & h3 & _ & E).
    apply bind_Done in E. destruct E as (u2 & h4 & _ & E).
    run_inv. reflexivity.
  - intros Ho Hw (_ & Fp & _).
    unfold ndef_record_clone. cbv zeta. rewrite Ht, Hi. cbn [is_null negb].
    destruct (payload r) as [bp|] eqn:Ep; cbn [is_null negb].
    + rewrite (bind_bind_Done_eq _ _ _ _ _ _ (malloc_calm _ h Ho)).
      rewrite (bind_bind_Done_eq _ _ _ _ _ _
                 (copy_from_ok bp (payload_len r) (grown h) (Fp bp eq_refl))).
      rewrite !bind_ret_fun.
      rewrite (bind_Done_eq _ _ _ _ _ (malloc_calm _ (grown h) Ho)).
      unfold set_payload. cbn [type payload is_null negb free_if baddr]. rewrite Ht.
      cbn [is_null free_if]. rewrite !bind_ret_fun.
      unfold grown. cbn [next_block live oracle].
      rewrite bind_free_1 by (try lia; absent Hw).
      eexists. split; [reflexivity|]. cbn [live next_block]. f_equal. lia.
    + rewrite !bind_ret_fun.
      rewrite (bind_Done_eq _ _ _ _ _ (malloc_calm _ h Ho)).
      rewrite Ht, Ep. cbn [is_null negb free_if]. rewrite !bind_ret_fun.
      eexists. split; [reflexivity|]. unfold grown. cbn [live next_block]. f_equal. lia.
Qed.

(** A record with an id ["i"] and a payload ["abc"], and no type. *)
Definition untyped_record : ndef_record :=
  mk_record 0 0 NDEF_TNF_UNKNOWN 0 3 1
            None
            (Some (mkBlock 2 (bytes_of "abc")))
            (Some (mkBlock 3 (bytes_of "i"))).

Lemma ndef_record_clone_id_without_type_witness :
  type untyped_record = None
  /\ id untyped_record = Some (mkBlock 3 (bytes_of "i"))
  /\ oracle full_record_heap = []
  /\ heap_wf full_record_heap
  /\ buffers_fit untyped_record
  /\ exists h' : heap,
       ndef_record_clone untyped_record full_record_heap = Done (None, h')
       /\ live h' = (next_block h' - 1) :: live full_record_heap.
Proof.
  assert (H1 : type untyped_record = None) by reflexivity.
  assert (H2 : id untyped_record = Some (mkBlock 3 (bytes_of "i"))) by reflexivity.
  assert (H3 : oracle full_record_heap = []) by reflexivity.
  assert (H4 : heap_wf full_record_heap)
    by (unfold heap_wf, full_record_heap; simpl; repeat constructor).
  assert (H5 : buffers_fit untyped_record).
  { unfold buffers_fit, untyped_record.
    cbn [type payload id type_len payload_len id_len].
    repeat split; inversion H; subst; vm_compute; discriminate. }
  exact (conj H1 (conj H2 (conj H3 (conj H4 (conj H5
           (proj2 (ndef_record_clone_id_without_type untyped_record _ full_record_heap
                     H1 H2) H3 H4 H5)))))).
Defined.

End RecordClone.

(** ** Calls that cannot succeed *)

Section NoContext.

(** X19: [ndef_record_new_smartposter] cannot be given a message.  When
    the [ndef] field is not [NULL] the message is cloned by [ndef_clone],
    which allocates [sizeof(ndef_ctx)] bytes, the size of a pointer, and
    copies a whole [ndef_ctx_s] into them: [ndef_clone] returns [NULL]
    when the allocation fails and has no defined result otherwise.  It
    never returns a clone, and [ndef_record_new_smartposter], which hands
    the [NULL] to [ndef_records_len], never returns a record. *)
Theorem ndef_record_new_smartposter_given_message (sp : ndef_smartposter) (h : heap) :
  ndef sp <> None ->
  ndef_record_new_smartposter sp h = Crash
  /\ (ndef_clone (ndef sp) h = Crash
      \/ exists h' : heap, ndef_clone (ndef sp) h = Done (None, h')).
Proof.
  intros Hn.
  destruct sp as [[c|] u t]; [clear Hn|contradiction Hn; reflexivity].
  unfold ndef_record_new_smartposter, ndef_clone, MAGIC_CHECK, malloc, alloc_ok, bind.
  cbn [ndef].
  destruct (magic c =? NDEF_MAGIC); [|split; [reflexivity|left; reflexivity]].
  unfold ret.
  destruct (oracle h) as [|[|] o]; cbn.
  - split; [reflexivity|left; reflexivity].
  - split; [reflexivity|left; reflexivity].
  - split; [reflexivity|right; eexists; reflexivity].
Qed.

Lemma ndef_record_new_smartposter_given_message_witness :
  ndef (mk_smartposter (Some store_ab) None no_text) <> None
  /\ ndef_record_new_smartposter (mk_smartposter (Some store_ab) None no_text)
       (sample_heap []) = Crash.
Proof.
  assert (H1 : ndef (mk_smartposter (Some store_ab) None no_text) <> None)
    by discriminate.
  split; [exact H1|].
  exact (proj1 (ndef_record_new_smartposter_given_message
                  (mk_smartposter (Some store_ab) None no_text) (sample_heap []) H1)).
Defined.

(** X20: [ndef_record_get_smartposter] on a record without payload.  The
    inner [ndef_decode] returns [NULL] for a [NULL] or empty input, and
    the [NULL] goes to [ndef_records_len], whose validity check aborts:
    the call has no result, whatever the type of the record. *)
Theorem ndef_record_get_smartposter_no_payload (r : ndef_record) (h : heap) :
  payload r = None \/ payload_len r = 0 ->
  ndef_record_get_smartposter r h = Crash.
Proof.
  intros [Hp|Hl]; unfold ndef_record_get_smartposter, ndef_decode.
  - rewrite Hp. reflexivity.
  - rewrite Hl. destruct (payload r); reflexivity.
Qed.

Lemma ndef_record_get_smartposter_no_payload_witness :
  (payload rec_a = None \/ payload_len rec_a = 0)
  /\ ndef_record_get_smartposter rec_a (sample_heap []) = Crash.
Proof.
  assert (H1 : payload rec_a = None \/ payload_len rec_a = 0) by (left; reflexivity).
  split; [exact H1|].
  exact (ndef_record_get_smartposter_no_payload rec_a (sample_heap []) H1).
Defined.

(** X21: [ndef_decode] when the context cannot be allocated.  The result
    of [ndef_init] is not checked: with input to read ([*len] not 0) and
    the first allocation failing, the decoder either aborts in
    [ndef_raw_append] or reads [ctx->raw_records_len] through the [NULL]
    context.  It does not return. *)
Theorem ndef_decode_without_context (data : list byte) (len : Z) (h : heap)
    (o : list bool) :
  len <> 0 -> oracle h = false :: o ->
  ndef_decode (Some data) (Some len) h = Crash.
Proof.
  intros Hl Ho. unfold ndef_decode.
  destruct (len =? 0) eqn:E; [apply Z.eqb_eq in E; contradiction|].
  unfold ndef_init, malloc, alloc_ok.
  unfold bind at 1 2 3. rewrite Ho. cbn [ret].
  unfold ret at 1.
  assert (El : forall out, decode_loop (Z.to_nat len) data len 0 None
              (mkHeap (next_block h) (live h) o) = out ->
            match out with
            | Done (_, c, _) => c = None
            | Crash => True
            | Spin => False
            end).
  2: { unfold bind.
       specialize (El _ eq_refl).
       destruct (decode_loop (Z.to_nat len) data len 0 None
                   (mkHeap (next_block h) (live h) o)) as [[[p c] h1]| |];
         [subst c; reflexivity|reflexivity|contradiction]. }
  intros [[[p c] h1]| |] El.
  - apply decode_loop_no_context in El. exact El.
  - exact I.
  - destruct (Z.to_nat len) as [|f] eqn:Ef.
    + simpl in El.
      destruct (0 <? len) eqn:E0; [apply Z.ltb_lt in E0; lia|discriminate El].
    + simpl in El. destruct (0 <? len); [|discriminate El].
      unfold bind, ndef_raw_append, MAGIC_CHECK, crash in El.
      destruct (ndef_raw_record_decode data (size_t (len - 0))
                  (mkHeap (next_block h) (live h) o)) as [[[raw n| |] h2]| |] eqn:Ed;
        try discriminate El.
      exact (ends_ndef_raw_record_decode _ _ _ Ed).
Qed.

Lemma ndef_decode_without_context_witness :
  3 <> 0 /\ oracle (mkHeap 1 [] [false]) = [false]
  /\ ndef_decode (Some [xd1; x00; x00]) (Some 3) (mkHeap 1 [] [false]) = Crash.
Proof.
  assert (H1 : 3 <> 0) by lia.
  assert (H2 : oracle (mkHeap 1 [] [false]) = [false]) by reflexivity.
  split; [exact H1|]. split; [exact H2|].
  exact (ndef_decode_without_context [xd1; x00; x00] 3 (mkHeap 1 [] [false]) [] H1 H2).
Defined.

End NoContext.

(** ** A write that fails unnoticed *)

Section EncodeAllocation.

Lemma low_byte_short (pl : Z) : 0 <= pl < 256 -> Z.land pl 0xffffff00 = 0.
Proof.
  intros H. rewrite Z.land_comm.
  change 0xffffff00 with (Z.shiftl 0xffffff 8).
  apply land_shiftl_low; [lia|]. change (2 ^ 8) with 256. exact H.
Qed.

(** The record encoder at the start of a stream when the third allocation
    is the one that fails: the byte of the payload length is not
    written, and the encoder goes on. *)
Lemma ndef_raw_record_encode_short_cut (raw : ndef_raw_record) (h : heap) :
  well_formed (abstract raw) ->
  flag_short_record raw = true ->
  flag_include_id_len raw = truthy (id_len (abstract raw)) ->
  oracle h = [true; true; false] ->
  exists (out' : ndef_ostream) (h' : heap),
    ndef_raw_record_encode ndef_ostream_init raw h = Done (true, out', h')
    /\ contents out'
       = [byte_of_Z (flags_byte raw); byte_of_Z (type_len (abstract raw))]
         ++ (if flag_include_id_len raw then [byte_of_Z (id_len (abstract raw))] else [])
         ++ field_bytes (type (abstract raw)) (type_len (abstract raw))
         ++ field_bytes (payload (abstract raw)) (payload_len (abstract raw))
         ++ field_bytes (id (abstract raw)) (id_len (abstract raw))
    /\ buf out' <> None.
Proof.
  intros (Ht & Htl & Hpl & Hil & Fty & Fpl & Fid) Hshort Hflag Ho.
  destruct h as [nb lv o]. cbn [oracle] in Ho. subst o.
  unfold ndef_raw_record_encode. cbv zeta. fold (flags_byte raw).
  set (r := abstract raw) in *.
  set (f := flags_byte raw).
  set (o2 := mk_ostream (Some nb) 2 [byte_of_Z f; byte_of_Z (type_len r)]).
  set (h3 := mkHeap (nb + 1) (nb :: lv) []).
  assert (E1 : ndef_ostream_append ndef_ostream_init f (mkHeap nb lv [true; true; false])
               = Done (true, mk_ostream (Some nb) 1 [byte_of_Z f],
                       mkHeap (nb + 1) (nb :: lv) [true; false])) by reflexivity.
  rewrite (bind_Done_eq _ _ _ _ _ E1). cbv beta iota. cbn [negb].
  assert (E2 : ndef_ostream_append (mk_ostream (Some nb) 1 [byte_of_Z f]) (type_len r)
                 (mkHeap (nb + 1) (nb :: lv) [true; false])
               = Done (true, o2, mkHeap (nb + 1) (nb :: lv) [false])).
  { unfold ndef_ostream_append, realloc, alloc_ok, bind. cbn.
    rewrite Z.eqb_refl. reflexivity. }
  rewrite (bind_Done_eq _ _ _ _ _ E2). cbv beta iota. cbn [negb].
  rewrite Hshort.
  assert (E3 : ndef_ostream_append o2 (payload_len r)
                 (mkHeap (nb + 1) (nb :: lv) [false])
               = Done (false, o2, h3)) by reflexivity.
  rewrite (bind_Done_eq _ _ _ _ _ (bind_Done_eq _ _ _ _ _ E3)). cbv beta iota. cbn [negb].
  assert (K3 : ostream_ok o2 h3).
  { split; [reflexivity|]. split; [unfold buf_len, zlen; simpl; lia|].
    unfold is_live. cbn. rewrite Z.eqb_refl. reflexivity. }
  assert (L3 : buf_len o2 = 2) by reflexivity.
  assert (S4 : exists (o4 : ndef_ostream) (h4 : heap),
             (if flag_include_id_len raw
              then ndef_ostream_append o2 (id_len r)
              else ret (true, o2)) h3 = Done (true, o4, h4)
             /\ contents o4
                = contents o2 ++ (if flag_include_id_len raw then [byte_of_Z (id_len r)] else [])
             /\ ostream_ok o4 h4 /\ 1 <= buf_cap o4).
  { destruct (flag_include_id_len raw).
    - apply ostream_append_ok; [exact K3|lia].
    - exists o2, h3. rewrite app_nil_r. split; [reflexivity|].
      split; [reflexivity|]. split; [exact K3|simpl; lia]. }
  destruct S4 as (o4 & h4 & E4 & C4 & K4 & P4).
  assert (L4 : buf_len o4 <= 3).
  { unfold buf_len in *. rewrite C4, zlen_app, L3.
    destruct (flag_include_id_len raw); unfold zlen; simpl; lia. }
  rewrite (bind_Done_eq _ _ _ _ _ E4). cbv beta iota. cbn [negb].
  destruct (append_field_ok o4 (type r) (type_len r) h4 K4 P4 ltac:(lia) Fty ltac:(lia))
    as (o5 & h5 & E5 & C5 & K5 & P5).
  assert (L5 : buf_len o5 <= 3 + type_len r).
  { unfold buf_len in *. rewrite C5, zlen_app.
    pose proof (zlen_field_bytes (type r) (type_len r)). lia. }
  rewrite (bind_Done_eq _ _ _ _ _ E5). cbv beta iota. cbn [negb].
  destruct (append_field_ok o5 (payload r) (payload_len r) h5 K5 P5 ltac:(lia) Fpl ltac:(lia))
    as (o6 & h6 & E6 & C6 & K6 & P6).
  assert (L6 : buf_len o6 <= 3 + type_len r + payload_len r).
  { unfold buf_len in *. rewrite C6, zlen_app.
    pose proof (zlen_field_bytes (payload r) (payload_len r)). lia. }
  rewrite (bind_Done_eq _ _ _ _ _ E6). cbv beta iota. cbn [negb].
  destruct (append_field_ok o6 (id r) (id_len r) h6 K6 P6 ltac:(lia) Fid ltac:(lia))
    as (o7 & h7 & E7 & C7 & K7 & P7).
  rewrite Hflag, andb_diag.
  rewrite (bind_Done_eq _ _ _ _ _ E7). cbv beta iota. cbn [negb].
  exists o7, h7. split; [reflexivity|]. split.
  - rewrite C7, C6, C5, C4. subst o2. cbn [contents].
    rewrite <- Hflag. rewrite <- !app_assoc. reflexivity.
  - destruct K7 as (_ & _ & B7). destruct (buf o7); [discriminate|lia].
Qed.

(** X22: [ndef_encode] can report success and hand out a message with a
    byte missing.  In [ndef_raw_record_encode] the result of writing the
    one-byte payload length of a short record is never looked at.  For a
    message of one record with a payload below 256 bytes, when the third
    allocation is the only one that fails (the stream holds two bytes and
    has to grow for the third), [ndef_encode] returns [true] with the flags
    byte, the type length, the id length if there is an id, and the three
    fields: the record as it goes on the wire, less the byte of the
    payload length. *)
Theorem ndef_encode_drops_length_byte (a : Z) (r : ndef_record) (h : heap) :
  well_formed r -> payload_len r < 256 ->
  oracle h = [true; true; false] ->
  exists (c : ndef_ctx_s) (b : block) (h' : heap),
    ndef_encode (Some (mk_ctx NDEF_MAGIC 0 0 None 1 1 (Some (mkArray a [r])))) h
    = Done (c, Some (Some b, zlen (bdata b)), h')
    /\ bdata b
       = [byte_of_Z (flags_byte (only_raw r)); byte_of_Z (type_len r)]
         ++ (if truthy (id_len r) then [byte_of_Z (id_len r)] else [])
         ++ field_bytes (type r) (type_len r)
         ++ field_bytes (payload r) (payload_len r)
         ++ field_bytes (id r) (id_len r)
    /\ wire_bytes (only_raw r)
       = firstn 2 (bdata b) ++ [byte_of_Z (payload_len r)] ++ skipn 2 (bdata b).
Proof.
  intros Hwf Hpl Ho.
  assert (Hshort : flag_short_record (only_raw r) = true).
  { unfold only_raw. cbn [flag_short_record].
    rewrite low_byte_short; [reflexivity|].
    destruct Hwf as (_ & _ & Hp & _). lia. }
  destruct (ndef_raw_record_encode_short_cut (only_raw r) h)
    as (out & h' & E & C & B); [exact Hwf|exact Hshort|reflexivity|exact Ho|].
  destruct (buf out) as [ab|] eqn:Eb; [clear B|contradiction B; reflexivity].
  exists (mk_ctx NDEF_MAGIC 0 0 None 1 1 (Some (mkArray a [set_raw 0 0 r]))),
         (mkBlock ab (contents out)), h'.
  split; [|split].
  - unfold ndef_encode.
    change (MAGIC_CHECK (Some (mk_ctx NDEF_MAGIC 0 0 None 1 1 (Some (mkArray a [r])))))
      with (ret (mk_ctx NDEF_MAGIC 0 0 None 1 1 (Some (mkArray a [r])))).
    rewrite bind_ret_fun.
    change (ndef_raw_clear (Some (mk_ctx NDEF_MAGIC 0 0 None 1 1 (Some (mkArray a [r])))))
      with (ret (mk_ctx NDEF_MAGIC 0 0 None 1 1 (Some (mkArray a [set_raw 0 0 r])))).
    rewrite bind_ret_fun.
    change (Z.to_nat (abs_records_len
              (mk_ctx NDEF_MAGIC 0 0 None 1 1 (Some (mkArray a [set_raw 0 0 r])))))
      with 1%nat.
    cbn [encode_loop].
    change (aget (abs_records
                    (mk_ctx NDEF_MAGIC 0 0 None 1 1 (Some (mkArray a [set_raw 0 0 r])))) 0)
      with (Done (set_raw 0 0 r)).
    rewrite bind_lift_fun.
    change (mk_raw (set_raw 0 0 r) 0 (0 =? 0)
              (0 =? size_t (abs_records_len
                 (mk_ctx NDEF_MAGIC 0 0 None 1 1 (Some (mkArray a [set_raw 0 0 r]))) - 1))
              false
              (negb (truthy (Z.land (payload_len (set_raw 0 0 r)) 0xffffff00)))
              (truthy (id_len (set_raw 0 0 r))))
      with (only_raw r).
    rewrite (bind_Done_eq _ _ _ _ _ (bind_Done_eq _ _ _ _ _ E)).
    unfold buf_len. rewrite Eb. reflexivity.
  - cbn [bdata]. rewrite C. reflexivity.
  - cbn [bdata]. rewrite C. unfold wire_bytes. rewrite Hshort.
    cbn [abstract only_raw flag_include_id_len length_bytes].
    reflexivity.
Qed.

Lemma ndef_encode_drops_length_byte_witness :
  well_formed rec_a /\ payload_len rec_a < 256
  /\ oracle (sample_heap [true; true; false]) = [true; true; false]
  /\ exists (c : ndef_ctx_s) (b : block) (h' : heap),
       ndef_encode (Some (mk_ctx NDEF_MAGIC 0 0 None 1 1 (Some (mkArray 10 [rec_a]))))
         (sample_heap [true; true; false])
       = Done (c, Some (Some b, zlen (bdata b)), h')
       /\ wire_bytes (only_raw rec_a)
          = firstn 2 (bdata b) ++ [byte_of_Z (payload_len rec_a)] ++ skipn 2 (bdata b).
Proof.
  assert (H1 : well_formed rec_a).
  { unfold well_formed, rec_a, typed_record, field_ok, NDEF_TNF_MIME;
      cbn [tnf type_len payload_len id_len type payload id];
      (repeat split; try lia; try (left; reflexivity));
      right; eexists; (split; [reflexivity|]); vm_compute; discriminate. }
  assert (H2 : payload_len rec_a < 256) by (vm_compute; reflexivity).
  assert (H3 : oracle (sample_heap [true; true; false]) = [true; true; false])
    by reflexivity.
  destruct (ndef_encode_drops_length_byte 10 rec_a (sample_heap [true; true; false])
              H1 H2 H3) as (c & b & h' & E & _ & W).
  split; [exact H1|]. split; [exact H2|]. split; [exact H3|].
  exists c, b, h'. split; [exact E|exact W].
Defined.

End EncodeAllocation.

(** ** Messages of several records *)

Section MessageEncode.

(** The raw record that [ndef_encode] makes of record [i] of [n]. *)
Definition message_raw (n i : Z) (r : ndef_record) : ndef_raw_record :=
  mk_raw r i (i =? 0) (i =? n - 1) false
         (negb (truthy (Z.land (payload_len r) 0xffffff00)))
         (truthy (id_len r)).

Fixpoint message_raws (n i : Z) (rs : list ndef_record) : list ndef_raw_record :=
  match rs with
  | [] => []
  | r :: rs => message_raw n i r :: message_raws n (i + 1) rs
  end.

(** Raw records one after the other on the wire. *)
Definition stream_bytes (raws : list ndef_raw_record) : list byte :=
  concat (map wire_bytes raws).

(** A message on the wire: its records in order, the first one marked
    as the beginning and the last one as the end. *)
Definition message_bytes (rs : list ndef_record) : list byte :=
  stream_bytes (message_raws (zlen rs) 0 rs).

Lemma unlink_raw_ok (a : Z) (post : list ndef_record) :
  forall todo done : list ndef_record,
    unlink_raw (length todo) (zlen done) (Some (mkArray a (done ++ todo ++ post)))
    = Done (Some (mkArray a (done ++ map (set_raw 0 0) todo ++ post))).
Proof.
  induction todo as [|r todo IH]; intros done; [reflexivity|].
  cbn [length unlink_raw app map].
  rewrite aget_app, aset_app.
  specialize (IH (done ++ [set_raw 0 0 r])).
  rewrite zlen_app in IH. change (zlen [set_raw 0 0 r]) with 1 in IH.
  rewrite <- !app_assoc in IH. exact IH.
Qed.

Lemma message_raws_unlinked (n : Z) (rs : list ndef_record) :
  forall i : Z,
    stream_bytes (message_raws n i (map (set_raw 0 0) rs))
    = stream_bytes (message_raws n i rs).
Proof.
  induction rs as [|r rs IH]; intros i; [reflexivity|].
  unfold stream_bytes in *. cbn [map message_raws concat].
  rewrite IH. reflexivity.
Qed.

Lemma stream_bytes_bound (raws : list ndef_raw_record) :
  Forall (fun raw => well_formed (abstract raw)) raws ->
  zlen (stream_bytes raws) <= zlen raws * 2 ^ 33.
Proof.
  induction 1 as [|raw raws Hw _ IH]; [unfold zlen; simpl; lia|].
  unfold stream_bytes in *. cbn [map concat].
  rewrite zlen_app, zlen_cons. pose proof (wire_bytes_bound raw Hw). lia.
Qed.

Lemma encode_loop_ok (c : ndef_ctx_s) (a : Z) (post : list ndef_record) :
  forall (todo done : list ndef_record) (out : ndef_ostream) (h : heap),
    abs_records c = Some (mkArray a (done ++ todo ++ post)) ->
    abs_records_len c = zlen done + zlen todo ->
    abs_records_len c < 2 ^ 56 ->
    ostream_ok out h -> Forall well_formed todo ->
    buf_len out + zlen todo * 2 ^ 33 < 2 ^ 61 ->
    exists (out' : ndef_ostream) (h' : heap),
      encode_loop (length todo) (zlen done) c out h = Done (Some out', h')
      /\ contents out'
         = contents out ++ stream_bytes (message_raws (abs_records_len c) (zlen done) todo)
      /\ ostream_ok out' h'.
Proof.
  induction todo as [|r todo IH]; intros done out h Ha Hl Hlt Hok Hwf Hsz.
  - exists out, h. split; [reflexivity|]. split; [|exact Hok].
    unfold stream_bytes. simpl. rewrite app_nil_r. reflexivity.
  - inversion Hwf as [|? ? Hr Hrest]; subst.
    pose proof (zlen_nonneg done) as D0. pose proof (zlen_nonneg todo) as T0.
    rewrite zlen_cons in Hl, Hsz.
    cbn [length encode_loop]. rewrite Ha. cbn [app].
    rewrite aget_app, bind_lift_fun.
    rewrite (size_t_small (abs_records_len c - 1)) by lia.
    fold (message_raw (abs_records_len c) (zlen done) r).
    destruct (ndef_raw_record_encode_ok out (message_raw (abs_records_len c) (zlen done) r) h)
      as (o1 & h1 & E1 & C1 & K1 & P1);
      [exact Hok|exact Hr|reflexivity|unfold buf_len in *; pose proof (zlen_nonneg (contents out)); lia|].
    rewrite (bind_Done_eq _ _ _ _ _ E1). cbv beta iota. cbn [negb].
    assert (B1 : buf_len o1 < buf_len out + 2 ^ 33).
    { unfold buf_len. rewrite C1, zlen_app.
      pose proof (wire_bytes_bound (message_raw (abs_records_len c) (zlen done) r) Hr). lia. }
    destruct (IH (done ++ [r]) o1 h1) as (o2 & h2 & E2 & C2 & K2).
    + rewrite <- app_assoc. exact Ha.
    + rewrite zlen_app. change (zlen [r]) with 1. lia.
    + exact Hlt.
    + exact K1.
    + exact Hrest.
    + lia.
    + rewrite zlen_app in E2, C2. change (zlen [r]) with 1 in E2, C2.
      exists o2, h2. split; [exact E2|]. split; [|exact K2].
      rewrite C2, C1. unfold stream_bytes. cbn [message_raws map concat].
      rewrite <- !app_assoc. reflexivity.
Qed.

Lemma free_array_live {A : Type} (p : option (array A)) (h : heap) :
  match p with Some arr => is_live (aaddr arr) h | None => True end ->
  exists h' : heap,
    free_array p h = Done (tt, h') /\ oracle h' = oracle h.
Proof.
  destruct p as [arr|]; intros Hl; cbn [free_array].
  - unfold free. unfold is_live in Hl. rewrite Hl. eexists. split; reflexivity.
  - exists h. split; reflexivity.
Qed.

(** [ndef_encode] when every allocation succeeds. *)
Lemma ndef_encode_run (c : ndef_ctx_s) (h : heap) :
  store_ok c h -> oracle h = [] ->
  match raw_records c with Some arr => is_live (aaddr arr) h | None => True end ->
  Forall well_formed (records_of c) ->
  abs_records_len c < 2 ^ 27 ->
  exists (c' : ndef_ctx_s) (data : ptr) (h' : heap),
    ndef_encode (Some c) h
    = Done (c', Some (data, zlen (message_bytes (records_of c))), h')
    /\ match data with
       | Some b => bdata b = message_bytes (records_of c) /\ is_live (baddr b) h'
       | None => records_of c = []
       end
    /\ records_of c' = map (set_raw 0 0) (records_of c)
    /\ raw_records_len c' = 0
    /\ oracle h' = [].
Proof.
  intros (Hm & Hlen & Hcap & Harr) Ho Hraw Hwf Hsmall.
  unfold ndef_encode, ndef_raw_clear, MAGIC_CHECK.
  rewrite Hm, Z.eqb_refl, bind_ret_fun.
  rewrite Hm, Z.eqb_refl, bind_ret_fun.
  destruct (free_array_live (raw_records c) h Hraw) as (h1 & Ef & O1).
  rewrite (bind_bind_Done_eq _ _ _ _ _ _ Ef). cbv zeta.
  cbn [set_raw_array abs_records_len abs_records abs_records_cap].
  rewrite Ho in O1.
  assert (K0 : ostream_ok ndef_ostream_init h1).
  { split; [exact O1|]. split; [unfold buf_len, zlen; simpl; lia|reflexivity]. }
  destruct (abs_records c) as [arr|] eqn:Ea.
  - destruct Harr as [Hz Hlive]. destruct arr as [a sl]. cbn [slots aaddr] in *.
    set (rs := firstn (Z.to_nat (abs_records_len c)) sl).
    set (post := skipn (Z.to_nat (abs_records_len c)) sl).
    assert (Hsl : sl = [] ++ rs ++ post) by (symmetry; apply firstn_skipn).
    assert (Hrl : length rs = Z.to_nat (abs_records_len c)).
    { unfold rs. rewrite length_firstn. unfold zlen in Hz. lia. }
    assert (Hrs : records_of c = rs) by (unfold records_of; rewrite Ea; reflexivity).
    rewrite Hrs in *.
    rewrite <- Hrl. clearbody rs post. rewrite Hsl.
    change 0 with (zlen (@nil ndef_record)) at 1.
    rewrite unlink_raw_ok. rewrite bind_lift_fun, bind_ret_fun.
    cbn [app].
    set (c1 := set_abs_array (abs_records_len c) (abs_records_cap c)
                 (Some (mkArray a (map (set_raw 0 0) rs ++ post)))
                 (set_raw_array 0 0 (raw_records c) c)).
    assert (Hl1 : abs_records_len c1 = abs_records_len c) by reflexivity.
    assert (Hml : length (map (set_raw 0 0) rs) = Z.to_nat (abs_records_len c))
      by (rewrite length_map; exact Hrl).
    destruct (encode_loop_ok c1 a post (map (set_raw 0 0) rs) [] ndef_ostream_init h1)
      as (out & h' & E & C & K).
    + reflexivity.
    + rewrite Hl1. change (zlen (@nil ndef_record)) with 0. unfold zlen. lia.
    + rewrite Hl1. lia.
    + exact K0.
    + clear - Hwf. induction Hwf; simpl; constructor; auto.
    + unfold buf_len. change (zlen (contents ndef_ostream_init)) with 0.
      unfold zlen. rewrite Hml. lia.
    + rewrite Hml in E. change (zlen (@nil ndef_record)) with 0 in E, C.
      change (abs_records_len c1) with (abs_records_len c).
      rewrite (bind_Done_eq _ _ _ _ _ E).
      rewrite Hl1, message_raws_unlinked in C. cbn [contents ndef_ostream_init app] in C.
      assert (Hn : abs_records_len c = zlen rs) by (unfold zlen; lia).
      rewrite Hn in C. fold (message_bytes rs) in C.
      exists c1, (option_map (fun a0 => mkBlock a0 (contents out)) (buf out)), h'.
      unfold buf_len. rewrite C.
      split; [reflexivity|]. split; [|split; [|split; [reflexivity|apply K]]].
      * destruct K as (_ & Hb & Hbuf). unfold buf_len in Hb. rewrite C in Hb.
        destruct (buf out) as [ab|]; cbn [option_map bdata baddr].
        -- split; [reflexivity|exact Hbuf].
        -- destruct rs as [|r rs']; [reflexivity|exfalso].
           unfold message_bytes, stream_bytes in Hb. cbn [message_raws map concat] in Hb.
           rewrite zlen_app in Hb.
           pose proof (wire_bytes_nonempty (message_raw (zlen (r :: rs')) 0 r)).
           match type of Hb with _ + zlen ?z <= _ <= _ => pose proof (zlen_nonneg z) end.
           lia.
      * unfold records_of, c1.
        cbn [set_abs_array abs_records abs_records_len slots].
        rewrite <- Hml. apply firstn_all_app.
  - assert (Hl0 : abs_records_len c = 0) by lia.
    assert (Hrs : records_of c = []) by (unfold records_of; rewrite Ea; reflexivity).
    rewrite Hrs, Hl0. cbn [Z.to_nat unlink_raw]. rewrite bind_lift_fun, bind_ret_fun.
    cbn [set_abs_array abs_records_len encode_loop Z.to_nat]. rewrite bind_ret_fun.
    eexists. exists None, h1. split; [reflexivity|].
    split; [reflexivity|]. split; [|split; [reflexivity|exact O1]].
    unfold records_of. reflexivity.
Qed.

(** With no record in the store the loop of [ndef_encode] does not run,
    and the stream it hands out is the initial one: no buffer, length 0. *)
Lemma ndef_encode_empty (c c' : ndef_ctx_s) (res : option (ptr * Z)) (h h' : heap) :
  abs_records_len c = 0 ->
  ndef_encode (Some c) h = Done (c', res, h') ->
  res = Some (None, 0).
Proof.
  intros Hl E. unfold ndef_encode in E.
  apply bind_Done in E. destruct E as (c0 & h0 & E0 & E).
  apply MAGIC_CHECK_Done in E0. destruct E0 as (E0 & -> & Hm). inversion E0. subst c0.
  apply bind_Done in E. destruct E as (c2 & h2 & E2 & E).
  assert (Hl2 : abs_records_len c2 = 0).
  { unfold ndef_raw_clear in E2.
    apply bind_Done in E2. destruct E2 as (c0 & h0 & E0' & E2).
    apply MAGIC_CHECK_Done in E0'. destruct E0' as (E0' & -> & _). inversion E0'. subst c0.
    apply bind_Done in E2. destruct E2 as ([] & h3 & E3 & E2).
    run_inv. cbn. exact Hl. }
  rewrite Hl2 in E. cbn [Z.to_nat encode_loop] in E.
  run_inv. reflexivity.
Qed.

Lemma records_of_nil (c : ndef_ctx_s) (h : heap) :
  store_ok c h -> records_of c = [] -> abs_records_len c = 0.
Proof.
  intros (_ & Hlen & _ & Harr) Hr. unfold records_of in Hr.
  destruct (abs_records c) as [arr|]; [|lia].
  destruct Harr as [Hz _]. apply (f_equal (@length ndef_record)) in Hr.
  rewrite length_firstn in Hr. simpl in Hr. unfold zlen in Hz. lia.
Qed.

(** X23: what [ndef_encode] writes.  On a store in its normal state whose
    records have buffers of the stated lengths, when every allocation
    succeeds, [ndef_encode] returns [true] and the bytes it hands out are
    the records in order, each in the wire format of a single record (a
    short record when the payload is below 256 bytes, an id length only
    when there is an id), the first one marked as the beginning of the
    message and the last one as its end; [*out_len] is their number.  No
    byte is written for an empty store, and the buffer is [NULL].  The
    records stay in the store, their links to raw records reset, and no
    raw record is left. *)
Theorem ndef_encode_message (c : ndef_ctx_s) (h : heap) :
  store_ok c h -> oracle h = [] ->
  match raw_records c with Some arr => is_live (aaddr arr) h | None => True end ->
  Forall well_formed (records_of c) ->
  abs_records_len c < 2 ^ 27 ->
  exists (c' : ndef_ctx_s) (data : ptr) (h' : heap),
    ndef_encode (Some c) h
    = Done (c', Some (data, zlen (message_bytes (records_of c))), h')
    /\ match data with
       | Some b => bdata b = message_bytes (records_of c)
       | None => records_of c = []
       end
    /\ records_of c' = map (set_raw 0 0) (records_of c)
    /\ raw_records_len c' = 0
    /\ (records_of c = [] -> data = None).
Proof.
  intros Hok Ho Hraw Hwf Hsmall.
  destruct (ndef_encode_run c h Hok Ho Hraw Hwf Hsmall)
    as (c' & data & h' & E & D & R & L & _).
  exists c', data, h'. split; [exact E|].
  split; [|split; [exact R|split; [exact L|]]].
  - destruct data as [b|]; [apply D|exact D].
  - intros Hnil.
    pose proof (ndef_encode_empty _ _ _ _ _ (records_of_nil _ _ Hok Hnil) E) as Hres.
    inversion Hres. reflexivity.
Qed.

Lemma well_formed_rec_a_b : Forall well_formed [rec_a; rec_b].
Proof.
  apply Forall_cons; [|apply Forall_cons; [|apply Forall_nil]];
    unfold well_formed, rec_a, rec_b, typed_record, field_ok, NDEF_TNF_MIME;
    cbn [tnf type_len payload_len id_len type payload id];
    (repeat split; try lia; try (left; reflexivity));
    right; eexists; (split; [reflexivity|]); vm_compute; discriminate.
Qed.

Lemma ndef_encode_message_witness :
  store_ok store_ab (sample_heap [])
  /\ oracle (sample_heap []) = []
  /\ Forall well_formed (records_of store_ab)
  /\ abs_records_len store_ab < 2 ^ 27
  /\ exists (c' : ndef_ctx_s) (data : ptr) (h' : heap),
       ndef_encode (Some store_ab) (sample_heap [])
       = Done (c', Some (data, zlen (message_bytes (records_of store_ab))), h')
       /\ match data with
          | Some b => bdata b = message_bytes (records_of store_ab)
          | None => records_of store_ab = []
          end.
Proof.
  assert (H1 : store_ok store_ab (sample_heap [])) by exact store_ok_store_ab.
  assert (H2 : oracle (sample_heap []) = []) by reflexivity.
  assert (H3 : match raw_records store_ab with
               | Some arr => is_live (aaddr arr) (sample_heap [])
               | None => True
               end) by exact I.
  assert (H4 : Forall well_formed (records_of store_ab)) by exact well_formed_rec_a_b.
  assert (H5 : abs_records_len store_ab < 2 ^ 27) by (vm_compute; reflexivity).
  destruct (ndef_encode_message store_ab (sample_heap []) H1 H2 H3 H4 H5)
    as (c' & data & h' & E & D & _).
  split; [exact H1|]. split; [exact H2|]. split; [exact H4|]. split; [exact H5|].
  exists c', data, h'. split; [exact E|exact D].
Defined.

End MessageEncode.

Section MessageDecode.

(** The raw records held by a context: its first [raw_records_len] slots. *)
Definition raws_of (c : ndef_ctx_s) : list ndef_raw_record :=
  firstn (Z.to_nat (raw_records_len c)) (slots_of (raw_records c)).

(** The raw record array in its normal state. *)
Definition raw_store_ok (c : ndef_ctx_s) (h : heap) : Prop :=
  0 <= raw_records_len c <= raw_records_cap c
  /\ raw_records_cap c < 2 ^ 56
  /\ match raw_records c with
     | Some arr => zlen (slots arr) = raw_records_cap c /\ is_live (aaddr arr) h
     | None => raw_records_cap c = 0
     end.

Lemma split_at {A : Type} (l : list A) (n : nat) :
  (n < length l)%nat -> exists (x : A) (rest : list A), l = firstn n l ++ x :: rest.
Proof.
  intros H. destruct (skipn n l) as [|x rest] eqn:E.
  - apply (f_equal (@length A)) in E. rewrite length_skipn in E. simpl in E. lia.
  - exists x, rest. rewrite <- E. symmetry. apply firstn_skipn.
Qed.

Lemma zlen_firstn {A : Type} (l : list A) (n : Z) :
  0 <= n <= zlen l -> zlen (firstn (Z.to_nat n) l) = n.
Proof. intros H. unfold zlen in *. rewrite length_firstn. lia. Qed.

(** Writing slot [len] of an array with room for it. *)
Lemma aset_at {A : Type} (a : Z) (sl : list A) (len : Z) (v : A) :
  0 <= len < zlen sl ->
  exists rest : list A,
    aset (Some (mkArray a sl)) len v
    = Done (Some (mkArray a (firstn (Z.to_nat len) sl ++ v :: rest)))
    /\ zlen (firstn (Z.to_nat len) sl ++ v :: rest) = zlen sl.
Proof.
  intros H.
  destruct (split_at sl (Z.to_nat len)) as (x & rest & E); [unfold zlen in H; lia|].
  exists rest. split.
  - rewrite E at 1. rewrite <- (zlen_firstn sl len) at 2 by lia. apply aset_app.
  - apply (f_equal (@zlen A)) in E. rewrite zlen_app, zlen_cons in E.
    rewrite zlen_app, zlen_cons. lia.
Qed.

Lemma ndef_raw_append_ok (c : ndef_ctx_s) (raw : ndef_raw_record) (h : heap) :
  magic c = NDEF_MAGIC -> raw_store_ok c h -> oracle h = [] ->
  raw_records_len c < 2 ^ 50 ->
  exists (c' : ndef_ctx_s) (h' : heap),
    ndef_raw_append (Some c) raw h = Done (true, c', h')
    /\ raws_of c' = raws_of c ++ [raw]
    /\ raw_records_len c' = raw_records_len c + 1
    /\ raw_store_ok c' h' /\ oracle h' = [] /\ magic c' = NDEF_MAGIC
    /\ abs_records_len c' = abs_records_len c
    /\ abs_records_cap c' = abs_records_cap c
    /\ abs_records c' = abs_records c
    /\ (forall x : Z, is_live x h -> is_live x h')
    /\ next_block h <= next_block h'
    /\ raw_records_cap c'
       = (if raw_records_cap c <=? raw_records_len c
          then 2 * Z.max (raw_records_cap c) 1
          else raw_records_cap c).
Proof.
  intros Hm (Hlen & Hcap & Harr) Ho Hsmall.
  assert (Hz : zlen (slots_of (raw_records c)) = raw_records_cap c).
  { destruct (raw_records c) as [arr|]; cbn [slots_of]; [apply Harr|].
    unfold zlen. simpl. lia. }
  (* After the allocation step. *)
  assert (G : exists (a : Z) (sl : list ndef_raw_record) (cap : Z) (h' : heap),
             (let cap := raw_records_cap c in
              if cap <=? raw_records_len c
              then
                let cap := if cap =? 0 then 1 else cap in
                let cap := size_t (cap * 2) in
                mem <- realloc_array ndef_raw_record_init sizeof_ndef_raw_record
                         (raw_records c) (size_t (sizeof_ndef_raw_record * cap)) ;;
                match mem with
                | None => ret None
                | Some a => ret (Some (set_raw_array (raw_records_len c) cap (Some a) c))
                end
              else ret (Some c)) h
             = Done (Some (set_raw_array (raw_records_len c) cap
                             (Some (mkArray a sl)) c), h')
             /\ zlen sl = cap /\ raw_records_len c < cap < 2 ^ 56
             /\ cap = (if raw_records_cap c <=? raw_records_len c
                       then 2 * Z.max (raw_records_cap c) 1
                       else raw_records_cap c)
             /\ firstn (Z.to_nat (raw_records_len c)) sl = raws_of c
             /\ is_live a h' /\ oracle h' = []
             /\ (forall x : Z, is_live x h -> is_live x h')
             /\ next_block h <= next_block h').
  { cbv zeta. destruct (Z.leb_spec (raw_records_cap c) (raw_records_len c)) as [Hle|Hgt].
    - set (cap0 := if raw_records_cap c =? 0 then 1 else raw_records_cap c).
      assert (Hcap0 : 1 <= cap0 /\ raw_records_cap c <= cap0 <= raw_records_len c + 1).
      { unfold cap0. destruct (Z.eqb_spec (raw_records_cap c) 0); lia. }
      rewrite (size_t_small (cap0 * 2)) by lia.
      rewrite (Z.mul_comm sizeof_ndef_raw_record).
      destruct (realloc_array_grow ndef_raw_record_init sizeof_ndef_raw_record
                  (raw_records c) (cap0 * 2) h Ho) as (a & h1 & Er & La & O1 & Lv & Nb).
      { unfold sizeof_ndef_raw_record. lia. }
      { lia. }
      { unfold sizeof_ndef_raw_record. lia. }
      { destruct (raw_records c) as [arr|]; [apply Harr|exact I]. }
      rewrite (bind_Done_eq _ _ _ _ _ Er).
      eexists a, _, (cap0 * 2), h1. split; [reflexivity|].
      split; [rewrite zlen_app, zlen_repeat; lia|].
      split; [lia|].
      split; [unfold cap0; destruct (Z.eqb_spec (raw_records_cap c) 0); lia|].
      split; [|auto].
      unfold raws_of. rewrite firstn_app.
      replace (Z.to_nat (raw_records_len c) - length (slots_of (raw_records c)))%nat
        with 0%nat by (unfold zlen in Hz; lia).
      simpl. apply app_nil_r.
    - destruct (raw_records c) as [[a sl]|] eqn:Er; [|lia].
      cbn [slots aaddr slots_of] in *. destruct Harr as [_ Hl].
      exists a, sl, (raw_records_cap c), h. split.
      + unfold ret. do 3 f_equal. destruct c. cbn in *. rewrite Er. reflexivity.
      + split; [exact Hz|]. split; [lia|]. split; [reflexivity|].
        split; [unfold raws_of; rewrite Er; reflexivity|].
        split; [exact Hl|]. split; [exact Ho|]. split; [auto|lia]. }
  destruct G as (a & sl & cap & h' & G & Hzs & Hc & Hce & Hf & La & O' & Lv & Nb).
  destruct (aset_at a sl (raw_records_len c) raw) as (rest & Es & Zs); [lia|].
  exists (set_raw_array (raw_records_len c + 1) cap
            (Some (mkArray a (firstn (Z.to_nat (raw_records_len c)) sl ++ raw :: rest))) c), h'.
  split.
  - unfold ndef_raw_append, MAGIC_CHECK. rewrite Hm, Z.eqb_refl, bind_ret_fun.
    cbv zeta in G |- *.
    destruct (raw_records_cap c <=? raw_records_len c).
    + unfold bind in G |- *.
      destruct (realloc_array ndef_raw_record_init sizeof_ndef_raw_record (raw_records c) _ h)
        as [[[m|] h1]| |]; try discriminate G.
      unfold ret in G. inversion G as [[Gc Gh]]. subst h1.
      rewrite Gc.
      cbn [set_raw_array raw_records raw_records_len raw_records_cap].
      rewrite Es. cbn [lift]. rewrite size_t_small by lia. reflexivity.
    + unfold ret in G. inversion G as [[Gc Gh]]. subst h'.
      rewrite Gc.
      cbn [set_raw_array raw_records raw_records_len raw_records_cap].
      rewrite Es. unfold bind, lift, ret. rewrite size_t_small by lia. reflexivity.
  - unfold raws_of, raw_store_ok.
    cbn [set_raw_array raw_records raw_records_len raw_records_cap magic
         abs_records_len abs_records_cap abs_records slots_of slots aaddr].
    split.
    { rewrite Z2Nat.inj_add by lia. rewrite firstn_app.
      rewrite firstn_firstn.
      replace (Nat.min (Z.to_nat (raw_records_len c) + Z.to_nat 1) (Z.to_nat (raw_records_len c)))
        with (Z.to_nat (raw_records_len c)) by lia.
      rewrite length_firstn.
      replace (Z.to_nat (raw_records_len c) + Z.to_nat 1
               - Nat.min (Z.to_nat (raw_records_len c)) (length sl))%nat
        with 1%nat by (unfold zlen in Hzs; lia).
      rewrite Hf. reflexivity. }
    split; [reflexivity|].
    split; [split; [lia|split; [lia|split; [lia|exact La]]]|].
    split; [exact O'|]. split; [exact Hm|].
    repeat (split; [auto|]). exact Hce.
Qed.

(** X28: [ndef_raw_append] on a raw record array in its normal state.
    When every allocation succeeds it returns [true]; the context then
    holds the raw records it held followed by the given one, the abstract
    records are untouched, and the capacity is what it was when there was
    room, and otherwise twice what it was (2 for an empty context, whose
    capacity 0 is first made 1).  When there is no room and the allocator
    refuses, it returns [false] and leaves the context as it was. *)
Theorem ndef_raw_append_appends (c : ndef_ctx_s) (raw : ndef_raw_record) (h : heap) :
  magic c = NDEF_MAGIC -> raw_store_ok c h -> raw_records_len c < 2 ^ 50 ->
  (oracle h = [] ->
   exists (c' : ndef_ctx_s) (h' : heap),
     ndef_raw_append (Some c) raw h = Done (true, c', h')
     /\ raws_of c' = raws_of c ++ [raw]
     /\ raw_records_len c' = raw_records_len c + 1
     /\ raw_records_cap c'
        = (if raw_records_cap c <=? raw_records_len c
           then 2 * Z.max (raw_records_cap c) 1
           else raw_records_cap c)
     /\ raw_store_ok c' h'
     /\ abs_records_len c' = abs_records_len c
     /\ abs_records c' = abs_records c)
  /\ (forall o : list bool,
        oracle h = false :: o -> raw_records_cap c <= raw_records_len c ->
        ndef_raw_append (Some c) raw h
        = Done (false, c, mkHeap (next_block h) (live h) o)).
Proof.
  intros Hm Hok Hsmall. split.
  - intros Ho.
    destruct (ndef_raw_append_ok c raw h Hm Hok Ho Hsmall)
      as (c' & h' & E & R & L & K & _ & _ & A & _ & B & _ & _ & Hc).
    exists c', h'. repeat (split; [assumption|]). exact B.
  - intros o Ho Hfull.
    unfold ndef_raw_append, MAGIC_CHECK. rewrite Hm, Z.eqb_refl, bind_ret_fun.
    cbv zeta. destruct (Z.leb_spec (raw_records_cap c) (raw_records_len c)); [|lia].
    unfold realloc_array, realloc, malloc, alloc_ok, bind.
    destruct (raw_records c) as [arr|]; cbn [option_map]; rewrite Ho; reflexivity.
Qed.

Lemma ndef_raw_append_appends_witness :
  magic store_ab = NDEF_MAGIC /\ raw_store_ok store_ab (sample_heap [])
  /\ raw_records_len store_ab < 2 ^ 50 /\ oracle (sample_heap []) = []
  /\ exists (c' : ndef_ctx_s) (h' : heap),
       ndef_raw_append (Some store_ab) ndef_raw_record_init (sample_heap [])
       = Done (true, c', h')
       /\ raws_of c' = raws_of store_ab ++ [ndef_raw_record_init]
       /\ raw_records_cap c' = 2.
Proof.
  assert (H1 : magic store_ab = NDEF_MAGIC) by reflexivity.
  assert (H2 : raw_store_ok store_ab (sample_heap [])).
  { unfold raw_store_ok, store_ab. cbn. repeat split; lia. }
  assert (H3 : raw_records_len store_ab < 2 ^ 50) by (vm_compute; reflexivity).
  assert (H4 : oracle (sample_heap []) = []) by reflexivity.
  destruct (proj1 (ndef_raw_append_appends store_ab ndef_raw_record_init (sample_heap [])
                     H1 H2 H3) H4) as (c' & h' & E & R & _ & C & _).
  split; [exact H1|]. split; [exact H2|]. split; [exact H3|]. split; [exact H4|].
  exists c', h'. split; [exact E|]. split; [exact R|exact C].
Defined.

(** A raw record that the decoder reads back: the lengths fit their
    fields on the wire and the flags say what is there. *)
Definition on_wire (raw : ndef_raw_record) : Prop :=
  well_formed (abstract raw)
  /\ flag_include_id_len raw = truthy (id_len (abstract raw))
  /\ (if flag_short_record raw
      then payload_len (abstract raw) < 256
      else payload_len (abstract raw) < 2 ^ 31).

Definition decoded_as (raw raw' : ndef_raw_record) : Prop :=
  same_content (abstract raw) (abstract raw') /\ well_formed (abstract raw').

Lemma decode_field_grows (data : list byte) (len pos n : Z) (h h' : heap)
    (p : ptr) (pos' : Z) :
  decode_field data len pos n h = Done (Some (p, pos'), h') ->
  (forall x : Z, is_live x h -> is_live x h') /\ next_block h <= next_block h'.
Proof.
  intros E. apply decode_field_heap in E. destruct p as [b|].
  - destruct E as (_ & Hn & Hl). split; [|lia].
    intros x Hx. unfold is_live in *. rewrite Hl. cbn [existsb]. rewrite Hx.
    apply orb_true_r.
  - subst h'. split; [auto|lia].
Qed.

Lemma ndef_raw_record_decode_grows (data : list byte) (len : Z) (h h' : heap)
    (raw : ndef_raw_record) (n : Z) :
  ndef_raw_record_decode data len h = Done (Decoded raw n, h') ->
  (forall x : Z, is_live x h -> is_live x h') /\ next_block h <= next_block h'.
Proof.
  unfold ndef_raw_record_decode.
  destruct (len <? 3); [intros E; run_inv|].
  intros E. run_inv.
  destruct (truthy (Z.land _ NDEF_FLAG_SR)), (truthy (Z.land _ NDEF_FLAG_IL));
    cbn [andb negb Z.b2z] in E;
    repeat first
      [ progress run_inv
      | match goal with
        | H : (if ?a <? ?b then _ else _) _ = _ |- _ => destruct (a <? b)
        | H : (match ?o with Some _ => _ | None => _ end) _ = _ |- _ =>
            destruct o as [[? ?]|]
        end ];
    repeat match goal with
    | H : decode_field _ _ _ _ _ = Done _ |- _ => apply decode_field_grows in H; destruct H
    end;
    (split; [auto|lia]).
Qed.

Lemma skipn_zlen_app {A : Type} (l1 l2 : list A) :
  skipn (Z.to_nat (zlen l1)) (l1 ++ l2) = l2.
Proof.
  unfold zlen. rewrite Nat2Z.id. rewrite skipn_app, skipn_all, Nat.sub_diag. reflexivity.
Qed.

(** The parsing loop of [ndef_decode] on records that follow each other
    on the wire, with fewer than three bytes after the last one. *)
Lemma decode_loop_wire (tail : list byte) :
  forall (todo : list ndef_raw_record) (data pre : list byte) (c : ndef_ctx_s)
         (h : heap) (fuel : nat),
    data = pre ++ stream_bytes todo ++ tail ->
    zlen tail < 3 ->
    Forall on_wire todo -> zlen data < 2 ^ 60 ->
    magic c = NDEF_MAGIC -> raw_store_ok c h -> oracle h = [] ->
    raw_records_len c + zlen todo < 2 ^ 50 ->
    (length todo < fuel)%nat ->
    exists (raws' : list ndef_raw_record) (c' : ndef_ctx_s) (h' : heap),
      decode_loop fuel data (zlen data) (zlen pre) (Some c) h
      = Done (negb (zlen tail =? 0), Some c', h')
      /\ raws_of c' = raws_of c ++ raws'
      /\ Forall2 decoded_as todo raws'
      /\ raw_records_len c' = raw_records_len c + zlen todo
      /\ raw_store_ok c' h' /\ oracle h' = [] /\ magic c' = NDEF_MAGIC
      /\ abs_records_len c' = abs_records_len c
      /\ abs_records_cap c' = abs_records_cap c
      /\ abs_records c' = abs_records c
      /\ (forall x : Z, is_live x h -> is_live x h').
Proof.
  induction todo as [|raw todo IH];
    intros data pre c h fuel Hd Htl Hw Hsz Hm Hok Ho Hn Hf.
  - exists [], c, h. unfold stream_bytes in Hd. cbn [map concat app] in Hd.
    subst data.
    split.
    { destruct fuel as [|f]; [simpl in Hf; lia|]. cbn [decode_loop].
      rewrite zlen_app. pose proof (zlen_nonneg tail) as T0.
      destruct (Z.eqb_spec (zlen tail) 0) as [Hz|Hnz]; cbn [negb].
      - rewrite Hz, Z.add_0_r, Z.ltb_irrefl. reflexivity.
      - destruct (Z.ltb_spec (zlen pre) (zlen pre + zlen tail)) as [_|]; [|lia].
        rewrite skipn_zlen_app.
        pose proof (zlen_nonneg pre) as P0. rewrite zlen_app in Hsz.
        replace (size_t (zlen pre + zlen tail - zlen pre)) with (zlen tail)
          by (rewrite size_t_small by lia; lia).
        unfold ndef_raw_record_decode.
        destruct (Z.ltb_spec (zlen tail) 3) as [_|]; [|lia].
        rewrite bind_ret_fun. reflexivity. }
    rewrite app_nil_r. change (zlen (@nil ndef_raw_record)) with 0.
    repeat split; try assumption; try lia; try apply Hok; auto.
  - inversion Hw as [|? ? (Wf & Wi & Wp) Hw']; subst.
    destruct fuel as [|f]; [simpl in Hf; lia|].
    unfold stream_bytes in Hsz |- *. cbn [map concat] in Hsz |- *.
    fold (stream_bytes todo) in Hsz |- *.
    rewrite <- app_assoc in Hsz |- *.
    set (rest := stream_bytes todo ++ tail) in *.
    set (data := pre ++ wire_bytes raw ++ rest) in *.
    change (zlen data < 2 ^ 60) in Hsz.
    pose proof (zlen_nonneg pre) as P0. pose proof (zlen_nonneg rest) as R0.
    pose proof (wire_bytes_nonempty raw) as W2.
    pose proof (zlen_nonneg todo) as T0.
    assert (Hlen : zlen data = zlen pre + zlen (wire_bytes raw) + zlen rest).
    { unfold data. rewrite !zlen_app. lia. }
    rewrite zlen_cons in Hn.
    cbn [decode_loop].
    destruct (Z.ltb_spec (zlen pre) (zlen data)) as [_|]; [|lia].
    unfold data at 1. rewrite skipn_zlen_app.
    replace (size_t (zlen data - zlen pre)) with (zlen (wire_bytes raw ++ rest))
      by (rewrite size_t_small, zlen_app by lia; lia).
    destruct (ndef_raw_record_decode_wire raw rest h Ho Wf Wi Wp ltac:(lia))
      as (raw' & h1 & E1 & O1 & S1 & W1).
    rewrite (bind_Done_eq _ _ _ _ _ E1). cbv beta iota zeta.
    destruct (ndef_raw_record_decode_grows _ _ _ _ _ _ E1) as [L1 N1].
    assert (Hok1 : raw_store_ok c h1).
    { destruct Hok as (A & B & C). split; [exact A|]. split; [exact B|].
      destruct (raw_records c); [split; [apply C|apply L1; apply C]|exact C]. }
    destruct (ndef_raw_append_ok c raw' h1 Hm Hok1 O1 ltac:(lia))
      as (c2 & h2 & E2 & R2 & Rl2 & Hok2 & O2 & Hm2 & A2 & B2 & C2 & L2 & N2).
    rewrite (bind_Done_eq _ _ _ _ _ E2). cbv beta iota.
    replace (size_t (zlen pre + zlen (wire_bytes raw)))
      with (zlen (pre ++ wire_bytes raw))
      by (rewrite size_t_small, zlen_app by lia; reflexivity).
    destruct (IH data (pre ++ wire_bytes raw) c2 h2 f)
      as (raws' & c3 & h3 & E3 & R3 & F3 & Rl3 & Hok3 & O3 & Hm3 & A3 & B3 & C3 & L3).
    + unfold data. rewrite <- app_assoc. reflexivity.
    + exact Htl.
    + exact Hw'.
    + exact Hsz.
    + exact Hm2.
    + exact Hok2.
    + exact O2.
    + lia.
    + simpl in Hf. lia.
    + exists (raw' :: raws'), c3, h3. split; [exact E3|].
      split; [rewrite R3, R2, <- app_assoc; reflexivity|].
      split; [constructor; [split; assumption|exact F3]|].
      split; [rewrite zlen_cons; lia|].
      split; [exact Hok3|]. split; [exact O3|]. split; [exact Hm3|].
      split; [congruence|]. split; [congruence|]. split; [congruence|].
      auto.
Qed.

(** [ndef_append] when every allocation succeeds. *)
Lemma ndef_append_copy (c : ndef_ctx_s) (r : ndef_record) (h : heap) :
  store_ok c h -> oracle h = [] -> well_formed r ->
  abs_records_len c + 1 < 2 ^ 55 ->
  exists (p : ndef_record) (c' : ndef_ctx_s) (h' : heap),
    ndef_append (Some c) r h = Done (true, c', h')
    /\ records_of c' = records_of c ++ [p]
    /\ same_content r p
    /\ abs_records_len c' = abs_records_len c + 1
    /\ store_ok c' h' /\ oracle h' = []
    /\ raw_records_len c' = raw_records_len c
    /\ raw_records_cap c' = raw_records_cap c
    /\ raw_records c' = raw_records c
    /\ (forall x : Z, is_live x h -> is_live x h').
Proof.
  intros Hok Ho Hwf Hsmall.
  destruct (insert_n_at_end false c SIZE_MAX [r] h
              (fun rs' _ _ => Forall2 same_content [r] rs') Hok Ho)
    as (rs' & c' & h1 & h' & E & Hrec & HS & Hnb & Hok' & O' & Hl & Hr1 & Hr2 & Hr3 & Hlv).
  - destruct Hok as (_ & Hl & Hc & _). unfold SIZE_MAX. lia.
  - change (zlen [r]) with 1. exact Hsmall.
  - intros a pre mid post h1 Hmid Hpre Ho1.
    destruct (fill_copy a post (abs_records_len c) [r] mid [] pre h1 Hmid)
      as (rs' & h2 & F & Hl' & O2 & L2 & N2 & S2 & W2 & C2);
      [change (zlen (@nil ndef_record)) with 0; lia
      |change (zlen [r]) with 1; lia|exact Ho1|constructor; [exact Hwf|constructor]|].
    cbn [app] in F. change (zlen (@nil ndef_record)) with 0 in F.
    rewrite Z.add_0_l in F.
    exists rs', h2. split; [exact F|]. auto.
  - intros H. discriminate H.
  - inversion HS as [|? p ? ps Hp Hps]; subst. inversion Hps; subst.
    exists p, c', h'. split; [exact E|].
    change (zlen [r]) with 1 in Hl.
    repeat (split; [assumption|]). exact Hlv.
Qed.

(** The second loop of [ndef_decode] when every allocation succeeds. *)
Lemma promote_ok (ra : Z) (post : list ndef_raw_record) :
  forall (todo done : list ndef_raw_record) (c : ndef_ctx_s) (h : heap),
    raw_records c = Some (mkArray ra (done ++ todo ++ post)) ->
    store_ok c h -> oracle h = [] ->
    Forall (fun raw => well_formed (abstract raw)) todo ->
    abs_records_len c + zlen todo < 2 ^ 55 ->
    exists (ps : list ndef_record) (c' : ndef_ctx_s) (h' : heap),
      promote (length todo) (zlen done) c h = Done (c', h')
      /\ records_of c' = records_of c ++ ps
      /\ Forall2 (fun raw p => same_content (abstract raw) p) todo ps
      /\ abs_records_len c' = abs_records_len c + zlen todo
      /\ raw_records_len c' = raw_records_len c
      /\ store_ok c' h' /\ oracle h' = []
      /\ (forall x : Z, is_live x h -> is_live x h').
Proof.
  induction todo as [|raw todo IH]; intros done c h Hr Hok Ho Hwf Hsmall.
  - exists [], c, h. split; [reflexivity|]. rewrite app_nil_r.
    change (zlen (@nil ndef_raw_record)) with 0.
    repeat split; try assumption; try lia; try apply Hok; auto.
  - inversion Hwf as [|? ? Wr Hwf']; subst.
    rewrite zlen_cons in Hsmall. pose proof (zlen_nonneg todo) as T0.
    cbn [length promote]. rewrite Hr. cbn [app].
    rewrite aget_app, bind_lift_fun. cbv zeta.
    rewrite aset_app, bind_lift_fun.
    set (raw' := mk_raw (set_raw (zlen done) 1 (abstract raw)) (zlen done)
                        (flag_begin raw) (flag_end raw) (flag_chunked raw)
                        (flag_short_record raw) (flag_include_id_len raw)).
    set (c1 := set_raw_array (raw_records_len c) (raw_records_cap c)
                 (Some (mkArray ra (done ++ raw' :: todo ++ post))) c).
    assert (Hok1 : store_ok c1 h) by exact Hok.
    destruct (ndef_append_copy c1 (abstract raw') h Hok1 Ho)
      as (p & c2 & h2 & E2 & R2 & S2 & L2 & Hok2 & O2 & Rl2 & Rc2 & Rr2 & Lv2).
    { apply well_formed_set_raw. exact Wr. }
    { change (abs_records_len c1) with (abs_records_len c). lia. }
    rewrite (bind_Done_eq _ _ _ _ _ E2). cbv beta iota.
    change (abs_records_len c1) with (abs_records_len c) in L2.
    change (records_of c1) with (records_of c) in R2.
    change (raw_records_len c1) with (raw_records_len c) in Rl2.
    change (raw_records c1) with (Some (mkArray ra (done ++ raw' :: todo ++ post))) in Rr2.
    destruct (IH (done ++ [raw']) c2 h2)
      as (ps & c3 & h3 & E3 & R3 & F3 & L3 & Rl3 & Hok3 & O3 & Lv3).
    + rewrite Rr2, <- app_assoc. reflexivity.
    + exact Hok2.
    + exact O2.
    + exact Hwf'.
    + lia.
    + rewrite zlen_app in E3. change (zlen [raw']) with 1 in E3.
      exists (p :: ps), c3, h3. split; [exact E3|].
      split; [rewrite R3, R2, <- app_assoc; reflexivity|].
      split.
      { constructor; [|exact F3].
        eapply same_content_trans; [|exact S2].
        apply same_content_set_raw. }
      split; [rewrite zlen_cons; lia|]. split; [congruence|].
      split; [exact Hok3|]. split; [exact O3|]. auto.
Qed.

Lemma Forall2_decoded_promoted (raws raws' : list ndef_raw_record) (ps : list ndef_record) :
  Forall2 decoded_as raws raws' ->
  Forall2 (fun raw p => same_content (abstract raw) p) raws' ps ->
  Forall2 (fun raw p => same_content (abstract raw) p) raws ps.
Proof.
  intros H. revert ps. induction H as [|raw raw' raws raws' [S _] _ IH]; intros ps Hp.
  - inversion Hp. constructor.
  - inversion Hp as [|? p ? ps' Sp Hp']; subst. constructor; [|apply IH; exact Hp'].
    eapply same_content_trans; eassumption.
Qed.

(** [ndef_decode] on records that follow each other on the wire, when
    every allocation succeeds. *)
Lemma ndef_decode_run (raws : list ndef_raw_record) (tail : list byte) (h : heap) :
  oracle h = [] -> raws <> [] -> Forall on_wire raws -> zlen raws < 2 ^ 27 ->
  zlen tail < 3 ->
  exists (c : ndef_ctx_s) (h' : heap),
    ndef_decode (Some (stream_bytes raws ++ tail))
      (Some (zlen (stream_bytes raws ++ tail))) h
    = Done (Some c, h')
    /\ abs_records_len c = zlen raws
    /\ raw_records_len c = zlen raws
    /\ Forall2 (fun raw p => same_content (abstract raw) p) raws (records_of c)
    /\ store_ok c h' /\ oracle h' = [].
Proof.
  intros Ho Hne Hw Hsmall Htl.
  set (data := stream_bytes raws ++ tail).
  pose proof (zlen_nonneg raws) as R0. pose proof (zlen_nonneg tail) as T0.
  assert (Hwf : Forall (fun raw => well_formed (abstract raw)) raws).
  { eapply Forall_impl; [|exact Hw]. intros raw (W & _). exact W. }
  assert (Hsz : zlen data <= zlen raws * 2 ^ 33 + 2).
  { unfold data. rewrite zlen_app. pose proof (stream_bytes_bound raws Hwf). lia. }
  assert (Hpos : 2 * zlen raws <= zlen data).
  { unfold data. rewrite zlen_app.
    assert (G : 2 * zlen raws <= zlen (stream_bytes raws)); [|lia].
    unfold stream_bytes. clear. induction raws as [|raw raws IH].
    - unfold zlen. simpl. lia.
    - cbn [map concat]. rewrite zlen_app, zlen_cons.
      pose proof (wire_bytes_nonempty raw). lia. }
  assert (Hr1 : 1 <= zlen raws).
  { destruct raws; [contradiction Hne; reflexivity|]. rewrite zlen_cons.
    pose proof (zlen_nonneg raws). lia. }
  unfold ndef_decode.
  destruct (Z.eqb_spec (zlen data) 0) as [Hz|_]; [lia|].
  rewrite (bind_Done_eq _ _ _ _ _ (ndef_init_calm h Ho)).
  set (c0 := mk_ctx NDEF_MAGIC 0 0 None 0 0 None).
  destruct (decode_loop_wire tail raws data [] c0 (grown h) (Z.to_nat (zlen data)))
    as (raws' & c1 & h1 & E1 & R1 & F1 & Rl1 & Hok1 & O1 & Hm1 & A1 & B1 & C1 & L1).
  { reflexivity. }
  { exact Htl. }
  { exact Hw. }
  { lia. }
  { reflexivity. }
  { unfold raw_store_ok, c0. cbn. repeat split; lia. }
  { exact Ho. }
  { change (raw_records_len c0) with 0. lia. }
  { unfold zlen in *. lia. }
  change (zlen (@nil byte)) with 0 in E1.
  rewrite (bind_Done_eq _ _ _ _ _ E1). cbv beta iota.
  change (raw_records_len c0) with 0 in Rl1.
  change (raws_of c0) with (@nil ndef_raw_record) in R1. cbn [app] in R1.
  change (abs_records_len c0) with 0 in A1.
  change (abs_records_cap c0) with 0 in B1.
  change (abs_records c0) with (@None (array ndef_record)) in C1.
  assert (Hl' : length raws' = length raws) by (symmetry; eapply Forall2_length; exact F1).
  assert (Hok1' : store_ok c1 h1).
  { unfold store_ok. rewrite Hm1, A1, B1, C1. repeat split; lia. }
  destruct (raw_records c1) as [[ra sl]|] eqn:Er.
  2: { destruct Hok1 as (Hx & _ & Hy). rewrite Er in Hy. lia. }
  unfold raws_of in R1. rewrite Er in R1. cbn [slots_of slots] in R1.
  assert (Hsl : sl = [] ++ raws' ++ skipn (Z.to_nat (raw_records_len c1)) sl).
  { cbn [app]. rewrite <- R1. symmetry. apply firstn_skipn. }
  destruct (promote_ok ra (skipn (Z.to_nat (raw_records_len c1)) sl) raws' [] c1 h1)
    as (ps & c2 & h2 & E2 & R2 & F2 & L2 & Rl2 & Hok2 & O2 & Lv2).
  { rewrite Er. f_equal. f_equal. exact Hsl. }
  { exact Hok1'. }
  { exact O1. }
  { clear - F1. induction F1 as [|? ? ? ? [_ W]]; constructor; auto. }
  { rewrite A1. unfold zlen in *. lia. }
  replace (length raws') with (Z.to_nat (raw_records_len c1)) in E2
    by (unfold zlen in *; lia).
  change (zlen (@nil ndef_raw_record)) with 0 in E2.
  exists c2, h2. split; [rewrite (bind_Done_eq _ _ _ _ _ E2); reflexivity|].
  assert (Hr0 : records_of c1 = []) by (unfold records_of; rewrite C1; reflexivity).
  rewrite Hr0 in R2. cbn [app] in R2.
  split; [unfold zlen in *; lia|]. split; [lia|].
  split; [rewrite R2; eapply Forall2_decoded_promoted; eassumption|].
  split; [exact Hok2|exact O2].
Qed.

(** X24: [ndef_decode] reads back every sequence of records laid out in
    the wire format.  For a non-empty sequence of raw records whose
    lengths fit their fields (type and id below 256 bytes, payload below
    256 bytes in a short record and below 2^31 otherwise, id length
    present exactly when there is an id), whatever their begin, end and
    chunk flags, followed by fewer than three more bytes, when every
    allocation succeeds [ndef_decode] returns a context with as many raw
    records and as many abstract records, and abstract record [i] has the
    TNF, the lengths and the field bytes of raw record [i]: the decoder
    does not look at the message marks, joins no chunks, and drops what
    is too short to be a record. *)
Theorem ndef_decode_stream (raws : list ndef_raw_record) (tail : list byte) (h : heap) :
  oracle h = [] -> raws <> [] -> Forall on_wire raws -> zlen raws < 2 ^ 27 ->
  zlen tail < 3 ->
  exists (c : ndef_ctx_s) (h' : heap),
    ndef_decode (Some (stream_bytes raws ++ tail))
      (Some (zlen (stream_bytes raws ++ tail))) h
    = Done (Some c, h')
    /\ abs_records_len c = zlen raws
    /\ raw_records_len c = zlen raws
    /\ Forall2 (fun raw p => same_content (abstract raw) p) raws (records_of c).
Proof.
  intros Ho Hne Hw Hsmall Htl.
  destruct (ndef_decode_run raws tail h Ho Hne Hw Hsmall Htl)
    as (c & h' & E & A & R & F & _).
  exists c, h'. auto.
Qed.

(** Two chunks that belong to no message: neither is marked as the
    beginning or the end, both carry the chunk flag. *)
Definition two_chunks : list ndef_raw_record :=
  [mk_raw rec_a 0 false false true true false;
   mk_raw rec_b 0 false false true true false].

Lemma on_wire_two_chunks : Forall on_wire two_chunks.
Proof.
  pose proof well_formed_rec_a_b as H.
  inversion H as [|? ? Ha H']; subst. inversion H' as [|? ? Hb _]; subst.
  unfold two_chunks.
  apply Forall_cons; [|apply Forall_cons; [|apply Forall_nil]];
    (split; [assumption|split; [reflexivity|vm_compute; reflexivity]]).
Qed.

Lemma ndef_decode_stream_witness :
  oracle heap0 = [] /\ two_chunks <> [] /\ Forall on_wire two_chunks
  /\ zlen two_chunks < 2 ^ 27 /\ zlen [xfe] < 3
  /\ exists (c : ndef_ctx_s) (h' : heap),
       ndef_decode (Some (stream_bytes two_chunks ++ [xfe]))
         (Some (zlen (stream_bytes two_chunks ++ [xfe]))) heap0 = Done (Some c, h')
       /\ abs_records_len c = zlen two_chunks
       /\ Forall2 (fun raw p => same_content (abstract raw) p) two_chunks (records_of c).
Proof.
  assert (H1 : oracle heap0 = []) by reflexivity.
  assert (H2 : two_chunks <> []) by discriminate.
  assert (H3 : Forall on_wire two_chunks) by exact on_wire_two_chunks.
  assert (H4 : zlen two_chunks < 2 ^ 27) by (vm_compute; reflexivity).
  assert (H5 : zlen [xfe] < 3) by (vm_compute; reflexivity).
  destruct (ndef_decode_stream two_chunks [xfe] heap0 H1 H2 H3 H4 H5)
    as (c & h' & E & A & _ & F).
  split; [exact H1|]. split; [exact H2|]. split; [exact H3|]. split; [exact H4|].
  split; [exact H5|].
  exists c, h'. split; [exact E|]. split; [exact A|exact F].
Defined.

Lemma message_raws_on_wire (n : Z) (rs : list ndef_record) :
  Forall (fun r => well_formed r /\ payload_len r < 2 ^ 31) rs ->
  forall i : Z, Forall on_wire (message_raws n i rs).
Proof.
  induction 1 as [|r rs [Hw Hp] _ IH]; intros i; cbn [message_raws]; constructor.
  - split; [exact Hw|]. split; [reflexivity|].
    cbn [message_raw flag_short_record abstract].
    destruct (truthy (Z.land (payload_len r) 0xffffff00)) eqn:E; cbn [negb]; [exact Hp|].
    apply truthy_false in E. apply high_bits_clear; [|exact E].
    destruct Hw as (_ & _ & H & _). exact H.
  - apply IH.
Qed.

Lemma message_raws_length (n : Z) (rs : list ndef_record) :
  forall i : Z, length (message_raws n i rs) = length rs.
Proof. induction rs as [|r rs IH]; intros i; simpl; [reflexivity|rewrite IH; reflexivity]. Qed.

Lemma message_raws_abstract (n : Z) (rs ps : list ndef_record) :
  forall i : Z,
    Forall2 (fun raw p => same_content (abstract raw) p) (message_raws n i rs) ps ->
    Forall2 same_content rs ps.
Proof.
  revert ps. induction rs as [|r rs IH]; intros ps i H; cbn [message_raws] in H.
  - inversion H. constructor.
  - inversion H as [|? p ? ps' Hp H']; subst. constructor; [exact Hp|].
    apply (IH ps' (i + 1)). exact H'.
Qed.

(** X25: a message survives [ndef_encode] followed by [ndef_decode].  On
    a store in its normal state that holds at least one record, each with
    buffers of the stated lengths and a payload below 2^31 bytes, when
    every allocation succeeds: [ndef_encode] returns [true] with the bytes
    of the message, and [ndef_decode] applied to these bytes returns a
    context that holds as many records, in the same order, each with the
    TNF, the lengths and the type, payload and id bytes of the record it
    was written from. *)
Theorem ndef_encode_decode_message (c : ndef_ctx_s) (h : heap) :
  store_ok c h -> oracle h = [] ->
  match raw_records c with Some arr => is_live (aaddr arr) h | None => True end ->
  records_of c <> [] ->
  Forall (fun r => well_formed r /\ payload_len r < 2 ^ 31) (records_of c) ->
  abs_records_len c < 2 ^ 27 ->
  exists (c1 : ndef_ctx_s) (b : block) (h1 : heap) (c2 : ndef_ctx_s) (h2 : heap),
    ndef_encode (Some c) h = Done (c1, Some (Some b, zlen (bdata b)), h1)
    /\ bdata b = message_bytes (records_of c)
    /\ ndef_decode (Some (bdata b)) (Some (zlen (bdata b))) h1 = Done (Some c2, h2)
    /\ abs_records_len c2 = abs_records_len c
    /\ Forall2 same_content (records_of c) (records_of c2).
Proof.
  intros Hok Ho Hraw Hne Hall Hsmall.
  assert (Hwf : Forall well_formed (records_of c)).
  { eapply Forall_impl; [|exact Hall]. intros r [W _]. exact W. }
  destruct (ndef_encode_run c h Hok Ho Hraw Hwf Hsmall)
    as (c1 & data & h1 & E1 & D & _ & _ & O1).
  destruct data as [b|]; [destruct D as [D _]|contradiction].
  assert (Hlen : zlen (records_of c) = abs_records_len c).
  { destruct Hok as (_ & Hl & _ & Ha). unfold records_of, zlen.
    destruct (abs_records c) as [arr|]; [|simpl; lia].
    rewrite length_firstn. destruct Ha as [Hz _]. unfold zlen in Hz. lia. }
  set (raws := message_raws (zlen (records_of c)) 0 (records_of c)).
  assert (Hzr : zlen raws = zlen (records_of c)).
  { unfold raws, zlen. rewrite message_raws_length. reflexivity. }
  destruct (ndef_decode_run raws [] h1 O1) as (c2 & h2 & E2 & A2 & _ & F2 & _).
  { unfold raws. destruct (records_of c); [contradiction Hne; reflexivity|discriminate]. }
  { apply message_raws_on_wire. exact Hall. }
  { lia. }
  { vm_compute. reflexivity. }
  rewrite app_nil_r in E2.
  fold (message_bytes (records_of c)) in E2.
  exists c1, b, h1, c2, h2. rewrite D.
  split; [exact E1|]. split; [reflexivity|]. split; [exact E2|].
  split; [lia|]. apply (message_raws_abstract _ _ _ 0 F2).
Qed.

Lemma ndef_encode_decode_message_witness :
  store_ok store_ab (sample_heap [])
  /\ oracle (sample_heap []) = []
  /\ records_of store_ab <> []
  /\ Forall (fun r => well_formed r /\ payload_len r < 2 ^ 31) (records_of store_ab)
  /\ abs_records_len store_ab < 2 ^ 27
  /\ exists (c1 : ndef_ctx_s) (b : block) (h1 : heap) (c2 : ndef_ctx_s) (h2 : heap),
       ndef_encode (Some store_ab) (sample_heap [])
       = Done (c1, Some (Some b, zlen (bdata b)), h1)
       /\ ndef_decode (Some (bdata b)) (Some (zlen (bdata b))) h1 = Done (Some c2, h2)
       /\ Forall2 same_content (records_of store_ab) (records_of c2).
Proof.
  assert (H1 : store_ok store_ab (sample_heap [])) by exact store_ok_store_ab.
  assert (H2 : oracle (sample_heap []) = []) by reflexivity.
  assert (H3 : match raw_records store_ab with
               | Some arr => is_live (aaddr arr) (sample_heap [])
               | None => True
               end) by exact I.
  assert (H4 : records_of store_ab <> []) by discriminate.
  assert (H5 : Forall (fun r => well_formed r /\ payload_len r < 2 ^ 31)
                 (records_of store_ab)).
  { pose proof well_formed_rec_a_b as H.
    inversion H as [|? ? Ha H']; subst. inversion H' as [|? ? Hb _]; subst.
    apply Forall_cons; [|apply Forall_cons; [|apply Forall_nil]];
      (split; [assumption|vm_compute; reflexivity]). }
  assert (H6 : abs_records_len store_ab < 2 ^ 27) by (vm_compute; reflexivity).
  destruct (ndef_encode_decode_message store_ab (sample_heap []) H1 H2 H3 H4 H5 H6)
    as (c1 & b & h1 & c2 & h2 & E1 & _ & E2 & _ & F).
  split; [exact H1|]. split; [exact H2|]. split; [exact H4|]. split; [exact H5|].
  split; [exact H6|].
  exists c1, b, h1, c2, h2. split; [exact E1|]. split; [exact E2|exact F].
Defined.

End MessageDecode.

(** ** Computations that free nothing *)

Section HeapGrowth.

(** A computation that, when it returns, has freed nothing. *)
Definition grows {A : Type} (c : M A) : Prop :=
  forall (h : heap) (a : A) (h' : heap),
    c h = Done (a, h') ->
    (forall x : Z, is_live x h -> is_live x h') /\ next_block h <= next_block h'.

Lemma grows_ret {A : Type} (a : A) : grows (ret a).
Proof. intros h a' h' E. inversion E. subst. split; [auto|lia]. Qed.

Lemma grows_crash {A : Type} : grows (@crash A).
Proof. intros h a h' E. discriminate E. Qed.

Lemma grows_spin {A : Type} : grows (@spin A).
Proof. intros h a h' E. discriminate E. Qed.

Lemma grows_lift {A : Type} (o : outcome A) : grows (lift o).
Proof.
  intros h a h' E. unfold lift in E. destruct o; inversion E. subst. split; [auto|lia].
Qed.


Lemma grows_malloc (n : Z) : grows (malloc n).
Proof.
  intros h a h' E. unfold malloc, alloc_ok, bind, ret in E.
  destruct (oracle h) as [|[|] o]; inversion E; subst; cbn [next_block];
    (split; [|lia]); intros x Hx; unfold is_live in *; cbn [live existsb];
    first [exact Hx | rewrite Hx; apply orb_true_r].
Qed.

Lemma grows_realloc (p : option Z) (n : Z) : grows (realloc p n).
Proof.
  destruct p as [a|]; [|apply grows_malloc].
  intros h r h' E. unfold realloc, alloc_ok, bind, ret in E.
  destruct (oracle h) as [|[|] o]; cbn [live] in E;
    try (destruct (existsb (Z.eqb a) (live h)); [|discriminate E]);
    inversion E; subst; cbn [next_block]; (split; [|lia]); intros x Hx; exact Hx.
Qed.

End HeapGrowth.

Create HintDb grows.

#[local] Hint Resolve grows_ret grows_crash grows_spin grows_lift grows_malloc
  grows_realloc : grows.


Section EncodeGrowth.







End EncodeGrowth.

(** ** A smart poster made of a URI *)

Section SmartPosterRoundTrip.












End SmartPosterRoundTrip.

Section CloneOwnership.

Lemma malloc_heap (n : Z) (h h' : heap) (r : option Z) :
  malloc n h = Done (r, h') ->
  match r with
  | Some a => a = next_block h /\ next_block h' = next_block h + 1
              /\ live h' = next_block h :: live h
  | None => next_block h' = next_block h /\ live h' = live h
  end.
Proof.
  unfold malloc, alloc_ok, bind, ret. intros E.
  destruct (oracle h) as [|[|] o]; inversion E; subst; cbn; auto.
Qed.

Lemma copy_from_heap (p : ptr) (n : Z) (h h' : heap) (bytes : list byte) :
  copy_from p n h = Done (bytes, h') -> h' = h.
Proof.
  unfold copy_from. intros E. run_inv. reflexivity.
Qed.

(** X27: [ndef_record_clone] and [ndef_record_destroy] balance.  On a
    heap whose blocks were all handed out by the allocator, whatever
    allocations fail: when [ndef_record_clone] returns [true],
    [ndef_record_destroy] on the copy succeeds and leaves allocated
    exactly the blocks that were allocated before the copy was made; and
    when it returns [false] for a record that has a type or has no id,
    the blocks that are allocated are those that were. *)
Theorem ndef_record_clone_then_destroy (r : ndef_record) (h h' : heap)
    (res : option ndef_record) :
  heap_wf h ->
  ndef_record_clone r h = Done (res, h') ->
  match res with
  | Some r' =>
      exists h'' : heap,
        ndef_record_destroy r' h' = Done (tt, h'') /\ live h'' = live h
  | None => (id r <> None -> type r <> None) -> live h' = live h
  end.
Proof.
  intros Hw E. destruct r as [ri rl tn tl pl il ty pa idp].
  unfold ndef_record_clone in E. cbv zeta in E.
  cbn [type payload id type_len payload_len id_len] in E.
  destruct pa as [bp|], ty as [bt|], idp as [bi|];
    cbn [is_null negb type payload id set_payload set_type set_id free_if] in E;
    repeat run_split;
    cbn [is_null negb type payload id set_payload set_type set_id free_if] in *;
    repeat run_split;
    repeat match goal with
    | H : malloc _ _ = Done _ |- _ => apply malloc_heap in H
    | H : copy_from _ _ _ = Done _ |- _ => apply copy_from_heap in H
    | H : free _ _ = Done _ |- _ => apply free_Done_live in H
    | H : _ /\ _ |- _ => destruct H
    end.
  all: try match goal with
       | H : false = true |- _ => discriminate H
       | H : true = false |- _ => discriminate H
       end.
  all: try (intros Hid;
            try (exfalso; exact (Hid ltac:(discriminate) eq_refl))).
  all: repeat match goal with
       | o : option Z |- _ => destruct o
       | H : _ /\ _ |- _ => destruct H
       | H : ?x = ?y |- _ => is_var x; subst x
       end.
  all: unfold ndef_record_destroy, set_id, set_type, set_payload;
       cbn [type payload id free_if baddr] in *.
  all: repeat match goal with
       | x : heap |- _ =>
           lazymatch goal with
           | _ : heap_wf x |- _ => fail
           | _ =>
               let n := fresh "nb" in
               let l := fresh "lv" in
               let o := fresh "orc" in
               destruct x as [n l o]
           end
       end.
  all: cbn [next_block live oracle baddr] in *; subst.
  all: try (frees_tac Hw; reflexivity).
  all: try (eexists;
    (split;
     [ repeat first
         [ rewrite bind_ret_fun
         | rewrite bind_free_0 by absent Hw
         | rewrite bind_free_1 by (try lia; absent Hw)
         | rewrite bind_free_2 by (try lia; absent Hw)
         | rewrite free_0 by absent Hw ];
       reflexivity
     | cbn [live]; reflexivity ])).
Qed.

Lemma heap_wf_full_record_heap : heap_wf full_record_heap.
Proof. unfold heap_wf, full_record_heap. simpl. repeat constructor. Qed.

Lemma ndef_record_clone_then_destroy_witness :
  heap_wf full_record_heap
  /\ exists (r' : ndef_record) (h' h'' : heap),
       ndef_record_clone full_record full_record_heap = Done (Some r', h')
       /\ ndef_record_destroy r' h' = Done (tt, h'')
       /\ live h'' = live full_record_heap.
Proof.
  assert (H1 : heap_wf full_record_heap) by exact heap_wf_full_record_heap.
  assert (E : ndef_record_clone full_record full_record_heap
              = Done (Some (mk_record 0 0 NDEF_TNF_MIME 1 3 1
                              (Some (mkBlock 5 (bytes_of "t")))
                              (Some (mkBlock 4 (bytes_of "abc")))
                              (Some (mkBlock 6 (bytes_of "i")))),
                      mkHeap 7 [6; 5; 4; 3; 2; 1] [])) by reflexivity.
  destruct (ndef_record_clone_then_destroy _ _ _ _ H1 E) as (h'' & D & L).
  split; [exact H1|]. eexists. eexists. exists h''.
  split; [exact E|]. split; [exact D|exact L].
Defined.

End CloneOwnership.

(** ** The buffer of the encoder *)

Section EncodeOwnership.

(** The heap holds the blocks [L] and, beside them, the buffer of the
    stream if it has one. *)
Definition owns (out : ndef_ostream) (L : list Z) (h : heap) : Prop :=
  Forall (fun b => b < next_block h) L
  /\ match buf out with
     | Some a => live h = a :: L /\ a < next_block h /\ ~ In a L
     | None => live h = L
     end.

(** A step of the encoder that hands the stream on with its buffer. *)
Definition owning (out : ndef_ostream) (L : list Z) (c : M (bool * ndef_ostream)) : Prop :=
  forall (h : heap) (r : bool) (out' : ndef_ostream) (h' : heap),
    owns out L h -> c h = Done (r, out', h') -> owns out' L h'.

Lemma owning_ret (out out2 : ndef_ostream) (L : list Z) (r : bool) :
  buf out2 = buf out -> owning out L (ret (r, out2)).
Proof.
  intros Hb h r' out' h' Ho E. inversion E. subst. unfold owns in *. rewrite Hb. exact Ho.
Qed.

Lemma owning_crash (out : ndef_ostream) (L : list Z) : owning out L crash.
Proof. intros h r out' h' _ E. discriminate E. Qed.

Lemma owning_spin (out : ndef_ostream) (L : list Z) : owning out L spin.
Proof. intros h r out' h' _ E. discriminate E. Qed.

Lemma owning_bind (out : ndef_ostream) (L : list Z) (c : M (bool * ndef_ostream))
    (k : bool * ndef_ostream -> M (bool * ndef_ostream)) :
  owning out L c ->
  (forall (r : bool) (o1 : ndef_ostream), owning o1 L (k (r, o1))) ->
  owning out L (bind c k).
Proof.
  intros Hc Hk h r out' h' Ho E. apply bind_Done in E.
  destruct E as ([r1 o1] & h1 & E1 & E2).
  exact (Hk r1 o1 h1 r out' h' (Hc _ _ _ _ Ho E1) E2).
Qed.

Lemma owning_lift_bind {A : Type} (out : ndef_ostream) (L : list Z) (o : outcome A)
    (k : A -> M (bool * ndef_ostream)) :
  (forall a : A, owning out L (k a)) -> owning out L (bind (lift o) k).
Proof.
  intros Hk h r out' h' Ho E. apply bind_Done in E.
  destruct E as (a & h1 & E1 & E2). apply lift_Done in E1. destruct E1 as [_ ->].
  exact (Hk a h r out' h' Ho E2).
Qed.

(** [realloc] of the buffer of a stream. *)
Lemma owns_realloc (out : ndef_ostream) (L : list Z) (n : Z) (h h' : heap)
    (mem : option Z) (cap : Z) (cs : list byte) :
  owns out L h -> realloc (buf out) n h = Done (mem, h') ->
  match mem with
  | Some a => owns (mk_ostream (Some a) cap cs) L h'
  | None => owns out L h'
  end.
Proof.
  intros (HL & Hb) E. unfold owns. cbn [buf].
  assert (HL' : Forall (fun b => b < next_block h + 1) L)
    by (eapply Forall_impl; [|exact HL]; simpl; intros; lia).
  assert (Hfresh : ~ In (next_block h) L).
  { intros Hin. rewrite Forall_forall in HL. specialize (HL _ Hin). lia. }
  destruct (buf out) as [a|]; unfold realloc, malloc, alloc_ok, bind, ret in E.
  - destruct Hb as (Hl & Ha & Hn).
    destruct (oracle h) as [|[|] o]; cbn [live] in E;
      try (destruct (existsb (Z.eqb a) (live h)); [|discriminate E]);
      injection E as Em Eh; subst mem h'; cbn [next_block live]; auto.
  - destruct (oracle h) as [|[|] o]; injection E as Em Eh; subst mem h';
      cbn [next_block live].
    + split; [exact HL'|]. split; [rewrite Hb; reflexivity|]. split; [lia|exact Hfresh].
    + split; [exact HL'|]. split; [rewrite Hb; reflexivity|]. split; [lia|exact Hfresh].
    + split; [exact HL|exact Hb].
Qed.

Lemma owning_ndef_ostream_append (out : ndef_ostream) (L : list Z) (z : Z) :
  owning out L (ndef_ostream_append out z).
Proof.
  intros h r out' h' Ho E. unfold ndef_ostream_append in E.
  destruct (buf_cap out <=? buf_len out).
  - apply bind_Done in E. destruct E as (mem & h1 & E1 & E2).
    pose proof (owns_realloc out L _ h h1 mem
                  (if size_t (buf_cap out * 2) =? 0 then 1 else size_t (buf_cap out * 2))
                  (contents out) Ho E1) as Ho1.
    destruct mem as [a|].
    + destruct (buf_len _ <? buf_cap _); [|discriminate E2].
      injection E2 as _ Eo Eh. subst out' h'. exact Ho1.
    + injection E2 as _ Eo Eh. subst out' h'. exact Ho1.
  - destruct (buf_len out <? buf_cap out); [|discriminate E].
    injection E as _ Eo Eh. subst out' h'. exact Ho.
Qed.

Lemma owning_ndef_ostream_append_n (out : ndef_ostream) (L : list Z) (p : ptr) (n : Z) :
  owning out L (ndef_ostream_append_n out p n).
Proof.
  intros h r out' h' Ho E. unfold ndef_ostream_append_n in E. cbv zeta in E.
  destruct (_ <? size_t (buf_len out + n)).
  - destruct (double_until 65 _ _) as [cap|]; [|discriminate E].
    apply bind_Done in E. destruct E as (mem & h1 & E1 & E2).
    pose proof (owns_realloc out L _ h h1 mem cap (contents out) Ho E1) as Ho1.
    destruct mem as [a|].
    + apply bind_Done in E2. destruct E2 as (src & h2 & E2 & E3).
      apply lift_Done in E2. destruct E2 as [_ ->].
      apply bind_Done in E3. destruct E3 as (bytes & h3 & E3 & E4).
      apply lift_Done in E3. destruct E3 as [_ ->].
      destruct (_ <=? _); [|discriminate E4].
      injection E4 as _ Eo Eh. subst out' h'. exact Ho1.
    + injection E2 as _ Eo Eh. subst out' h'. exact Ho1.
  - apply bind_Done in E. destruct E as (src & h2 & E2 & E3).
    apply lift_Done in E2. destruct E2 as [_ ->].
    apply bind_Done in E3. destruct E3 as (bytes & h3 & E3 & E4).
    apply lift_Done in E3. destruct E3 as [_ ->].
    destruct (_ <=? _); [|discriminate E4].
    injection E4 as _ Eo Eh. subst out' h'. exact Ho.
Qed.

End EncodeOwnership.

(** Split a goal [owning out L c] along the structure of [c]. *)
Ltac owning_step :=
  match goal with
  | |- owning _ _ (bind (lift _) _) => apply owning_lift_bind; intros ?
  | |- owning _ _ (bind _ _) => apply owning_bind; [|intros ? ?]
  | |- owning _ _ (if ?b then _ else _) => destruct b
  | |- owning _ _ (let '(_, _) := ?x in _) => destruct x
  | |- owning _ _ (ret _) => apply owning_ret; reflexivity
  | |- owning _ _ (ndef_ostream_append _ _) => apply owning_ndef_ostream_append
  | |- owning _ _ (ndef_ostream_append_n _ _ _) => apply owning_ndef_ostream_append_n
  end.

Section EncodeOwnership2.

Lemma owning_ndef_raw_record_encode (out : ndef_ostream) (L : list Z)
    (raw : ndef_raw_record) :
  owning out L (ndef_raw_record_encode out raw).
Proof.
  unfold ndef_raw_record_encode. cbv zeta. repeat owning_step.
Qed.

Lemma encode_loop_owns (c : ndef_ctx_s) (L : list Z) :
  forall (n : nat) (i : Z) (out : ndef_ostream) (h h' : heap)
         (res : option ndef_ostream),
    owns out L h -> encode_loop n i c out h = Done (res, h') ->
    match res with
    | Some out' => owns out' L h'
    | None => live h' = L
    end.
Proof.
  induction n as [|n IH]; intros i out h h' res Ho E; cbn [encode_loop] in E.
  - injection E as Er Eh. subst res h'. exact Ho.
  - apply bind_Done in E. destruct E as (r & h1 & E1 & E).
    apply lift_Done in E1. destruct E1 as [_ ->].
    apply bind_Done in E. destruct E as ([r1 o1] & h2 & E2 & E).
    pose proof (owning_ndef_raw_record_encode _ L _ _ _ _ _ Ho E2) as Ho2.
    destruct r1; cbn [negb] in E; [exact (IH _ _ _ _ _ Ho2 E)|].
    apply bind_Done in E. destruct E as (u & h3 & E3 & E).
    injection E as Er Eh. subst res h'.
    unfold ndef_ostream_destroy in E3. destruct Ho2 as (_ & Hb).
    destruct (buf o1) as [a|].
    + destruct Hb as (Hl & _ & Hn). apply free_Done_live in E3. destruct E3 as [_ E3].
      rewrite E3, Hl. apply remove_block_head. exact Hn.
    + injection E3 as _ Eh. subst h3. exact Hb.
Qed.

(** X29: [ndef_encode] keeps no block but the buffer it hands out.  On a
    heap whose blocks were all handed out by the allocator, whatever the
    store holds and whatever allocations fail: when [ndef_encode] returns,
    the raw record array it found has been freed, and the blocks
    allocated are otherwise those that were, with the output buffer added
    when the call returns [true] with a buffer; when it returns [false]
    the stream it was writing has been freed. *)
Theorem ndef_encode_owns_its_buffer (c c' : ndef_ctx_s) (res : option (ptr * Z))
    (h h' : heap) :
  heap_wf h ->
  ndef_encode (Some c) h = Done (c', res, h') ->
  live h'
  = match res with
    | Some (Some b, _) => [baddr b]
    | _ => []
    end
    ++ match raw_records c with
       | Some arr => remove_block (aaddr arr) (live h)
       | None => live h
       end.
Proof.
  intros Hw E. unfold ndef_encode in E.
  apply bind_Done in E. destruct E as (c0 & h0 & E0 & E).
  apply MAGIC_CHECK_Done in E0. destruct E0 as (Ec & -> & Hm).
  injection Ec as <-.
  apply bind_Done in E. destruct E as (c1 & h1 & E1 & E).
  unfold ndef_raw_clear in E1.
  apply bind_Done in E1. destruct E1 as (c2 & h2 & E2 & E1).
  apply MAGIC_CHECK_Done in E2. destruct E2 as (Ec & -> & _). injection Ec as <-.
  apply bind_Done in E1. destruct E1 as (u & h3 & E3 & E1).
  apply bind_Done in E1. destruct E1 as (a & h4 & E4 & E1).
  apply lift_Done in E4. destruct E4 as [_ ->].
  injection E1 as _ Eh. subst h1.
  set (L := match raw_records c with
            | Some arr => remove_block (aaddr arr) (live h)
            | None => live h
            end).
  assert (H3 : live h3 = L /\ heap_wf h3).
  { unfold L. destruct (raw_records c) as [arr|]; cbn [free_array] in E3.
    - pose proof (free_Done_live _ _ _ _ E3) as [Hn Hl]. split; [exact Hl|].
      unfold heap_wf in *. rewrite Hl, Hn. unfold remove_block.
      apply Forall_forall. intros x Hx. apply filter_In in Hx.
      rewrite Forall_forall in Hw. apply Hw. tauto.
    - injection E3 as _ Eh. subst h3. split; [reflexivity|exact Hw]. }
  destruct H3 as [HL Hw3].
  assert (Ho : owns ndef_ostream_init L h3).
  { split; [rewrite <- HL; exact Hw3|exact HL]. }
  apply bind_Done in E. destruct E as (r & h5 & E5 & E).
  pose proof (encode_loop_owns _ L _ _ _ _ _ _ Ho E5) as Hr.
  destruct r as [out|]; injection E as _ Er Eh; subst res h'.
  - destruct Hr as (_ & Hb). destruct (buf out) as [ab|]; cbn [option_map baddr app].
    + apply Hb.
    + exact Hb.
  - exact Hr.
Qed.

Lemma ndef_encode_owns_its_buffer_witness :
  heap_wf (sample_heap [])
  /\ exists (c' : ndef_ctx_s) (b : block) (n : Z) (h' : heap),
       ndef_encode (Some store_ab) (sample_heap []) = Done (c', Some (Some b, n), h')
       /\ live h' = baddr b :: live (sample_heap []).
Proof.
  assert (H1 : heap_wf (sample_heap [])).
  { unfold heap_wf, sample_heap. simpl. repeat constructor. }
  assert (E : exists (c' : ndef_ctx_s) (b : block) (n : Z) (h' : heap),
             ndef_encode (Some store_ab) (sample_heap [])
             = Done (c', Some (Some b, n), h'))
    by (vm_compute; do 4 eexists; reflexivity).
  destruct E as (c' & b & n & h' & E).
  pose proof (ndef_encode_owns_its_buffer _ _ _ _ _ H1 E) as L.
  split; [exact H1|]. exists c', b, n, h'. split; [exact E|exact L].
Defined.

End EncodeOwnership2.
